(** * awspricingfull: the normalization engine of [awspricingfull.py]

    A shallow embedding of the feed repair unit ([AWSPrices.load_data]),
    the price token parser, the region and instance-type resolvers and the
    eight per-service normalizers ([get_ondemand_instances_prices] and
    [get_reserved_instances_prices] of [EC2Prices], [ELCPrices],
    [RDSPrices] and [RSPrices]) and of the output methods ([save_csv],
    [print_table]), followed by the properties the specification states
    about them.

    Conventions of the embedding.
    - The values [json.loads] returns are the inductive [json]; the Python
      operations the normalizers apply to them ([in], subscription,
      truth value, iteration, hashing as a dictionary key) are total
      functions into [result], which carries the exception Python raises.
    - Floats are IEEE binary64 values, [spec_float] at precision 53.
    - Byte strings and unicode strings are [string]s of bytes (a unicode
      string stands for its UTF-8 encoding).
    - [urllib2.urlopen(url).read()] is a parameter [urlopen] of every
      normalizer: the network is outside the program. *)

From Stdlib Require Import ZArith NArith List String Ascii SpecFloat Lia Bool.
From stdpp Require Import base option list gmap strings countable.

Local Open Scope string_scope.

(** ** Python values, exceptions and the operations used on parsed feeds *)

Module Py.

(** The exceptions the modelled code can raise. [ValueError] is also what
    [json.loads] raises on malformed text; [URLError] stands for any
    failure of the fetch. *)
Inductive exn := KeyError | TypeError | ValueError | URLError.

Inductive result (A : Type) : Type :=
| Ok (a : A)
| Raise (e : exn).
Arguments Ok {A} a.
Arguments Raise {A} e.

#[global] Instance result_ret : MRet result := fun A a => Ok a.
#[global] Instance result_bind : MBind result := fun A B f m =>
  match m with
  | Ok a => f a
  | Raise e => Raise e
  end.

(** [for x in l: st = body(st, x)] where the body may raise. *)
Fixpoint foldM {S X : Type} (body : S -> X -> result S) (l : list X) (st : S)
  : result S :=
  match l with
  | [] => Ok st
  | x :: l' => st' ← body st x; foldM body l' st'
  end.

(** [for x in l: out.append(f(x))] on a fresh list [out]. *)
Fixpoint mapM {X Y : Type} (f : X -> result Y) (l : list X) : result (list Y) :=
  match l with
  | [] => Ok []
  | x :: l' => y ← f x; ys ← mapM f l'; Ok (y :: ys)
  end.

(** A JSON number is a Python [int]/[long] or a [float]. *)
Inductive number :=
| NInt (z : Z)
| NFloat (f : spec_float).

#[warnings="-register-all"]
Inductive json :=
| JNull
| JBool (b : bool)
| JNum (n : number)
| JStr (s : string)
| JArr (l : list json)
| JObj (kvs : list (string * json)).

(** A [dict] built from the pairs of a JSON object: the last pair of a
    repeated key wins. *)
Fixpoint obj_lookup (k : string) (kvs : list (string * json)) : option json :=
  match kvs with
  | [] => None
  | (k', v) :: rest =>
      match obj_lookup k rest with
      | Some v' => Some v'
      | None => if String.eqb k k' then Some v else None
      end
  end.

Fixpoint obj_keys (kvs : list (string * json)) : list string :=
  match kvs with
  | [] => []
  | (k, _) :: rest =>
      if bool_decide (k ∈ obj_keys rest) then obj_keys rest else k :: obj_keys rest
  end.

(** [p in s] for two strings: [p] occurs in [s]. *)
Fixpoint is_infix (p s : string) : bool :=
  String.prefix p s ||
  match s with
  | EmptyString => false
  | String _ s' => is_infix p s'
  end.

Fixpoint chars (s : string) : list string :=
  match s with
  | EmptyString => []
  | String c s' => String c EmptyString :: chars s'
  end.

(** [v == s] for a string literal [s]. *)
Definition py_eq_str (v : json) (s : string) : bool :=
  match v with
  | JStr t => String.eqb t s
  | _ => false
  end.

(** Truth value of [v] ([if v], [a and b]). *)
Definition py_truthy (v : json) : bool :=
  match v with
  | JNull => false
  | JBool b => b
  | JNum (NInt z) => negb (Z.eqb z 0)
  | JNum (NFloat (S754_zero _)) => false
  | JNum (NFloat _) => true
  | JStr s => negb (String.eqb s "")
  | JArr l => match l with [] => false | _ => true end
  | JObj kvs => match kvs with [] => false | _ => true end
  end.

(** [k in v] for a string literal [k]: key membership in a dict,
    element membership in a list, substring test in a string;
    [TypeError] on anything else. *)
Definition py_in (k : string) (v : json) : result bool :=
  match v with
  | JObj kvs => Ok (bool_decide (is_Some (obj_lookup k kvs)))
  | JArr l => Ok (existsb (fun x => py_eq_str x k) l)
  | JStr s => Ok (is_infix k s)
  | _ => Raise TypeError
  end.

(** [v[k]] for a string literal [k]. *)
Definition py_getitem (v : json) (k : string) : result json :=
  match v with
  | JObj kvs =>
      match obj_lookup k kvs with
      | Some x => Ok x
      | None => Raise KeyError
      end
  | _ => Raise TypeError
  end.

(** The items [for x in v] visits. A dict yields its keys; CPython 2
    orders them by hash, the model by first occurrence. *)
Definition py_iter (v : json) : result (list json) :=
  match v with
  | JArr l => Ok l
  | JObj kvs => Ok (JStr <$> obj_keys kvs)
  | JStr s => Ok (JStr <$> chars s)
  | _ => Raise TypeError
  end.

(** *** Dictionary keys

    A hashable value used as a key is identified up to Python's [==]:
    [1], [1.0] and [True] are one key. [HNum m e] is the dyadic number
    [m * 2^e] in lowest terms. [HNaN] is the key of [NaN]: [json.loads]
    returns the one float object [json.decoder.NaN] for every [NaN] of a
    text, and a dict finds a key that is the very object it looks for
    before it compares with [==]. *)
Inductive hkey :=
| HNone
| HStr (s : string)
| HNum (m : Z) (e : Z)
| HInf (neg : bool)
| HNaN.

#[global] Instance hkey_eq_dec : EqDecision hkey.
Proof. solve_decision. Defined.

#[global] Instance hkey_countable : Countable hkey.
Proof.
  refine (inj_countable'
    (fun k => match k with
              | HNone => inl (inl true)
              | HNaN => inl (inl false)
              | HStr s => inl (inr s)
              | HNum m e => inr (inl (m, e))
              | HInf b => inr (inr b)
              end)
    (fun x => match x with
              | inl (inl true) => HNone
              | inl (inl false) => HNaN
              | inl (inr s) => HStr s
              | inr (inl (m, e)) => HNum m e
              | inr (inr b) => HInf b
              end) _).
  by intros [].
Defined.

(** Lowest terms of [m * 2^e] for a positive mantissa. *)
Fixpoint dyadic_norm (m : positive) (e : Z) : positive * Z :=
  match m with
  | xO m' => dyadic_norm m' (e + 1)
  | _ => (m, e)
  end.

Definition hnum_of_Z (z : Z) : hkey :=
  match z with
  | Z0 => HNum 0 0
  | Zpos p => let '(m, e) := dyadic_norm p 0 in HNum (Zpos m) e
  | Zneg p => let '(m, e) := dyadic_norm p 0 in HNum (Zneg m) e
  end.

(** The key of a value of a parsed feed used as a dict key:
    [Raise TypeError] on the unhashable lists and dicts. *)
Definition py_hash (v : json) : result hkey :=
  match v with
  | JNull => Ok HNone
  | JBool b => Ok (hnum_of_Z (if b then 1 else 0))
  | JNum (NInt z) => Ok (hnum_of_Z z)
  | JNum (NFloat f) =>
      match f with
      | S754_zero _ => Ok (HNum 0 0)
      | S754_infinity s => Ok (HInf s)
      | S754_nan => Ok HNaN
      | S754_finite s m e =>
          let '(m', e') := dyadic_norm m e in
          Ok (HNum (if s then Zneg m' else Zpos m') e')
      end
  | JStr s => Ok (HStr s)
  | JArr _ | JObj _ => Raise TypeError
  end.

(** [d[k]] on a class-level table [d] whose keys are strings. *)
Definition table_getitem {V : Type} (d : gmap string V) (k : json) : result V :=
  match k with
  | JStr s =>
      match d !! s with
      | Some v => Ok v
      | None => Raise KeyError
      end
  | JArr _ | JObj _ => Raise TypeError
  | _ => Raise KeyError
  end.

End Py.
Export Py.

(** ** Floats: IEEE binary64 *)

Module Float.

Definition prec : Z := 53.
Definition emax : Z := 1024.

(** The binary64 value nearest to [m / 10^scale] (ties to even), as
    [float()] computes it from a decimal numeral with digits [m] and
    [scale] digits after the point. *)
Definition float_of_decimal (m : N) (scale : Z) : spec_float :=
  match m with
  | N0 => S754_zero false
  | Npos p =>
      match scale with
      | Zpos _ =>
          let '(q, e, l) :=
            SFdiv_core_binary prec emax (Zpos p) 0 (10 ^ scale)%Z 0 in
          binary_round_aux prec emax false q e l
      | _ => binary_normalize prec emax (Zpos p * 10 ^ (- scale))%Z 0 false
      end
  end.

(** [float(n)] for an [int]. *)
Definition float_of_int (n : Z) : spec_float :=
  binary_normalize prec emax n 0 false.

Definition fdiv (x y : spec_float) : spec_float := SFdiv prec emax x y.

End Float.

(** ** The regular-expression rewrites of the program

    Each function is Python's [re.sub] specialised to one pattern of the
    source: scanning from the left, the leftmost match is replaced and
    scanning resumes behind it. *)

Module Re.

Definition is_digit (c : ascii) : bool :=
  (48 <=? nat_of_ascii c)%nat && (nat_of_ascii c <=? 57)%nat.

Definition is_alpha (c : ascii) : bool :=
  ((65 <=? nat_of_ascii c)%nat && (nat_of_ascii c <=? 90)%nat) ||
  ((97 <=? nat_of_ascii c)%nat && (nat_of_ascii c <=? 122)%nat).

Definition is_alnum (c : ascii) : bool := is_alpha c || is_digit c.

Definition NUL : ascii := ascii_of_nat 0.
Definition LF : ascii := ascii_of_nat 10.

Fixpoint string_drop (n : nat) (s : string) : string :=
  match n, s with
  | S n', String _ s' => string_drop n' s'
  | _, _ => s
  end.

(** *** [re.sub("[^0-9\.]", "", s)] *)

Definition is_price_char (c : ascii) : bool := is_digit c || Ascii.eqb c ".".

Fixpoint sub_non_price (s : string) : string :=
  match s with
  | EmptyString => EmptyString
  | String c s' =>
      if is_price_char c then String c (sub_non_price s') else sub_non_price s'
  end.

(** *** [re.sub("/\\*[^\x00]+\\*/", "", f, 0, re.M)]

    [comment_body s n]: [s] follows an opening [/*] and [n] characters
    already taken by [[^\x00]+]. The quantifier is greedy: it takes as
    many non-NUL characters as it can and gives them back one by one
    until [*/] follows, so the result is the largest number of characters
    between the opening and a closing [*/]. *)
Fixpoint comment_body (s : string) (n : nat) : option nat :=
  match s with
  | EmptyString => None
  | String c s' =>
      if Ascii.eqb c NUL then None
      else
        match comment_body s' (S n) with
        | Some m => Some m
        | None => if (0 <? n)%nat && String.prefix "*/" s then Some n else None
        end
  end.

(** [skip] counts the characters of the current match still to drop. *)
Fixpoint strip_comments_from (s : string) (skip : nat) : string :=
  match s with
  | EmptyString => EmptyString
  | String c s' =>
      match skip with
      | S k => strip_comments_from s' k
      | O =>
          if String.prefix "/*" s then
            match comment_body (string_drop 2 s) 0 with
            | Some n => strip_comments_from s' (n + 3)
            | None => String c (strip_comments_from s' 0)
            end
          else String c (strip_comments_from s' 0)
      end
  end.

Definition strip_comments (f : string) : string := strip_comments_from f 0.

(** *** [re.sub("([a-zA-Z0-9]+):", "\"\\1\":", f)]

    [key_match s] is the length of the alphanumeric run at the head of
    [s] when a colon follows it. *)
Fixpoint key_match (s : string) : option nat :=
  match s with
  | EmptyString => None
  | String c s' =>
      if is_alnum c then
        match key_match s' with
        | Some n => Some (S n)
        | None => if String.prefix ":" s' then Some 1%nat else None
        end
      else None
  end.

Definition DQUOTE : ascii := ascii_of_nat 34.

(** [pending = S k]: inside a matched key, [k] of its characters are
    still to copy before its colon. *)
Fixpoint quote_keys_from (s : string) (pending : nat) : string :=
  match s with
  | EmptyString => EmptyString
  | String c s' =>
      match pending with
      | S O => String DQUOTE (String c (quote_keys_from s' 0))
      | S k => String c (quote_keys_from s' k)
      | O =>
          match key_match s with
          | Some n => String DQUOTE (String c (quote_keys_from s' n))
          | None => String c (quote_keys_from s' 0)
          end
      end
  end.

Definition quote_keys (f : string) : string := quote_keys_from f 0.

(** *** [re.sub(";", "\n", f)] *)
Fixpoint semicolons_to_newlines (s : string) : string :=
  match s with
  | EmptyString => EmptyString
  | String c s' =>
      String (if Ascii.eqb c ";" then LF else c) (semicolons_to_newlines s')
  end.

(** *** [re.sub("callback\(", "", f)] *)
Fixpoint strip_callback_from (s : string) (skip : nat) : string :=
  match s with
  | EmptyString => EmptyString
  | String c s' =>
      match skip with
      | S k => strip_callback_from s' k
      | O =>
          if String.prefix "callback(" s then strip_callback_from s' 8
          else String c (strip_callback_from s' 0)
      end
  end.

Definition strip_callback (f : string) : string := strip_callback_from f 0.

(** *** [re.sub("\)$", "", f)]

    Without [re.M], [$] matches at the end of the text and before a
    newline that ends the text. *)
Fixpoint strip_final_paren (s : string) : string :=
  match s with
  | EmptyString => EmptyString
  | String c s' =>
      if Ascii.eqb c ")" &&
         (String.eqb s' EmptyString || String.eqb s' (String LF EmptyString))
      then s'
      else String c (strip_final_paren s')
  end.

End Re.

(** ** [json.loads]

    A recursive-descent reading of the decoder of Python's [json]: values,
    objects, arrays, strings with their escapes, numbers, the literals
    [null], [true], [false], [NaN], [Infinity] and [-Infinity]; blanks are
    space, tab, newline and carriage return; control characters inside a
    string and text behind the value are errors. Every error of the
    decoder is a [ValueError]. The input bytes are not checked to be
    UTF-8. *)

Module Json.
Import Re Float.

Definition is_ws (c : ascii) : bool :=
  Ascii.eqb c " " || Ascii.eqb c (ascii_of_nat 9) ||
  Ascii.eqb c (ascii_of_nat 10) || Ascii.eqb c (ascii_of_nat 13).

Fixpoint skip_ws (s : string) : string :=
  match s with
  | String c s' => if is_ws c then skip_ws s' else s
  | EmptyString => s
  end.

Definition digit_val (c : ascii) : N := N.of_nat (nat_of_ascii c - 48).

(** Reads a run of digits: the value accumulated on [acc], the number of
    digits read, and the rest. *)
Fixpoint scan_digits (s : string) (acc : N) (n : nat) : N * nat * string :=
  match s with
  | String c s' =>
      if is_digit c then scan_digits s' (acc * 10 + digit_val c)%N (S n)
      else (acc, n, s)
  | EmptyString => (acc, n, s)
  end.

Definition hex_val (c : ascii) : option N :=
  let n := nat_of_ascii c in
  if is_digit c then Some (N.of_nat (n - 48))
  else if (97 <=? n)%nat && (n <=? 102)%nat then Some (N.of_nat (n - 87))
  else if (65 <=? n)%nat && (n <=? 70)%nat then Some (N.of_nat (n - 55))
  else None.

Definition hex4 (s : string) : option (N * string) :=
  match s with
  | String a (String b (String c (String d r))) =>
      x ← hex_val a; y ← hex_val b; z ← hex_val c; w ← hex_val d;
      Some (((x * 16 + y) * 16 + z) * 16 + w, r)%N
  | _ => None
  end.

Definition byte (n : N) : ascii := ascii_of_N n.

(** UTF-8 bytes of a code point. *)
Definition utf8 (u : N) : string :=
  if (u <? 128)%N then String (byte u) EmptyString
  else if (u <? 2048)%N then
    String (byte (192 + u / 64)) (String (byte (128 + u mod 64)) EmptyString)
  else if (u <? 65536)%N then
    String (byte (224 + u / 4096))
      (String (byte (128 + (u / 64) mod 64))
         (String (byte (128 + u mod 64)) EmptyString))
  else
    String (byte (240 + u / 262144))
      (String (byte (128 + (u / 4096) mod 64))
         (String (byte (128 + (u / 64) mod 64))
            (String (byte (128 + u mod 64)) EmptyString))).

Definition is_high_surrogate (u : N) : bool := (55296 <=? u)%N && (u <=? 56319)%N.
Definition is_low_surrogate (u : N) : bool := (56320 <=? u)%N && (u <=? 57343)%N.

(** The text of a string literal behind its opening quote. *)
Fixpoint scan_string (fuel : nat) (s : string) : option (string * string) :=
  match fuel with
  | O => None
  | S fuel' =>
      match s with
      | EmptyString => None
      | String c r =>
          if Ascii.eqb c DQUOTE then Some (EmptyString, r)
          else if Ascii.eqb c "\" then
            match r with
            | String e r' =>
                let simple (b : ascii) :=
                  '(t, rest) ← scan_string fuel' r'; Some (String b t, rest) in
                if Ascii.eqb e DQUOTE then simple DQUOTE
                else if Ascii.eqb e "\" then simple "\"%char
                else if Ascii.eqb e "/" then simple "/"%char
                else if Ascii.eqb e "b" then simple (ascii_of_nat 8)
                else if Ascii.eqb e "f" then simple (ascii_of_nat 12)
                else if Ascii.eqb e "n" then simple (ascii_of_nat 10)
                else if Ascii.eqb e "r" then simple (ascii_of_nat 13)
                else if Ascii.eqb e "t" then simple (ascii_of_nat 9)
                else if Ascii.eqb e "u" then
                  '(u, r1) ← hex4 r';
                  let '(cp, r2) :=
                    match r1 with
                    | String "\" (String "u" r1') =>
                        match hex4 r1' with
                        | Some (u2, r2') =>
                            if is_high_surrogate u && is_low_surrogate u2
                            then (65536 + (u - 55296) * 1024 + (u2 - 56320), r2')%N
                            else (u, r1)
                        | None => (u, r1)
                        end
                    | _ => (u, r1)
                    end in
                  '(t, rest) ← scan_string fuel' r2; Some (utf8 cp ++ t, rest)
                else None
            | EmptyString => None
            end
          else if (nat_of_ascii c <? 32)%nat then None
          else '(t, rest) ← scan_string fuel' r; Some (String c t, rest)
      end
  end.

(** A number: an integer part ([0], or a digit run that does not start
    with [0]), an optional fraction (a point and at least one digit) and
    an optional exponent ([e] or [E], an optional sign, at least one
    digit); an [int] without fraction and exponent and a [float]
    otherwise. [s] is the text behind the optional minus sign. *)
Definition scan_number (neg : bool) (s : string) : option (json * string) :=
  let '(ip, ni, r0) :=
    match s with
    | String "0" r => (0%N, 1%nat, r)
    | _ => scan_digits s 0 0
    end in
  if (ni =? 0)%nat then None
  else
    let '(m, nf, r1) :=
      match r0 with
      | String "." r =>
          let '(m, nf, r') := scan_digits r ip 0 in
          if (nf =? 0)%nat then (ip, 0%nat, r0) else (m, nf, r')
      | _ => (ip, 0%nat, r0)
      end in
    let '(ex, r2) :=
      match r1 with
      | String c r =>
          if Ascii.eqb c "e" || Ascii.eqb c "E" then
            let '(sg, rd) :=
              match r with
              | String "-" rd => (true, rd)
              | String "+" rd => (false, rd)
              | _ => (false, r)
              end in
            let '(e, ne, r') := scan_digits rd 0 0 in
            if (ne =? 0)%nat then (None, r1)
            else (Some (if sg then (- Z.of_N e)%Z else Z.of_N e), r')
          else (None, r1)
      | EmptyString => (None, r1)
      end in
    match nf, ex with
    | O, None => Some (JNum (NInt (if neg then (- Z.of_N ip)%Z else Z.of_N ip)), r2)
    | _, _ =>
        let f := float_of_decimal m (Z.of_nat nf - default 0%Z ex) in
        Some (JNum (NFloat (if neg then SFopp f else f)), r2)
    end.

Definition literal (lit : string) (v : json) (s : string) : option (json * string) :=
  if String.prefix lit s then Some (v, string_drop (String.length lit) s) else None.

Fixpoint parse_value (fuel : nat) (s : string) : option (json * string) :=
  match fuel with
  | O => None
  | S fuel' =>
      match s with
      | String "{" r =>
          match skip_ws r with
          | String "}" r' => Some (JObj [], r')
          | r' => '(kvs, rest) ← parse_members fuel' r'; Some (JObj kvs, rest)
          end
      | String "[" r =>
          match skip_ws r with
          | String "]" r' => Some (JArr [], r')
          | r' => '(l, rest) ← parse_elements fuel' r'; Some (JArr l, rest)
          end
      | String "n" _ => literal "null" JNull s
      | String "t" _ => literal "true" (JBool true) s
      | String "f" _ => literal "false" (JBool false) s
      | String "N" _ => literal "NaN" (JNum (NFloat S754_nan)) s
      | String "I" _ => literal "Infinity" (JNum (NFloat (S754_infinity false))) s
      | String "-" r =>
          match r with
          | String "I" _ => literal "Infinity" (JNum (NFloat (S754_infinity true))) r
          | _ => scan_number true r
          end
      | String c r =>
          if Ascii.eqb c DQUOTE then
            '(t, rest) ← scan_string (S (String.length r)) r; Some (JStr t, rest)
          else if is_digit c then scan_number false s
          else None
      | EmptyString => None
      end
  end
with parse_elements (fuel : nat) (s : string) : option (list json * string) :=
  match fuel with
  | O => None
  | S fuel' =>
      '(v, r) ← parse_value fuel' s;
      match skip_ws r with
      | String "," r' =>
          '(l, rest) ← parse_elements fuel' (skip_ws r'); Some (v :: l, rest)
      | String "]" r' => Some ([v], r')
      | _ => None
      end
  end
with parse_members (fuel : nat) (s : string) : option (list (string * json) * string) :=
  match fuel with
  | O => None
  | S fuel' =>
      match s with
      | String c r =>
          if Ascii.eqb c DQUOTE then
            '(k, r1) ← scan_string (S (String.length r)) r;
            match skip_ws r1 with
            | String ":" r2 =>
                '(v, r3) ← parse_value fuel' (skip_ws r2);
                match skip_ws r3 with
                | String "," r4 =>
                    '(kvs, rest) ← parse_members fuel' (skip_ws r4);
                    Some ((k, v) :: kvs, rest)
                | String "}" r4 => Some ([(k, v)], r4)
                | _ => None
                end
            | _ => None
            end
          else None
      | EmptyString => None
      end
  end.

Definition loads (s : string) : result json :=
  match parse_value (2 * String.length s + 2) (skip_ws s) with
  | Some (v, rest) =>
      match skip_ws rest with
      | EmptyString => Ok v
      | _ => Raise ValueError
      end
  | None => Raise ValueError
  end.

End Json.

(** ** The canonical pricing document *)

Module Doc.

(** [{"hourly": ..., "upfront": ...}]; [None] is Python's [None]. *)
Record cell := { hourly : option spec_float; upfront : option spec_float }.

Definition empty_cell : cell := {| hourly := None; upfront := None |}.

(** Legacy reserved scheme: term ["1"], ["3"] to a cell. *)
Abbreviation old_prices := (gmap string cell).
(** New reserved scheme: term to purchase option to a cell. *)
Abbreviation new_prices := (gmap string (gmap string cell)).

(** [{"region": ..., "instanceTypes": [...]}] with offerings of type [O]. *)
Record RegionPricing (O : Type) := {
  region : json;
  instanceTypes : list O
}.
Arguments region {O} _.
Arguments instanceTypes {O} _.

(** [{"config": {"currency": ..., "unit": ...}, "regions": [...]}];
    reserved documents have no ["unit"]. *)
Record document (O : Type) := {
  config_currency : string;
  config_unit : option string;
  regions : list (RegionPricing O)
}.
Arguments config_currency {O} _.
Arguments config_unit {O} _.
Arguments regions {O} _.

End Doc.
Export Doc.

(** ** The base class [AWSPrices] *)

Module AWSPrices.
Import Re Float.

Definition DEFAULT_CURRENCY : string := "USD".

Definition REGIONS : list string :=
  [ "us-east-1"; "us-west-1"; "us-west-2"; "eu-west-1"; "ap-southeast-1";
    "ap-southeast-2"; "ap-northeast-1"; "sa-east-1"; "eu-central-1";
    "us-gov-west-1" ].

(** A dict display: a later pair of a repeated key replaces the earlier. *)
Definition py_dict {V : Type} (pairs : list (string * V)) : gmap string V :=
  list_to_map (reverse pairs).

Definition JSON_NAME_TO_REGIONS_API : gmap string string := py_dict
  [ ("us-east", "us-east-1");
    ("us-east-1", "us-east-1");
    ("us-west", "us-west-1");
    ("us-west-1", "us-west-1");
    ("us-west-2", "us-west-2");
    ("eu-ireland", "eu-west-1");
    ("eu-west-1", "eu-west-1");
    ("apac-sin", "ap-southeast-1");
    ("ap-southeast-1", "ap-southeast-1");
    ("ap-southeast-2", "ap-southeast-2");
    ("apac-syd", "ap-southeast-2");
    ("apac-tokyo", "ap-northeast-1");
    ("ap-northeast-1", "ap-northeast-1");
    ("sa-east-1", "sa-east-1");
    ("eu-central-1", "eu-central-1");
    ("us-gov-west-1", "us-gov-west-1");
    ("eu-frankfurt", "eu-central-1") ].

(** *** [load_data] *)

(** The five rewrites of [load_data], in its order. *)
Definition repair (f : string) : string :=
  let f := strip_comments f in
  let f := quote_keys f in
  let f := semicolons_to_newlines f in
  let f := strip_callback f in
  let f := strip_final_paren f in
  f.

Definition load_data (urlopen : string -> result string) (url : string)
  : result json :=
  f ← urlopen url;
  Json.loads (repair f).

(** *** [none_as_string] *)

Definition none_as_string (v : json) : json :=
  if negb (py_truthy v) then JStr "" else v.

(** A price of a document as the Python value handed to the output. *)
Definition price_value (p : option spec_float) : json :=
  match p with
  | None => JNull
  | Some f => JNum (NFloat f)
  end.

(** *** The price token parser

    The normalizers repeat one expression,
    [float(re.sub("[^0-9\.]", "", price_data["prices"][currency]))],
    inside [try: ... except ValueError: price = None] (a bare [except:]
    in the on-demand normalizers of [EC2Prices] and [RSPrices]). *)

(** [float(s)] on the texts [re.sub] leaves, made of digits and points:
    digits with at most one point among them and at least one digit. *)
Definition py_float (s : string) : result spec_float :=
  let '(ip, ni, r1) := Json.scan_digits s 0 0 in
  match r1 with
  | EmptyString =>
      if (ni =? 0)%nat then Raise ValueError else Ok (float_of_decimal ip 0)
  | String "." r2 =>
      let '(m, nf, r3) := Json.scan_digits r2 ip 0 in
      match r3 with
      | EmptyString =>
          if (ni + nf =? 0)%nat then Raise ValueError
          else Ok (float_of_decimal m (Z.of_nat nf))
      | _ => Raise ValueError
      end
  | _ => Raise ValueError
  end.

(** [float(re.sub("[^0-9\.]", "", tok))]; [re.sub] raises [TypeError] on
    anything but a string. *)
Definition price_of_token (tok : json) : result spec_float :=
  match tok with
  | JStr s => py_float (sub_non_price s)
  | _ => Raise TypeError
  end.

(** [float(re.sub("[^0-9\.]", "", holder["prices"][currency]))] *)
Definition price_expr (holder : json) : result spec_float :=
  ps ← py_getitem holder "prices";
  tok ← py_getitem ps DEFAULT_CURRENCY;
  price_of_token tok.

(** [try: price = e  except ValueError: price = None] *)
Definition except_ValueError {A : Type} (e : result A) : result (option A) :=
  match e with
  | Ok a => Ok (Some a)
  | Raise ValueError => Ok None
  | Raise x => Raise x
  end.

(** [try: price = e  except: price = None] *)
Definition except_all {A : Type} (e : result A) : option A :=
  match e with
  | Ok a => Some a
  | Raise _ => None
  end.

Definition parse_price (holder : json) : result (option spec_float) :=
  except_ValueError (price_expr holder).

Definition parse_price_lenient (holder : json) : option spec_float :=
  except_all (price_expr holder).

(** *** The traversal every normalizer repeats *)

(** ["config" in data and data["config"] and "regions" in data["config"]
    and data["config"]["regions"]], as a truth value. *)
Definition has_regions (data : json) : result bool :=
  b ← py_in "config" data;
  if negb b then Ok false else
  c ← py_getitem data "config";
  if negb (py_truthy c) then Ok false else
  b' ← py_in "regions" c;
  if negb b' then Ok false else
  rs ← py_getitem c "regions";
  Ok (py_truthy rs).

(** The region entries the loop [for r in data["config"]["regions"]]
    visits; none when the guard above fails. *)
Definition config_regions (data : json) : result (list json) :=
  b ← has_regions data;
  if (b : bool) then
    c ← py_getitem data "config";
    rs ← py_getitem c "regions";
    py_iter rs
  else Ok [].

(** ["region" in r and r["region"]] *)
Definition region_guard (r : json) : result bool :=
  b ← py_in "region" r;
  if negb b then Ok false else
  v ← py_getitem r "region";
  Ok (py_truthy v).

(** [for x in holder[key]: out += f(x)] *)
Definition for_in {O : Type} (holder : json) (key : string)
    (f : json -> result (list O)) : result (list O) :=
  v ← py_getitem holder key;
  xs ← py_iter v;
  parts ← mapM f xs;
  Ok (concat parts).

(** [if key in holder: for x in holder[key]: out += f(x)] *)
Definition if_in_for {O : Type} (holder : json) (key : string)
    (f : json -> result (list O)) : result (list O) :=
  b ← py_in key holder;
  if (b : bool) then for_in holder key f else Ok [].

Section Accumulate.
Context {O : Type}.

(** **** On-demand: a fresh [instance_types] list per region entry,
    appended to [result_regions] inside [if key in r:]. *)
Definition ondemand_region (resolve : json -> result json) (key : string)
    (offerings : json -> result (list O))
    (result_regions : list (RegionPricing O)) (r : json)
  : result (list (RegionPricing O)) :=
  g ← region_guard r;
  if (g : bool) then
    raw ← py_getitem r "region";
    region_name ← resolve raw;
    b ← py_in key r;
    if (b : bool) then
      instance_types ← for_in r key offerings;
      Ok (result_regions ++
            [{| region := region_name; instanceTypes := instance_types |}])%list
    else Ok result_regions
  else Ok result_regions.

(** **** Reserved: [result_regions] and [result_regions_index]

    [result_regions_index] maps a region name to the very dict that
    sits in [result_regions]; the model keeps the position of that
    dict in the list (the list only grows at its end) as the
    reference. *)
Record reserved_state := {
  result_regions : list (RegionPricing O);
  result_regions_index : gmap hkey nat
}.

Definition empty_state : reserved_state :=
  {| result_regions := []; result_regions_index := ∅ |}.

(** [if region_name in result_regions_index: instance_types =
    result_regions_index[region_name]["instanceTypes"] else: ...]:
    the position of the entry whose list [instance_types] aliases. *)
Definition instance_types_ref (region_name : json) (st : reserved_state)
  : result (nat * reserved_state) :=
  k ← py_hash region_name;
  match result_regions_index st !! k with
  | Some i => Ok (i, st)
  | None =>
      let i := length (result_regions st) in
      Ok (i, {| result_regions :=
                  (result_regions st ++
                     [{| region := region_name; instanceTypes := [] |}])%list;
                result_regions_index := <[k := i]> (result_regions_index st) |})
  end.

(** [instance_types.append(o)] for each [o] of [os], through the alias. *)
Definition append_offerings (i : nat) (os : list O) (st : reserved_state)
  : reserved_state :=
  {| result_regions :=
       alter (fun rp => {| region := region rp;
                           instanceTypes := (instanceTypes rp ++ os)%list |})
             i (result_regions st);
     result_regions_index := result_regions_index st |}.

(** One region entry of a reserved feed. An exception leaves the
    method and discards [result], so the offerings of the entry are
    computed first and appended together. *)
Definition reserved_region (resolve : json -> result json)
    (offerings : json -> result (list O))
    (st : reserved_state) (r : json) : result reserved_state :=
  g ← region_guard r;
  if (g : bool) then
    raw ← py_getitem r "region";
    region_name ← resolve raw;
    '(i, st) ← instance_types_ref region_name st;
    os ← if_in_for r "instanceTypes" offerings;
    Ok (append_offerings i os st)
  else Ok st.

End Accumulate.
Arguments reserved_state : clear implicits.

(** *** The new reserved scheme ([EC2Prices], [RDSPrices], [RSPrices])

    The three normalizers repeat the loops over [it["terms"]],
    [s["purchaseOptions"]] and [po_data["valueColumns"]] word for word;
    they differ in the initial [prices] only. *)

Definition HOURS_PER_MONTH : Z := 730.

(** [prices[t][po][field] = v] *)
Definition set_cell (prices : new_prices) (t : string) (po : json)
    (f : cell -> cell) : result new_prices :=
  match prices !! t with
  | None => Raise KeyError
  | Some by_option =>
      c ← table_getitem by_option po;
      match po with
      | JStr o => Ok (<[t := <[o := f c]> by_option]> prices)
      | _ => Raise KeyError
      end
  end.

(** [prices[t][po]["upfront"] = price] *)
Definition set_upfront (prices : new_prices) (t : string) (po : json)
    (price : option spec_float) : result new_prices :=
  set_cell prices t po (fun c => {| hourly := hourly c; upfront := price |}).

(** [prices[t][po]["hourly"] = price/730]: the quotient is computed
    first and is a [TypeError] when [price] is [None]. *)
Definition set_hourly (prices : new_prices) (t : string) (po : json)
    (price : option spec_float) : result new_prices :=
  match price with
  | None => Raise TypeError
  | Some p =>
      let h := fdiv p (float_of_int HOURS_PER_MONTH) in
      set_cell prices t po (fun c => {| hourly := Some h; upfront := upfront c |})
  end.

Definition route_column (prices : new_prices) (t : string) (po : json)
    (price_data : json) (price : option spec_float) : result new_prices :=
  name ← py_getitem price_data "name";
  if py_eq_str name "upfront" then set_upfront prices t po price
  else if py_eq_str name "monthlyStar" then set_hourly prices t po price
  else Ok prices.

(** The body of [for price_data in po_data["valueColumns"]]. *)
Definition value_column (term po : json) (prices : new_prices)
    (price_data : json) : result new_prices :=
  price ← parse_price price_data;
  if py_eq_str term "yrTerm1" then route_column prices "1" po price_data price
  else if py_eq_str term "yrTerm3" then route_column prices "3" po price_data price
  else Ok prices.

(** The body of [for po_data in s["purchaseOptions"]]. *)
Definition purchase_option (term : json) (prices : new_prices)
    (po_data : json) : result new_prices :=
  po ← py_getitem po_data "purchaseOption";
  v ← py_getitem po_data "valueColumns";
  cols ← py_iter v;
  foldM (value_column term po) cols prices.

(** The body of [for s in it["terms"]]. *)
Definition term_entry (prices : new_prices) (s : json) : result new_prices :=
  term ← py_getitem s "term";
  v ← py_getitem s "purchaseOptions";
  pos ← py_iter v;
  foldM (purchase_option term) pos prices.

(** [if "terms" in it: for s in it["terms"]: ...] from the initial
    [prices]. *)
Definition terms_prices (initial : new_prices) (it : json) : result new_prices :=
  b ← py_in "terms" it;
  if (b : bool) then
    v ← py_getitem it "terms";
    ts ← py_iter v;
    foldM term_entry ts initial
  else Ok initial.

Definition three_options : gmap string cell := py_dict
  [ ("noUpfront", empty_cell); ("partialUpfront", empty_cell);
    ("allUpfront", empty_cell) ].

Definition two_options : gmap string cell := py_dict
  [ ("partialUpfront", empty_cell); ("allUpfront", empty_cell) ].

(** *** The legacy reserved scheme ([ELCPrices], [RDSPrices]) *)

Definition initial_old_prices : old_prices := py_dict
  [ ("1", empty_cell); ("3", empty_cell) ].

(** [prices[t]["upfront"] = price] and [prices[t]["hourly"] = price] *)
Definition set_term (prices : old_prices) (t : string) (f : cell -> cell)
  : result old_prices :=
  match prices !! t with
  | Some c => Ok (<[t := f c]> prices)
  | None => Raise KeyError
  end.

Definition with_upfront (price : option spec_float) (c : cell) : cell :=
  {| hourly := hourly c; upfront := price |}.

Definition with_hourly (price : option spec_float) (c : cell) : cell :=
  {| hourly := price; upfront := upfront c |}.

(** *** The region resolver: [self.JSON_NAME_TO_REGIONS_API[r["region"]]] *)
Definition resolve_region (raw : json) : result json :=
  name ← table_getitem JSON_NAME_TO_REGIONS_API raw;
  Ok (JStr name).

(** [region_name = r["region"]], without resolution. *)
Definition keep_region (raw : json) : result json := Ok raw.

(** *** What the output methods hand to [csv.writer]

    A row is the list of the Python values of one [writer.writerow]. The
    loops [for term in it["prices"]] and [for po in it["prices"][term]]
    visit the keys of a dict: CPython 2 visits them in the order of its
    hash table, the model in the order of [map_to_list]; statements about
    rows do not depend on that order. *)

Definition dict_items {V : Type} (d : gmap string V) : list (string * V) :=
  map_to_list d.

(** [self.none_as_string(c["hourly"])], [self.none_as_string(c["upfront"])] *)
Definition hourly_cell (c : cell) : json := none_as_string (price_value (hourly c)).
Definition upfront_cell (c : cell) : json := none_as_string (price_value (upfront c)).

(** [for r in data["regions"]: for it in r["instanceTypes"]:
    writer.writerow(row)] *)
Definition offering_rows {O : Type} (row : json -> O -> list json)
    (data : document O) : list (list json) :=
  flat_map (fun r => map (row (region r)) (instanceTypes r)) (regions data).

(** [... for term in it["prices"]: writer.writerow(row)] *)
Definition term_rows {O : Type} (prices : O -> old_prices)
    (row : json -> O -> string -> cell -> list json)
    (data : document O) : list (list json) :=
  flat_map (fun r =>
    flat_map (fun it =>
      map (fun '(term, c) => row (region r) it term c) (dict_items (prices it)))
      (instanceTypes r))
    (regions data).

(** [... for term in it["prices"]: for po in it["prices"][term]:
    writer.writerow(row)] *)
Definition option_rows {O : Type} (prices : O -> new_prices)
    (row : json -> O -> string -> string -> cell -> list json)
    (data : document O) : list (list json) :=
  flat_map (fun r =>
    flat_map (fun it =>
      flat_map (fun '(term, by_option) =>
        map (fun '(po, c) => row (region r) it term po c) (dict_items by_option))
        (dict_items (prices it)))
      (instanceTypes r))
    (regions data).

(** [name] when given, the default otherwise. *)
Definition file_name (default_name : string) (name : option string) : string :=
  match name with
  | Some n => n
  | None => default_name
  end.

End AWSPrices.

(** ** [EC2Prices] *)

Module EC2Prices.
Import AWSPrices.

Definition INSTANCES_ON_DEMAND_LINUX_URL : string :=
  "http://a0.awsstatic.com/pricing/1/ec2/linux-od.min.js".
Definition INSTANCES_ON_DEMAND_RHEL_URL : string :=
  "http://a0.awsstatic.com/pricing/1/ec2/rhel-od.min.js".
Definition INSTANCES_ON_DEMAND_SLES_URL : string :=
  "http://a0.awsstatic.com/pricing/1/ec2/sles-od.min.js".
Definition INSTANCES_ON_DEMAND_WINDOWS_URL : string :=
  "http://a0.awsstatic.com/pricing/1/ec2/mswin-od.min.js".
Definition INSTANCES_ON_DEMAND_WINSQL_URL : string :=
  "http://a0.awsstatic.com/pricing/1/ec2/mswinSQL-od.min.js".
Definition INSTANCES_ON_DEMAND_WINSQLWEB_URL : string :=
  "http://a0.awsstatic.com/pricing/1/ec2/mswinSQLWeb-od.min.js".
Definition PG_INSTANCES_ON_DEMAND_LINUX_URL : string :=
  "http://a0.awsstatic.com/pricing/1/ec2/previous-generation/linux-od.min.js".
Definition PG_INSTANCES_ON_DEMAND_RHEL_URL : string :=
  "http://a0.awsstatic.com/pricing/1/ec2/previous-generation/rhel-od.min.js".
Definition PG_INSTANCES_ON_DEMAND_SLES_URL : string :=
  "http://a0.awsstatic.com/pricing/1/ec2/previous-generation/sles-od.min.js".
Definition PG_INSTANCES_ON_DEMAND_WINDOWS_URL : string :=
  "http://a0.awsstatic.com/pricing/1/ec2/previous-generation/mswin-od.min.js".
Definition PG_INSTANCES_ON_DEMAND_WINSQL_URL : string :=
  "http://a0.awsstatic.com/pricing/1/ec2/previous-generation/mswinSQL-od.min.js".
Definition PG_INSTANCES_ON_DEMAND_WINSQLWEB_URL : string :=
  "http://a0.awsstatic.com/pricing/1/ec2/previous-generation/mswinSQLWeb-od.min.js".
Definition INSTANCES_RESERVED_LINUX_URL : string :=
  "http://a0.awsstatic.com/pricing/1/ec2/ri-v2/linux-unix-shared.min.js".
Definition INSTANCES_RESERVED_RHEL_URL : string :=
  "http://a0.awsstatic.com/pricing/1/ec2/ri-v2/red-hat-enterprise-linux-shared.min.js".
Definition INSTANCES_RESERVED_SLES_URL : string :=
  "http://a0.awsstatic.com/pricing/1/ec2/ri-v2/suse-linux-shared.min.js".
Definition INSTANCES_RESERVED_WINDOWS_URL : string :=
  "http://a0.awsstatic.com/pricing/1/ec2/ri-v2/windows-shared.min.js".
Definition INSTANCES_RESERVED_WINSQL_URL : string :=
  "http://a0.awsstatic.com/pricing/1/ec2/ri-v2/windows-with-sql-server-standard-shared.min.js".
Definition INSTANCES_RESERVED_WINSQLWEB_URL : string :=
  "http://a0.awsstatic.com/pricing/1/ec2/ri-v2/windows-with-sql-server-web-shared.min.js".
Definition PG_INSTANCES_RESERVED_LINUX_URL : string :=
  "http://a0.awsstatic.com/pricing/1/ec2/previous-generation/ri-v2/linux-unix-shared.min.js".
Definition PG_INSTANCES_RESERVED_RHEL_URL : string :=
  "http://a0.awsstatic.com/pricing/1/ec2/previous-generation/ri-v2/red-hat-enterprise-linux-shared.min.js".
Definition PG_INSTANCES_RESERVED_SLES_URL : string :=
  "http://a0.awsstatic.com/pricing/1/ec2/previous-generation/ri-v2/suse-linux-shared.min.js".
Definition PG_INSTANCES_RESERVED_WINDOWS_URL : string :=
  "http://a0.awsstatic.com/pricing/1/ec2/previous-generation/ri-v2/windows-shared.min.js".
Definition PG_INSTANCES_RESERVED_WINSQL_URL : string :=
  "http://a0.awsstatic.com/pricing/1/ec2/previous-generation/ri-v2/windows-with-sql-server-standard-shared.min.js".
Definition PG_INSTANCES_RESERVED_WINSQLWEB_URL : string :=
  "http://a0.awsstatic.com/pricing/1/ec2/previous-generation/ri-v2/windows-with-sql-server-web-shared.min.js".

Definition INSTANCES_ONDEMAND_OS_TYPE_BY_URL : gmap string string := py_dict
  [ (INSTANCES_ON_DEMAND_LINUX_URL, "linux");
    (INSTANCES_ON_DEMAND_RHEL_URL, "rhel");
    (INSTANCES_ON_DEMAND_SLES_URL, "sles");
    (INSTANCES_ON_DEMAND_WINDOWS_URL, "mswin");
    (INSTANCES_ON_DEMAND_WINSQL_URL, "mswinSQL");
    (INSTANCES_ON_DEMAND_WINSQLWEB_URL, "mswinSQLWeb");
    (PG_INSTANCES_ON_DEMAND_LINUX_URL, "linux");
    (PG_INSTANCES_ON_DEMAND_RHEL_URL, "rhel");
    (PG_INSTANCES_ON_DEMAND_SLES_URL, "sles");
    (PG_INSTANCES_ON_DEMAND_WINDOWS_URL, "mswin");
    (PG_INSTANCES_ON_DEMAND_WINSQL_URL, "mswinSQL");
    (PG_INSTANCES_ON_DEMAND_WINSQLWEB_URL, "mswinSQLWeb") ].

Definition INSTANCES_RESERVED_OS_TYPE_BY_URL : gmap string string := py_dict
  [ (INSTANCES_RESERVED_LINUX_URL, "linux");
    (INSTANCES_RESERVED_RHEL_URL, "rhel");
    (INSTANCES_RESERVED_SLES_URL, "sles");
    (INSTANCES_RESERVED_WINDOWS_URL, "mswin");
    (INSTANCES_RESERVED_WINSQL_URL, "mswinSQL");
    (INSTANCES_RESERVED_WINSQLWEB_URL, "mswinSQLWeb");
    (PG_INSTANCES_RESERVED_LINUX_URL, "linux");
    (PG_INSTANCES_RESERVED_RHEL_URL, "rhel");
    (PG_INSTANCES_RESERVED_SLES_URL, "sles");
    (PG_INSTANCES_RESERVED_WINDOWS_URL, "mswin");
    (PG_INSTANCES_RESERVED_WINSQL_URL, "mswinSQL");
    (PG_INSTANCES_RESERVED_WINSQLWEB_URL, "mswinSQLWeb") ].

(** [{"type": ..., "os": ..., "prices": ...}] *)
Record reserved_offering := {
  ri_type : json;
  ri_os : string;
  ri_prices : new_prices
}.

(** [{"type": ..., "os": ..., "price": ...}] *)
Record ondemand_offering := {
  od_type : json;
  od_os : json;
  od_price : option spec_float
}.

(** *** [get_reserved_instances_prices] *)

Definition reserved_urls : list string :=
  [ INSTANCES_RESERVED_LINUX_URL;
    INSTANCES_RESERVED_RHEL_URL;
    INSTANCES_RESERVED_SLES_URL;
    INSTANCES_RESERVED_WINDOWS_URL;
    INSTANCES_RESERVED_WINSQL_URL;
    INSTANCES_RESERVED_WINSQLWEB_URL;
    PG_INSTANCES_RESERVED_LINUX_URL;
    PG_INSTANCES_RESERVED_RHEL_URL;
    PG_INSTANCES_RESERVED_SLES_URL;
    PG_INSTANCES_RESERVED_WINDOWS_URL;
    PG_INSTANCES_RESERVED_WINSQL_URL;
    PG_INSTANCES_RESERVED_WINSQLWEB_URL ].

Definition initial_prices : new_prices := py_dict
  [ ("1", three_options); ("3", two_options) ].

(** The body of [for it in r["instanceTypes"]]. *)
Definition reserved_instance (os_type : string) (it : json)
  : result (list reserved_offering) :=
  instance_type ← py_getitem it "type";
  prices ← terms_prices initial_prices it;
  Ok [{| ri_type := instance_type; ri_os := os_type; ri_prices := prices |}].

(** The body of [for u in urls]. *)
Definition reserved_feed (urlopen : string -> result string)
    (st : reserved_state reserved_offering) (u : string)
  : result (reserved_state reserved_offering) :=
  os_type ← table_getitem INSTANCES_RESERVED_OS_TYPE_BY_URL (JStr u);
  data ← load_data urlopen u;
  rs ← config_regions data;
  foldM (reserved_region keep_region (reserved_instance os_type)) rs st.

Definition get_reserved_instances_prices (urlopen : string -> result string)
  : result (document reserved_offering) :=
  st ← foldM (reserved_feed urlopen) reserved_urls empty_state;
  Ok {| config_currency := DEFAULT_CURRENCY; config_unit := None;
        regions := result_regions st |}.

(** *** [get_ondemand_instances_prices] *)

Definition ondemand_urls : list string :=
  [ INSTANCES_ON_DEMAND_LINUX_URL;
    INSTANCES_ON_DEMAND_RHEL_URL;
    INSTANCES_ON_DEMAND_SLES_URL;
    INSTANCES_ON_DEMAND_WINDOWS_URL;
    INSTANCES_ON_DEMAND_WINSQL_URL;
    INSTANCES_ON_DEMAND_WINSQLWEB_URL;
    PG_INSTANCES_ON_DEMAND_LINUX_URL;
    PG_INSTANCES_ON_DEMAND_RHEL_URL;
    PG_INSTANCES_ON_DEMAND_SLES_URL;
    PG_INSTANCES_ON_DEMAND_WINDOWS_URL;
    PG_INSTANCES_ON_DEMAND_WINSQL_URL;
    PG_INSTANCES_ON_DEMAND_WINSQLWEB_URL ].

(** The body of [for price_data in s["valueColumns"]]. *)
Definition ondemand_column (instance_type : json) (price_data : json)
  : result (list ondemand_offering) :=
  let price := parse_price_lenient price_data in
  name ← py_getitem price_data "name";
  Ok [{| od_type := instance_type; od_os := name; od_price := price |}].

(** The body of [for s in it["sizes"]]. *)
Definition ondemand_size (s : json) : result (list ondemand_offering) :=
  instance_type ← py_getitem s "size";
  for_in s "valueColumns" (ondemand_column instance_type).

(** The body of [for it in r["instanceTypes"]]. *)
Definition ondemand_instance (it : json) : result (list ondemand_offering) :=
  if_in_for it "sizes" ondemand_size.

Definition ondemand_feed (urlopen : string -> result string)
    (result_regions : list (RegionPricing ondemand_offering)) (u : string)
  : result (list (RegionPricing ondemand_offering)) :=
  data ← load_data urlopen u;
  rs ← config_regions data;
  foldM (ondemand_region keep_region "instanceTypes" ondemand_instance)
        rs result_regions.

Definition get_ondemand_instances_prices (urlopen : string -> result string)
  : result (document ondemand_offering) :=
  result_regions ← foldM (ondemand_feed urlopen) ondemand_urls [];
  Ok {| config_currency := DEFAULT_CURRENCY; config_unit := Some "perhr";
        regions := result_regions |}.

(** *** [save_csv("ondemand")]: the rows handed to [writer.writerow],
    the header first. *)
Definition ondemand_csv_rows (data : document ondemand_offering)
  : list (list json) :=
  [JStr "region"; JStr "type"; JStr "os"; JStr "price"] ::
  flat_map (fun r =>
    let region_name := region r in
    map (fun it =>
           [region_name; od_type it; od_os it;
            none_as_string (price_value (od_price it))])
        (instanceTypes r))
    (regions data).


(** *** [save_csv("reserved")] *)
Definition reserved_csv_rows (data : document reserved_offering)
  : list (list json) :=
  [JStr "region"; JStr "type"; JStr "os"; JStr "term"; JStr "payment_type";
   JStr "price"; JStr "upfront"] ::
  option_rows ri_prices
    (fun region_name it term po c =>
       [region_name; ri_type it; JStr (ri_os it); JStr term; JStr po;
        hourly_cell c; upfront_cell c])
    data.

(** *** [save_csv]: the file name and the rows written, [None] when [u]
    is neither ["ondemand"] nor ["reserved"] (a message is printed and
    nothing else happens). The prices are fetched before the file is
    opened. *)
Definition save_csv (urlopen : string -> result string) (u : string)
    (name : option string) : result (option (string * list (list json))) :=
  if negb (bool_decide (u ∈ ["ondemand"; "reserved"])) then Ok None
  else if String.eqb u "ondemand" then
    data ← get_ondemand_instances_prices urlopen;
    Ok (Some (file_name "EC2_ondemand_pricing.csv" name, ondemand_csv_rows data))
  else
    data ← get_reserved_instances_prices urlopen;
    Ok (Some (file_name "EC2_reserved_pricing.csv" name, reserved_csv_rows data)).

(** *** [print_table]

    The table is built by the library [prettytable]; the model keeps the
    rows the method hands to [x.add_row], in order. The field names and
    the alignment are set through whichever interface the installed
    library has, and the rendering is the library's. *)
Definition ondemand_table_rows (data : document ondemand_offering)
  : list (list json) :=
  offering_rows
    (fun region_name it =>
       [region_name; od_type it; od_os it;
        none_as_string (price_value (od_price it))])
    data.

Definition reserved_table_rows (data : document reserved_offering)
  : list (list json) :=
  option_rows ri_prices
    (fun region_name it term po c =>
       [region_name; ri_type it; JStr (ri_os it); JStr term; JStr po;
        hourly_cell c; upfront_cell c])
    data.

(** [None] when [u] is neither ["ondemand"] nor ["reserved"]: a message is
    printed and no table is built. *)
Definition print_table (urlopen : string -> result string) (u : string)
  : result (option (list (list json))) :=
  if negb (bool_decide (u ∈ ["ondemand"; "reserved"])) then Ok None
  else if String.eqb u "ondemand" then
    data ← get_ondemand_instances_prices urlopen;
    Ok (Some (ondemand_table_rows data))
  else
    data ← get_reserved_instances_prices urlopen;
    Ok (Some (reserved_table_rows data)).

End EC2Prices.

(** ** [ELCPrices] *)

Module ELCPrices.
Import AWSPrices.

Definition INSTANCES_ON_DEMAND_URL : string :=
  "http://a0.awsstatic.com/pricing/1/elasticache/pricing-standard-deployments-elasticache.min.js".
Definition PG_INSTANCES_ON_DEMAND_URL : string :=
  "http://a0.awsstatic.com/pricing/1/elasticache/previous-generation/pricing-standard-deployments-elasticache.min.js".
Definition INSTANCES_RESERVED_LIGHT_UTILIZATION_URL : string :=
  "http://a0.awsstatic.com/pricing/1/elasticache/pricing-elasticache-light-standard-deployments-elasticache.min.js".
Definition INSTANCES_RESERVED_MEDIUM_UTILIZATION_URL : string :=
  "http://a0.awsstatic.com/pricing/1/elasticache/pricing-elasticache-medium-standard-deployments.min.js".
Definition INSTANCES_RESERVED_HEAVY_UTILIZATION_URL : string :=
  "http://a0.awsstatic.com/pricing/1/elasticache/pricing-elasticache-heavy-standard-deployments.min.js".
Definition PG_INSTANCES_RESERVED_LIGHT_UTILIZATION_URL : string :=
  "http://a0.awsstatic.com/pricing/1/elasticache/previous-generation/pricing-elasticache-light-standard-deployments.min.js".
Definition PG_INSTANCES_RESERVED_MEDIUM_UTILIZATION_URL : string :=
  "http://a0.awsstatic.com/pricing/1/elasticache/previous-generation/pricing-elasticache-medium-standard-deployments.min.js".
Definition PG_INSTANCES_RESERVED_HEAVY_UTILIZATION_URL : string :=
  "http://a0.awsstatic.com/pricing/1/elasticache/previous-generation/pricing-elasticache-heavy-standard-deployments.min.js".

Definition INSTANCES_RESERVED_UTILIZATION_TYPE_BY_URL : gmap string string := py_dict
  [ (INSTANCES_RESERVED_LIGHT_UTILIZATION_URL, "light");
    (INSTANCES_RESERVED_MEDIUM_UTILIZATION_URL, "medium");
    (INSTANCES_RESERVED_HEAVY_UTILIZATION_URL, "heavy");
    (PG_INSTANCES_RESERVED_LIGHT_UTILIZATION_URL, "light");
    (PG_INSTANCES_RESERVED_MEDIUM_UTILIZATION_URL, "medium");
    (PG_INSTANCES_RESERVED_HEAVY_UTILIZATION_URL, "heavy") ].

Definition INSTANCE_TYPE_MAPPING : gmap string string := py_dict
  [ ("microInstClass.microInst", "cache.t1.micro");
    ("sCacheNode.sm", "cache.m1.small");
    ("sCacheNode.medInst", "cache.m1.medium");
    ("sCacheNode.lg", "cache.m1.large");
    ("sCacheNode.xl", "cache.m1.xlarge");
    ("hiMemCacheClass.xl", "cache.m2.xlarge");
    ("hiMemCacheClass.xxl", "cache.m2.2xlarge");
    ("hiMemCacheClass.xxxxl", "cache.m2.4xlarge");
    ("hiCPUDBInstClass.hiCPUxlDBInst", "cache.c1.xlarge");
    ("enInstClass2.xl", "cache.m3.xlarge");
    ("enInstClass2.xxl", "cache.m3.2xlarge");
    ("mic", "cache.t1.micro");
    ("sm", "cache.m1.small");
    ("medInst", "cache.m1.medium");
    ("lg", "cache.m1.large");
    ("xl", "cache.m1.xlarge");
    ("xlHiMem", "cache.m2.xlarge");
    ("xxlHiMem", "cache.m2.2xlarge");
    ("xxxxlHiMem", "cache.m2.4xlarge");
    ("xlHiCPU", "cache.c1.xlarge");
    ("xlEn", "cache.m3.xlarge");
    ("xxlEn", "cache.m3.2xlarge") ].

(** [{"type": ..., "utilization": ..., "prices": ...}] *)
Record reserved_offering := {
  ri_type : json;
  ri_utilization : string;
  ri_prices : old_prices
}.

(** [{"type": ..., "price": ...}] *)
Record ondemand_offering := {
  od_type : json;
  od_price : option spec_float
}.

(** *** [get_reserved_instances_prices] *)

Definition reserved_urls : list string :=
  [ INSTANCES_RESERVED_LIGHT_UTILIZATION_URL;
    INSTANCES_RESERVED_MEDIUM_UTILIZATION_URL;
    INSTANCES_RESERVED_HEAVY_UTILIZATION_URL;
    PG_INSTANCES_RESERVED_LIGHT_UTILIZATION_URL;
    PG_INSTANCES_RESERVED_MEDIUM_UTILIZATION_URL;
    PG_INSTANCES_RESERVED_HEAVY_UTILIZATION_URL ].

(** The body of [for price_data in s["valueColumns"]]. *)
Definition reserved_column (prices : old_prices) (price_data : json)
  : result old_prices :=
  price ← parse_price price_data;
  name ← py_getitem price_data "name";
  if py_eq_str name "yrTerm1" then set_term prices "1" (with_upfront price)
  else if py_eq_str name "yearTerm1Hourly" then set_term prices "1" (with_hourly price)
  else if py_eq_str name "yrTerm3" then set_term prices "3" (with_upfront price)
  else if py_eq_str name "yearTerm3Hourly" then set_term prices "3" (with_hourly price)
  else Ok prices.

(** The body of [for s in it["tiers"]]. *)
Definition reserved_tier (u utilization_type : string) (s : json)
  : result (list reserved_offering) :=
  _type ←
    (if String.eqb u INSTANCES_RESERVED_LIGHT_UTILIZATION_URL ||
        String.eqb u INSTANCES_RESERVED_MEDIUM_UTILIZATION_URL
     then
       size ← py_getitem s "size";
       t ← table_getitem INSTANCE_TYPE_MAPPING size;
       Ok (JStr t)
     else py_getitem s "size");
  v ← py_getitem s "valueColumns";
  cols ← py_iter v;
  prices ← foldM reserved_column cols initial_old_prices;
  Ok [{| ri_type := _type; ri_utilization := utilization_type;
         ri_prices := prices |}].

(** The body of [for it in r["instanceTypes"]]. *)
Definition reserved_instance (u utilization_type : string) (it : json)
  : result (list reserved_offering) :=
  if_in_for it "tiers" (reserved_tier u utilization_type).

Definition reserved_feed (urlopen : string -> result string)
    (st : reserved_state reserved_offering) (u : string)
  : result (reserved_state reserved_offering) :=
  utilization_type ←
    table_getitem INSTANCES_RESERVED_UTILIZATION_TYPE_BY_URL (JStr u);
  data ← load_data urlopen u;
  rs ← config_regions data;
  foldM (reserved_region resolve_region (reserved_instance u utilization_type))
        rs st.

Definition get_reserved_instances_prices (urlopen : string -> result string)
  : result (document reserved_offering) :=
  st ← foldM (reserved_feed urlopen) reserved_urls empty_state;
  Ok {| config_currency := DEFAULT_CURRENCY; config_unit := None;
        regions := result_regions st |}.

(** *** [get_ondemand_instances_prices] *)

Definition ondemand_urls : list string :=
  [ INSTANCES_ON_DEMAND_URL;
    PG_INSTANCES_ON_DEMAND_URL ].

(** The body of [for s in it["tiers"]]. *)
Definition ondemand_tier (s : json) : result (list ondemand_offering) :=
  _type ← py_getitem s "name";
  price ← parse_price s;
  Ok [{| od_type := _type; od_price := price |}].

(** The body of [for it in r["types"]]. *)
Definition ondemand_type (it : json) : result (list ondemand_offering) :=
  if_in_for it "tiers" ondemand_tier.

Definition ondemand_feed (urlopen : string -> result string)
    (result_regions : list (RegionPricing ondemand_offering)) (u : string)
  : result (list (RegionPricing ondemand_offering)) :=
  data ← load_data urlopen u;
  rs ← config_regions data;
  foldM (ondemand_region resolve_region "types" ondemand_type)
        rs result_regions.

Definition get_ondemand_instances_prices (urlopen : string -> result string)
  : result (document ondemand_offering) :=
  result_regions ← foldM (ondemand_feed urlopen) ondemand_urls [];
  Ok {| config_currency := DEFAULT_CURRENCY; config_unit := Some "perhr";
        regions := result_regions |}.


(** *** [save_csv] *)
Definition ondemand_csv_rows (data : document ondemand_offering)
  : list (list json) :=
  [JStr "region"; JStr "type"; JStr "price"] ::
  offering_rows
    (fun region_name it =>
       [region_name; od_type it; none_as_string (price_value (od_price it))])
    data.

Definition reserved_csv_rows (data : document reserved_offering)
  : list (list json) :=
  [JStr "region"; JStr "type"; JStr "utilization"; JStr "term"; JStr "price";
   JStr "upfront"] ::
  term_rows ri_prices
    (fun region_name it term c =>
       [region_name; ri_type it; JStr (ri_utilization it); JStr term;
        hourly_cell c; upfront_cell c])
    data.

Definition save_csv (urlopen : string -> result string) (u : string)
    (name : option string) : result (option (string * list (list json))) :=
  if negb (bool_decide (u ∈ ["ondemand"; "reserved"])) then Ok None
  else if String.eqb u "ondemand" then
    data ← get_ondemand_instances_prices urlopen;
    Ok (Some (file_name "ELC_ondemand_pricing.csv" name, ondemand_csv_rows data))
  else
    data ← get_reserved_instances_prices urlopen;
    Ok (Some (file_name "ELC_reserved_pricing.csv" name, reserved_csv_rows data)).

(** *** [print_table]: the rows handed to [x.add_row]. *)
Definition ondemand_table_rows (data : document ondemand_offering)
  : list (list json) :=
  offering_rows
    (fun region_name it =>
       [region_name; od_type it; none_as_string (price_value (od_price it))])
    data.

Definition reserved_table_rows (data : document reserved_offering)
  : list (list json) :=
  term_rows ri_prices
    (fun region_name it term c =>
       [region_name; ri_type it; JStr (ri_utilization it); JStr term;
        hourly_cell c; upfront_cell c])
    data.

Definition print_table (urlopen : string -> result string) (u : string)
  : result (option (list (list json))) :=
  if negb (bool_decide (u ∈ ["ondemand"; "reserved"])) then Ok None
  else if String.eqb u "ondemand" then
    data ← get_ondemand_instances_prices urlopen;
    Ok (Some (ondemand_table_rows data))
  else
    data ← get_reserved_instances_prices urlopen;
    Ok (Some (reserved_table_rows data)).

End ELCPrices.

(** ** [RDSPrices] *)

Module RDSPrices.
Import AWSPrices.

Definition RDS_MYSQL_ON_DEMAND_URL : string :=
  "http://a0.awsstatic.com/pricing/1/rds/mysql/pricing-standard-deployments.min.js".
Definition RDS_MYSQL_MULTIAZ_ON_DEMAND_URL : string :=
  "http://a0.awsstatic.com/pricing/1/rds/mysql/pricing-multiAZ-deployments.min.js".
Definition RDS_ORACLE_LICENSED_ON_DEMAND_URL : string :=
  "http://a0.awsstatic.com/pricing/1/rds/oracle/pricing-li-standard-deployments.min.js".
Definition RDS_ORACLE_LICENSED_MULTIAZ_ON_DEMAND_URL : string :=
  "http://a0.awsstatic.com/pricing/1/rds/oracle/pricing-li-multiAZ-deployments.min.js".
Definition RDS_ORACLE_BYOL_ON_DEMAND_URL : string :=
  "http://a0.awsstatic.com/pricing/1/rds/oracle/pricing-byol-standard-deployments.min.js".
Definition RDS_ORACLE_BYOL_MULTIAZ_ON_DEMAND_URL : string :=
  "http://a0.awsstatic.com/pricing/1/rds/oracle/pricing-byol-multiAZ-deployments.min.js".
Definition RDS_MSSQL_LICENSED_EXPRESS_ON_DEMAND_URL : string :=
  "http://a0.awsstatic.com/pricing/1/rds/sqlserver/sqlserver-li-ex-ondemand.min.js".
Definition RDS_MSSQL_LICENSED_WEB_ON_DEMAND_URL : string :=
  "http://a0.awsstatic.com/pricing/1/rds/sqlserver/sqlserver-li-web-ondemand.min.js".
Definition RDS_MSSQL_LICENSED_STANDARD_ON_DEMAND_URL : string :=
  "http://a0.awsstatic.com/pricing/1/rds/sqlserver/sqlserver-li-se-ondemand.min.js".
Definition RDS_MSSQL_LICENSED_STANDARD_MULTIAZ_ON_DEMAND_URL : string :=
  "http://a0.awsstatic.com/pricing/1/rds/sqlserver/sqlserver-li-se-ondemand-maz.min.js".
Definition RDS_MSSQL_BYOL_ON_DEMAND_URL : string :=
  "http://a0.awsstatic.com/pricing/1/rds/sqlserver/sqlserver-byol-ondemand.min.js".
Definition RDS_MSSQL_BYOL_MULTIAZ_ON_DEMAND_URL : string :=
  "http://a0.awsstatic.com/pricing/1/rds/sqlserver/sqlserver-byol-ondemand-maz.min.js".
Definition RDS_POSTGRESQL_ON_DEMAND_URL : string :=
  "http://a0.awsstatic.com/pricing/1/rds/postgresql/pricing-standard-deployments.min.js".
Definition RDS_POSTGRESQL_MULTIAZ_ON_DEMAND_URL : string :=
  "http://a0.awsstatic.com/pricing/1/rds/postgresql/pricing-multiAZ-deployments.min.js".
Definition PG_RDS_MYSQL_ON_DEMAND_URL : string :=
  "http://a0.awsstatic.com/pricing/1/rds/mysql/previous-generation/pricing-standard-deployments.min.js".
Definition PG_RDS_MYSQL_MULTIAZ_ON_DEMAND_URL : string :=
  "http://a0.awsstatic.com/pricing/1/rds/mysql/previous-generation/pricing-multiAZ-deployments.min.js".
Definition PG_RDS_ORACLE_LICENSED_ON_DEMAND_URL : string :=
  "http://a0.awsstatic.com/pricing/1/rds/oracle/previous-generation/pricing-li-standard-deployments.min.js".
Definition PG_RDS_ORACLE_LICENSED_MULTIAZ_ON_DEMAND_URL : string :=
  "http://a0.awsstatic.com/pricing/1/rds/oracle/previous-generation/pricing-li-multiAZ-deployments.min.js".
Definition PG_RDS_ORACLE_BYOL_ON_DEMAND_URL : string :=
  "http://a0.awsstatic.com/pricing/1/rds/oracle/previous-generation/pricing-byol-standard-deployments.min.js".
Definition PG_RDS_ORACLE_BYOL_MULTIAZ_ON_DEMAND_URL : string :=
  "http://a0.awsstatic.com/pricing/1/rds/oracle/previous-generation/pricing-byol-multiAZ-deployments.min.js".
Definition PG_RDS_MSSQL_LICENSED_EXPRESS_ON_DEMAND_URL : string :=
  "http://a0.awsstatic.com/pricing/1/rds/sqlserver/previous-generation/sqlserver-li-ex-ondemand.min.js".
Definition PG_RDS_MSSQL_LICENSED_WEB_ON_DEMAND_URL : string :=
  "http://a0.awsstatic.com/pricing/1/rds/sqlserver/previous-generation/sqlserver-li-web-ondemand.min.js".
Definition PG_RDS_MSSQL_LICENSED_STANDARD_ON_DEMAND_URL : string :=
  "http://a0.awsstatic.com/pricing/1/rds/sqlserver/previous-generation/sqlserver-li-se-ondemand.min.js".
Definition PG_RDS_MSSQL_LICENSED_STANDARD_MULTIAZ_ON_DEMAND_URL : string :=
  "http://a0.awsstatic.com/pricing/1/rds/sqlserver/previous-generation/sqlserver-li-se-ondemand-maz.min.js".
Definition PG_RDS_MSSQL_BYOL_ON_DEMAND_URL : string :=
  "http://a0.awsstatic.com/pricing/1/rds/sqlserver/previous-generation/sqlserver-byol-ondemand.min.js".
Definition PG_RDS_MSSQL_BYOL_MULTIAZ_ON_DEMAND_URL : string :=
  "http://a0.awsstatic.com/pricing/1/rds/sqlserver/previous-generation/sqlserver-byol-ondemand-maz.min.js".
Definition PG_RDS_POSTGRESQL_ON_DEMAND_URL : string :=
  "http://a0.awsstatic.com/pricing/1/rds/postgresql/previous-generation/pricing-standard-deployments.min.js".
Definition PG_RDS_POSTGRESQL_MULTIAZ_ON_DEMAND_URL : string :=
  "http://a0.awsstatic.com/pricing/1/rds/postgresql/previous-generation/pricing-multiAZ-deployments.min.js".
Definition RDS_MYSQL_RESERVED_URL : string :=
  "http://a0.awsstatic.com/pricing/1/rds/reserved-instances/mysql-standard.min.js".
Definition RDS_MYSQL_MULTIAZ_RESERVED_URL : string :=
  "http://a0.awsstatic.com/pricing/1/rds/reserved-instances/mysql-multiAZ.min.js".
Definition RDS_ORACLE_LICENSED_RESERVED_URL : string :=
  "http://a0.awsstatic.com/pricing/1/rds/reserved-instances/oracle-se1-license-included-standard.min.js".
Definition RDS_ORACLE_LICENSED_MULTIAZ_RESERVED_URL : string :=
  "http://a0.awsstatic.com/pricing/1/rds/reserved-instances/oracle-se1-license-included-multiAZ.min.js".
Definition RDS_ORACLE_BYOL_RESERVED_URL : string :=
  "http://a0.awsstatic.com/pricing/1/rds/reserved-instances/oracle-se-byol-standard.min.js".
Definition RDS_ORACLE_BYOL_MULTIAZ_RESERVED_URL : string :=
  "http://a0.awsstatic.com/pricing/1/rds/reserved-instances/oracle-se-byol-multiAZ.min.js".
Definition RDS_MSSQL_LICENSED_EX_RESERVED_LIGHT_URL : string :=
  "http://a0.awsstatic.com/pricing/1/rds/sqlserver/sqlserver-li-ex-light-ri.min.js".
Definition RDS_MSSQL_LICENSED_EX_RESERVED_MEDIUM_URL : string :=
  "http://a0.awsstatic.com/pricing/1/rds/sqlserver/sqlserver-li-ex-medium-ri.min.js".
Definition RDS_MSSQL_LICENSED_EX_RESERVED_HEAVY_URL : string :=
  "http://a0.awsstatic.com/pricing/1/rds/sqlserver/sqlserver-li-ex-heavy-ri.min.js".
Definition RDS_MSSQL_LICENSED_WEB_RESERVED_LIGHT_URL : string :=
  "http://a0.awsstatic.com/pricing/1/rds/sqlserver/sqlserver-li-web-light-ri.min.js".
Definition RDS_MSSQL_LICENSED_WEB_RESERVED_MEDIUM_URL : string :=
  "http://a0.awsstatic.com/pricing/1/rds/sqlserver/sqlserver-li-web-medium-ri.min.js".
Definition RDS_MSSQL_LICENSED_WEB_RESERVED_HEAVY_URL : string :=
  "http://a0.awsstatic.com/pricing/1/rds/sqlserver/sqlserver-li-web-heavy-ri.min.js".
Definition RDS_MSSQL_LICENSED_STANDARD_RESERVED_LIGHT_URL : string :=
  "http://a0.awsstatic.com/pricing/1/rds/sqlserver/sqlserver-li-se-light-ri.min.js".
Definition RDS_MSSQL_LICENSED_STANDARD_RESERVED_MEDIUM_URL : string :=
  "http://a0.awsstatic.com/pricing/1/rds/sqlserver/sqlserver-li-se-medium-ri.min.js".
Definition RDS_MSSQL_LICENSED_STANDARD_RESERVED_HEAVY_URL : string :=
  "http://a0.awsstatic.com/pricing/1/rds/sqlserver/sqlserver-li-se-heavy-ri.min.js".
Definition RDS_MSSQL_BYOL_RESERVED_URL : string :=
  "http://a0.awsstatic.com/pricing/1/rds/reserved-instances/sql-server-se-byol-standard.min.js".
Definition RDS_MSSQL_BYOL_MULTIAZ_RESERVED_URL : string :=
  "http://a0.awsstatic.com/pricing/1/rds/reserved-instances/sql-server-se-byol-multiAZ.min.js".
Definition RDS_POSTGRESQL_RESERVED_URL : string :=
  "http://a0.awsstatic.com/pricing/1/rds/reserved-instances/postgresql-standard.min.js".
Definition RDS_POSTGRESQL_MULTIAZ_RESERVED_URL : string :=
  "http://a0.awsstatic.com/pricing/1/rds/reserved-instances/postgresql-multiAZ.min.js".
Definition PG_RDS_MYSQL_RESERVED_URL : string :=
  "http://a0.awsstatic.com/pricing/1/rds/previous-generation/reserved-instances/mysql-standard.min.js".
Definition PG_RDS_MYSQL_MULTIAZ_RESERVED_URL : string :=
  "http://a0.awsstatic.com/pricing/1/rds/previous-generation/reserved-instances/mysql-multiAZ.min.js".
Definition PG_RDS_ORACLE_LICENSED_RESERVED_URL : string :=
  "http://a0.awsstatic.com/pricing/1/rds/previous-generation/reserved-instances/oracle-se1-license-included-standard.min.js".
Definition PG_RDS_ORACLE_LICENSED_MULTIAZ_RESERVED_URL : string :=
  "http://a0.awsstatic.com/pricing/1/rds/previous-generation/reserved-instances/oracle-se1-license-included-multiAZ.min.js".
Definition PG_RDS_ORACLE_BYOL_RESERVED_URL : string :=
  "http://a0.awsstatic.com/pricing/1/rds/previous-generation/reserved-instances/oracle-se-byol-standard.min.js".
Definition PG_RDS_ORACLE_BYOL_MULTIAZ_RESERVED_URL : string :=
  "http://a0.awsstatic.com/pricing/1/rds/previous-generation/reserved-instances/oracle-se-byol-multiAZ.min.js".
Definition PG_RDS_MSSQL_LICENSED_EX_RESERVED_LIGHT_URL : string :=
  "http://a0.awsstatic.com/pricing/1/rds/sqlserver/previous-generation/sqlserver-li-ex-light-ri.min.js".
Definition PG_RDS_MSSQL_LICENSED_EX_RESERVED_MEDIUM_URL : string :=
  "http://a0.awsstatic.com/pricing/1/rds/sqlserver/previous-generation/sqlserver-li-ex-medium-ri.min.js".
Definition PG_RDS_MSSQL_LICENSED_EX_RESERVED_HEAVY_URL : string :=
  "http://a0.awsstatic.com/pricing/1/rds/sqlserver/previous-generation/sqlserver-li-ex-heavy-ri.min.js".
Definition PG_RDS_MSSQL_LICENSED_WEB_RESERVED_LIGHT_URL : string :=
  "http://a0.awsstatic.com/pricing/1/rds/sqlserver/previous-generation/sqlserver-li-web-light-ri.min.js".
Definition PG_RDS_MSSQL_LICENSED_WEB_RESERVED_MEDIUM_URL : string :=
  "http://a0.awsstatic.com/pricing/1/rds/sqlserver/previous-generation/sqlserver-li-web-medium-ri.min.js".
Definition PG_RDS_MSSQL_LICENSED_WEB_RESERVED_HEAVY_URL : string :=
  "http://a0.awsstatic.com/pricing/1/rds/sqlserver/previous-generation/sqlserver-li-web-heavy-ri.min.js".
Definition PG_RDS_MSSQL_LICENSED_STANDARD_RESERVED_LIGHT_URL : string :=
  "http://a0.awsstatic.com/pricing/1/rds/sqlserver/previous-generation/sqlserver-li-se-light-ri.min.js".
Definition PG_RDS_MSSQL_LICENSED_STANDARD_RESERVED_MEDIUM_URL : string :=
  "http://a0.awsstatic.com/pricing/1/rds/sqlserver/previous-generation/sqlserver-li-se-medium-ri.min.js".
Definition PG_RDS_MSSQL_LICENSED_STANDARD_RESERVED_HEAVY_URL : string :=
  "http://a0.awsstatic.com/pricing/1/rds/sqlserver/previous-generation/sqlserver-li-se-heavy-ri.min.js".
Definition PG_RDS_MSSQL_BYOL_RESERVED_URL : string :=
  "http://a0.awsstatic.com/pricing/1/rds/previous-generation/reserved-instances/sql-server-se-byol-standard.min.js".
Definition PG_RDS_MSSQL_BYOL_MULTIAZ_RESERVED_URL : string :=
  "http://a0.awsstatic.com/pricing/1/rds/previous-generation/reserved-instances/sql-server-se-byol-multiAZ.min.js".
Definition PG_RDS_POSTGRESQL_RESERVED_URL : string :=
  "http://a0.awsstatic.com/pricing/1/rds/previous-generation/reserved-instances/postgresql-standard.min.js".
Definition PG_RDS_POSTGRESQL_MULTIAZ_RESERVED_URL : string :=
  "http://a0.awsstatic.com/pricing/1/rds/previous-generation/reserved-instances/postgresql-multiAZ.min.js".

Definition RDS_MULTIAZ_MAPPING : gmap string string := py_dict
  [ ("Micro and Small Instances - Current Generation - Single-AZ", "single");
    ("Standard Instances - Current Generation - Single-AZ", "single");
    ("Micro and Small Instances - Current Generation - Multi-AZ", "multi-az");
    ("Standard Instances - Current Generation - Multi-AZ", "multi-az");
    ("Memory Optimized Instances - Current Generation - Single-AZ", "single");
    ("Memory Optimized Instances - Current Generation - Multi-AZ", "multi-az");
    ("Micro Instances - Previous Generation - Single-AZ", "single");
    ("Micro Instances - Previous Generation - Multi-AZ", "multi-az");
    ("Standard Instances - Previous Generation - Single-AZ", "single");
    ("Standard Instances - Previous Generation - Multi-AZ", "multi-az");
    ("Micro and Small Instances - Previous Generation - Single-AZ", "single");
    ("Standard Instances - Previous Generation - Single-AZ", "single");
    ("Micro and Small Instances - Previous Generation - Multi-AZ", "multi-az");
    ("Standard Instances - Previous Generation - Multi-AZ", "multi-az");
    ("Memory Optimized Instances - Previous Generation - Single-AZ", "single");
    ("Memory Optimized Instances - Previous Generation - Multi-AZ", "multi-az");
    ("Micro Instances - Previous Generation - Single-AZ", "single");
    ("Micro Instances - Previous Generation - Multi-AZ", "multi-az");
    ("Standard Instances - Previous Generation - Single-AZ", "single");
    ("Standard Instances - Previous Generation - Multi-AZ", "multi-az") ].

Definition RDS_ONDEMAND_TYPE_BY_URL : gmap string (string * string) := py_dict
  [ (RDS_MYSQL_ON_DEMAND_URL, ("gpl", "mysql"));
    (RDS_ORACLE_LICENSED_ON_DEMAND_URL, ("included", "oracle-se1"));
    (RDS_ORACLE_BYOL_ON_DEMAND_URL, ("byol", "oracle"));
    (RDS_MSSQL_LICENSED_EXPRESS_ON_DEMAND_URL, ("included", "sqlserver-ex"));
    (RDS_MSSQL_LICENSED_WEB_ON_DEMAND_URL, ("included", "sqlserver-web"));
    (RDS_MSSQL_LICENSED_STANDARD_ON_DEMAND_URL, ("included", "sqlserver-se"));
    (RDS_MSSQL_BYOL_ON_DEMAND_URL, ("byol", "sqlserver"));
    (RDS_POSTGRESQL_ON_DEMAND_URL, ("postgresql", "postgres"));
    (PG_RDS_MYSQL_ON_DEMAND_URL, ("gpl", "mysql"));
    (PG_RDS_ORACLE_LICENSED_ON_DEMAND_URL, ("included", "oracle-se1"));
    (PG_RDS_ORACLE_BYOL_ON_DEMAND_URL, ("byol", "oracle"));
    (PG_RDS_MSSQL_LICENSED_EXPRESS_ON_DEMAND_URL, ("included", "sqlserver-ex"));
    (PG_RDS_MSSQL_LICENSED_WEB_ON_DEMAND_URL, ("included", "sqlserver-web"));
    (PG_RDS_MSSQL_LICENSED_STANDARD_ON_DEMAND_URL, ("included", "sqlserver-se"));
    (PG_RDS_MSSQL_BYOL_ON_DEMAND_URL, ("byol", "sqlserver"));
    (PG_RDS_POSTGRESQL_ON_DEMAND_URL, ("postgresql", "postgres")) ].

Definition RDS_ONDEMAND_MULTIAZ_TYPE_BY_URL : gmap string (string * string) := py_dict
  [ (RDS_MYSQL_MULTIAZ_ON_DEMAND_URL, ("gpl", "mysql"));
    (RDS_ORACLE_LICENSED_MULTIAZ_ON_DEMAND_URL, ("included", "oracle-se1"));
    (RDS_ORACLE_BYOL_MULTIAZ_ON_DEMAND_URL, ("byol", "oracle"));
    (RDS_MSSQL_LICENSED_STANDARD_MULTIAZ_ON_DEMAND_URL, ("included", "sqlserver-se"));
    (RDS_MSSQL_BYOL_MULTIAZ_ON_DEMAND_URL, ("byol", "sqlserver"));
    (RDS_POSTGRESQL_MULTIAZ_ON_DEMAND_URL, ("postgresql", "postgres"));
    (PG_RDS_MYSQL_MULTIAZ_ON_DEMAND_URL, ("gpl", "mysql"));
    (PG_RDS_ORACLE_LICENSED_MULTIAZ_ON_DEMAND_URL, ("included", "oracle-se1"));
    (PG_RDS_ORACLE_BYOL_MULTIAZ_ON_DEMAND_URL, ("byol", "oracle"));
    (PG_RDS_MSSQL_LICENSED_STANDARD_MULTIAZ_ON_DEMAND_URL, ("included", "sqlserver-se"));
    (PG_RDS_MSSQL_BYOL_MULTIAZ_ON_DEMAND_URL, ("byol", "sqlserver"));
    (PG_RDS_POSTGRESQL_MULTIAZ_ON_DEMAND_URL, ("postgresql", "postgres")) ].

Definition RDS_RESERVED_TYPE_BY_URL_NEW : gmap string (string * string) := py_dict
  [ (RDS_MYSQL_RESERVED_URL, ("gpl", "mysql"));
    (RDS_ORACLE_LICENSED_RESERVED_URL, ("included", "oracle-se1"));
    (RDS_ORACLE_BYOL_RESERVED_URL, ("byol", "oracle"));
    (RDS_MSSQL_BYOL_RESERVED_URL, ("byol", "sqlserver"));
    (RDS_POSTGRESQL_RESERVED_URL, ("postgresql", "postgres"));
    (PG_RDS_MYSQL_RESERVED_URL, ("gpl", "mysql"));
    (PG_RDS_ORACLE_LICENSED_RESERVED_URL, ("included", "oracle-se1"));
    (PG_RDS_ORACLE_BYOL_RESERVED_URL, ("byol", "oracle"));
    (PG_RDS_MSSQL_BYOL_RESERVED_URL, ("byol", "sqlserver"));
    (PG_RDS_POSTGRESQL_RESERVED_URL, ("postgresql", "postgres")) ].

Definition RDS_RESERVED_MULTIAZ_TYPE_BY_URL_NEW : gmap string (string * string) := py_dict
  [ (RDS_MYSQL_MULTIAZ_RESERVED_URL, ("gpl", "mysql"));
    (RDS_ORACLE_LICENSED_MULTIAZ_RESERVED_URL, ("included", "oracle-se1"));
    (RDS_ORACLE_BYOL_MULTIAZ_RESERVED_URL, ("byol", "oracle"));
    (RDS_MSSQL_BYOL_MULTIAZ_RESERVED_URL, ("byol", "sqlserver"));
    (RDS_POSTGRESQL_MULTIAZ_RESERVED_URL, ("postgresql", "postgres"));
    (PG_RDS_MYSQL_MULTIAZ_RESERVED_URL, ("gpl", "mysql"));
    (PG_RDS_ORACLE_LICENSED_MULTIAZ_RESERVED_URL, ("included", "oracle-se1"));
    (PG_RDS_ORACLE_BYOL_MULTIAZ_RESERVED_URL, ("byol", "oracle"));
    (PG_RDS_MSSQL_BYOL_MULTIAZ_RESERVED_URL, ("byol", "sqlserver"));
    (PG_RDS_POSTGRESQL_MULTIAZ_RESERVED_URL, ("postgresql", "postgres")) ].

Definition RDS_RESERVED_TYPE_BY_URL_OLD : gmap string (string * string * string) := py_dict
  [ (RDS_MSSQL_LICENSED_EX_RESERVED_LIGHT_URL, ("included", "sqlserver-ex", "light"));
    (RDS_MSSQL_LICENSED_EX_RESERVED_MEDIUM_URL, ("included", "sqlserver-ex", "medium"));
    (RDS_MSSQL_LICENSED_EX_RESERVED_HEAVY_URL, ("included", "sqlserver-ex", "heavy"));
    (RDS_MSSQL_LICENSED_WEB_RESERVED_LIGHT_URL, ("included", "sqlserver-web", "light"));
    (RDS_MSSQL_LICENSED_WEB_RESERVED_MEDIUM_URL, ("included", "sqlserver-web", "medium"));
    (RDS_MSSQL_LICENSED_WEB_RESERVED_HEAVY_URL, ("included", "sqlserver-web", "heavy"));
    (RDS_MSSQL_LICENSED_STANDARD_RESERVED_LIGHT_URL, ("included", "sqlserver-se", "light"));
    (RDS_MSSQL_LICENSED_STANDARD_RESERVED_MEDIUM_URL, ("included", "sqlserver-se", "medium"));
    (RDS_MSSQL_LICENSED_STANDARD_RESERVED_HEAVY_URL, ("included", "sqlserver-se", "heavy"));
    (PG_RDS_MSSQL_LICENSED_EX_RESERVED_LIGHT_URL, ("included", "sqlserver-ex", "light"));
    (PG_RDS_MSSQL_LICENSED_EX_RESERVED_MEDIUM_URL, ("included", "sqlserver-ex", "medium"));
    (PG_RDS_MSSQL_LICENSED_EX_RESERVED_HEAVY_URL, ("included", "sqlserver-ex", "heavy"));
    (PG_RDS_MSSQL_LICENSED_WEB_RESERVED_LIGHT_URL, ("included", "sqlserver-web", "light"));
    (PG_RDS_MSSQL_LICENSED_WEB_RESERVED_MEDIUM_URL, ("included", "sqlserver-web", "medium"));
    (PG_RDS_MSSQL_LICENSED_WEB_RESERVED_HEAVY_URL, ("included", "sqlserver-web", "heavy"));
    (PG_RDS_MSSQL_LICENSED_STANDARD_RESERVED_LIGHT_URL, ("included", "sqlserver-se", "light"));
    (PG_RDS_MSSQL_LICENSED_STANDARD_RESERVED_MEDIUM_URL, ("included", "sqlserver-se", "medium"));
    (PG_RDS_MSSQL_LICENSED_STANDARD_RESERVED_HEAVY_URL, ("included", "sqlserver-se", "heavy")) ].

Definition INSTANCE_TYPE_MAPPING : gmap string string := py_dict
  [ ("udbInstClass.uDBInst", "db.t1.micro");
    ("dbInstClass.uDBInst", "db.t1.micro");
    ("dbInstClass.db.t1.micro", "db.t1.micro");
    ("dbInstClass.db.m3.medium", "db.m3.medium");
    ("dbInstClass.db.m3.large", "db.m3.large");
    ("dbInstClass.db.m3.xlarge", "db.m3.xlarge");
    ("dbInstClass.db.m3.2xlarge", "db.m3.2xlarge");
    ("dbInstClass.smDBInst", "db.m1.small");
    ("dbInstClass.db.m1.small", "db.m1.small");
    ("dbInstClass.medDBInst", "db.m1.medium");
    ("dbInstClass.db.m1.medium", "db.m1.medium");
    ("dbInstClass.lgDBInst", "db.m1.large");
    ("dbInstClass.db.m1.large", "db.m1.large");
    ("dbInstClass.xlDBInst", "db.m1.xlarge");
    ("dbInstClass.db.m1.xlarge", "db.m1.xlarge");
    ("hiMemDBInstClass.xlDBInst", "db.m2.xlarge");
    ("memDBCurrentGen.db.m2.xlarge", "db.m2.xlarge");
    ("hiMemDBInstClass.xxlDBInst", "db.m2.2xlarge");
    ("memDBCurrentGen.db.m2.2xlarge", "db.m2.2xlarge");
    ("hiMemDBInstClass.xxxxDBInst", "db.m2.4xlarge");
    ("memDBCurrentGen.db.m2.4xlarge", "db.m2.4xlarge");
    ("clusterHiMemDB.xxxxxxxxl", "db.cr1.8xlarge");
    ("memDBCurrentGen.db.cr1.8xl", "db.cr1.8xlarge");
    ("multiAZDBInstClass.uDBInst", "db.t1.micro");
    ("multiAZDBInstClass.smDBInst", "db.m1.small");
    ("multiAZDBInstClass.medDBInst", "db.m1.medium");
    ("multiAZDBInstClass.lgDBInst", "db.m1.large");
    ("multiAZDBInstClass.xlDBInst", "db.m1.xlarge");
    ("multiAZDBInstClass.db.t1.micro", "db.t1.micro");
    ("multiAZDBInstClass.db.m1.small", "db.m1.small");
    ("multiAZDBInstClass.db.m1.medium", "db.m1.medium");
    ("multiAZDBInstClass.db.m1.large", "db.m1.large");
    ("multiAZDBInstClass.db.m1.xlarge", "db.m1.xlarge");
    ("multiAZDBInstClass.db.m3.medium", "db.m3.medium");
    ("multiAZDBInstClass.db.m3.large", "db.m3.large");
    ("multiAZDBInstClass.db.m3.xlarge", "db.m3.xlarge");
    ("multiAZDBInstClass.db.m3.2xlarge", "db.m3.2xlarge");
    ("multiAZHiMemInstClass.xlDBInst", "db.m2.xlarge");
    ("multiAZHiMemInstClass.xxlDBInst", "db.m2.2xlarge");
    ("multiAZHiMemInstClass.xxxxDBInst", "db.m2.4xlarge");
    ("multiAZClusterHiMemDB.xxxxxxxxl", "db.cr1.8xlarge");
    ("stdDeployRes.u", "db.t1.micro");
    ("stdDeployRes.micro", "db.t1.micro");
    ("stdDeployRes.sm", "db.m1.small");
    ("stdDeployRes.med", "db.m1.medium");
    ("stdDeployRes.lg", "db.m1.large");
    ("stdDeployRes.xl", "db.m1.xlarge");
    ("stdDeployRes.xlHiMem", "db.m2.xlarge");
    ("stdDeployRes.xxlHiMem", "db.m2.2xlarge");
    ("stdDeployRes.xxxxlHiMem", "db.m2.4xlarge");
    ("stdDeployRes.xxxxxxxxl", "db.cr1.8xlarge");
    ("multiAZdeployRes.u", "db.t1.micro");
    ("multiAZdeployRes.sm", "db.m1.small");
    ("multiAZdeployRes.med", "db.m1.medium");
    ("multiAZdeployRes.lg", "db.m1.large");
    ("multiAZdeployRes.xl", "db.m1.xlarge");
    ("multiAZdeployRes.xlHiMem", "db.m2.xlarge");
    ("multiAZdeployRes.xxlHiMem", "db.m2.2xlarge");
    ("multiAZdeployRes.xxxxlHiMem", "db.m2.4xlarge");
    ("multiAZdeployRes.xxxxxxxxl", "db.cr1.8xlarge") ].

(** [{"type": ..., "multiaz": ..., "license": ..., "db": ...,
    "utilization": ..., "prices": ...}]; the prices of the legacy feeds
    ([inl]) and of the new feeds ([inr]) sit in one list. *)
Record reserved_offering := {
  ri_type : json;
  ri_multiaz : string;
  ri_license : string;
  ri_db : string;
  ri_utilization : string;
  ri_prices : old_prices + new_prices
}.

(** [{"type": ..., "multiaz": ..., "license": ..., "db": ...,
    "price": ...}] *)
Record ondemand_offering := {
  od_type : json;
  od_multiaz : string;
  od_license : string;
  od_db : string;
  od_price : option spec_float
}.

(** *** [get_reserved_instances_prices] *)

Definition urls_new : list string :=
  [ RDS_MYSQL_RESERVED_URL;
    RDS_MYSQL_MULTIAZ_RESERVED_URL;
    RDS_ORACLE_LICENSED_RESERVED_URL;
    RDS_ORACLE_LICENSED_MULTIAZ_RESERVED_URL;
    RDS_ORACLE_BYOL_RESERVED_URL;
    RDS_ORACLE_BYOL_MULTIAZ_RESERVED_URL;
    RDS_MSSQL_BYOL_RESERVED_URL;
    RDS_MSSQL_BYOL_MULTIAZ_RESERVED_URL;
    RDS_POSTGRESQL_RESERVED_URL;
    RDS_POSTGRESQL_MULTIAZ_RESERVED_URL;
    PG_RDS_MYSQL_RESERVED_URL;
    PG_RDS_MYSQL_MULTIAZ_RESERVED_URL;
    PG_RDS_ORACLE_LICENSED_RESERVED_URL;
    PG_RDS_ORACLE_LICENSED_MULTIAZ_RESERVED_URL;
    PG_RDS_ORACLE_BYOL_RESERVED_URL;
    PG_RDS_ORACLE_BYOL_MULTIAZ_RESERVED_URL;
    PG_RDS_MSSQL_BYOL_RESERVED_URL;
    PG_RDS_MSSQL_BYOL_MULTIAZ_RESERVED_URL;
    PG_RDS_POSTGRESQL_RESERVED_URL;
    PG_RDS_POSTGRESQL_MULTIAZ_RESERVED_URL ].

Definition urls_old : list string :=
  [ RDS_MSSQL_LICENSED_EX_RESERVED_LIGHT_URL;
    RDS_MSSQL_LICENSED_EX_RESERVED_MEDIUM_URL;
    RDS_MSSQL_LICENSED_EX_RESERVED_HEAVY_URL;
    RDS_MSSQL_LICENSED_WEB_RESERVED_LIGHT_URL;
    RDS_MSSQL_LICENSED_WEB_RESERVED_MEDIUM_URL;
    RDS_MSSQL_LICENSED_WEB_RESERVED_HEAVY_URL;
    RDS_MSSQL_LICENSED_STANDARD_RESERVED_LIGHT_URL;
    RDS_MSSQL_LICENSED_STANDARD_RESERVED_MEDIUM_URL;
    RDS_MSSQL_LICENSED_STANDARD_RESERVED_HEAVY_URL;
    PG_RDS_MSSQL_LICENSED_EX_RESERVED_LIGHT_URL;
    PG_RDS_MSSQL_LICENSED_EX_RESERVED_MEDIUM_URL;
    PG_RDS_MSSQL_LICENSED_EX_RESERVED_HEAVY_URL;
    PG_RDS_MSSQL_LICENSED_WEB_RESERVED_LIGHT_URL;
    PG_RDS_MSSQL_LICENSED_WEB_RESERVED_MEDIUM_URL;
    PG_RDS_MSSQL_LICENSED_WEB_RESERVED_HEAVY_URL;
    PG_RDS_MSSQL_LICENSED_STANDARD_RESERVED_LIGHT_URL;
    PG_RDS_MSSQL_LICENSED_STANDARD_RESERVED_MEDIUM_URL;
    PG_RDS_MSSQL_LICENSED_STANDARD_RESERVED_HEAVY_URL ].

(** The body of [for price_data in s["valueColumns"]], legacy feeds. *)
Definition reserved_column (prices : old_prices) (price_data : json)
  : result old_prices :=
  price ← parse_price price_data;
  name ← py_getitem price_data "name";
  if py_eq_str name "yrTerm1" then set_term prices "1" (with_upfront price)
  else if py_eq_str name "yrTerm1Hourly" then set_term prices "1" (with_hourly price)
  else if py_eq_str name "yearTerm1Hourly" then set_term prices "1" (with_hourly price)
  else if py_eq_str name "yrTerm3" then set_term prices "3" (with_upfront price)
  else if py_eq_str name "yrTerm3Hourly" then set_term prices "3" (with_hourly price)
  else if py_eq_str name "yearTerm3Hourly" then set_term prices "3" (with_hourly price)
  else Ok prices.

(** The body of [for s in it["tiers"]], legacy feeds. *)
Definition reserved_tier (info : string * string * string) (multiaz : string)
    (s : json) : result (list reserved_offering) :=
  let '(dblicense, db, utilization_type) := info in
  _type ← py_getitem s "size";
  v ← py_getitem s "valueColumns";
  cols ← py_iter v;
  prices ← foldM reserved_column cols initial_old_prices;
  Ok [{| ri_type := _type; ri_multiaz := multiaz; ri_license := dblicense;
         ri_db := db; ri_utilization := utilization_type;
         ri_prices := inl prices |}].

(** The body of [for it in r["instanceTypes"]], legacy feeds. *)
Definition reserved_instance_old (info : string * string * string) (it : json)
  : result (list reserved_offering) :=
  t ← py_getitem it "type";
  multiaz ← table_getitem RDS_MULTIAZ_MAPPING t;
  if_in_for it "tiers" (reserved_tier info multiaz).

(** The body of [for u in urls_old]. *)
Definition reserved_feed_old (urlopen : string -> result string)
    (st : reserved_state reserved_offering) (u : string)
  : result (reserved_state reserved_offering) :=
  info ← table_getitem RDS_RESERVED_TYPE_BY_URL_OLD (JStr u);
  data ← load_data urlopen u;
  rs ← config_regions data;
  foldM (reserved_region resolve_region (reserved_instance_old info)) rs st.

Definition initial_prices : new_prices := py_dict
  [ ("1", three_options); ("3", three_options) ].

(** The body of [for it in r["instanceTypes"]], new feeds. *)
Definition reserved_instance_new (licensedb : string * string)
    (multiaz : string) (it : json) : result (list reserved_offering) :=
  instance_type ← py_getitem it "type";
  prices ← terms_prices initial_prices it;
  Ok [{| ri_type := instance_type; ri_multiaz := multiaz;
         ri_license := fst licensedb; ri_db := snd licensedb;
         ri_utilization := "heavy"; ri_prices := inr prices |}].

(** The body of [for u in urls_new]. *)
Definition reserved_feed_new (urlopen : string -> result string)
    (st : reserved_state reserved_offering) (u : string)
  : result (reserved_state reserved_offering) :=
  '(licensedb, multiaz) ←
    match RDS_RESERVED_TYPE_BY_URL_NEW !! u with
    | Some licensedb => Ok (licensedb, "single")
    | None =>
        licensedb ← table_getitem RDS_RESERVED_MULTIAZ_TYPE_BY_URL_NEW (JStr u);
        Ok (licensedb, "multi-az")
    end;
  data ← load_data urlopen u;
  rs ← config_regions data;
  foldM (reserved_region keep_region (reserved_instance_new licensedb multiaz))
        rs st.

Definition get_reserved_instances_prices (urlopen : string -> result string)
  : result (document reserved_offering) :=
  st ← foldM (reserved_feed_old urlopen) urls_old empty_state;
  st ← foldM (reserved_feed_new urlopen) urls_new st;
  Ok {| config_currency := DEFAULT_CURRENCY; config_unit := None;
        regions := result_regions st |}.

(** *** [get_ondemand_instances_prices] *)

Definition ondemand_urls : list string :=
  [ RDS_MYSQL_ON_DEMAND_URL;
    RDS_MYSQL_MULTIAZ_ON_DEMAND_URL;
    RDS_ORACLE_LICENSED_ON_DEMAND_URL;
    RDS_ORACLE_LICENSED_MULTIAZ_ON_DEMAND_URL;
    RDS_ORACLE_BYOL_ON_DEMAND_URL;
    RDS_ORACLE_BYOL_MULTIAZ_ON_DEMAND_URL;
    RDS_MSSQL_LICENSED_EXPRESS_ON_DEMAND_URL;
    RDS_MSSQL_LICENSED_WEB_ON_DEMAND_URL;
    RDS_MSSQL_LICENSED_STANDARD_ON_DEMAND_URL;
    RDS_MSSQL_LICENSED_STANDARD_MULTIAZ_ON_DEMAND_URL;
    RDS_MSSQL_BYOL_ON_DEMAND_URL;
    RDS_MSSQL_BYOL_MULTIAZ_ON_DEMAND_URL;
    RDS_POSTGRESQL_ON_DEMAND_URL;
    RDS_POSTGRESQL_MULTIAZ_ON_DEMAND_URL;
    PG_RDS_MYSQL_ON_DEMAND_URL;
    PG_RDS_MYSQL_MULTIAZ_ON_DEMAND_URL;
    PG_RDS_ORACLE_LICENSED_ON_DEMAND_URL;
    PG_RDS_ORACLE_LICENSED_MULTIAZ_ON_DEMAND_URL;
    PG_RDS_ORACLE_BYOL_ON_DEMAND_URL;
    PG_RDS_ORACLE_BYOL_MULTIAZ_ON_DEMAND_URL;
    PG_RDS_MSSQL_LICENSED_EXPRESS_ON_DEMAND_URL;
    PG_RDS_MSSQL_LICENSED_WEB_ON_DEMAND_URL;
    PG_RDS_MSSQL_LICENSED_STANDARD_ON_DEMAND_URL;
    PG_RDS_MSSQL_LICENSED_STANDARD_MULTIAZ_ON_DEMAND_URL;
    PG_RDS_MSSQL_BYOL_ON_DEMAND_URL;
    PG_RDS_MSSQL_BYOL_MULTIAZ_ON_DEMAND_URL;
    PG_RDS_POSTGRESQL_ON_DEMAND_URL;
    PG_RDS_POSTGRESQL_MULTIAZ_ON_DEMAND_URL ].

(** The body of [for s in it["tiers"]]. *)
Definition ondemand_tier (licensedb : string * string) (multiaz : string)
    (s : json) : result (list ondemand_offering) :=
  _type ← py_getitem s "name";
  price ← parse_price s;
  Ok [{| od_type := _type; od_multiaz := multiaz;
         od_license := fst licensedb; od_db := snd licensedb;
         od_price := price |}].

(** The body of [for it in r["types"]]. *)
Definition ondemand_type (licensedb : string * string) (multiaz : string)
    (it : json) : result (list ondemand_offering) :=
  if_in_for it "tiers" (ondemand_tier licensedb multiaz).

Definition ondemand_feed (urlopen : string -> result string)
    (result_regions : list (RegionPricing ondemand_offering)) (u : string)
  : result (list (RegionPricing ondemand_offering)) :=
  '(licensedb, multiaz) ←
    match RDS_ONDEMAND_TYPE_BY_URL !! u with
    | Some licensedb => Ok (licensedb, "single")
    | None =>
        licensedb ← table_getitem RDS_ONDEMAND_MULTIAZ_TYPE_BY_URL (JStr u);
        Ok (licensedb, "multi-az")
    end;
  data ← load_data urlopen u;
  rs ← config_regions data;
  foldM (ondemand_region resolve_region "types" (ondemand_type licensedb multiaz))
        rs result_regions.

Definition get_ondemand_instances_prices (urlopen : string -> result string)
  : result (document ondemand_offering) :=
  result_regions ← foldM (ondemand_feed urlopen) ondemand_urls [];
  Ok {| config_currency := DEFAULT_CURRENCY; config_unit := Some "perhr";
        regions := result_regions |}.


(** *** [save_csv] *)
Definition ondemand_csv_rows (data : document ondemand_offering)
  : list (list json) :=
  [JStr "region"; JStr "type"; JStr "multiaz"; JStr "license"; JStr "db";
   JStr "price"] ::
  offering_rows
    (fun region_name it =>
       [region_name; od_type it; JStr (od_multiaz it); JStr (od_license it);
        JStr (od_db it); none_as_string (price_value (od_price it))])
    data.

(** The dict [{"hourly": ..., "upfront": ...}] as a Python value. *)
Definition cell_value (c : cell) : json :=
  JObj [("hourly", price_value (hourly c)); ("upfront", price_value (upfront c))].

(** ["noUpfront" in d or "partialUpfront" in d or "allUpfront" in d] *)
Definition has_options {V : Type} (d : gmap string V) : bool :=
  bool_decide (is_Some (d !! "noUpfront")) ||
  bool_decide (is_Some (d !! "partialUpfront")) ||
  bool_decide (is_Some (d !! "allUpfront")).

(** [d[k]] on a dict of the document. *)
Definition dict_getitem {V : Type} (d : gmap string V) (k : string) : result V :=
  match d !! k with
  | Some v => Ok v
  | None => Raise KeyError
  end.

(** The rows of one offering: [row term po hourly upfront] once per term
    for a legacy price table, with [po = ""], and once per term and
    purchase option for a new one. The [else] branch of the source reads
    [it["prices"][term]["hourly"]] whatever the table is. *)
Definition mixed_rows (row : string -> string -> json -> json -> list json)
    (it : reserved_offering) : result (list (list json)) :=
  match ri_prices it with
  | inl prices =>
      Ok (map (fun '(term, c) => row term "" (hourly_cell c) (upfront_cell c))
              (dict_items prices))
  | inr prices =>
      rows ← mapM (fun '(term, by_option) =>
                if has_options by_option then
                  Ok (map (fun '(po, c) => row term po (hourly_cell c) (upfront_cell c))
                          (dict_items by_option))
                else
                  h ← dict_getitem by_option "hourly";
                  up ← dict_getitem by_option "upfront";
                  Ok [row term "" (none_as_string (cell_value h))
                          (none_as_string (cell_value up))])
              (dict_items prices);
      Ok (concat rows)
  end.

(** [for r in data["regions"]: for it in r["instanceTypes"]:
    for term in it["prices"]: if ...: ... else: ...]. An exception ends the
    method, with the file holding the rows written so far; the model keeps
    the exception only. *)
Definition reserved_rows
    (row : json -> reserved_offering -> string -> string -> json -> json -> list json)
    (data : document reserved_offering) : result (list (list json)) :=
  rows ← mapM (fun r =>
            rows ← mapM (fun it => mixed_rows (row (region r) it) it) (instanceTypes r);
            Ok (concat rows))
          (regions data);
  Ok (concat rows).

Definition reserved_csv_rows (data : document reserved_offering)
  : result (list (list json)) :=
  rows ← reserved_rows
            (fun region_name it term po h up =>
               [region_name; ri_type it; JStr (ri_multiaz it); JStr (ri_license it);
                JStr (ri_db it); JStr (ri_utilization it); JStr term; JStr po; h; up])
            data;
  Ok ([JStr "region"; JStr "type"; JStr "multiaz"; JStr "license"; JStr "db";
       JStr "utilization"; JStr "term"; JStr "payment_type"; JStr "price";
       JStr "upfront"] :: rows).

Definition save_csv (urlopen : string -> result string) (u : string)
    (name : option string) : result (option (string * list (list json))) :=
  if negb (bool_decide (u ∈ ["ondemand"; "reserved"])) then Ok None
  else if String.eqb u "ondemand" then
    data ← get_ondemand_instances_prices urlopen;
    Ok (Some (file_name "RDS_ondemand_pricing.csv" name, ondemand_csv_rows data))
  else
    data ← get_reserved_instances_prices urlopen;
    rows ← reserved_csv_rows data;
    Ok (Some (file_name "RDS_reserved_pricing.csv" name, rows)).

(** *** [print_table]: the rows handed to [x.add_row]. The reserved loop
    is the loop of [save_csv], with its two branches. *)
Definition ondemand_table_rows (data : document ondemand_offering)
  : list (list json) :=
  offering_rows
    (fun region_name it =>
       [region_name; od_type it; JStr (od_multiaz it); JStr (od_license it);
        JStr (od_db it); none_as_string (price_value (od_price it))])
    data.

Definition reserved_table_rows (data : document reserved_offering)
  : result (list (list json)) :=
  reserved_rows
    (fun region_name it term po h up =>
       [region_name; ri_type it; JStr (ri_multiaz it); JStr (ri_license it);
        JStr (ri_db it); JStr (ri_utilization it); JStr term; JStr po; h; up])
    data.

Definition print_table (urlopen : string -> result string) (u : string)
  : result (option (list (list json))) :=
  if negb (bool_decide (u ∈ ["ondemand"; "reserved"])) then Ok None
  else if String.eqb u "ondemand" then
    data ← get_ondemand_instances_prices urlopen;
    Ok (Some (ondemand_table_rows data))
  else
    data ← get_reserved_instances_prices urlopen;
    rows ← reserved_table_rows data;
    Ok (Some rows).

End RDSPrices.

(** ** [RSPrices] *)

Module RSPrices.
Import AWSPrices.

Definition RS_ON_DEMAND_URL : string :=
  "http://a0.awsstatic.com/pricing/1/redshift/pricing-on-demand-redshift-instances.min.js".
Definition PG_RS_ON_DEMAND_URL : string :=
  "http://a0.awsstatic.com/pricing/1/redshift/previous-generation/pricing-on-demand-redshift-instances.min.js".
Definition RS_RESERVED_URL : string :=
  "http://a0.awsstatic.com/pricing/1/redshift/pricing-reserved-redshift-instances.min.js".
Definition PG_RS_RESERVED_URL : string :=
  "http://a0.awsstatic.com/pricing/1/redshift/previous-generation/pricing-reserved-redshift-instances.min.js".

(** [{"type": ..., "prices": ...}] *)
Record reserved_offering := {
  ri_type : json;
  ri_prices : new_prices
}.

(** [{"type": ..., "price": ...}] *)
Record ondemand_offering := {
  od_type : json;
  od_price : option spec_float
}.

(** *** [get_reserved_instances_prices] *)

Definition reserved_urls : list string :=
  [ RS_RESERVED_URL;
    PG_RS_RESERVED_URL ].

Definition initial_prices : new_prices := py_dict
  [ ("1", three_options); ("3", three_options) ].

(** The body of [for it in r["instanceTypes"]]. *)
Definition reserved_instance (it : json) : result (list reserved_offering) :=
  instance_type ← py_getitem it "type";
  prices ← terms_prices initial_prices it;
  Ok [{| ri_type := instance_type; ri_prices := prices |}].

Definition reserved_feed (urlopen : string -> result string)
    (st : reserved_state reserved_offering) (u : string)
  : result (reserved_state reserved_offering) :=
  data ← load_data urlopen u;
  rs ← config_regions data;
  foldM (reserved_region keep_region reserved_instance) rs st.

Definition get_reserved_instances_prices (urlopen : string -> result string)
  : result (document reserved_offering) :=
  st ← foldM (reserved_feed urlopen) reserved_urls empty_state;
  Ok {| config_currency := DEFAULT_CURRENCY; config_unit := None;
        regions := result_regions st |}.

(** *** [get_ondemand_instances_prices] *)

Definition ondemand_urls : list string :=
  [ RS_ON_DEMAND_URL;
    PG_RS_ON_DEMAND_URL ].

(** The body of [for price_data in s["valueColumns"]]. *)
Definition ondemand_column (instance_type : json) (price_data : json)
  : result (list ondemand_offering) :=
  let price := parse_price_lenient price_data in
  Ok [{| od_type := instance_type; od_price := price |}].

(** The body of [for s in it["tiers"]]. *)
Definition ondemand_tier (s : json) : result (list ondemand_offering) :=
  instance_type ← py_getitem s "size";
  for_in s "valueColumns" (ondemand_column instance_type).

(** The body of [for it in r["instanceTypes"]]. *)
Definition ondemand_instance (it : json) : result (list ondemand_offering) :=
  if_in_for it "tiers" ondemand_tier.

Definition ondemand_feed (urlopen : string -> result string)
    (result_regions : list (RegionPricing ondemand_offering)) (u : string)
  : result (list (RegionPricing ondemand_offering)) :=
  data ← load_data urlopen u;
  rs ← config_regions data;
  foldM (ondemand_region keep_region "instanceTypes" ondemand_instance)
        rs result_regions.

Definition get_ondemand_instances_prices (urlopen : string -> result string)
  : result (document ondemand_offering) :=
  result_regions ← foldM (ondemand_feed urlopen) ondemand_urls [];
  Ok {| config_currency := DEFAULT_CURRENCY; config_unit := Some "perhr";
        regions := result_regions |}.


(** *** [save_csv] *)
Definition ondemand_csv_rows (data : document ondemand_offering)
  : list (list json) :=
  [JStr "region"; JStr "type"; JStr "price"] ::
  offering_rows
    (fun region_name it =>
       [region_name; od_type it; none_as_string (price_value (od_price it))])
    data.

Definition reserved_csv_rows (data : document reserved_offering)
  : list (list json) :=
  [JStr "region"; JStr "type"; JStr "term"; JStr "payment_type"; JStr "price";
   JStr "upfront"] ::
  option_rows ri_prices
    (fun region_name it term po c =>
       [region_name; ri_type it; JStr term; JStr po; hourly_cell c; upfront_cell c])
    data.

Definition save_csv (urlopen : string -> result string) (u : string)
    (name : option string) : result (option (string * list (list json))) :=
  if negb (bool_decide (u ∈ ["ondemand"; "reserved"])) then Ok None
  else if String.eqb u "ondemand" then
    data ← get_ondemand_instances_prices urlopen;
    Ok (Some (file_name "RS_ondemand_pricing.csv" name, ondemand_csv_rows data))
  else
    data ← get_reserved_instances_prices urlopen;
    Ok (Some (file_name "RS_reserved_pricing.csv" name, reserved_csv_rows data)).

(** *** [print_table]: the rows handed to [x.add_row]. *)
Definition ondemand_table_rows (data : document ondemand_offering)
  : list (list json) :=
  offering_rows
    (fun region_name it =>
       [region_name; od_type it; none_as_string (price_value (od_price it))])
    data.

Definition reserved_table_rows (data : document reserved_offering)
  : list (list json) :=
  option_rows ri_prices
    (fun region_name it term po c =>
       [region_name; ri_type it; JStr term; JStr po; hourly_cell c; upfront_cell c])
    data.

Definition print_table (urlopen : string -> result string) (u : string)
  : result (option (list (list json))) :=
  if negb (bool_decide (u ∈ ["ondemand"; "reserved"])) then Ok None
  else if String.eqb u "ondemand" then
    data ← get_ondemand_instances_prices urlopen;
    Ok (Some (ondemand_table_rows data))
  else
    data ← get_reserved_instances_prices urlopen;
    Ok (Some (reserved_table_rows data)).

End RSPrices.

(** ** [AllAWSPrices]: the four services in one file *)

Module AllAWSPrices.
Import AWSPrices.

(** The empty string that fills a column a service does not have. *)
Definition blank : json := JStr "".

(** *** [save_csv("ondemand")] *)
Definition ondemand_rows
    (ec2_data : document EC2Prices.ondemand_offering)
    (elc_data : document ELCPrices.ondemand_offering)
    (rds_data : document RDSPrices.ondemand_offering)
    (rs_data : document RSPrices.ondemand_offering) : list (list json) :=
  (offering_rows
     (fun region_name it =>
        [JStr "ec2"; region_name; EC2Prices.od_type it; blank; blank; blank;
         EC2Prices.od_os it;
         none_as_string (price_value (EC2Prices.od_price it))])
     ec2_data ++
   offering_rows
     (fun region_name it =>
        [JStr "elasticache"; region_name; ELCPrices.od_type it; blank; blank; blank; blank;
         none_as_string (price_value (ELCPrices.od_price it))])
     elc_data ++
   offering_rows
     (fun region_name it =>
        [JStr "rds"; region_name; RDSPrices.od_type it;
         JStr (RDSPrices.od_multiaz it); JStr (RDSPrices.od_license it);
         JStr (RDSPrices.od_db it); blank;
         none_as_string (price_value (RDSPrices.od_price it))])
     rds_data ++
   offering_rows
     (fun region_name it =>
        [JStr "redshift"; region_name; RSPrices.od_type it; blank; blank; blank; blank;
         none_as_string (price_value (RSPrices.od_price it))])
     rs_data)%list.

Definition ondemand_csv_rows ec2_data elc_data rds_data rs_data
  : list (list json) :=
  [JStr "service"; JStr "region"; JStr "type"; JStr "multiaz"; JStr "license";
   JStr "db"; JStr "os"; JStr "price"] ::
  ondemand_rows ec2_data elc_data rds_data rs_data.

(** *** [save_csv("reserved")] *)
Definition reserved_rows
    (ec2_data : document EC2Prices.reserved_offering)
    (elc_data : document ELCPrices.reserved_offering)
    (rds_data : document RDSPrices.reserved_offering)
    (rs_data : document RSPrices.reserved_offering)
  : result (list (list json)) :=
  rds_rows ← RDSPrices.reserved_rows
                (fun region_name it term po h up =>
                   [JStr "rds"; region_name; RDSPrices.ri_type it;
                    JStr (RDSPrices.ri_multiaz it); JStr (RDSPrices.ri_license it);
                    JStr (RDSPrices.ri_db it); blank;
                    JStr (RDSPrices.ri_utilization it); JStr term; JStr po; h; up])
                rds_data;
  Ok (option_rows EC2Prices.ri_prices
        (fun region_name it term po c =>
           [JStr "ec2"; region_name; EC2Prices.ri_type it; blank; blank; blank;
            JStr (EC2Prices.ri_os it); JStr "heavy"; JStr term; JStr po;
            hourly_cell c; upfront_cell c])
        ec2_data ++
      term_rows ELCPrices.ri_prices
        (fun region_name it term c =>
           [JStr "elasticache"; region_name; ELCPrices.ri_type it; blank; blank; blank; blank;
            JStr (ELCPrices.ri_utilization it); JStr term; blank;
            hourly_cell c; upfront_cell c])
        elc_data ++
      rds_rows ++
      option_rows RSPrices.ri_prices
        (fun region_name it term po c =>
           [JStr "redshift"; region_name; RSPrices.ri_type it; blank; blank; blank; blank;
            JStr "heavy"; JStr term; JStr po; hourly_cell c; upfront_cell c])
        rs_data)%list.

Definition reserved_csv_rows ec2_data elc_data rds_data rs_data
  : result (list (list json)) :=
  rows ← reserved_rows ec2_data elc_data rds_data rs_data;
  Ok ([JStr "service"; JStr "region"; JStr "type"; JStr "multiaz"; JStr "license";
       JStr "db"; JStr "os"; JStr "utilization"; JStr "term"; JStr "payment_type";
       JStr "price"; JStr "upfront"] :: rows).

(** *** [save_csv("all")]: the on-demand rows of the four services, then
    the reserved rows. *)
Definition all_ondemand_rows
    (ec2_data : document EC2Prices.ondemand_offering)
    (elc_data : document ELCPrices.ondemand_offering)
    (rds_data : document RDSPrices.ondemand_offering)
    (rs_data : document RSPrices.ondemand_offering) : list (list json) :=
  (offering_rows
     (fun region_name it =>
        [JStr "ondemand"; JStr "ec2"; region_name; EC2Prices.od_type it; blank; blank; blank;
         EC2Prices.od_os it; blank; blank; blank;
         none_as_string (price_value (EC2Prices.od_price it)); blank])
     ec2_data ++
   offering_rows
     (fun region_name it =>
        [JStr "ondemand"; JStr "elasticache"; region_name; ELCPrices.od_type it;
         blank; blank; blank; blank; blank; blank; blank;
         none_as_string (price_value (ELCPrices.od_price it)); blank])
     elc_data ++
   offering_rows
     (fun region_name it =>
        [JStr "ondemand"; JStr "rds"; region_name; RDSPrices.od_type it;
         JStr (RDSPrices.od_multiaz it); JStr (RDSPrices.od_license it);
         JStr (RDSPrices.od_db it); blank; blank; blank; blank;
         none_as_string (price_value (RDSPrices.od_price it)); blank])
     rds_data ++
   offering_rows
     (fun region_name it =>
        [JStr "ondemand"; JStr "redshift"; region_name; RSPrices.od_type it;
         blank; blank; blank; blank; blank; blank; blank;
         none_as_string (price_value (RSPrices.od_price it)); blank])
     rs_data)%list.

Definition all_reserved_rows
    (ec2_data : document EC2Prices.reserved_offering)
    (elc_data : document ELCPrices.reserved_offering)
    (rds_data : document RDSPrices.reserved_offering)
    (rs_data : document RSPrices.reserved_offering)
  : result (list (list json)) :=
  rds_rows ← RDSPrices.reserved_rows
                (fun region_name it term po h up =>
                   [JStr "reserved"; JStr "rds"; region_name; RDSPrices.ri_type it;
                    JStr (RDSPrices.ri_multiaz it); JStr (RDSPrices.ri_license it);
                    JStr (RDSPrices.ri_db it); blank;
                    JStr (RDSPrices.ri_utilization it); JStr term; JStr po; h; up])
                rds_data;
  Ok (option_rows EC2Prices.ri_prices
        (fun region_name it term po c =>
           [JStr "reserved"; JStr "ec2"; region_name; EC2Prices.ri_type it; blank; blank; blank;
            JStr (EC2Prices.ri_os it); JStr "heavy"; JStr term; JStr po;
            hourly_cell c; upfront_cell c])
        ec2_data ++
      term_rows ELCPrices.ri_prices
        (fun region_name it term c =>
           [JStr "reserved"; JStr "elasticache"; region_name; ELCPrices.ri_type it;
            blank; blank; blank; blank;
            JStr (ELCPrices.ri_utilization it); JStr term; blank;
            hourly_cell c; upfront_cell c])
        elc_data ++
      rds_rows ++
      option_rows RSPrices.ri_prices
        (fun region_name it term po c =>
           [JStr "reserved"; JStr "redshift"; region_name; RSPrices.ri_type it;
            blank; blank; blank; blank;
            JStr "heavy"; JStr term; JStr po; hourly_cell c; upfront_cell c])
        rs_data)%list.

Definition all_csv_rows ec2_od elc_od rds_od rs_od ec2_r elc_r rds_r rs_r
  : result (list (list json)) :=
  rows ← all_reserved_rows ec2_r elc_r rds_r rs_r;
  Ok ([JStr "reserved_od"; JStr "service"; JStr "region"; JStr "type";
       JStr "multiaz"; JStr "license"; JStr "db"; JStr "os"; JStr "utilization";
       JStr "term"; JStr "payment_type"; JStr "price"; JStr "upfront"] ::
      all_ondemand_rows ec2_od elc_od rds_od rs_od ++ rows)%list.

(** *** [save_csv]: every price is fetched before the file is opened. *)
Definition save_csv (urlopen : string -> result string) (u : string)
    (name : option string) : result (option (string * list (list json))) :=
  if negb (bool_decide (u ∈ ["ondemand"; "reserved"; "all"])) then Ok None
  else if String.eqb u "ondemand" then
    ec2_data ← EC2Prices.get_ondemand_instances_prices urlopen;
    elc_data ← ELCPrices.get_ondemand_instances_prices urlopen;
    rds_data ← RDSPrices.get_ondemand_instances_prices urlopen;
    rs_data ← RSPrices.get_ondemand_instances_prices urlopen;
    Ok (Some (file_name "FULL_ondemand_pricing.csv" name,
              ondemand_csv_rows ec2_data elc_data rds_data rs_data))
  else if String.eqb u "reserved" then
    ec2_data ← EC2Prices.get_reserved_instances_prices urlopen;
    elc_data ← ELCPrices.get_reserved_instances_prices urlopen;
    rds_data ← RDSPrices.get_reserved_instances_prices urlopen;
    rs_data ← RSPrices.get_reserved_instances_prices urlopen;
    rows ← reserved_csv_rows ec2_data elc_data rds_data rs_data;
    Ok (Some (file_name "FULL_reserved_pricing.csv" name, rows))
  else
    ec2_data_od ← EC2Prices.get_ondemand_instances_prices urlopen;
    elc_data_od ← ELCPrices.get_ondemand_instances_prices urlopen;
    rds_data_od ← RDSPrices.get_ondemand_instances_prices urlopen;
    rs_data_od ← RSPrices.get_ondemand_instances_prices urlopen;
    ec2_data_r ← EC2Prices.get_reserved_instances_prices urlopen;
    elc_data_r ← ELCPrices.get_reserved_instances_prices urlopen;
    rds_data_r ← RDSPrices.get_reserved_instances_prices urlopen;
    rs_data_r ← RSPrices.get_reserved_instances_prices urlopen;
    rows ← all_csv_rows ec2_data_od elc_data_od rds_data_od rs_data_od
                        ec2_data_r elc_data_r rds_data_r rs_data_r;
    Ok (Some (file_name "FULL_all_pricing.csv" name, rows)).

End AllAWSPrices.

(** ** The columns of the combined files

    How a data row of one file reads in the layout of another: a row of a
    per-service file gets the service name and empty cells for the columns
    the service does not have; a row of a combined on-demand or reserved
    file gets the pricing kind and, for on-demand rows, empty cells for the
    reserved columns. A list that is no row of the source layout is left as
    it is. *)

Module Layout.

Definition b : json := JStr "".

Definition widen_ec2_ondemand (row : list json) : list json :=
  match row with
  | [r; t; o; p] => [JStr "ec2"; r; t; b; b; b; o; p]
  | _ => row
  end.

Definition widen_elc_ondemand (row : list json) : list json :=
  match row with
  | [r; t; p] => [JStr "elasticache"; r; t; b; b; b; b; p]
  | _ => row
  end.

Definition widen_rds_ondemand (row : list json) : list json :=
  match row with
  | [r; t; m; l; d; p] => [JStr "rds"; r; t; m; l; d; b; p]
  | _ => row
  end.

Definition widen_rs_ondemand (row : list json) : list json :=
  match row with
  | [r; t; p] => [JStr "redshift"; r; t; b; b; b; b; p]
  | _ => row
  end.

Definition widen_ec2_reserved (row : list json) : list json :=
  match row with
  | [r; t; o; term; po; h; u] =>
      [JStr "ec2"; r; t; b; b; b; o; JStr "heavy"; term; po; h; u]
  | _ => row
  end.

Definition widen_elc_reserved (row : list json) : list json :=
  match row with
  | [r; t; ut; term; h; u] =>
      [JStr "elasticache"; r; t; b; b; b; b; ut; term; b; h; u]
  | _ => row
  end.

Definition widen_rds_reserved (row : list json) : list json :=
  match row with
  | [r; t; m; l; d; ut; term; po; h; u] =>
      [JStr "rds"; r; t; m; l; d; b; ut; term; po; h; u]
  | _ => row
  end.

Definition widen_rs_reserved (row : list json) : list json :=
  match row with
  | [r; t; term; po; h; u] =>
      [JStr "redshift"; r; t; b; b; b; b; JStr "heavy"; term; po; h; u]
  | _ => row
  end.

Definition lift_ondemand (row : list json) : list json :=
  match row with
  | [s; r; t; m; l; d; o; p] =>
      [JStr "ondemand"; s; r; t; m; l; d; o; b; b; b; p; b]
  | _ => row
  end.

Definition lift_reserved (row : list json) : list json := JStr "reserved" :: row.

(** The number of offerings of a document. *)
Definition offerings {O : Type} (data : document O) : nat :=
  sum_list (map (fun r => length (instanceTypes r)) (regions data)).

(** The number of rows of the offerings of the database service: two for
    a legacy price table, six for a new one. *)
Definition rds_rows_of (o : RDSPrices.reserved_offering) : nat :=
  match RDSPrices.ri_prices o with
  | inl _ => 2
  | inr _ => 6
  end.

Definition rds_rows (data : document RDSPrices.reserved_offering) : nat :=
  sum_list (map (fun r => sum_list (map rds_rows_of (instanceTypes r)))
                (regions data)).

End Layout.

(** ** What a feed contributes

    The statements below compare a document with the sequence of
    contributions of its feeds: one [RegionPricing] per region entry that
    reaches the document, in feed order, built with the same functions the
    normalizers apply to the entry. *)

Module Contributions.
Import AWSPrices.

(** The key a region name is filed under; [None] for a list or a dict,
    which is no key: hashing it raises, so a reserved normalizer never
    files anything under such a name. *)
Definition region_key (region_name : json) : option hkey :=
  match py_hash region_name with
  | Ok k => Some k
  | Raise _ => None
  end.

Section Generic.
Context {O : Type}.

(** The offerings filed under [k], in order. *)
Definition offerings_for (k : hkey) (cs : list (RegionPricing O)) : list O :=
  flat_map (fun c => if decide (region_key (region c) = Some k)
                     then instanceTypes c else []) cs.

(** [regions] has exactly one entry for every key of [cs], and that
    entry holds all the offerings [cs] files under the key. *)
Definition merged_by_region (cs regions : list (RegionPricing O)) : Prop :=
  forall k,
    (exists c, c ∈ cs /\ region_key (region c) = Some k) ->
    exists i e,
      regions !! i = Some e /\
      region_key (region e) = Some k /\
      instanceTypes e = offerings_for k cs /\
      forall j e', regions !! j = Some e' ->
                   region_key (region e') = Some k -> j = i.

(** The name of [c] has a key. *)
Definition keyed (c : RegionPricing O) : Prop :=
  is_Some (region_key (region c)).

(** Two entries of [regions] at different places carry names with
    different keys: no two names are equal under Python's [==]. *)
Definition distinct_regions (regions : list (RegionPricing O)) : Prop :=
  forall i j ei ej,
    regions !! i = Some ei -> regions !! j = Some ej -> i <> j ->
    exists ki kj,
      region_key (region ei) = Some ki /\ region_key (region ej) = Some kj /\
      ki <> kj.


(** What a region entry of a reserved feed contributes. *)
Definition reserved_contribution (resolve : json -> result json)
    (offerings : json -> result (list O)) (r : json)
  : result (list (RegionPricing O)) :=
  g ← region_guard r;
  if (g : bool) then
    raw ← py_getitem r "region";
    region_name ← resolve raw;
    _ ← py_hash region_name;
    os ← if_in_for r "instanceTypes" offerings;
    Ok [{| region := region_name; instanceTypes := os |}]
  else Ok [].

(** What a region entry of an on-demand feed contributes. *)
Definition ondemand_contribution (resolve : json -> result json)
    (key : string) (offerings : json -> result (list O)) (r : json)
  : result (list (RegionPricing O)) :=
  g ← region_guard r;
  if (g : bool) then
    raw ← py_getitem r "region";
    region_name ← resolve raw;
    b ← py_in key r;
    if (b : bool) then
      os ← for_in r key offerings;
      Ok [{| region := region_name; instanceTypes := os |}]
    else Ok []
  else Ok [].

Definition feed_contributions
    (entry : json -> result (list (RegionPricing O))) (data : json)
  : result (list (RegionPricing O)) :=
  rs ← config_regions data;
  css ← mapM entry rs;
  Ok (concat css).

(** Filing one contribution: the pure content of a reserved region
    step. The name of a contribution of a reserved feed has a key
    ([reserved_contribution] hashes it); the case without a key is there
    to make the function total. *)
Definition add_contribution (st : reserved_state O) (c : RegionPricing O)
  : reserved_state O :=
  let k := region_key (region c) in
  match k ≫= (fun k => result_regions_index st !! k) with
  | Some i => append_offerings i (instanceTypes c) st
  | None =>
      let i := length (result_regions st) in
      append_offerings i (instanceTypes c)
        {| result_regions :=
             (result_regions st ++
                [{| region := region c; instanceTypes := [] |}])%list;
           result_regions_index :=
             match k with
             | Some k => <[k := i]> (result_regions_index st)
             | None => result_regions_index st
             end |}
  end.

End Generic.

(** The contributions of the feed at [u], per normalizer. *)

Definition ec2_reserved (urlopen : string -> result string) (u : string) :=
  os_type ← table_getitem EC2Prices.INSTANCES_RESERVED_OS_TYPE_BY_URL (JStr u);
  data ← load_data urlopen u;
  feed_contributions
    (reserved_contribution keep_region (EC2Prices.reserved_instance os_type)) data.

Definition ec2_ondemand (urlopen : string -> result string) (u : string) :=
  data ← load_data urlopen u;
  feed_contributions
    (ondemand_contribution keep_region "instanceTypes" EC2Prices.ondemand_instance)
    data.

Definition elc_reserved (urlopen : string -> result string) (u : string) :=
  utilization_type ←
    table_getitem ELCPrices.INSTANCES_RESERVED_UTILIZATION_TYPE_BY_URL (JStr u);
  data ← load_data urlopen u;
  feed_contributions
    (reserved_contribution resolve_region
       (ELCPrices.reserved_instance u utilization_type)) data.

Definition elc_ondemand (urlopen : string -> result string) (u : string) :=
  data ← load_data urlopen u;
  feed_contributions
    (ondemand_contribution resolve_region "types" ELCPrices.ondemand_type) data.

Definition rds_reserved_old (urlopen : string -> result string) (u : string) :=
  info ← table_getitem RDSPrices.RDS_RESERVED_TYPE_BY_URL_OLD (JStr u);
  data ← load_data urlopen u;
  feed_contributions
    (reserved_contribution resolve_region (RDSPrices.reserved_instance_old info))
    data.

Definition rds_reserved_new (urlopen : string -> result string) (u : string) :=
  '(licensedb, multiaz) ←
    match RDSPrices.RDS_RESERVED_TYPE_BY_URL_NEW !! u with
    | Some licensedb => Ok (licensedb, "single")
    | None =>
        licensedb ←
          table_getitem RDSPrices.RDS_RESERVED_MULTIAZ_TYPE_BY_URL_NEW (JStr u);
        Ok (licensedb, "multi-az")
    end;
  data ← load_data urlopen u;
  feed_contributions
    (reserved_contribution keep_region
       (RDSPrices.reserved_instance_new licensedb multiaz)) data.

Definition rds_ondemand (urlopen : string -> result string) (u : string) :=
  '(licensedb, multiaz) ←
    match RDSPrices.RDS_ONDEMAND_TYPE_BY_URL !! u with
    | Some licensedb => Ok (licensedb, "single")
    | None =>
        licensedb ←
          table_getitem RDSPrices.RDS_ONDEMAND_MULTIAZ_TYPE_BY_URL (JStr u);
        Ok (licensedb, "multi-az")
    end;
  data ← load_data urlopen u;
  feed_contributions
    (ondemand_contribution resolve_region "types"
       (RDSPrices.ondemand_type licensedb multiaz)) data.

Definition rs_reserved (urlopen : string -> result string) (u : string) :=
  data ← load_data urlopen u;
  feed_contributions
    (reserved_contribution keep_region RSPrices.reserved_instance) data.

Definition rs_ondemand (urlopen : string -> result string) (u : string) :=
  data ← load_data urlopen u;
  feed_contributions
    (ondemand_contribution keep_region "instanceTypes" RSPrices.ondemand_instance)
    data.

(** All contributions of a list of feeds, in feed order. *)
Definition all_contributions {O : Type}
    (feed : string -> result (list (RegionPricing O))) (urls : list string)
  : result (list (RegionPricing O)) :=
  css ← mapM feed urls;
  Ok (concat css).

(** [RDSPrices.get_reserved_instances_prices] reads the legacy feeds, then
    the new ones. *)
Definition rds_reserved (urlopen : string -> result string)
  : result (list (RegionPricing RDSPrices.reserved_offering)) :=
  cs_old ← all_contributions (rds_reserved_old urlopen) RDSPrices.urls_old;
  cs_new ← all_contributions (rds_reserved_new urlopen) RDSPrices.urls_new;
  Ok (cs_old ++ cs_new)%list.

(** A reserved call merges: its document has one entry per region, with
    everything the feeds contribute to the region. *)
Definition merges {O : Type} (call : result (document O))
    (contributions : result (list (RegionPricing O))) : Prop :=
  forall doc, call = Ok doc ->
    exists cs, contributions = Ok cs /\
               merged_by_region cs (regions doc) /\
               distinct_regions (regions doc).

(** An on-demand call appends: its document has one entry per
    contribution, in order. *)
Definition appends {O : Type} (call : result (document O))
    (contributions : result (list (RegionPricing O))) : Prop :=
  forall doc, call = Ok doc ->
    exists cs, contributions = Ok cs /\ regions doc = cs.



(** [x] is visited by [if key in holder: for x in holder[key]]. *)
Definition listed (holder : json) (key : string) (x : json) : Prop :=
  py_in key holder = Ok true /\ 
  exists v xs, py_getitem holder key = Ok v /\ py_iter v = Ok xs /\ x ∈ xs.

(** The parsed feed [data] has a region entry that passes the guard of the
    normalizer, named [raw] in the feed. *)
Definition feed_names_region (data : json) (raw : json) : Prop :=
  exists rs r,
    config_regions data = Ok rs /\ r ∈ rs /\
    region_guard r = Ok true /\ py_getitem r "region" = Ok raw.

(** The parsed feed [data] of a legacy reserved feed has the tier [s]. *)
Definition feed_has_tier (data : json) (s : json) : Prop :=
  exists rs r it,
    config_regions data = Ok rs /\ r ∈ rs /\
    region_guard r = Ok true /\
    listed r "instanceTypes" it /\ listed it "tiers" s.

(** A parsed feed without a non-empty [config.regions]: an object whose
    [config] key is missing or falsy, or whose [config] is an object whose
    [regions] key is missing or falsy. *)
Definition no_regions (data : json) : Prop :=
  exists kvs, data = JObj kvs /\
    (obj_lookup "config" kvs = None \/
     exists c, obj_lookup "config" kvs = Some c /\
       (py_truthy c = false \/
        exists ckvs, c = JObj ckvs /\
          (obj_lookup "regions" ckvs = None \/
           exists rs, obj_lookup "regions" ckvs = Some rs /\ py_truthy rs = false))).

(** The feed at [u] is an empty contribution to the loop with body [feed]:
    the body returns the state it was given, and the loop over any list of
    URLs runs as if [u] were not in the list. *)
Definition empty_contribution {S : Type} (feed : S -> string -> result S)
    (u : string) : Prop :=
  (forall st, feed st u = Ok st) /\
  (forall before after st,
     foldM feed (before ++ u :: after)%list st = foldM feed (before ++ after)%list st).

(** [token] is no key of the table [d]. *)
Definition unknown_token {V : Type} (d : gmap string V) (token : json) : Prop :=
  forall k, token = JStr k -> d !! k = None.

(** The call raises. *)
Definition raises {A : Type} (call : result A) : Prop :=
  exists e, call = Raise e.

(** The parsed feed [data] has a region entry that passes the guard of the
    normalizer and whose name resolves to [name]; [key] tells whether the
    entry must also carry the list of its offerings under that key. *)
Definition feed_has_region (resolve : json -> result json) (key : option string)
    (data : json) (name : json) : Prop :=
  exists rs r raw,
    config_regions data = Ok rs /\ r ∈ rs /\
    region_guard r = Ok true /\
    py_getitem r "region" = Ok raw /\ resolve raw = Ok name /\
    match key with
    | Some k => py_in k r = Ok true
    | None => True
    end.

(** The entries of a document filed under the key [k]. *)
Definition entries_named {O : Type} (k : hkey) (regions : list (RegionPricing O))
  : list (RegionPricing O) :=
  filter (fun e => region_key (region e) = Some k) regions.

(** "Two feeds that both contain region R1 give two separate entries named
    R1", for an on-demand normalizer with the feeds [urls]. *)
Definition two_feeds_two_entries {O : Type}
    (call : (string -> result string) -> result (document O))
    (urls : list string) (resolve : json -> result json) (key : option string)
    (urlopen : string -> result string) : Prop :=
  forall doc i j ui uj di dj name k,
    i <> j -> urls !! i = Some ui -> urls !! j = Some uj ->
    load_data urlopen ui = Ok di -> load_data urlopen uj = Ok dj ->
    feed_has_region resolve key di name ->
    feed_has_region resolve key dj name ->
    region_key name = Some k ->
    call urlopen = Ok doc ->
    2 <= length (entries_named k (regions doc)).

(** The region name [name] of a feed resolves to the canonical id [R1]. *)
Definition resolves_to (R1 : string) (name : json) : bool :=
  match name with
  | JStr s => bool_decide (JSON_NAME_TO_REGIONS_API !! s = Some R1)
  | _ => false
  end.

(** "Two feeds of a reserved call that both contain a region resolving to
    the canonical id R1 give exactly one entry named R1, which holds the
    offerings of both feeds for R1", for a reserved normalizer with the
    feeds [urls]; [contribs urlopen u] are the contributions of the feed
    at [u], under the names the normalizer files them. *)
Definition two_feeds_one_entry {O : Type}
    (call : (string -> result string) -> result (document O))
    (contribs : (string -> result string) -> string ->
                result (list (RegionPricing O)))
    (urls : list string) (urlopen : string -> result string) : Prop :=
  forall doc i j ui uj ci cj R1,
    i <> j -> urls !! i = Some ui -> urls !! j = Some uj ->
    contribs urlopen ui = Ok ci -> contribs urlopen uj = Ok cj ->
    (exists c, c ∈ ci /\ resolves_to R1 (region c) = true) ->
    (exists c, c ∈ cj /\ resolves_to R1 (region c) = true) ->
    call urlopen = Ok doc ->
    exists e,
      entries_named (HStr R1) (regions doc) = [e] /\
      forall c o,
        c ∈ ci \/ c ∈ cj -> resolves_to R1 (region c) = true ->
        o ∈ instanceTypes c -> o ∈ instanceTypes e.

(** The parsed feed [data] contains a non-empty [config.regions] list. *)
Definition has_region_list (data : json) : Prop :=
  exists kvs ckvs r rs,
    data = JObj kvs /\ obj_lookup "config" kvs = Some (JObj ckvs) /\
    obj_lookup "regions" ckvs = Some (JArr (r :: rs)).

(** "Every feed that parses but does not contain a non-empty
    [config.regions] list is an empty contribution", for the loop with
    body [feed] and the feed at [u]. *)
Definition feed_without_list_is_empty {S : Type}
    (feed : (string -> result string) -> S -> string -> result S)
    (urlopen : string -> result string) (u : string) : Prop :=
  forall data,
    load_data urlopen u = Ok data -> ~ has_region_list data ->
    empty_contribution (feed urlopen) u.

End Contributions.

(** ** The price token parser, as the specification words it

    "Strips every character that is not a digit or decimal point, then
    parses as a floating-point number; null on empty-after-stripping or
    parse failure." *)

Module PriceSpec.
Import Re Float.

(** The characters of [tok] that are digits or points, in order. *)
Definition stripped (tok : string) : string :=
  string_of_list_ascii (filter (fun c => is_price_char c = true)
                               (list_ascii_of_string tok)).

Fixpoint count_digits (s : string) : nat :=
  match s with
  | EmptyString => 0
  | String c s' => (if is_digit c then 1 else 0) + count_digits s'
  end.

Fixpoint count_points (s : string) : nat :=
  match s with
  | EmptyString => 0
  | String c s' => (if Ascii.eqb c "." then 1 else 0) + count_points s'
  end.

(** A text of digits and points that [float] accepts: at least one digit
    and at most one point. *)
Definition is_numeral (s : string) : bool :=
  (1 <=? count_digits s)%nat && (count_points s <=? 1)%nat.

(** The digits of [s] read as one decimal integer, on top of [acc]. *)
Fixpoint digits_value (s : string) (acc : N) : N :=
  match s with
  | EmptyString => acc
  | String c s' =>
      digits_value s' (if is_digit c then acc * 10 + Json.digit_val c else acc)%N
  end.

(** The number of digits behind the first point of [s]. *)
Fixpoint fraction_digits (s : string) : nat :=
  match s with
  | EmptyString => 0
  | String c s' => if Ascii.eqb c "." then count_digits s' else fraction_digits s'
  end.

(** The price of a token: the binary64 value nearest to the decimal number
    the stripped token spells, null when it spells none. *)
Definition price (tok : string) : option spec_float :=
  let s := stripped tok in
  if is_numeral s
  then Some (float_of_decimal (digits_value s 0) (Z.of_nat (fraction_digits s)))
  else None.

End PriceSpec.

(** ** The columns of the new reserved scheme, as the specification words
    them: for every (term, purchase option) pair the column is stored. *)

Module NewSchemeSpec.
Import Float AWSPrices.



End NewSchemeSpec.

(** ** The legacy column routing, as the specification words it *)

Module LegacySpec.
Import AWSPrices.

Inductive field := Upfront | Hourly.

(** "[yrTerm1] sets [prices["1"].upfront], [yrTerm1Hourly] or
    [yearTerm1Hourly] sets [prices["1"].hourly], [yrTerm3] sets
    [prices["3"].upfront], [yrTerm3Hourly] or [yearTerm3Hourly] sets
    [prices["3"].hourly]; no other column affects the prices." *)
Definition six_names (name : string) : option (string * field) :=
  if String.eqb name "yrTerm1" then Some ("1", Upfront)
  else if String.eqb name "yrTerm1Hourly" || String.eqb name "yearTerm1Hourly"
  then Some ("1", Hourly)
  else if String.eqb name "yrTerm3" then Some ("3", Upfront)
  else if String.eqb name "yrTerm3Hourly" || String.eqb name "yearTerm3Hourly"
  then Some ("3", Hourly)
  else None.

(** The same without the spellings [yrTerm1Hourly] and [yrTerm3Hourly]. *)
Definition four_names (name : string) : option (string * field) :=
  if String.eqb name "yrTerm1" then Some ("1", Upfront)
  else if String.eqb name "yearTerm1Hourly" then Some ("1", Hourly)
  else if String.eqb name "yrTerm3" then Some ("3", Upfront)
  else if String.eqb name "yearTerm3Hourly" then Some ("3", Hourly)
  else None.

(** The prices after a column with the parsed [price] routed to [target]. *)
Definition routed (target : option (string * field)) (price : option spec_float)
    (prices : old_prices) : old_prices :=
  match target with
  | Some (t, Upfront) => alter (with_upfront price) t prices
  | Some (t, Hourly) => alter (with_hourly price) t prices
  | None => prices
  end.

(** The body [column] of the loop over the value columns of a tier routes
    by [route]: on prices with both terms, a column whose name is a string
    and whose price parses to [price] (null included) leaves the prices
    routed by its name, and a column whose name is no string leaves them
    as they are. *)
Definition routes_by (column : old_prices -> json -> result old_prices)
    (route : string -> option (string * field)) : Prop :=
  forall prices price_data name price,
    is_Some (prices !! "1") -> is_Some (prices !! "3") ->
    parse_price price_data = Ok price ->
    py_getitem price_data "name" = Ok name ->
    column prices price_data =
    Ok (match name with
        | JStr n => routed (route n) price prices
        | _ => prices
        end).

End LegacySpec.

(** ** Comment stripping, as the specification words it

    Modelled from the spec: "Strip block comments, non-greedy": each
    comment ends at the first [*/] behind its opening. The program has no
    such function; [Re.strip_comments] is what it runs. *)

Module CommentSpec.
Import Re.

(** The smallest number of non-NUL characters between an opening and a
    closing [*/]; [n] characters are already taken. *)
Fixpoint comment_body_lazy (s : string) (n : nat) : option nat :=
  if (0 <? n)%nat && String.prefix "*/" s then Some n
  else
    match s with
    | EmptyString => None
    | String c s' =>
        if Ascii.eqb c NUL then None else comment_body_lazy s' (S n)
    end.

Fixpoint strip_comments_lazy_from (s : string) (skip : nat) : string :=
  match s with
  | EmptyString => EmptyString
  | String c s' =>
      match skip with
      | S k => strip_comments_lazy_from s' k
      | O =>
          if String.prefix "/*" s then
            match comment_body_lazy (string_drop 2 s) 0 with
            | Some n => strip_comments_lazy_from s' (n + 3)
            | None => String c (strip_comments_lazy_from s' 0)
            end
          else String c (strip_comments_lazy_from s' 0)
      end
  end.

Definition strip_comments_lazy (f : string) : string :=
  strip_comments_lazy_from f 0.

(** No character of [s] is NUL. *)
Fixpoint nul_free (s : string) : bool :=
  match s with
  | EmptyString => true
  | String c s' => negb (Ascii.eqb c NUL) && nul_free s'
  end.

End CommentSpec.

(** ** Documents with their zero prices taken out

    What the output methods are compared on: a document, and the same
    document with [None] in the place of every price that is a zero. *)

Module ZeroPrices.
Import AWSPrices.

Definition zero_as_none (p : option spec_float) : option spec_float :=
  match p with
  | Some (S754_zero _) => None
  | _ => p
  end.

Definition cell_zero (c : cell) : cell :=
  {| hourly := zero_as_none (hourly c); upfront := zero_as_none (upfront c) |}.

Definition old_zero (prices : old_prices) : old_prices := cell_zero <$> prices.

Definition new_zero (prices : new_prices) : new_prices :=
  old_zero <$> prices.


Definition ec2_ondemand (it : EC2Prices.ondemand_offering) :=
  {| EC2Prices.od_type := EC2Prices.od_type it;
     EC2Prices.od_os := EC2Prices.od_os it;
     EC2Prices.od_price := zero_as_none (EC2Prices.od_price it) |}.

Definition ec2_reserved (it : EC2Prices.reserved_offering) :=
  {| EC2Prices.ri_type := EC2Prices.ri_type it;
     EC2Prices.ri_os := EC2Prices.ri_os it;
     EC2Prices.ri_prices := new_zero (EC2Prices.ri_prices it) |}.

Definition elc_ondemand (it : ELCPrices.ondemand_offering) :=
  {| ELCPrices.od_type := ELCPrices.od_type it;
     ELCPrices.od_price := zero_as_none (ELCPrices.od_price it) |}.

Definition elc_reserved (it : ELCPrices.reserved_offering) :=
  {| ELCPrices.ri_type := ELCPrices.ri_type it;
     ELCPrices.ri_utilization := ELCPrices.ri_utilization it;
     ELCPrices.ri_prices := old_zero (ELCPrices.ri_prices it) |}.

Definition rds_ondemand (it : RDSPrices.ondemand_offering) :=
  {| RDSPrices.od_type := RDSPrices.od_type it;
     RDSPrices.od_multiaz := RDSPrices.od_multiaz it;
     RDSPrices.od_license := RDSPrices.od_license it;
     RDSPrices.od_db := RDSPrices.od_db it;
     RDSPrices.od_price := zero_as_none (RDSPrices.od_price it) |}.

Definition rds_reserved (it : RDSPrices.reserved_offering) :=
  {| RDSPrices.ri_type := RDSPrices.ri_type it;
     RDSPrices.ri_multiaz := RDSPrices.ri_multiaz it;
     RDSPrices.ri_license := RDSPrices.ri_license it;
     RDSPrices.ri_db := RDSPrices.ri_db it;
     RDSPrices.ri_utilization := RDSPrices.ri_utilization it;
     RDSPrices.ri_prices := match RDSPrices.ri_prices it with
                            | inl prices => inl (old_zero prices)
                            | inr prices => inr (new_zero prices)
                            end |}.

Definition rs_ondemand (it : RSPrices.ondemand_offering) :=
  {| RSPrices.od_type := RSPrices.od_type it;
     RSPrices.od_price := zero_as_none (RSPrices.od_price it) |}.

Definition rs_reserved (it : RSPrices.reserved_offering) :=
  {| RSPrices.ri_type := RSPrices.ri_type it;
     RSPrices.ri_prices := new_zero (RSPrices.ri_prices it) |}.


End ZeroPrices.

(** ** Paths through a parsed feed, and the shape of price tables

    What a statement about a whole call needs to say where in a feed an
    item sits, and which cells a price table has. *)

Module Behaviour.
Import AWSPrices Contributions.

(** Every feed of [urls] loads, and the guard of the region loop
    (["config" in data and data["config"] and "regions" in data["config"]
    and data["config"]["regions"]]) is false on its payload. *)
Definition all_retired (urlopen : string -> result string) (urls : list string)
  : Prop :=
  forall u, u ∈ urls ->
    exists data, load_data urlopen u = Ok data /\ has_regions data = Ok false.

(** [x] is visited by [for x in holder[key]]. *)
Definition visited (holder : json) (key : string) (x : json) : Prop :=
  exists v xs, py_getitem holder key = Ok v /\ py_iter v = Ok xs /\ x ∈ xs.

(** The parsed feed [data] has a region entry that passes the guard and
    lists the item [it] under [key]. *)
Definition feed_has_item (data : json) (key : string) (it : json) : Prop :=
  exists rs r,
    config_regions data = Ok rs /\ r ∈ rs /\ region_guard r = Ok true /\
    listed r key it.

(** The item [it] of a new-scheme reserved feed has the value column
    [price_data] under the term [term] and the purchase option [po]. *)
Definition item_has_column (it term po price_data : json) : Prop :=
  exists s po_data,
    listed it "terms" s /\
    py_getitem s "term" = Ok term /\
    visited s "purchaseOptions" po_data /\
    py_getitem po_data "purchaseOption" = Ok po /\
    visited po_data "valueColumns" price_data.

(** The purchase options of each term of a price table. *)
Definition options_of (prices : new_prices) : gmap string (gset string) :=
  dom <$> prices.

(** The region names of [cs] in the order of their first occurrence: a
    name whose key is in [seen] or occurred before is left out. (A name
    without a key, a list or a dict, is no name of a contribution of a
    reserved feed; see [reserved_contribution].) *)
Fixpoint first_names {O : Type} (seen : gset hkey) (cs : list (RegionPricing O))
  : list json :=
  match cs with
  | [] => []
  | c :: cs' =>
      match region_key (region c) with
      | Some k =>
          if decide (k ∈ seen) then first_names seen cs'
          else region c :: first_names ({[k]} ∪ seen) cs'
      | None => region c :: first_names seen cs'
      end
  end.

(** [name] is one of the ten canonical region ids. *)
Definition canonical (name : json) : Prop :=
  exists v, name = JStr v /\ v ∈ REGIONS.

(** No colon of [s] directly follows a letter or a digit; [prev] tells
    whether the character before [s] is one. *)
Fixpoint no_bare_key (prev : bool) (s : string) : bool :=
  match s with
  | EmptyString => true
  | String c s' =>
      negb (prev && Ascii.eqb c ":") && no_bare_key (Re.is_alnum c) s'
  end.

(** The purchase options of the new scheme, and the terms. *)
Definition all_three : gset string :=
  {[ "noUpfront"; "partialUpfront"; "allUpfront" ]}.
Definition last_two : gset string := {[ "partialUpfront"; "allUpfront" ]}.
Definition both_terms : gset string := {[ "1"; "3" ]}.

(** The price table of an offering of the database service: a legacy
    table with the two terms, or a new table with the three options under
    each term. *)
Definition rds_table_shape (prices : old_prices + new_prices) : Prop :=
  match prices with
  | inl prices => dom prices = both_terms
  | inr prices => options_of prices = {[ "1" := all_three; "3" := all_three ]}
  end.

(** Every offering of every entry of [regions] satisfies [P]. *)
Definition all_offerings {O : Type} (P : O -> Prop)
    (regions : list (RegionPricing O)) : Prop :=
  forall e o, e ∈ regions -> o ∈ instanceTypes e -> P o.

End Behaviour.

(** ** Feeds used as concrete inputs *)

Module Scenarios.
Import AWSPrices.

(** [q s] is [s] between double quotes. *)
Definition q (s : string) : string :=
  String Re.DQUOTE (s ++ String Re.DQUOTE EmptyString).

(** A feed without [config]: an empty contribution. *)
Definition empty_feed : string := "callback({})".

(** [serve feeds]: the network answers with the payload listed for the
    URL and with [empty_feed] for every other URL. *)
Fixpoint serve (feeds : list (string * string)) (url : string) : result string :=
  match feeds with
  | [] => Ok empty_feed
  | (u, payload) :: rest => if String.eqb u url then Ok payload else serve rest url
  end.

(** An on-demand compute feed with region us-east-1 and one size. *)
Definition ec2_od_linux : string :=
  "callback({config:{regions:[{region:" ++ q "us-east-1" ++
  ",instanceTypes:[{sizes:[{size:" ++ q "m3.medium" ++
  ",valueColumns:[{name:" ++ q "linux" ++ ",prices:{USD:" ++ q "0.070" ++
  "}}]}]}]}]}})".

(** An on-demand compute feed whose region us-east-1 lists no
    [instanceTypes]. *)
Definition ec2_od_bare : string :=
  "callback({config:{regions:[{region:" ++ q "us-east-1" ++ "}]}})".

Definition ec2_od_one_bare : string -> result string :=
  serve [ (EC2Prices.INSTANCES_ON_DEMAND_LINUX_URL, ec2_od_linux);
          (EC2Prices.INSTANCES_ON_DEMAND_RHEL_URL, ec2_od_bare) ].


(** A new-scheme reserved feed: region us-east-1, one instance type, one
    term with one purchase option, [upfront] and [monthlyStar] columns. *)
Definition ri_feed (itype upfront monthly : string) : string :=
  "/* reserved */callback({config:{regions:[{region:" ++ q "us-east-1" ++
  ",instanceTypes:[{type:" ++ q itype ++
  ",terms:[{term:" ++ q "yrTerm1" ++
  ",purchaseOptions:[{purchaseOption:" ++ q "partialUpfront" ++
  ",valueColumns:[{name:" ++ q "upfront" ++ ",prices:{USD:" ++ q upfront ++
  "}},{name:" ++ q "monthlyStar" ++ ",prices:{USD:" ++ q monthly ++
  "}}]}]}]}]}]}});".

Definition ec2_ri_two : string -> result string :=
  serve [ (EC2Prices.INSTANCES_RESERVED_LINUX_URL, ri_feed "m3.medium" "$211" "730.0");
          (EC2Prices.INSTANCES_RESERVED_RHEL_URL, ri_feed "m3.large" "$422" "$36.50") ].



(** The value column [{"name": name, "prices": {"USD": tok}}]. *)
Definition column (name tok : string) : json :=
  JObj [("name", JStr name); ("prices", JObj [("USD", JStr tok)])].

(** The feed of the end-to-end scenario of the specification. *)
Definition elc_od_single : string :=
  "callback({config:{regions:[{region:" ++ q "us-east" ++
  ",types:[{tiers:[{name:" ++ q "m1.small" ++ ",prices:{USD:" ++
  q "$0.044 per Hrs" ++ "}}]}]}]}})".

Definition elc_od_one : string -> result string :=
  serve [ (ELCPrices.INSTANCES_ON_DEMAND_URL, elc_od_single) ].

(** An on-demand cache feed with a region name outside the table. *)
Definition elc_od_unknown_region : string -> result string :=
  serve [ (ELCPrices.PG_INSTANCES_ON_DEMAND_URL,
           "callback({config:{regions:[{region:" ++ q "eu-north" ++
           ",types:[]}]}})") ].

(** A legacy reserved feed: region us-east, one tier of size [size] with
    two value columns. *)
Definition legacy_feed (size name1 tok1 name2 tok2 : string) : string :=
  "callback({config:{regions:[{region:" ++ q "us-east" ++
  ",instanceTypes:[{type:" ++
  q "Standard Instances - Current Generation - Single-AZ" ++
  ",tiers:[{size:" ++ q size ++
  ",valueColumns:[{name:" ++ q name1 ++ ",prices:{USD:" ++ q tok1 ++
  "}},{name:" ++ q name2 ++ ",prices:{USD:" ++ q tok2 ++ "}}]}]}]}]}})".

Definition elc_ri_hourly : string -> result string :=
  serve [ (ELCPrices.INSTANCES_RESERVED_HEAVY_UTILIZATION_URL,
           legacy_feed "cache.m3.medium" "yrTerm1" "$98" "yrTerm1Hourly" "$0.023") ].

Definition rds_ri_hourly : string -> result string :=
  serve [ (RDSPrices.RDS_MSSQL_LICENSED_EX_RESERVED_HEAVY_URL,
           legacy_feed "db.m3.medium" "yrTerm1" "$98" "yrTerm1Hourly" "$0.023") ].

(** The network fails at [u] and answers [empty_feed] elsewhere. *)
Definition unreachable (u : string) (url : string) : result string :=
  if String.eqb u url then Raise URLError else Ok empty_feed.

(** A reserved compute feed whose monthly price is not a number. *)
Definition ec2_ri_no_monthly : string -> result string :=
  serve [ (EC2Prices.INSTANCES_RESERVED_LINUX_URL, ri_feed "m3.medium" "$211" "N/A") ].

(** A new-scheme reserved feed with the term [term] and the purchase
    option [po], with one [upfront] column. *)
Definition ri_feed_option (term po : string) : string :=
  "callback({config:{regions:[{region:" ++ q "us-east-1" ++
  ",instanceTypes:[{type:" ++ q "m3.medium" ++
  ",terms:[{term:" ++ q term ++
  ",purchaseOptions:[{purchaseOption:" ++ q po ++
  ",valueColumns:[{name:" ++ q "upfront" ++ ",prices:{USD:" ++ q "$100" ++
  "}}]}]}]}]}]}});".

(** A reserved feed with a three-year [noUpfront] option, served to the
    compute service and to the data-warehouse service. *)
Definition ri_three_year_no_upfront : string -> result string :=
  serve [ (EC2Prices.INSTANCES_RESERVED_LINUX_URL, ri_feed_option "yrTerm3" "noUpfront");
          (RSPrices.RS_RESERVED_URL, ri_feed_option "yrTerm3" "noUpfront") ].

(** On-demand feeds whose price holder has no [prices]: a value column of
    the compute service, a tier of the cache service. *)
Definition ec2_od_no_price : string -> result string :=
  serve [ (EC2Prices.INSTANCES_ON_DEMAND_LINUX_URL,
           "callback({config:{regions:[{region:" ++ q "us-east-1" ++
           ",instanceTypes:[{sizes:[{size:" ++ q "m3.medium" ++
           ",valueColumns:[{name:" ++ q "linux" ++ "}]}]}]}]}})") ].

Definition elc_od_no_price : string -> result string :=
  serve [ (ELCPrices.INSTANCES_ON_DEMAND_URL,
           "callback({config:{regions:[{region:" ++ q "us-east" ++
           ",types:[{tiers:[{name:" ++ q "m1.small" ++ "}]}]}]}})") ].

(** Reserved cache feeds that name regions by their aliases: the first
    names us-west and us-east, the second us-east-1. *)
Definition legacy_feed_at (region1 region2 : string) : string :=
  "callback({config:{regions:[{region:" ++ q region1 ++
  ",instanceTypes:[]},{region:" ++ q region2 ++ ",instanceTypes:[]}]}})".

Definition elc_ri_aliases : string -> result string :=
  serve [ (ELCPrices.INSTANCES_RESERVED_LIGHT_UTILIZATION_URL,
           legacy_feed_at "us-west" "us-east");
          (ELCPrices.INSTANCES_RESERVED_HEAVY_UTILIZATION_URL,
           legacy_feed_at "us-east-1" "eu-ireland") ].

(** Two block comments around a payload. *)
Definition two_comments : string :=
  "/* head */callback({})/* tail */".

(** Reserved compute feeds for one region under two of its names: the
    first feed names us-east, the second us-east-1. *)
Definition ri_feed_named (name itype : string) : string :=
  "callback({config:{regions:[{region:" ++ q name ++
  ",instanceTypes:[{type:" ++ q itype ++ "}]}]}})".

Definition ec2_ri_two_names : string -> result string :=
  serve [ (EC2Prices.INSTANCES_RESERVED_LINUX_URL, ri_feed_named "us-east" "m3.medium");
          (EC2Prices.INSTANCES_RESERVED_RHEL_URL, ri_feed_named "us-east-1" "m3.large") ].

(** Payloads that parse and hold no [config.regions]: a number, and an
    object whose [config] is a number. *)
Definition number_feed : string -> result string :=
  serve [ (EC2Prices.INSTANCES_ON_DEMAND_LINUX_URL, "callback(5)") ].

Definition config_number_feed : string -> result string :=
  serve [ (ELCPrices.INSTANCES_RESERVED_LIGHT_UTILIZATION_URL, "callback({config:5})") ].

(** An object whose [config] is a text: the guard of the region loop is
    false on it. *)
(** Reserved compute feeds whose regions are named by numbers: the first
    names [NaN] and then a text, the second names [NaN]. *)
Definition ec2_ri_nan : string -> result string :=
  serve [ (EC2Prices.INSTANCES_RESERVED_LINUX_URL,
           "callback({config:{regions:[{region:NaN,instanceTypes:[{type:" ++
           q "m3.medium" ++ "}]},{region:" ++ q "r" ++ ",instanceTypes:[{type:" ++
           q "m3.medium" ++ "}]}]}})");
          (EC2Prices.INSTANCES_RESERVED_RHEL_URL,
           "callback({config:{regions:[{region:NaN,instanceTypes:[{type:" ++
           q "m3.large" ++ "}]}]}})") ].


Definition config_text_feed : string -> result string :=
  serve [ (EC2Prices.INSTANCES_ON_DEMAND_LINUX_URL,
           "callback({config:" ++ q "none" ++ "})") ].

End Scenarios.

(** * Properties *)

Local Open Scope list_scope.

(** ** The [result] monad and its loops *)

Section ResultFacts.
Context {A B : Type}.

Lemma bind_Ok_inv (m : result A) (f : A -> result B) (b : B) :
  (m ≫= f) = Ok b -> exists a, m = Ok a /\ f a = Ok b.
Proof. destruct m as [a|e]; simpl; [eauto | discriminate]. Qed.

Lemma bind_Raise_inv (m : result A) (f : A -> result B) (e : exn) :
  (m ≫= f) = Raise e -> m = Raise e \/ exists a, m = Ok a /\ f a = Raise e.
Proof. destruct m as [a|e']; simpl; [eauto | intros [= ->]; auto]. Qed.

Lemma bind_Ok (a : A) (f : A -> result B) : (Ok a ≫= f) = f a.
Proof. reflexivity. Qed.

Lemma bind_Raise (e : exn) (f : A -> result B) : (Raise e ≫= f) = Raise e.
Proof. reflexivity. Qed.
End ResultFacts.

(** Splits the first bind of a hypothesis [H : (m ≫= f) = Ok b]. *)
Ltac bind_inv H :=
  let a := fresh "a" in
  let Ha := fresh "Ha" in
  apply bind_Ok_inv in H; destruct H as (a & Ha & H).

Section LoopFacts.
Context {S X : Type}.
Implicit Types (body : S -> X -> result S) (l : list X) (st : S).

Lemma foldM_app body l1 l2 st :
  foldM body (l1 ++ l2) st = (st' ← foldM body l1 st; foldM body l2 st').
Proof.
  revert st; induction l1 as [|x l1 IH]; intros st; simpl; [done|].
  destruct (body st x); simpl; auto.
Qed.

(** A step that changes nothing can be left out of the loop. *)
Lemma foldM_skip body l1 x l2 st :
  (forall st', body st' x = Ok st') ->
  foldM body (l1 ++ x :: l2) st = foldM body (l1 ++ l2) st.
Proof.
  intros Hx. rewrite !foldM_app. destruct (foldM body l1 st); simpl; [|done].
  by rewrite Hx.
Qed.

(** A step that raises in every state makes the loop raise. *)
Lemma foldM_raises body l x :
  x ∈ l ->
  (forall st, exists e, body st x = Raise e) ->
  forall st, exists e, foldM body l st = Raise e.
Proof.
  intros Hin Hx. induction l as [|y l IH]; [by apply elem_of_nil in Hin|].
  intros st. simpl. apply elem_of_cons in Hin as [<-|Hin].
  - destruct (Hx st) as [e ->]. eauto.
  - destruct (body st y) as [st'|e]; simpl; eauto.
Qed.

(** A loop whose step files the items [g x] with a pure [h]. *)
Lemma foldM_factor {C : Type} body (g : X -> result (list C))
    (h : S -> C -> S) l st :
  (forall st x, body st x = (cs ← g x; Ok (foldl h st cs))) ->
  foldM body l st = (css ← mapM g l; Ok (foldl h st (concat css))).
Proof.
  intros Hb. revert st; induction l as [|x l IH]; intros st; simpl; [done|].
  rewrite Hb. destruct (g x) as [cs|e]; simpl; [|done].
  rewrite IH. destruct (mapM g l) as [css|e]; simpl; [|done].
  by rewrite foldl_app.
Qed.
End LoopFacts.

Lemma mapM_Ok_lookup {X Y : Type} (f : X -> result Y) (l : list X) (ys : list Y) :
  mapM f l = Ok ys ->
  length ys = length l /\
  forall i x, l !! i = Some x -> exists y, ys !! i = Some y /\ f x = Ok y.
Proof.
  revert ys; induction l as [|x l IH]; intros ys H; simpl in H.
  - injection H as <-. split; [done|]. intros i x Hx. by rewrite lookup_nil in Hx.
  - bind_inv H. bind_inv H. injection H as <-.
    destruct (IH _ Ha0) as [Hlen Hl]. split; [simpl; lia|].
    intros [|i] x' Hx'; simpl in *.
    + injection Hx' as <-. eauto.
    + eauto.
Qed.

Lemma mapM_raises {X Y : Type} (f : X -> result Y) (l : list X) (x : X) :
  x ∈ l -> (exists e, f x = Raise e) -> exists e, mapM f l = Raise e.
Proof.
  intros Hin [e He]. induction l as [|y l IH]; [by apply elem_of_nil in Hin|].
  simpl. apply elem_of_cons in Hin as [<-|Hin].
  - rewrite He. eauto.
  - destruct (f y); simpl; [|eauto]. destruct (IH Hin) as [e' ->]. eauto.
Qed.


(** ** Region accumulation *)

Section AccumulateFacts.
Import AWSPrices Contributions Behaviour.
Context {O : Type}.
Implicit Types (st : reserved_state O) (c : RegionPricing O)
  (cs rs : list (RegionPricing O)).

(** The reserved region step files the contribution of the entry. *)
Lemma reserved_region_factor resolve (offerings : json -> result (list O)) st r :
  reserved_region resolve offerings st r =
  (cs ← reserved_contribution resolve offerings r;
   Ok (foldl add_contribution st cs)).
Proof.
  unfold reserved_region, reserved_contribution.
  destruct (region_guard r) as [[|]|e]; simpl; try done.
  destruct (py_getitem r "region") as [raw|e]; simpl; try done.
  destruct (resolve raw) as [region_name|e]; simpl; try done.
  unfold instance_types_ref.
  destruct (py_hash region_name) as [k|e] eqn:Hk; simpl; try done.
  assert (Hkey : region_key region_name = Some k)
    by (unfold region_key; by rewrite Hk).
  destruct (result_regions_index st !! k) as [i|] eqn:Hi; simpl;
    (destruct (if_in_for r "instanceTypes" offerings) as [os|e]; simpl; [|done]);
    unfold add_contribution; simpl; rewrite Hkey; simpl; rewrite Hi; done.
Qed.

(** The on-demand region step appends the contribution of the entry. *)
Lemma ondemand_region_factor resolve key (offerings : json -> result (list O)) rs r :
  ondemand_region resolve key offerings rs r =
  (cs ← ondemand_contribution resolve key offerings r;
   Ok (foldl (fun acc c => acc ++ [c]) rs cs)).
Proof.
  unfold ondemand_region, ondemand_contribution.
  destruct (region_guard r) as [[|]|e]; simpl; try done.
  destruct (py_getitem r "region") as [raw|e]; simpl; try done.
  destruct (resolve raw) as [region_name|e]; simpl; try done.
  destruct (py_in key r) as [[|]|e]; simpl; try done.
  destruct (for_in r key offerings) as [os|e]; simpl; done.
Qed.

Lemma foldl_snoc cs rs : foldl (fun acc c => acc ++ [c]) rs cs = rs ++ cs.
Proof.
  revert rs; induction cs as [|c cs IH]; intros rs; simpl.
  - by rewrite app_nil_r.
  - rewrite IH. by rewrite <- app_assoc.
Qed.

(** A feed of a reserved normalizer files its contributions. *)
Lemma reserved_feed_factor resolve (offerings : json -> result (list O)) st data :
  (rs ← config_regions data; foldM (reserved_region resolve offerings) rs st) =
  (cs ← feed_contributions (reserved_contribution resolve offerings) data;
   Ok (foldl add_contribution st cs)).
Proof.
  unfold feed_contributions.
  destruct (config_regions data) as [rs|e]; simpl; [|done].
  rewrite (foldM_factor _ (reserved_contribution resolve offerings) add_contribution)
    by apply reserved_region_factor.
  by destruct (mapM _ rs).
Qed.

(** A feed of an on-demand normalizer appends its contributions. *)
Lemma ondemand_feed_factor resolve key (offerings : json -> result (list O)) rs data :
  (es ← config_regions data; foldM (ondemand_region resolve key offerings) es rs) =
  (cs ← feed_contributions (ondemand_contribution resolve key offerings) data;
   Ok (rs ++ cs)).
Proof.
  unfold feed_contributions.
  destruct (config_regions data) as [es|e]; simpl; [|done].
  rewrite (foldM_factor _ (ondemand_contribution resolve key offerings)
             (fun acc c => acc ++ [c])) by apply ondemand_region_factor.
  destruct (mapM _ es); simpl; [|done]. by rewrite foldl_snoc.
Qed.

(** *** The index names the positions of [result_regions] *)

Record index_ok (cs : list (RegionPricing O)) (st : reserved_state O) : Prop := {
  index_sound : forall k i,
    result_regions_index st !! k = Some i ->
    exists e, result_regions st !! i = Some e /\ region_key (region e) = Some k;
  index_complete : forall i e k,
    result_regions st !! i = Some e -> region_key (region e) = Some k ->
    result_regions_index st !! k = Some i;
  index_content : forall i e k,
    result_regions st !! i = Some e -> region_key (region e) = Some k ->
    instanceTypes e = offerings_for k cs;
  index_keys : forall k,
    (exists c, c ∈ cs /\ region_key (region c) = Some k) ->
    is_Some (result_regions_index st !! k)
}.

Lemma index_ok_empty : index_ok [] empty_state.
Proof.
  split; simpl.
  - intros k i H. by rewrite lookup_empty in H.
  - intros i e k H. by rewrite lookup_nil in H.
  - intros i e k H. by rewrite lookup_nil in H.
  - intros k (c & Hc & _). by apply elem_of_nil in Hc.
Qed.

Lemma offerings_for_snoc k cs c :
  offerings_for k (cs ++ [c]) =
  offerings_for k cs ++
    (if decide (region_key (region c) = Some k) then instanceTypes c else []).
Proof. unfold offerings_for. rewrite flat_map_app. simpl. by rewrite app_nil_r. Qed.

Lemma offerings_for_none k cs :
  (forall c, c ∈ cs -> region_key (region c) <> Some k) ->
  offerings_for k cs = [].
Proof.
  induction cs as [|c cs IH]; intros H; [done|].
  unfold offerings_for in *. simpl. rewrite decide_False.
  - simpl. apply IH. intros c' Hc'. apply H. by right.
  - apply H. by left.
Qed.

Lemma add_contribution_known st c k i :
  region_key (region c) = Some k ->
  result_regions_index st !! k = Some i ->
  add_contribution st c = append_offerings i (instanceTypes c) st.
Proof. intros Hk Hi. unfold add_contribution. rewrite Hk. simpl. by rewrite Hi. Qed.

Lemma add_contribution_new st c :
  (region_key (region c) ≫= fun k => result_regions_index st !! k) = None ->
  result_regions (add_contribution st c) = result_regions st ++ [c] /\
  result_regions_index (add_contribution st c) =
    match region_key (region c) with
    | Some k => <[k := length (result_regions st)]> (result_regions_index st)
    | None => result_regions_index st
    end.
Proof.
  intros Hn. unfold add_contribution. rewrite Hn. simpl. split; [|done].
  rewrite <- (Nat.add_0_r (length (result_regions st))), alter_app_r.
  simpl. by destruct c.
Qed.

Lemma index_ok_add cs st c :
  index_ok cs st -> index_ok (cs ++ [c]) (add_contribution st c).
Proof.
  intros [Hs Hc Hcont Hkeys].
  destruct (region_key (region c) ≫= fun k => result_regions_index st !! k)
    as [i|] eqn:Hlook.
  - (* the region is already filed at position [i] *)
    destruct (region_key (region c)) as [k|] eqn:Hk; [|done]. simpl in Hlook.
    rewrite (add_contribution_known st c k i Hk Hlook).
    destruct (Hs _ _ Hlook) as (ei & Hei & Hkei).
    split; simpl.
    + intros k' i' Hi'. destruct (Hs _ _ Hi') as (e & He & Hke).
      rewrite list_lookup_alter. case_decide; subst.
      * rewrite He. simpl. eauto.
      * eauto.
    + intros i' e' k' He' Hke'. rewrite list_lookup_alter in He'.
      case_decide; subst.
      * rewrite Hei in He'. simpl in He'. injection He' as <-. simpl in Hke'. eauto.
      * eauto.
    + intros i' e' k' He' Hke'. rewrite list_lookup_alter in He'.
      rewrite offerings_for_snoc. case_decide; subst.
      * rewrite Hei in He'. simpl in He'. injection He' as <-. simpl in *.
        assert (k' = k) as -> by congruence.
        rewrite (Hcont _ _ _ Hei Hkei). by rewrite decide_True.
      * rewrite (Hcont _ _ _ He' Hke'). rewrite decide_False; [by rewrite app_nil_r|].
        intros Heq. assert (k' = k) as -> by congruence.
        pose proof (Hc _ _ _ He' Hke'). congruence.
    + intros k' (c' & Hin & Hk'). apply elem_of_app in Hin as [Hin|Hin].
      * eauto.
      * apply list_elem_of_singleton in Hin as ->.
        assert (k' = k) as -> by congruence. eauto.
  - (* a new entry is appended *)
    destruct (add_contribution_new st c Hlook) as [Hrs Hix].
    assert (Hfresh : forall k, region_key (region c) = Some k ->
                               result_regions_index st !! k = None).
    { intros k Hk. rewrite Hk in Hlook. exact Hlook. }
    split; rewrite ?Hrs, ?Hix.
    + intros k' i' Hi'. destruct (region_key (region c)) as [k|] eqn:Hk.
      * rewrite lookup_insert in Hi'. case_decide; subst.
        -- injection Hi' as <-. exists c. split; [|done].
           rewrite lookup_app_r by lia. by rewrite Nat.sub_diag.
        -- destruct (Hs _ _ Hi') as (e & He & Hke). exists e. split; [|done].
           rewrite lookup_app_l; [done|]. by eapply lookup_lt_Some.
      * destruct (Hs _ _ Hi') as (e & He & Hke). exists e. split; [|done].
        rewrite lookup_app_l; [done|]. by eapply lookup_lt_Some.
    + intros i' e' k' He' Hke'. apply lookup_app_Some in He' as [He'|[Hge He']].
      * pose proof (Hc _ _ _ He' Hke') as Hi'.
        destruct (region_key (region c)) as [k|] eqn:Hk; [|done].
        rewrite lookup_insert_ne; [done|]. intros ->.
        rewrite (Hfresh _ eq_refl) in Hi'. done.
      * apply list_lookup_singleton_Some in He' as [Hz <-].
        rewrite Hke'. assert (i' = length (result_regions st)) as -> by lia.
        apply lookup_insert_eq.
    + intros i' e' k' He' Hke'. rewrite offerings_for_snoc.
      apply lookup_app_Some in He' as [He'|[Hge He']].
      * rewrite (Hcont _ _ _ He' Hke'). rewrite decide_False; [by rewrite app_nil_r|].
        intros Heq. pose proof (Hc _ _ _ He' Hke') as Hi'.
        rewrite (Hfresh _ Heq) in Hi'. done.
      * apply list_lookup_singleton_Some in He' as [Hz <-].
        rewrite decide_True by done.
        assert (Hnone : offerings_for k' cs = []).
        { apply offerings_for_none. intros c' Hc' Heq.
          destruct (Hkeys k') as [j Hj]; [eauto|].
          rewrite (Hfresh _ Hke') in Hj. done. }
        by rewrite Hnone.
    + intros k' (c' & Hin & Hk'). apply elem_of_app in Hin as [Hin|Hin].
      * destruct (Hkeys k') as [j Hj]; [eauto|].
        destruct (region_key (region c)) as [k|]; [|eauto].
        rewrite lookup_insert. case_decide; eauto.
      * apply list_elem_of_singleton in Hin as ->. rewrite Hk'.
        rewrite lookup_insert_eq. eauto.
Qed.

Lemma index_ok_foldl cs0 st cs :
  index_ok cs0 st -> index_ok (cs0 ++ cs) (foldl add_contribution st cs).
Proof.
  revert cs0 st; induction cs as [|c cs IH]; intros cs0 st H; simpl.
  - by rewrite app_nil_r.
  - replace (cs0 ++ c :: cs) with ((cs0 ++ [c]) ++ cs) by by rewrite <- app_assoc.
    apply IH. by apply index_ok_add.
Qed.

Lemma alter_names (f : RegionPricing O -> RegionPricing O) i
    (l : list (RegionPricing O)) :
  (forall e, region (f e) = region e) ->
  map region (alter f i l) = map region l.
Proof.
  intros Hf. revert i. induction l as [|e l IH]; intros i; [done|].
  destruct i as [|i]; simpl; [by rewrite Hf|]. f_equal. apply IH.
Qed.

Lemma append_offerings_names i os st :
  map region (result_regions (append_offerings i os st)) =
  map region (result_regions st).
Proof. by apply alter_names. Qed.

Lemma add_contribution_names st c :
  map region (result_regions (add_contribution st c)) =
    map region (result_regions st) ++
    first_names (dom (result_regions_index st)) [c] /\
  dom (result_regions_index (add_contribution st c)) =
    match region_key (region c) with
    | Some k => {[k]} ∪ dom (result_regions_index st)
    | None => dom (result_regions_index st)
    end.
Proof.
  unfold add_contribution. cbn [first_names].
  destruct (region_key (region c)) as [k|] eqn:Hk; cbn [mbind option_bind].
  - destruct (result_regions_index st !! k) as [i|] eqn:Hi.
    + assert (Hin : k ∈ dom (result_regions_index st)) by (apply elem_of_dom; eauto).
      rewrite append_offerings_names. destruct (decide _); [|done].
      split; [by rewrite app_nil_r|]. cbn [append_offerings result_regions_index].
      symmetry. apply subseteq_union_1_L. by apply singleton_subseteq_l.
    + assert (Hout : k ∉ dom (result_regions_index st)) by by apply not_elem_of_dom.
      rewrite append_offerings_names. destruct (decide _); [done|].
      cbn [append_offerings result_regions_index result_regions].
      split; [by rewrite map_app|]. by rewrite dom_insert_L.
  - rewrite append_offerings_names.
    cbn [append_offerings result_regions_index result_regions].
    split; [by rewrite map_app|done].
Qed.

Lemma foldl_add_names cs st :
  map region (result_regions (foldl add_contribution st cs)) =
  map region (result_regions st) ++ first_names (dom (result_regions_index st)) cs.
Proof.
  revert st. induction cs as [|c cs IH]; intros st; [by rewrite app_nil_r|].
  simpl foldl. rewrite IH.
  destruct (add_contribution_names st c) as [-> ->].
  rewrite <- app_assoc. f_equal. cbn [first_names].
  destruct (region_key (region c)) as [k|]; [|done].
  destruct (decide (k ∈ dom (result_regions_index st))) as [Hin|Hout]; [|done].
  simpl. f_equal. apply subseteq_union_1_L. by apply singleton_subseteq_l.
Qed.

(** The listed names are names of [cs]. *)
Lemma first_names_subseteq seen cs name :
  name ∈ first_names seen cs -> exists c, c ∈ cs /\ region c = name.
Proof.
  revert seen. induction cs as [|c cs IH]; intros seen H; [by apply elem_of_nil in H|].
  cbn [first_names] in H.
  assert (Hrest : forall seen', name ∈ first_names seen' cs ->
                                exists c', c' ∈ c :: cs /\ region c' = name).
  { intros seen' H'. destruct (IH seen' H') as (c' & Hc' & Hn).
    exists c'. split; [by right|done]. }
  destruct (region_key (region c)) as [k|].
  - destruct (decide (k ∈ seen)); [by apply (Hrest seen)|].
    apply elem_of_cons in H as [->|H]; [exists c; split; [by left|done]|].
    by apply (Hrest ({[k]} ∪ seen)).
  - apply elem_of_cons in H as [->|H]; [exists c; split; [by left|done]|].
    by apply (Hrest seen).
Qed.

(** The entries of the state filed from [cs] carry names of [cs]. *)
Lemma foldl_add_keyed cs :
  Forall keyed cs ->
  Forall keyed (result_regions (foldl add_contribution empty_state cs)).
Proof.
  intros Hcs. rewrite list.Forall_forall in Hcs |- *. intros e He.
  assert (Hin : region e ∈ first_names ∅ cs).
  { pose proof (foldl_add_names cs empty_state) as Hn. simpl in Hn.
    rewrite dom_empty_L in Hn. rewrite <- Hn. apply list_elem_of_fmap. by exists e. }
  destruct (first_names_subseteq _ _ _ Hin) as (c & Hc & Hname).
  unfold keyed. rewrite <- Hname. by apply Hcs.
Qed.

(** Filing contributions from the empty state merges them by region. *)
Lemma foldl_add_merged cs :
  Forall keyed cs ->
  merged_by_region cs (result_regions (foldl add_contribution empty_state cs)) /\
  distinct_regions (result_regions (foldl add_contribution empty_state cs)).
Proof.
  intros Hkeyed. pose proof (foldl_add_keyed cs Hkeyed) as Hk.
  rewrite list.Forall_forall in Hk.
  pose proof (index_ok_foldl [] empty_state cs index_ok_empty) as [Hs Hc Hcont Hkeys].
  simpl in *. split.
  - intros k Hkk. destruct (Hkeys k Hkk) as [i Hi].
    destruct (Hs _ _ Hi) as (e & He & Hke).
    exists i, e. repeat split; eauto.
    intros j e' He' Hke'. pose proof (Hc _ _ _ He' Hke'). congruence.
  - intros i j ei ej Hi Hj Hne.
    destruct (Hk ei) as [ki Hki]; [by eapply list_elem_of_lookup_2|].
    destruct (Hk ej) as [kj Hkj]; [by eapply list_elem_of_lookup_2|].
    exists ki, kj. split; [done|]. split; [done|]. intros ->.
    pose proof (Hc _ _ _ Hi Hki). pose proof (Hc _ _ _ Hj Hkj). congruence.
Qed.

(** *** The name of a contribution of a reserved feed has a key *)

Lemma mapM_concat_Forall {X Y : Type} (P : Y -> Prop) (f : X -> result (list Y))
    (l : list X) yss :
  (forall x ys, f x = Ok ys -> Forall P ys) ->
  mapM f l = Ok yss -> Forall P (concat yss).
Proof.
  intros Hf. revert yss. induction l as [|x l IH]; intros yss H; simpl in H.
  - injection H as <-. constructor.
  - apply bind_Ok_inv in H as (ys & Hys & H).
    apply bind_Ok_inv in H as (yss' & Hyss & H). injection H as <-. simpl.
    apply Forall_app. split; [by apply (Hf x)|by apply IH].
Qed.

Lemma reserved_contribution_keyed resolve (offerings : json -> result (list O)) r cs :
  reserved_contribution resolve offerings r = Ok cs -> Forall keyed cs.
Proof.
  unfold reserved_contribution. intros H.
  apply bind_Ok_inv in H as (g & _ & H).
  destruct g; [|injection H as <-; constructor].
  apply bind_Ok_inv in H as (raw & _ & H).
  apply bind_Ok_inv in H as (name & _ & H).
  apply bind_Ok_inv in H as (k & Hk & H).
  apply bind_Ok_inv in H as (os & _ & H). injection H as <-.
  repeat constructor. unfold keyed, region_key. simpl. rewrite Hk. eauto.
Qed.

Lemma feed_contributions_keyed resolve (offerings : json -> result (list O)) data cs :
  feed_contributions (reserved_contribution resolve offerings) data = Ok cs ->
  Forall keyed cs.
Proof.
  unfold feed_contributions. intros H.
  apply bind_Ok_inv in H as (rs & _ & H).
  apply bind_Ok_inv in H as (css & Hcss & H). injection H as <-.
  apply (mapM_concat_Forall _ _ _ _ (reserved_contribution_keyed resolve offerings) Hcss).
Qed.

Lemma all_contributions_keyed (contribs : string -> result (list (RegionPricing O)))
    urls cs :
  (forall u cs', contribs u = Ok cs' -> Forall keyed cs') ->
  all_contributions contribs urls = Ok cs -> Forall keyed cs.
Proof.
  unfold all_contributions. intros Hc H.
  apply bind_Ok_inv in H as (css & Hcss & H). injection H as <-.
  apply (mapM_concat_Forall _ _ _ _ Hc Hcss).
Qed.





End AccumulateFacts.


(** ** The normalizers file, or append, the contributions of their feeds *)

Section Factor.
Import AWSPrices Contributions.
Context {O : Type}.

Lemma reserved_loop_factor (feed : reserved_state O -> string -> result (reserved_state O))
    (contribs : string -> result (list (RegionPricing O))) urls st :
  (forall st u, feed st u = (cs ← contribs u; Ok (foldl add_contribution st cs))) ->
  foldM feed urls st =
  (cs ← all_contributions contribs urls; Ok (foldl add_contribution st cs)).
Proof.
  intros H. unfold all_contributions.
  rewrite (foldM_factor feed contribs add_contribution urls st H).
  by destruct (mapM contribs urls).
Qed.

Lemma ondemand_loop_factor
    (feed : list (RegionPricing O) -> string -> result (list (RegionPricing O)))
    (contribs : string -> result (list (RegionPricing O))) urls rs :
  (forall rs u, feed rs u = (cs ← contribs u; Ok (rs ++ cs))) ->
  foldM feed urls rs = (cs ← all_contributions contribs urls; Ok (rs ++ cs)).
Proof.
  intros H. unfold all_contributions.
  rewrite (foldM_factor feed contribs (fun acc c => acc ++ [c]) urls rs).
  - destruct (mapM contribs urls); simpl; [|done]. by rewrite foldl_snoc.
  - intros rs' u. rewrite H. destruct (contribs u); simpl; [|done].
    by rewrite foldl_snoc.
Qed.

End Factor.

(** Splits the binds in front of the region loop of a feed body. *)
Ltac feed_binds :=
  repeat match goal with
         | |- context [table_getitem ?d ?k] =>
             destruct (table_getitem d k); cbn [mbind result_bind]; try done
         | |- context [AWSPrices.load_data ?f ?u] =>
             destruct (AWSPrices.load_data f u); cbn [mbind result_bind]; try done
         | |- context [match ?m !! ?u with _ => _ end] =>
             destruct (m !! u); cbn [mbind result_bind]; try done
         end.

Section FeedFactor.
Import AWSPrices Contributions.
Variable urlopen : string -> result string.

Lemma ec2_reserved_feed st u :
  EC2Prices.reserved_feed urlopen st u =
  (cs ← ec2_reserved urlopen u; Ok (foldl add_contribution st cs)).
Proof.
  unfold EC2Prices.reserved_feed, ec2_reserved. feed_binds.
  apply reserved_feed_factor.
Qed.

Lemma elc_reserved_feed st u :
  ELCPrices.reserved_feed urlopen st u =
  (cs ← elc_reserved urlopen u; Ok (foldl add_contribution st cs)).
Proof.
  unfold ELCPrices.reserved_feed, elc_reserved. feed_binds.
  apply reserved_feed_factor.
Qed.

Lemma rds_reserved_feed_old st u :
  RDSPrices.reserved_feed_old urlopen st u =
  (cs ← rds_reserved_old urlopen u; Ok (foldl add_contribution st cs)).
Proof.
  unfold RDSPrices.reserved_feed_old, rds_reserved_old. feed_binds.
  apply reserved_feed_factor.
Qed.

Lemma rds_reserved_feed_new st u :
  RDSPrices.reserved_feed_new urlopen st u =
  (cs ← rds_reserved_new urlopen u; Ok (foldl add_contribution st cs)).
Proof.
  unfold RDSPrices.reserved_feed_new, rds_reserved_new. feed_binds;
    apply reserved_feed_factor.
Qed.

Lemma rs_reserved_feed st u :
  RSPrices.reserved_feed urlopen st u =
  (cs ← rs_reserved urlopen u; Ok (foldl add_contribution st cs)).
Proof.
  unfold RSPrices.reserved_feed, rs_reserved. feed_binds.
  apply reserved_feed_factor.
Qed.

Lemma ec2_ondemand_feed rs u :
  EC2Prices.ondemand_feed urlopen rs u =
  (cs ← ec2_ondemand urlopen u; Ok (rs ++ cs)).
Proof.
  unfold EC2Prices.ondemand_feed, ec2_ondemand. feed_binds.
  apply ondemand_feed_factor.
Qed.

Lemma elc_ondemand_feed rs u :
  ELCPrices.ondemand_feed urlopen rs u =
  (cs ← elc_ondemand urlopen u; Ok (rs ++ cs)).
Proof.
  unfold ELCPrices.ondemand_feed, elc_ondemand. feed_binds.
  apply ondemand_feed_factor.
Qed.

Lemma rds_ondemand_feed rs u :
  RDSPrices.ondemand_feed urlopen rs u =
  (cs ← rds_ondemand urlopen u; Ok (rs ++ cs)).
Proof.
  unfold RDSPrices.ondemand_feed, rds_ondemand. feed_binds;
    apply ondemand_feed_factor.
Qed.

Lemma rs_ondemand_feed rs u :
  RSPrices.ondemand_feed urlopen rs u =
  (cs ← rs_ondemand urlopen u; Ok (rs ++ cs)).
Proof.
  unfold RSPrices.ondemand_feed, rs_ondemand. feed_binds.
  apply ondemand_feed_factor.
Qed.

Lemma ec2_reserved_keyed u cs : ec2_reserved urlopen u = Ok cs -> Forall keyed cs.
Proof.
  unfold ec2_reserved. intros H. apply bind_Ok_inv in H as (os_type & _ & H).
  apply bind_Ok_inv in H as (data & _ & H). by apply feed_contributions_keyed in H.
Qed.

Lemma elc_reserved_keyed u cs : elc_reserved urlopen u = Ok cs -> Forall keyed cs.
Proof.
  unfold elc_reserved. intros H. apply bind_Ok_inv in H as (ut & _ & H).
  apply bind_Ok_inv in H as (data & _ & H). by apply feed_contributions_keyed in H.
Qed.

Lemma rds_reserved_old_keyed u cs :
  rds_reserved_old urlopen u = Ok cs -> Forall keyed cs.
Proof.
  unfold rds_reserved_old. intros H. apply bind_Ok_inv in H as (info & _ & H).
  apply bind_Ok_inv in H as (data & _ & H). by apply feed_contributions_keyed in H.
Qed.

Lemma rds_reserved_new_keyed u cs :
  rds_reserved_new urlopen u = Ok cs -> Forall keyed cs.
Proof.
  unfold rds_reserved_new. intros H.
  apply bind_Ok_inv in H as ([licensedb multiaz] & _ & H).
  apply bind_Ok_inv in H as (data & _ & H). by apply feed_contributions_keyed in H.
Qed.

Lemma rs_reserved_keyed u cs : rs_reserved urlopen u = Ok cs -> Forall keyed cs.
Proof.
  unfold rs_reserved. intros H.
  apply bind_Ok_inv in H as (data & _ & H). by apply feed_contributions_keyed in H.
Qed.

End FeedFactor.

Section Calls.
Import AWSPrices Contributions.
Variable urlopen : string -> result string.

Lemma reserved_call_merges {O : Type}
    (feed : reserved_state O -> string -> result (reserved_state O))
    (contribs : string -> result (list (RegionPricing O))) urls
    (call : result (document O)) :
  (forall st u, feed st u = (cs ← contribs u; Ok (foldl add_contribution st cs))) ->
  (forall u cs, contribs u = Ok cs -> Forall keyed cs) ->
  call = (st ← foldM feed urls empty_state;
          Ok {| config_currency := DEFAULT_CURRENCY; config_unit := None;
                regions := result_regions st |}) ->
  merges call (all_contributions contribs urls).
Proof.
  intros Hfeed Hkeyed -> doc Hdoc.
  rewrite (reserved_loop_factor feed contribs urls _ Hfeed) in Hdoc.
  destruct (all_contributions contribs urls) as [cs|e] eqn:Hcs; simpl in Hdoc; [|done].
  injection Hdoc as <-. exists cs. simpl.
  destruct (foldl_add_merged cs (all_contributions_keyed _ _ _ Hkeyed Hcs)). done.
Qed.

Lemma ondemand_call_appends {O : Type}
    (feed : list (RegionPricing O) -> string -> result (list (RegionPricing O)))
    (contribs : string -> result (list (RegionPricing O))) urls
    (call : result (document O)) :
  (forall rs u, feed rs u = (cs ← contribs u; Ok (rs ++ cs))) ->
  call = (rs ← foldM feed urls [];
          Ok {| config_currency := DEFAULT_CURRENCY; config_unit := Some "perhr";
                regions := rs |}) ->
  appends call (all_contributions contribs urls).
Proof.
  intros Hfeed -> doc Hdoc.
  rewrite (ondemand_loop_factor feed contribs urls _ Hfeed) in Hdoc.
  destruct (all_contributions contribs urls) as [cs|e]; simpl in Hdoc; [|done].
  injection Hdoc as <-. by exists cs.
Qed.

Lemma rds_reserved_call_merges :
  merges (RDSPrices.get_reserved_instances_prices urlopen) (rds_reserved urlopen).
Proof.
  intros doc Hdoc. unfold RDSPrices.get_reserved_instances_prices in Hdoc.
  rewrite (reserved_loop_factor _ (rds_reserved_old urlopen) _ _
             (rds_reserved_feed_old urlopen)) in Hdoc.
  unfold rds_reserved.
  destruct (all_contributions (rds_reserved_old urlopen) RDSPrices.urls_old)
    as [cs1|e] eqn:Hcs1; [rewrite !bind_Ok in Hdoc|by rewrite !bind_Raise in Hdoc].
  rewrite (reserved_loop_factor _ (rds_reserved_new urlopen) _ _
             (rds_reserved_feed_new urlopen)) in Hdoc.
  destruct (all_contributions (rds_reserved_new urlopen) RDSPrices.urls_new)
    as [cs2|e] eqn:Hcs2; [rewrite !bind_Ok in Hdoc|by rewrite !bind_Raise in Hdoc].
  injection Hdoc as <-. exists (cs1 ++ cs2). rewrite !bind_Ok. split; [done|].
  cbn [regions]. rewrite <- foldl_app.
  apply (foldl_add_merged (O:=RDSPrices.reserved_offering)).
  apply Forall_app. split.
  - apply (all_contributions_keyed _ _ _ (rds_reserved_old_keyed urlopen) Hcs1).
  - apply (all_contributions_keyed _ _ _ (rds_reserved_new_keyed urlopen) Hcs2).
Qed.

End Calls.

(** ** Two on-demand feeds with one region *)

Section TwoFeeds.
Import AWSPrices Contributions.
Context {O : Type}.
Implicit Types (P : RegionPricing O -> Prop) (css : list (list (RegionPricing O))).

Lemma filter_concat_one P `{!forall e, Decision (P e)} css i ci :
  css !! i = Some ci ->
  length (filter P ci) <= length (filter P (concat css)).
Proof.
  revert i; induction css as [|c css IH]; intros [|i] Hi; simpl in *; try done.
  - injection Hi as ->. rewrite list.filter_app, length_app. lia.
  - rewrite list.filter_app, length_app. specialize (IH _ Hi). lia.
Qed.

Lemma filter_concat_two P `{!forall e, Decision (P e)} css i j ci cj :
  i <> j -> css !! i = Some ci -> css !! j = Some cj ->
  length (filter P ci) + length (filter P cj) <= length (filter P (concat css)).
Proof.
  revert i j; induction css as [|c css IH]; intros [|i] [|j] Hne Hi Hj;
    simpl in *; try done; rewrite list.filter_app, length_app.
  - injection Hi as ->. pose proof (filter_concat_one P css j cj Hj). lia.
  - injection Hj as ->. pose proof (filter_concat_one P css i ci Hi). lia.
  - assert (Hij : i <> j) by congruence. specialize (IH i j Hij Hi Hj). lia.
Qed.

Lemma filter_has P `{!forall e, Decision (P e)} (l : list (RegionPricing O)) e :
  e ∈ l -> P e -> 1 <= length (filter P l).
Proof.
  intros Hin HP. induction l as [|x l IH]; [by apply elem_of_nil in Hin|].
  rewrite list.filter_cons. apply elem_of_cons in Hin as [<-|Hin].
  - rewrite decide_True by done. simpl. lia.
  - specialize (IH Hin). case_decide; simpl; lia.
Qed.

(** A region entry that carries its offerings is among the contributions
    of its feed. *)
Lemma ondemand_feed_has resolve key (offerings : json -> result (list O))
    data name cs :
  feed_has_region resolve (Some key) data name ->
  feed_contributions (ondemand_contribution resolve key offerings) data = Ok cs ->
  exists e, e ∈ cs /\ region e = name.
Proof.
  intros (rs & r & raw & Hrs & Hin & Hg & Hraw & Hres & Hkey) Hcs.
  unfold feed_contributions in Hcs. rewrite Hrs in Hcs. simpl in Hcs.
  bind_inv Hcs. injection Hcs as <-.
  apply list_elem_of_lookup in Hin as [n Hn].
  destruct (mapM_Ok_lookup _ _ _ Ha) as [_ Hl].
  destruct (Hl _ _ Hn) as (c & Hc & Hr).
  unfold ondemand_contribution in Hr.
  rewrite Hg in Hr. simpl in Hr. rewrite Hraw in Hr. simpl in Hr.
  rewrite Hres in Hr. simpl in Hr. rewrite Hkey in Hr. simpl in Hr.
  bind_inv Hr. injection Hr as <-.
  exists {| region := name; instanceTypes := a0 |}. split; [|reflexivity].
  apply list_elem_of_In, in_concat. eexists. split.
  - apply list_elem_of_In. by eapply list_elem_of_lookup_2.
  - by left.
Qed.

(** Two feeds whose contributions both hold an entry under [k] give at
    least two entries under [k] in an appending call. *)
Lemma appends_two_entries (call : result (document O))
    (contribs : string -> result (list (RegionPricing O))) urls doc
    i j ui uj k :
  appends call (all_contributions contribs urls) ->
  call = Ok doc ->
  i <> j -> urls !! i = Some ui -> urls !! j = Some uj ->
  (forall cs, contribs ui = Ok cs ->
              exists e, e ∈ cs /\ region_key (region e) = Some k) ->
  (forall cs, contribs uj = Ok cs ->
              exists e, e ∈ cs /\ region_key (region e) = Some k) ->
  2 <= length (entries_named k (regions doc)).
Proof.
  intros Happ Hdoc Hne Hi Hj Hci Hcj.
  destruct (Happ _ Hdoc) as (cs & Hcs & ->).
  unfold all_contributions in Hcs. bind_inv Hcs. injection Hcs as <-.
  destruct (mapM_Ok_lookup _ _ _ Ha) as [_ Hl].
  destruct (Hl _ _ Hi) as (ci & Hai & Hfi).
  destruct (Hl _ _ Hj) as (cj & Haj & Hfj).
  destruct (Hci _ Hfi) as (ei & Hei & Hki).
  destruct (Hcj _ Hfj) as (ej & Hej & Hkj).
  unfold entries_named.
  pose proof (filter_concat_two (fun e => region_key (region e) = Some k)
                a i j ci cj Hne Hai Haj).
  pose proof (filter_has (fun e => region_key (region e) = Some k) ci ei Hei Hki).
  pose proof (filter_has (fun e => region_key (region e) = Some k) cj ej Hej Hkj).
  lia.
Qed.

End TwoFeeds.

(** ** C1: region accumulation, reserved against on-demand *)

Section C1.
Import AWSPrices Contributions.
Variable urlopen : string -> result string.

Lemma ec2_two_feeds :
  two_feeds_two_entries EC2Prices.get_ondemand_instances_prices
    EC2Prices.ondemand_urls keep_region (Some "instanceTypes") urlopen.
Proof.
  intros doc i j ui uj di dj name k Hne Hi Hj Hdi Hdj Hri Hrj Hk Hdoc.
  eapply (appends_two_entries _ (ec2_ondemand urlopen)); eauto.
  - eapply ondemand_call_appends; [apply ec2_ondemand_feed|reflexivity].
  - intros cs Hcs. unfold ec2_ondemand in Hcs. rewrite Hdi in Hcs.
    destruct (ondemand_feed_has _ _ _ _ _ _ Hri Hcs) as (e & He & <-). eauto.
  - intros cs Hcs. unfold ec2_ondemand in Hcs. rewrite Hdj in Hcs.
    destruct (ondemand_feed_has _ _ _ _ _ _ Hrj Hcs) as (e & He & <-). eauto.
Qed.

Lemma elc_two_feeds :
  two_feeds_two_entries ELCPrices.get_ondemand_instances_prices
    ELCPrices.ondemand_urls resolve_region (Some "types") urlopen.
Proof.
  intros doc i j ui uj di dj name k Hne Hi Hj Hdi Hdj Hri Hrj Hk Hdoc.
  eapply (appends_two_entries _ (elc_ondemand urlopen)); eauto.
  - eapply ondemand_call_appends; [apply elc_ondemand_feed|reflexivity].
  - intros cs Hcs. unfold elc_ondemand in Hcs. rewrite Hdi in Hcs.
    destruct (ondemand_feed_has _ _ _ _ _ _ Hri Hcs) as (e & He & <-). eauto.
  - intros cs Hcs. unfold elc_ondemand in Hcs. rewrite Hdj in Hcs.
    destruct (ondemand_feed_has _ _ _ _ _ _ Hrj Hcs) as (e & He & <-). eauto.
Qed.

Lemma rds_two_feeds :
  two_feeds_two_entries RDSPrices.get_ondemand_instances_prices
    RDSPrices.ondemand_urls resolve_region (Some "types") urlopen.
Proof.
  intros doc i j ui uj di dj name k Hne Hi Hj Hdi Hdj Hri Hrj Hk Hdoc.
  eapply (appends_two_entries _ (rds_ondemand urlopen)); eauto.
  - eapply ondemand_call_appends; [apply rds_ondemand_feed|reflexivity].
  - intros cs Hcs. unfold rds_ondemand in Hcs. bind_inv Hcs.
    destruct a as [licensedb multiaz]. rewrite Hdi in Hcs.
    destruct (ondemand_feed_has _ _ _ _ _ _ Hri Hcs) as (e & He & <-). eauto.
  - intros cs Hcs. unfold rds_ondemand in Hcs. bind_inv Hcs.
    destruct a as [licensedb multiaz]. rewrite Hdj in Hcs.
    destruct (ondemand_feed_has _ _ _ _ _ _ Hrj Hcs) as (e & He & <-). eauto.
Qed.

Lemma rs_two_feeds :
  two_feeds_two_entries RSPrices.get_ondemand_instances_prices
    RSPrices.ondemand_urls keep_region (Some "instanceTypes") urlopen.
Proof.
  intros doc i j ui uj di dj name k Hne Hi Hj Hdi Hdj Hri Hrj Hk Hdoc.
  eapply (appends_two_entries _ (rs_ondemand urlopen)); eauto.
  - eapply ondemand_call_appends; [apply rs_ondemand_feed|reflexivity].
  - intros cs Hcs. unfold rs_ondemand in Hcs. rewrite Hdi in Hcs.
    destruct (ondemand_feed_has _ _ _ _ _ _ Hri Hcs) as (e & He & <-). eauto.
  - intros cs Hcs. unfold rs_ondemand in Hcs. rewrite Hdj in Hcs.
    destruct (ondemand_feed_has _ _ _ _ _ _ Hrj Hcs) as (e & He & <-). eauto.
Qed.

End C1.

(** C1, as amended. For every answer [urlopen] of the network:
    every reserved call merges (its document holds exactly one entry per
    region name, and that entry holds, in feed order, all the offerings
    the feeds contribute under the name); every on-demand call appends (one
    entry per contributing region entry, never merged), so two feeds that
    both hold a region entry named R1 which carries its offerings list
    ([instanceTypes], or [types] for the cache and database services) give
    at least two entries named R1. *)
Theorem C1_region_accumulation (urlopen : string -> result string) :
  (Contributions.merges (EC2Prices.get_reserved_instances_prices urlopen)
     (Contributions.all_contributions (Contributions.ec2_reserved urlopen)
        EC2Prices.reserved_urls) /\
   Contributions.merges (ELCPrices.get_reserved_instances_prices urlopen)
     (Contributions.all_contributions (Contributions.elc_reserved urlopen)
        ELCPrices.reserved_urls) /\
   Contributions.merges (RDSPrices.get_reserved_instances_prices urlopen)
     (Contributions.rds_reserved urlopen) /\
   Contributions.merges (RSPrices.get_reserved_instances_prices urlopen)
     (Contributions.all_contributions (Contributions.rs_reserved urlopen)
        RSPrices.reserved_urls)) /\
  (Contributions.appends (EC2Prices.get_ondemand_instances_prices urlopen)
     (Contributions.all_contributions (Contributions.ec2_ondemand urlopen)
        EC2Prices.ondemand_urls) /\
   Contributions.appends (ELCPrices.get_ondemand_instances_prices urlopen)
     (Contributions.all_contributions (Contributions.elc_ondemand urlopen)
        ELCPrices.ondemand_urls) /\
   Contributions.appends (RDSPrices.get_ondemand_instances_prices urlopen)
     (Contributions.all_contributions (Contributions.rds_ondemand urlopen)
        RDSPrices.ondemand_urls) /\
   Contributions.appends (RSPrices.get_ondemand_instances_prices urlopen)
     (Contributions.all_contributions (Contributions.rs_ondemand urlopen)
        RSPrices.ondemand_urls)) /\
  (Contributions.two_feeds_two_entries EC2Prices.get_ondemand_instances_prices
     EC2Prices.ondemand_urls AWSPrices.keep_region (Some "instanceTypes") urlopen /\
   Contributions.two_feeds_two_entries ELCPrices.get_ondemand_instances_prices
     ELCPrices.ondemand_urls AWSPrices.resolve_region (Some "types") urlopen /\
   Contributions.two_feeds_two_entries RDSPrices.get_ondemand_instances_prices
     RDSPrices.ondemand_urls AWSPrices.resolve_region (Some "types") urlopen /\
   Contributions.two_feeds_two_entries RSPrices.get_ondemand_instances_prices
     RSPrices.ondemand_urls AWSPrices.keep_region (Some "instanceTypes") urlopen).
Proof.
  split; [|split].
  - repeat split.
    + eapply reserved_call_merges;
      [apply ec2_reserved_feed|apply ec2_reserved_keyed|reflexivity].
    + eapply reserved_call_merges;
      [apply elc_reserved_feed|apply elc_reserved_keyed|reflexivity].
    + apply rds_reserved_call_merges.
    + eapply reserved_call_merges;
      [apply rs_reserved_feed|apply rs_reserved_keyed|reflexivity].
  - repeat split.
    + eapply ondemand_call_appends; [apply ec2_ondemand_feed|reflexivity].
    + eapply ondemand_call_appends; [apply elc_ondemand_feed|reflexivity].
    + eapply ondemand_call_appends; [apply rds_ondemand_feed|reflexivity].
    + eapply ondemand_call_appends; [apply rs_ondemand_feed|reflexivity].
  - split; [apply ec2_two_feeds|split; [apply elc_two_feeds|
      split; [apply rds_two_feeds|apply rs_two_feeds]]].
Qed.

(** C1, as stated, fails in both halves.
    Reserved: the compute normalizer files a region under the name the
    feed gives it; the feeds at the first two reserved URLs name one
    region us-east and us-east-1, both resolving to the canonical id
    us-east-1, and the document has two entries, named us-east and
    us-east-1, the second without the offering of the first feed.
    On-demand: the feeds at the first two URLs both contain region
    us-east-1, the second without an [instanceTypes] list, and the
    document has one entry named us-east-1, not two. *)
Lemma C1_counterexample :
  (exists doc,
     EC2Prices.get_reserved_instances_prices Scenarios.ec2_ri_two_names = Ok doc /\
     map (fun e => (region e, map EC2Prices.ri_type (instanceTypes e))) (regions doc) =
       [(JStr "us-east", [JStr "m3.medium"]); (JStr "us-east-1", [JStr "m3.large"])]) /\
  ~ Contributions.two_feeds_one_entry EC2Prices.get_reserved_instances_prices
      Contributions.ec2_reserved EC2Prices.reserved_urls Scenarios.ec2_ri_two_names /\
  ~ Contributions.two_feeds_two_entries EC2Prices.get_ondemand_instances_prices
      EC2Prices.ondemand_urls AWSPrices.keep_region None
      Scenarios.ec2_od_one_bare.
Proof.
  split; [vm_compute; eexists; split; reflexivity|]. split.
  - intros H.
    destruct (EC2Prices.get_reserved_instances_prices Scenarios.ec2_ri_two_names)
      as [doc|err] eqn:Hdoc; [|by vm_compute in Hdoc].
    destruct (Contributions.ec2_reserved Scenarios.ec2_ri_two_names
                EC2Prices.INSTANCES_RESERVED_LINUX_URL) as [ci|err] eqn:Hci;
      [|by vm_compute in Hci].
    destruct (Contributions.ec2_reserved Scenarios.ec2_ri_two_names
                EC2Prices.INSTANCES_RESERVED_RHEL_URL) as [cj|err] eqn:Hcj;
      [|by vm_compute in Hcj].
    pose proof Hdoc as Hdoc'. vm_compute in Hdoc'. injection Hdoc' as Hd.
    pose proof Hci as Hci'. vm_compute in Hci'. injection Hci' as Hi.
    pose proof Hcj as Hcj'. vm_compute in Hcj'. injection Hcj' as Hj.
    destruct (H doc 0 1 _ _ ci cj "us-east-1" ltac:(lia) eq_refl eq_refl Hci Hcj)
      as (e & He & Hall).
    + rewrite <- Hi. eexists. split; [by left|]. vm_compute. reflexivity.
    + rewrite <- Hj. eexists. split; [by left|]. vm_compute. reflexivity.
    + exact Hdoc.
    + rewrite <- Hd in He. vm_compute in He. injection He as <-.
      match type of Hi with
      | [?c] = _ =>
          match c with
          | {| region := _; instanceTypes := [?o] |} =>
              assert (Hc : c ∈ ci) by (rewrite <- Hi; by left);
              pose proof (Hall c o (or_introl Hc) eq_refl
                            (list_elem_of_here _ _)) as Hin
          end
      end.
      apply list_elem_of_singleton in Hin. discriminate Hin.
  - intros H.
    assert (Hrun : exists doc,
               EC2Prices.get_ondemand_instances_prices Scenarios.ec2_od_one_bare = Ok doc /\
               length (Contributions.entries_named (HStr "us-east-1") (regions doc)) = 1).
    { vm_compute. eexists. split; reflexivity. }
    destruct Hrun as (doc & Hdoc & Hlen).
    assert (Hfeed : forall u,
               u = EC2Prices.INSTANCES_ON_DEMAND_LINUX_URL \/
               u = EC2Prices.INSTANCES_ON_DEMAND_RHEL_URL ->
               exists d, AWSPrices.load_data Scenarios.ec2_od_one_bare u = Ok d /\
                         Contributions.feed_has_region AWSPrices.keep_region None d
                           (JStr "us-east-1")).
    { intros u [-> | ->]; (eexists; split; [vm_compute; reflexivity|]);
        do 3 eexists; (split; [vm_compute; reflexivity|]); (split; [left|]);
        repeat split; vm_compute; reflexivity. }
    destruct (Hfeed _ (or_introl eq_refl)) as (di & Hdi & Hri).
    destruct (Hfeed _ (or_intror eq_refl)) as (dj & Hdj & Hrj).
    specialize (H doc 0 1 _ _ di dj (JStr "us-east-1") (HStr "us-east-1")
                  ltac:(lia) eq_refl eq_refl Hdi Hdj Hri Hrj eq_refl Hdoc).
    lia.
Qed.

(** C1 applied to two reserved compute feeds that both list us-east-1: one
    entry, holding the offering of the first feed and then that of the
    second. *)
Lemma C1_witness :
  exists doc cs,
    EC2Prices.get_reserved_instances_prices Scenarios.ec2_ri_two = Ok doc /\
    Contributions.all_contributions
      (Contributions.ec2_reserved Scenarios.ec2_ri_two) EC2Prices.reserved_urls = Ok cs /\
    Contributions.merged_by_region cs (regions doc) /\
    map (fun e => map EC2Prices.ri_os (instanceTypes e)) (regions doc) =
      [["linux"; "rhel"]].
Proof.
  assert (Hrun : exists doc,
             EC2Prices.get_reserved_instances_prices Scenarios.ec2_ri_two = Ok doc /\
             map (fun e => map EC2Prices.ri_os (instanceTypes e)) (regions doc) =
               [["linux"; "rhel"]]).
  { vm_compute. eexists. split; reflexivity. }
  destruct Hrun as (doc & Hdoc & Hos).
  destruct (C1_region_accumulation Scenarios.ec2_ri_two) as [[Hm _] _].
  destruct (Hm doc Hdoc) as (cs & Hcs & Hmerged & _).
  exists doc, cs. auto.
Defined.

(** ** C4: region names are unique in reserved documents only *)






(** ** C2: the price token parser *)

Section PriceFacts.
Import Re Float PriceSpec AWSPrices.

Lemma sub_non_price_stripped tok : sub_non_price tok = stripped tok.
Proof.
  unfold stripped. induction tok as [|c tok IH]; simpl; [done|].
  rewrite list.filter_cons. destruct (is_price_char c) eqn:Hc.
  - rewrite decide_True by done. simpl. by rewrite IH.
  - rewrite decide_False by (by intros ?). done.
Qed.

(** Texts made of digits and points only. *)
Inductive price_text : string -> Prop :=
| price_text_nil : price_text EmptyString
| price_text_cons c s :
    is_price_char c = true -> price_text s -> price_text (String c s).

Lemma sub_non_price_text tok : price_text (sub_non_price tok).
Proof.
  induction tok as [|c tok IH]; simpl; [constructor|].
  destruct (is_price_char c) eqn:Hc; [by constructor|done].
Qed.

Lemma price_char_cases c :
  is_price_char c = true ->
  (is_digit c = true /\ Ascii.eqb c "." = false) \/
  (is_digit c = false /\ c = "."%char).
Proof.
  unfold is_price_char. intros H. destruct (is_digit c) eqn:Hd.
  - left. split; [done|]. apply Ascii.eqb_neq. intros ->. done.
  - right. split; [done|]. simpl in H. by apply Ascii.eqb_eq.
Qed.

(** [scan_digits] on a text of digits and points reads it all, or stops
    at its first point. *)
Lemma scan_digits_text s acc n :
  price_text s ->
  (Json.scan_digits s acc n = (digits_value s acc, (n + count_digits s)%nat, EmptyString) /\
   count_points s = 0 /\ fraction_digits s = 0) \/
  (exists t m k,
     Json.scan_digits s acc n = (m, (n + k)%nat, String "." t) /\
     price_text t /\
     count_points s = S (count_points t) /\
     count_digits s = (k + count_digits t)%nat /\
     fraction_digits s = count_digits t /\
     digits_value s acc = digits_value t m).
Proof.
  intros Hs. revert acc n. induction Hs as [|c s Hc Hs IH]; intros acc n.
  - left. simpl. by rewrite Nat.add_0_r.
  - destruct (price_char_cases c Hc) as [[Hd Hp]|[Hd ->]].
    + simpl. rewrite Hd, Hp.
      destruct (IH (acc * 10 + Json.digit_val c)%N (S n))
        as [(Hscan & Hpts & Hfr)|(t & m & k & Hscan & Ht & Hpts & Hdig & Hfr & Hval)].
      * left. rewrite Hscan. repeat split; [f_equal; f_equal; lia|done|done].
      * right. exists t, m, (S k). rewrite Hscan.
        repeat split; try done; [f_equal; f_equal; lia|lia].
    + right. exists s, acc, 0. simpl. rewrite Nat.add_0_r. repeat split; done.
Qed.

(** [float] on a text of digits and points, against the specification. *)
Lemma py_float_spec s :
  price_text s ->
  py_float s =
  if is_numeral s
  then Ok (float_of_decimal (digits_value s 0) (Z.of_nat (fraction_digits s)))
  else Raise ValueError.
Proof.
  intros Hs. unfold py_float, is_numeral.
  destruct (scan_digits_text s 0 0 Hs)
    as [(Hscan & Hpts & Hfr)|(t & m & k & Hscan & Ht & Hpts & Hdig & Hfr & Hval)].
  - rewrite Hscan, Hpts, Hfr. simpl.
    destruct (count_digits s); simpl; done.
  - rewrite Hscan. cbn match.
    destruct (scan_digits_text t m 0 Ht)
      as [(Hscan' & Hpts' & Hfr')|(t' & m' & k' & Hscan' & _ & Hpts' & _)].
    + rewrite Hscan', Hpts, Hpts', Hdig, Hfr, Hval. simpl.
      destruct (k + count_digits t)%nat; simpl; done.
    + rewrite Hscan', Hpts, Hpts'. cbn match.
      by rewrite andb_false_r.
Qed.

End PriceFacts.

(** Both forms of the parser on a holder whose token is a string. *)
Lemma parse_price_spec holder ps tok :
  py_getitem holder "prices" = Ok ps ->
  py_getitem ps AWSPrices.DEFAULT_CURRENCY = Ok (JStr tok) ->
  AWSPrices.parse_price holder = Ok (PriceSpec.price tok) /\
  AWSPrices.parse_price_lenient holder = PriceSpec.price tok.
Proof.
  intros Hps Htok.
  assert (Hexpr : AWSPrices.price_expr holder =
                  if PriceSpec.is_numeral (PriceSpec.stripped tok)
                  then Ok (Float.float_of_decimal
                             (PriceSpec.digits_value (PriceSpec.stripped tok) 0)
                             (Z.of_nat (PriceSpec.fraction_digits (PriceSpec.stripped tok))))
                  else Raise ValueError).
  { unfold AWSPrices.price_expr. rewrite Hps. cbn [mbind result_bind].
    rewrite Htok. cbn [mbind result_bind AWSPrices.price_of_token].
    rewrite <- sub_non_price_stripped. apply py_float_spec, sub_non_price_text. }
  unfold AWSPrices.parse_price, AWSPrices.parse_price_lenient, PriceSpec.price.
  rewrite Hexpr. by destruct (PriceSpec.is_numeral _).
Qed.

(** C2. The price parser removes from a token every character that is not
    a digit or a point and reads the rest as a decimal number: for every
    holder whose [prices[currency]] is a string token, both forms of the
    parser ([except ValueError] and bare [except]) return, without raising,
    the price the specification gives, which is null exactly when the
    stripped token is no numeral (empty included); ["0"] gives [0.0],
    ["N/A"] gives null and ["$0.012 per Hrs"] gives [0.012]. *)
Theorem C2_price_parser :
  (forall tok, Re.sub_non_price tok = PriceSpec.stripped tok) /\
  (forall holder ps tok,
     py_getitem holder "prices" = Ok ps ->
     py_getitem ps AWSPrices.DEFAULT_CURRENCY = Ok (JStr tok) ->
     AWSPrices.parse_price holder = Ok (PriceSpec.price tok) /\
     AWSPrices.parse_price_lenient holder = PriceSpec.price tok) /\
  (forall tok, PriceSpec.stripped tok = "" -> PriceSpec.price tok = None) /\
  (forall tok, PriceSpec.price tok = None <->
               PriceSpec.is_numeral (PriceSpec.stripped tok) = false) /\
  PriceSpec.price "0" = Some (S754_zero false) /\
  PriceSpec.price "N/A" = None /\
  PriceSpec.price "$0.012 per Hrs" = Some (Float.float_of_decimal 12 3).
Proof.
  split; [apply sub_non_price_stripped|].
  split.
  { apply parse_price_spec. }
  split.
  { intros tok Hs. unfold PriceSpec.price. by rewrite Hs. }
  split.
  { intros tok. unfold PriceSpec.price.
    destruct (PriceSpec.is_numeral _); split; done. }
  repeat split; vm_compute; reflexivity.
Qed.

(** C2 at the holder [{"prices": {"USD": "$0.044 per Hrs"}}]. *)
Lemma C2_witness :
  AWSPrices.parse_price
    (JObj [("prices", JObj [("USD", JStr "$0.044 per Hrs")])]) =
  Ok (Some (Float.float_of_decimal 44 3)).
Proof.
  destruct C2_price_parser as (_ & H & _).
  destruct (H (JObj [("prices", JObj [("USD", JStr "$0.044 per Hrs")])])
              (JObj [("USD", JStr "$0.044 per Hrs")]) "$0.044 per Hrs"
              eq_refl eq_refl) as [Hp _].
  exact Hp.
Defined.

(** ** C3: the columns of the new reserved scheme *)

Section NewSchemeFacts.
Import AWSPrices.


Lemma value_column_route term t po prices price_data price :
  (term = JStr "yrTerm1" /\ t = "1") \/ (term = JStr "yrTerm3" /\ t = "3") ->
  parse_price price_data = Ok price ->
  value_column term po prices price_data =
  route_column prices t po price_data price.
Proof.
  intros Hterm Hprice. unfold value_column. rewrite Hprice. cbn [mbind result_bind].
  by destruct Hterm as [[-> ->]|[-> ->]].
Qed.

Lemma set_cell_unknown prices t o f by_option :
  prices !! t = Some by_option -> by_option !! o = None ->
  set_cell prices t (JStr o) f = Raise KeyError.
Proof. intros Ht Ho. unfold set_cell. rewrite Ht. simpl. by rewrite Ho. Qed.

End NewSchemeFacts.




(** ** C5: the end-to-end scenario *)

(** C5. The scenario feed of the specification, repaired and parsed, is the
    expected structure; the body of the on-demand loop of the cache
    service turns it, from an empty result, into one region named
    us-east-1 with the one offering [m1.small] at the binary64 value of
    0.044; and the whole call returns the document with exactly that
    region when the feed is served at the current-generation URL and the
    previous-generation URL serves a feed without [config]. *)
Theorem C5_end_to_end :
  AWSPrices.load_data (fun _ => Ok Scenarios.elc_od_single)
    ELCPrices.INSTANCES_ON_DEMAND_URL =
  Ok (JObj [("config", JObj [("regions", JArr [
        JObj [("region", JStr "us-east");
              ("types", JArr [JObj [("tiers", JArr [
                 JObj [("name", JStr "m1.small");
                       ("prices", JObj [("USD", JStr "$0.044 per Hrs")])]])]])]])])]) /\
  ELCPrices.ondemand_feed (fun _ => Ok Scenarios.elc_od_single) []
    ELCPrices.INSTANCES_ON_DEMAND_URL =
  Ok [{| region := JStr "us-east-1";
         instanceTypes :=
           [{| ELCPrices.od_type := JStr "m1.small";
               ELCPrices.od_price := Some (Float.float_of_decimal 44 3) |}] |}] /\
  ELCPrices.get_ondemand_instances_prices Scenarios.elc_od_one =
  Ok {| config_currency := "USD"; config_unit := Some "perhr";
        regions :=
          [{| region := JStr "us-east-1";
              instanceTypes :=
                [{| ELCPrices.od_type := JStr "m1.small";
                    ELCPrices.od_price := Some (Float.float_of_decimal 44 3) |}] |}] |} /\
  Float.float_of_decimal 44 3 = S754_finite false 6341068275337658 (-57).
Proof. repeat split; vm_compute; reflexivity. Qed.

(** ** C9: comment stripping is greedy *)

Section CommentFacts.
Import Re CommentSpec.

Lemma comment_body_end x n :
  nul_free x = true -> 0 < n + String.length x ->
  comment_body (x ++ "*/")%string n = Some (n + String.length x).
Proof.
  revert n. induction x as [|c x IH]; intros n Hx Hn.
  - simpl in Hn. destruct n; [lia|]. rewrite Nat.add_0_r. reflexivity.
  - simpl in Hx. apply andb_true_iff in Hx as [Hc Hx].
    change (String c x ++ "*/")%string with (String c (x ++ "*/")%string).
    cbn [comment_body]. apply negb_true_iff in Hc. rewrite Hc.
    rewrite (IH (S n) Hx) by lia. simpl. f_equal. lia.
Qed.

Lemma strip_comments_from_skip s k :
  String.length s <= k -> strip_comments_from s k = EmptyString.
Proof.
  revert k. induction s as [|c s IH]; intros k Hk; [done|].
  simpl in Hk. destruct k; [lia|]. simpl. apply IH. lia.
Qed.

Lemma length_append (a b : string) :
  String.length (a ++ b)%string = String.length a + String.length b.
Proof. induction a as [|c a IH]; simpl; [done|]. by rewrite IH. Qed.

Lemma string_append_assoc (a b c : string) :
  ((a ++ b) ++ c)%string = (a ++ (b ++ c))%string.
Proof.
  induction a as [|x a IH]; [done|].
  change (String x a ++ b)%string with (String x (a ++ b)%string).
  change (String x (a ++ b) ++ c)%string with (String x ((a ++ b) ++ c)%string).
  change (String x a ++ (b ++ c))%string with (String x (a ++ (b ++ c))%string).
  by rewrite IH.
Qed.

Lemma nul_free_append (a b : string) :
  nul_free (a ++ b)%string = nul_free a && nul_free b.
Proof.
  induction a as [|c a IH]; [done|].
  change (String c a ++ b)%string with (String c (a ++ b)%string).
  simpl. by rewrite IH, andb_assoc.
Qed.

Lemma strip_comments_open s n :
  comment_body s 0 = Some n ->
  strip_comments_from (String "/" (String "*" s)) 0 = strip_comments_from s (n + 2).
Proof.
  intros H. unfold strip_comments_from; fold strip_comments_from.
  replace (String.prefix "/*" (String "/" (String "*" s))) with true
    by (by destruct s).
  cbn [string_drop]. rewrite H. replace (n + 3) with (S (n + 2)) by lia.
  reflexivity.
Qed.

(** Everything from an opening to the last closing is one match, whatever
    lies between, other comments included. *)
Lemma strip_comments_greedy x :
  nul_free x = true -> x <> EmptyString ->
  strip_comments ("/*" ++ x ++ "*/")%string = EmptyString.
Proof.
  intros Hx Hne. unfold strip_comments.
  change ("/*" ++ x ++ "*/")%string with (String "/" (String "*" (x ++ "*/")%string)).
  rewrite (strip_comments_open _ (String.length x)).
  - apply strip_comments_from_skip. rewrite length_append. simpl. lia.
  - rewrite (comment_body_end x 0 Hx); [done|]. destruct x; [done|]. simpl. lia.
Qed.

End CommentFacts.

(** C9 fails on the program. [re.sub] is called with the greedy pattern
    [[^\x00]+], so the text from the first opening to the last closing is
    one match: whatever NUL-free text [middle] stands between two
    comments is removed with them, where the non-greedy reading of the
    specification keeps it; the feed ["/* head */callback({})/* tail */"]
    is repaired to the empty text and [load_data] raises, where the
    non-greedy reading leaves ["callback({})"]. *)
Theorem C9_comment_stripping_greedy :
  (forall a middle b,
     CommentSpec.nul_free a = true -> CommentSpec.nul_free middle = true ->
     CommentSpec.nul_free b = true -> a <> EmptyString ->
     Re.strip_comments ("/*" ++ a ++ "*/" ++ middle ++ "/*" ++ b ++ "*/")%string
     = EmptyString) /\
  Re.strip_comments Scenarios.two_comments = EmptyString /\
  CommentSpec.strip_comments_lazy Scenarios.two_comments = "callback({})" /\
  AWSPrices.repair Scenarios.two_comments = EmptyString /\
  AWSPrices.load_data (fun _ => Ok Scenarios.two_comments)
    EC2Prices.INSTANCES_ON_DEMAND_LINUX_URL = Raise ValueError.
Proof.
  split; [|repeat split; vm_compute; reflexivity].
  intros a middle b Ha Hm Hb Hne.
  replace ("/*" ++ a ++ "*/" ++ middle ++ "/*" ++ b ++ "*/")%string
    with ("/*" ++ (a ++ "*/" ++ middle ++ "/*" ++ b) ++ "*/")%string.
  - apply strip_comments_greedy.
    + rewrite !nul_free_append, Ha, Hm, Hb. reflexivity.
    + by destruct a.
  - rewrite !string_append_assoc. reflexivity.
Qed.

(** ** C6: the resolvers *)

Section ResolverFacts.
Import AWSPrices Contributions.

Lemma py_dict_lookup {V : Type} (pairs : list (string * V)) k v (P : V -> Prop)
    `{!forall v, Decision (P v)} :
  Forall (fun kv => P kv.2) pairs ->
  py_dict pairs !! k = Some v -> P v.
Proof.
  intros Hall Hk. unfold py_dict in Hk. apply elem_of_list_to_map_2 in Hk.
  rewrite elem_of_reverse in Hk. rewrite list.Forall_forall in Hall.
  exact (Hall _ Hk).
Qed.

Lemma table_getitem_key {V : Type} (d : gmap string V) k v :
  d !! k = Some v -> table_getitem d (JStr k) = Ok v.
Proof. intros H. simpl. by rewrite H. Qed.

Lemma table_getitem_unknown {V : Type} (d : gmap string V) token :
  unknown_token d token -> raises (table_getitem d token).
Proof.
  intros H. unfold raises. destruct token; simpl; eauto.
  rewrite (H s eq_refl). eauto.
Qed.

Lemma resolve_region_unknown raw :
  unknown_token JSON_NAME_TO_REGIONS_API raw -> raises (resolve_region raw).
Proof.
  intros H. unfold resolve_region.
  destruct (table_getitem_unknown _ _ H) as [e ->]. by exists e.
Qed.

Lemma raises_bind {A B : Type} (m : result A) (f : A -> result B) :
  (forall a, m = Ok a -> raises (f a)) -> raises (m ≫= f).
Proof. intros H. destruct m as [a|e]; simpl; [by apply H|by exists e]. Qed.

Lemma raises_bind_l {A B : Type} (m : result A) (f : A -> result B) :
  raises m -> raises (m ≫= f).
Proof. intros [e ->]. by exists e. Qed.

Lemma foldM_raises' {S X : Type} (body : S -> X -> result S) l x :
  x ∈ l -> (forall st, raises (body st x)) -> forall st, raises (foldM body l st).
Proof. apply foldM_raises. Qed.

(** An entry of a visited list on which the loop body raises makes the
    loop raise. *)
Lemma if_in_for_raises {O : Type} holder key (f : json -> result (list O)) x :
  listed holder key x -> raises (f x) -> raises (if_in_for holder key f).
Proof.
  intros (Hin & v & xs & Hv & Hxs & Hx) Hf.
  unfold if_in_for, for_in. rewrite Hin. cbn [mbind result_bind].
  rewrite Hv. cbn [mbind result_bind]. rewrite Hxs. cbn [mbind result_bind].
  apply raises_bind_l. by apply (mapM_raises f xs x).
Qed.

(** A region name outside the table is fatal for the region step. *)
Lemma ondemand_region_unknown {O : Type} key (offerings : json -> result (list O))
    rs r raw :
  region_guard r = Ok true -> py_getitem r "region" = Ok raw ->
  unknown_token JSON_NAME_TO_REGIONS_API raw ->
  raises (ondemand_region resolve_region key offerings rs r).
Proof.
  intros Hg Hraw Hu. unfold ondemand_region.
  rewrite Hg. cbn [mbind result_bind]. rewrite Hraw. cbn [mbind result_bind].
  by apply raises_bind_l, resolve_region_unknown.
Qed.

Lemma reserved_region_unknown {O : Type} (offerings : json -> result (list O))
    st r raw :
  region_guard r = Ok true -> py_getitem r "region" = Ok raw ->
  unknown_token JSON_NAME_TO_REGIONS_API raw ->
  raises (reserved_region resolve_region offerings st r).
Proof.
  intros Hg Hraw Hu. unfold reserved_region.
  rewrite Hg. cbn [mbind result_bind]. rewrite Hraw. cbn [mbind result_bind].
  by apply raises_bind_l, resolve_region_unknown.
Qed.

(** A raise inside the offerings of a region entry is fatal for the
    reserved region step. *)
Lemma reserved_region_raises {O : Type} resolve (offerings : json -> result (list O))
    st r :
  region_guard r = Ok true ->
  raises (if_in_for r "instanceTypes" offerings) ->
  raises (reserved_region resolve offerings st r).
Proof.
  intros Hg Hoff. unfold reserved_region.
  rewrite Hg. cbn [mbind result_bind].
  apply raises_bind; intros raw _. apply raises_bind; intros name _.
  apply raises_bind; intros [i st'] _. by apply raises_bind_l.
Qed.

(** A feed body that raises makes the loop over the URLs, and the call,
    raise. *)
Lemma call_raises {S D : Type} (feed : S -> string -> result S) urls u st
    (finish : S -> result D) :
  u ∈ urls -> (forall st, raises (feed st u)) ->
  raises (foldM feed urls st ≫= finish).
Proof. intros Hu Hf. apply raises_bind_l. by apply (foldM_raises feed urls u). Qed.

End ResolverFacts.

(** C6. Every key of the region table resolves to the name the table
    gives, one of the ten canonical regions; every key of the two
    instance-type tables resolves to the non-empty name the table gives;
    a token outside a table (a string that is no key, or no string at all)
    makes the lookup raise; and the raise is fatal: the on-demand and
    reserved calls of the cache service and of the database service (on
    its legacy feeds) raise as soon as one of their feeds has a guarded
    region entry named outside the region table, and the reserved call of
    the cache service raises as soon as its light- or medium-utilization
    feed has a tier whose size is outside the instance-type table. *)
Theorem C6_resolver_total :
  ((forall k v, AWSPrices.JSON_NAME_TO_REGIONS_API !! k = Some v ->
                AWSPrices.resolve_region (JStr k) = Ok (JStr v) /\
                v ∈ AWSPrices.REGIONS) /\
   (forall k v, ELCPrices.INSTANCE_TYPE_MAPPING !! k = Some v ->
                table_getitem ELCPrices.INSTANCE_TYPE_MAPPING (JStr k) = Ok v /\
                v <> "") /\
   (forall k v, RDSPrices.INSTANCE_TYPE_MAPPING !! k = Some v ->
                table_getitem RDSPrices.INSTANCE_TYPE_MAPPING (JStr k) = Ok v /\
                v <> "")) /\
  ((forall raw, Contributions.unknown_token AWSPrices.JSON_NAME_TO_REGIONS_API raw ->
                Contributions.raises (AWSPrices.resolve_region raw)) /\
   (forall size, Contributions.unknown_token ELCPrices.INSTANCE_TYPE_MAPPING size ->
                 Contributions.raises
                   (table_getitem ELCPrices.INSTANCE_TYPE_MAPPING size)) /\
   (forall size, Contributions.unknown_token RDSPrices.INSTANCE_TYPE_MAPPING size ->
                 Contributions.raises
                   (table_getitem RDSPrices.INSTANCE_TYPE_MAPPING size))) /\
  (forall urlopen u data raw,
     AWSPrices.load_data urlopen u = Ok data ->
     Contributions.feed_names_region data raw ->
     Contributions.unknown_token AWSPrices.JSON_NAME_TO_REGIONS_API raw ->
     (u ∈ ELCPrices.ondemand_urls ->
      Contributions.raises (ELCPrices.get_ondemand_instances_prices urlopen)) /\
     (u ∈ ELCPrices.reserved_urls ->
      Contributions.raises (ELCPrices.get_reserved_instances_prices urlopen)) /\
     (u ∈ RDSPrices.ondemand_urls ->
      Contributions.raises (RDSPrices.get_ondemand_instances_prices urlopen)) /\
     (u ∈ RDSPrices.urls_old ->
      Contributions.raises (RDSPrices.get_reserved_instances_prices urlopen))) /\
  (forall urlopen u data s size,
     u = ELCPrices.INSTANCES_RESERVED_LIGHT_UTILIZATION_URL \/
     u = ELCPrices.INSTANCES_RESERVED_MEDIUM_UTILIZATION_URL ->
     AWSPrices.load_data urlopen u = Ok data ->
     Contributions.feed_has_tier data s ->
     py_getitem s "size" = Ok size ->
     Contributions.unknown_token ELCPrices.INSTANCE_TYPE_MAPPING size ->
     Contributions.raises (ELCPrices.get_reserved_instances_prices urlopen)).
Proof.
  split; [|split; [|split]].
  - split; [|split]; intros k v Hk.
    + split.
      * unfold AWSPrices.resolve_region.
        by rewrite (table_getitem_key _ _ _ Hk).
      * revert Hk. apply (py_dict_lookup _ k v (fun v => v ∈ AWSPrices.REGIONS)).
        apply (bool_decide_unpack _). by vm_compute.
    + split; [by apply table_getitem_key|].
      revert Hk. apply (py_dict_lookup _ k v (fun v => v <> "")).
      apply (bool_decide_unpack _). by vm_compute.
    + split; [by apply table_getitem_key|].
      revert Hk. apply (py_dict_lookup _ k v (fun v => v <> "")).
      apply (bool_decide_unpack _). by vm_compute.
  - split; [|split]; intros t Ht.
    + by apply resolve_region_unknown.
    + by apply table_getitem_unknown.
    + by apply table_getitem_unknown.
  - intros urlopen u data raw Hdata (rs & r & Hrs & Hr & Hg & Hraw) Hunk.
    split; [|split; [|split]]; intros Hu.
    + apply (call_raises _ _ u); [done|]. intros st.
      unfold ELCPrices.ondemand_feed. rewrite Hdata. cbn [mbind result_bind].
      rewrite Hrs. cbn [mbind result_bind].
      apply (foldM_raises' _ rs r Hr). intros st'.
      by eapply ondemand_region_unknown.
    + apply (call_raises _ _ u); [done|]. intros st.
      unfold ELCPrices.reserved_feed. apply raises_bind; intros ut _.
      rewrite Hdata. cbn [mbind result_bind]. rewrite Hrs. cbn [mbind result_bind].
      apply (foldM_raises' _ rs r Hr). intros st'.
      by eapply reserved_region_unknown.
    + apply (call_raises _ _ u); [done|]. intros st.
      unfold RDSPrices.ondemand_feed. apply raises_bind; intros [licensedb multiaz] _.
      rewrite Hdata. cbn [mbind result_bind]. rewrite Hrs. cbn [mbind result_bind].
      apply (foldM_raises' _ rs r Hr). intros st'.
      by eapply ondemand_region_unknown.
    + unfold RDSPrices.get_reserved_instances_prices.
      apply (call_raises _ _ u); [done|]. intros st.
      unfold RDSPrices.reserved_feed_old. apply raises_bind; intros info _.
      rewrite Hdata. cbn [mbind result_bind]. rewrite Hrs. cbn [mbind result_bind].
      apply (foldM_raises' _ rs r Hr). intros st'.
      by eapply reserved_region_unknown.
  - intros urlopen u data s size Hu Hdata (rs & r & it & Hrs & Hr & Hg & Hit & Hs)
      Hsize Hunk.
    apply (call_raises _ _ u).
    { destruct Hu as [-> | ->]; apply (bool_decide_unpack _); by vm_compute. }
    intros st. unfold ELCPrices.reserved_feed. apply raises_bind; intros ut _.
    rewrite Hdata. cbn [mbind result_bind]. rewrite Hrs. cbn [mbind result_bind].
    apply (foldM_raises' _ rs r Hr). intros st'.
    apply reserved_region_raises; [done|].
    apply (if_in_for_raises _ _ _ it Hit). unfold ELCPrices.reserved_instance.
    apply (if_in_for_raises _ _ _ s Hs). unfold ELCPrices.reserved_tier.
    apply raises_bind_l.
    replace (String.eqb u ELCPrices.INSTANCES_RESERVED_LIGHT_UTILIZATION_URL
             || String.eqb u ELCPrices.INSTANCES_RESERVED_MEDIUM_UTILIZATION_URL)
      with true by (by destruct Hu as [-> | ->]).
    rewrite Hsize. cbn [mbind result_bind].
    by apply raises_bind_l, table_getitem_unknown.
Qed.

(** C6 at the key ["us-east"] and at an on-demand cache feed that names a
    region ["eu-north"], which is no key of the table. *)
Lemma C6_witness :
  AWSPrices.resolve_region (JStr "us-east") = Ok (JStr "us-east-1") /\
  Contributions.raises (AWSPrices.resolve_region (JStr "eu-north")) /\
  Contributions.raises
    (ELCPrices.get_ondemand_instances_prices Scenarios.elc_od_unknown_region).
Proof.
  destruct C6_resolver_total as ((Hkey & _) & (Hout & _) & Hfatal & _).
  assert (Hunk : Contributions.unknown_token AWSPrices.JSON_NAME_TO_REGIONS_API
                   (JStr "eu-north")).
  { intros k [= <-]. by vm_compute. }
  split; [exact (proj1 (Hkey "us-east" "us-east-1" eq_refl))|].
  split; [exact (Hout _ Hunk)|].
  eapply (proj1 (Hfatal Scenarios.elc_od_unknown_region
                   ELCPrices.PG_INSTANCES_ON_DEMAND_URL _ (JStr "eu-north") _ _ Hunk)).
  Unshelve.
  - apply (bool_decide_unpack _). by vm_compute.
  - shelve.
  - vm_compute. reflexivity.
  - do 2 eexists. split; [vm_compute; reflexivity|]. split; [by left|].
    split; vm_compute; reflexivity.
Defined.

(** ** C7: the columns of the legacy reserved scheme *)

Section LegacyFacts.
Import AWSPrices LegacySpec.

Lemma set_term_alter prices t f :
  is_Some (prices !! t) -> set_term prices t f = Ok (alter f t prices).
Proof.
  intros [c Hc]. unfold set_term. rewrite Hc. f_equal.
  apply map_eq. intros k. rewrite lookup_alter, lookup_insert.
  case_decide; subst; [by rewrite Hc|done].
Qed.

Lemma rds_routes : routes_by RDSPrices.reserved_column six_names.
Proof.
  intros prices price_data name price H1 H3 Hprice Hname.
  unfold RDSPrices.reserved_column. rewrite Hprice. cbn [mbind result_bind].
  rewrite Hname. cbn [mbind result_bind].
  destruct name as [| | |n| |]; try done.
  unfold py_eq_str, six_names, routed.
  repeat (destruct (String.eqb n _); cbn [orb];
          [by rewrite set_term_alter|]).
  done.
Qed.

Lemma elc_routes : routes_by ELCPrices.reserved_column four_names.
Proof.
  intros prices price_data name price H1 H3 Hprice Hname.
  unfold ELCPrices.reserved_column. rewrite Hprice. cbn [mbind result_bind].
  rewrite Hname. cbn [mbind result_bind].
  destruct name as [| | |n| |]; try done.
  unfold py_eq_str, four_names, routed.
  repeat (destruct (String.eqb n _); cbn [orb];
          [by rewrite set_term_alter|]).
  done.
Qed.

End LegacyFacts.

(** C7, as amended. The legacy reserved normalizer of the database service
    routes the six column names as stated; that of the cache service
    routes four of them ([yrTerm1], [yearTerm1Hourly], [yrTerm3],
    [yearTerm3Hourly]); in both, no other column changes the prices. *)
Theorem C7_legacy_columns :
  LegacySpec.routes_by RDSPrices.reserved_column LegacySpec.six_names /\
  LegacySpec.routes_by ELCPrices.reserved_column LegacySpec.four_names.
Proof. split; [apply rds_routes|apply elc_routes]. Qed.

(** C7, as stated, fails for the cache service: a column named
    [yrTerm1Hourly] with the price ["$0.023"] leaves [prices["1"].hourly]
    null. *)
Lemma C7_counterexample :
  ~ LegacySpec.routes_by ELCPrices.reserved_column LegacySpec.six_names.
Proof.
  intros H.
  specialize (H AWSPrices.initial_old_prices
                (Scenarios.column "yrTerm1Hourly" "$0.023")
                (JStr "yrTerm1Hourly") (Some (Float.float_of_decimal 23 3))).
  assert (Hgo : Ok AWSPrices.initial_old_prices =
                Ok (LegacySpec.routed (LegacySpec.six_names "yrTerm1Hourly")
                      (Some (Float.float_of_decimal 23 3))
                      AWSPrices.initial_old_prices)).
  { apply H; try reflexivity; by eexists. }
  apply (f_equal (fun r => match r with
                           | Ok m => (m !! "1") ≫= hourly
                           | Raise _ => None
                           end)) in Hgo.
  vm_compute in Hgo. discriminate.
Qed.

(** C7 at the columns [yrTerm1Hourly] (database service) and
    [yearTerm1Hourly] (cache service), and in the documents of the two
    normalizers for a feed with the columns [yrTerm1] and [yrTerm1Hourly]. *)
Lemma C7_witness :
  RDSPrices.reserved_column AWSPrices.initial_old_prices
    (Scenarios.column "yrTerm1Hourly" "$0.023") =
  Ok (alter (AWSPrices.with_hourly (Some (Float.float_of_decimal 23 3))) "1"
        AWSPrices.initial_old_prices) /\
  ELCPrices.reserved_column AWSPrices.initial_old_prices
    (Scenarios.column "yearTerm1Hourly" "$0.023") =
  Ok (alter (AWSPrices.with_hourly (Some (Float.float_of_decimal 23 3))) "1"
        AWSPrices.initial_old_prices) /\
  ELCPrices.reserved_column AWSPrices.initial_old_prices
    (Scenarios.column "yrTerm1Hourly" "$0.023") = Ok AWSPrices.initial_old_prices /\
  (exists doc,
     RDSPrices.get_reserved_instances_prices Scenarios.rds_ri_hourly = Ok doc /\
     map (fun e => map (fun o => match RDSPrices.ri_prices o with
                                 | inl p => p !! "1"
                                 | inr _ => None
                                 end) (instanceTypes e)) (regions doc) =
       [[Some {| hourly := Some (Float.float_of_decimal 23 3);
                 upfront := Some (Float.float_of_decimal 98 0) |}]]) /\
  (exists doc,
     ELCPrices.get_reserved_instances_prices Scenarios.elc_ri_hourly = Ok doc /\
     map (fun e => map (fun o => ELCPrices.ri_prices o !! "1") (instanceTypes e))
         (regions doc) =
       [[Some {| hourly := None;
                 upfront := Some (Float.float_of_decimal 98 0) |}]]).
Proof.
  destruct C7_legacy_columns as [Hrds Helc].
  assert (H1 : is_Some (AWSPrices.initial_old_prices !! "1")) by (by eexists).
  assert (H3 : is_Some (AWSPrices.initial_old_prices !! "3")) by (by eexists).
  split; [exact (Hrds _ (Scenarios.column "yrTerm1Hourly" "$0.023")
                   (JStr "yrTerm1Hourly") _ H1 H3 eq_refl eq_refl)|].
  split; [exact (Helc _ (Scenarios.column "yearTerm1Hourly" "$0.023")
                   (JStr "yearTerm1Hourly") _ H1 H3 eq_refl eq_refl)|].
  split; [exact (Helc _ (Scenarios.column "yrTerm1Hourly" "$0.023")
                   (JStr "yrTerm1Hourly") _ H1 H3 eq_refl eq_refl)|].
  split; vm_compute; eexists; split; reflexivity.
Defined.

(** ** C8: a feed without [config.regions] is an empty contribution *)

Section EmptyFeedFacts.
Import AWSPrices Contributions.

Lemma no_regions_guard data : no_regions data -> has_regions data = Ok false.
Proof.
  intros (kvs & -> & H). unfold has_regions. cbn [py_in py_getitem].
  destruct H as [Hc|(c & Hc & H)]; rewrite Hc.
  - rewrite bool_decide_eq_false_2 by (by intros [? ?]). reflexivity.
  - rewrite bool_decide_eq_true_2 by eauto. cbn [mbind result_bind negb].
    destruct H as [Hf|(ckvs & -> & H)].
    + rewrite Hf. reflexivity.
    + destruct (py_truthy (JObj ckvs)) eqn:Ht; [|reflexivity].
      cbn [negb py_in py_getitem mbind result_bind].
      destruct H as [Hr|(rs & Hr & Hf)]; rewrite Hr.
      * rewrite bool_decide_eq_false_2 by (by intros [? ?]). reflexivity.
      * rewrite bool_decide_eq_true_2 by eauto. cbn [mbind result_bind negb].
        by rewrite Hf.
Qed.

Lemma guard_false_config data : has_regions data = Ok false -> config_regions data = Ok [].
Proof. intros H. unfold config_regions. by rewrite H. Qed.

Lemma empty_contribution_intro {S : Type} (feed : S -> string -> result S) u :
  (forall st, feed st u = Ok st) -> empty_contribution feed u.
Proof. intros H. split; [done|]. intros b a st. by apply foldM_skip. Qed.

(** Every URL of a feed list has its entry in the table the loop reads. *)
Lemma url_in_table {V : Type} (d : gmap string V) (urls : list string) u :
  Forall (fun u => is_Some (d !! u)) urls -> u ∈ urls ->
  exists v, table_getitem d (JStr u) = Ok v.
Proof.
  rewrite list.Forall_forall. intros H Hu. destruct (H u Hu) as [v Hv].
  exists v. simpl. by rewrite Hv.
Qed.

End EmptyFeedFacts.

(** C8, as amended. A feed whose repaired payload parses and on which the
    guard of the region loop, [["config" in data and data["config"] and
    "regions" in data["config"] and data["config"]["regions"]]],
    evaluates to false is an empty contribution to every normalizer that
    reads it: the body of the feed loop returns the result it was given,
    without raising, and the loop over the URLs continues as if the feed
    were not listed. The guard is false on every object whose [config] key
    is missing or falsy, or whose [config] is an object whose [regions] key
    is missing or falsy. *)
Theorem C8_feed_without_regions (urlopen : string -> result string)
    (u : string) (data : json) :
  AWSPrices.load_data urlopen u = Ok data ->
  AWSPrices.has_regions data = Ok false ->
  (forall d, Contributions.no_regions d -> AWSPrices.has_regions d = Ok false) /\
  (u ∈ EC2Prices.reserved_urls ->
   Contributions.empty_contribution (EC2Prices.reserved_feed urlopen) u) /\
  Contributions.empty_contribution (EC2Prices.ondemand_feed urlopen) u /\
  (u ∈ ELCPrices.reserved_urls ->
   Contributions.empty_contribution (ELCPrices.reserved_feed urlopen) u) /\
  Contributions.empty_contribution (ELCPrices.ondemand_feed urlopen) u /\
  (u ∈ RDSPrices.urls_old ->
   Contributions.empty_contribution (RDSPrices.reserved_feed_old urlopen) u) /\
  (u ∈ RDSPrices.urls_new ->
   Contributions.empty_contribution (RDSPrices.reserved_feed_new urlopen) u) /\
  (u ∈ RDSPrices.ondemand_urls ->
   Contributions.empty_contribution (RDSPrices.ondemand_feed urlopen) u) /\
  Contributions.empty_contribution (RSPrices.reserved_feed urlopen) u /\
  Contributions.empty_contribution (RSPrices.ondemand_feed urlopen) u.
Proof.
  intros Hdata Hno. pose proof (guard_false_config data Hno) as Hrs.
  repeat match goal with |- _ /\ _ => split end.
  - apply no_regions_guard.
  - intros Hu. apply empty_contribution_intro. intros st.
    unfold EC2Prices.reserved_feed.
    destruct (url_in_table EC2Prices.INSTANCES_RESERVED_OS_TYPE_BY_URL
                EC2Prices.reserved_urls u) as [v ->]; [|done|].
    { apply (bool_decide_unpack _). by vm_compute. }
    cbn [mbind result_bind]. rewrite Hdata. cbn [mbind result_bind].
    by rewrite Hrs.
  - apply empty_contribution_intro. intros st. unfold EC2Prices.ondemand_feed.
    rewrite Hdata. cbn [mbind result_bind]. by rewrite Hrs.
  - intros Hu. apply empty_contribution_intro. intros st.
    unfold ELCPrices.reserved_feed.
    destruct (url_in_table ELCPrices.INSTANCES_RESERVED_UTILIZATION_TYPE_BY_URL
                ELCPrices.reserved_urls u) as [v ->]; [|done|].
    { apply (bool_decide_unpack _). by vm_compute. }
    cbn [mbind result_bind]. rewrite Hdata. cbn [mbind result_bind].
    by rewrite Hrs.
  - apply empty_contribution_intro. intros st. unfold ELCPrices.ondemand_feed.
    rewrite Hdata. cbn [mbind result_bind]. by rewrite Hrs.
  - intros Hu. apply empty_contribution_intro. intros st.
    unfold RDSPrices.reserved_feed_old.
    destruct (url_in_table RDSPrices.RDS_RESERVED_TYPE_BY_URL_OLD
                RDSPrices.urls_old u) as [v ->]; [|done|].
    { apply (bool_decide_unpack _). by vm_compute. }
    cbn [mbind result_bind]. rewrite Hdata. cbn [mbind result_bind].
    by rewrite Hrs.
  - intros Hu. apply empty_contribution_intro. intros st.
    unfold RDSPrices.reserved_feed_new.
    destruct (RDSPrices.RDS_RESERVED_TYPE_BY_URL_NEW !! u) as [licensedb|] eqn:Hnew.
    + cbn [mbind result_bind]. rewrite Hdata. cbn [mbind result_bind].
      by rewrite Hrs.
    + destruct (url_in_table RDSPrices.RDS_RESERVED_MULTIAZ_TYPE_BY_URL_NEW
                  (filter (fun u => RDSPrices.RDS_RESERVED_TYPE_BY_URL_NEW !! u = None)
                          RDSPrices.urls_new) u) as [v ->].
      { apply (bool_decide_unpack _). by vm_compute. }
      { apply list_elem_of_filter. split; assumption. }
      cbn [mbind result_bind]. rewrite Hdata. cbn [mbind result_bind].
      by rewrite Hrs.
  - intros Hu. apply empty_contribution_intro. intros st.
    unfold RDSPrices.ondemand_feed.
    destruct (RDSPrices.RDS_ONDEMAND_TYPE_BY_URL !! u) as [licensedb|] eqn:Hnew.
    + cbn [mbind result_bind]. rewrite Hdata. cbn [mbind result_bind].
      by rewrite Hrs.
    + destruct (url_in_table RDSPrices.RDS_ONDEMAND_MULTIAZ_TYPE_BY_URL
                  (filter (fun u => RDSPrices.RDS_ONDEMAND_TYPE_BY_URL !! u = None)
                          RDSPrices.ondemand_urls) u) as [v ->].
      { apply (bool_decide_unpack _). by vm_compute. }
      { apply list_elem_of_filter. split; assumption. }
      cbn [mbind result_bind]. rewrite Hdata. cbn [mbind result_bind].
      by rewrite Hrs.
  - apply empty_contribution_intro. intros st. unfold RSPrices.reserved_feed.
    rewrite Hdata. cbn [mbind result_bind]. by rewrite Hrs.
  - apply empty_contribution_intro. intros st. unfold RSPrices.ondemand_feed.
    rewrite Hdata. cbn [mbind result_bind]. by rewrite Hrs.
Qed.

(** C8 at the feed ["callback({})"] served at the third reserved URL of
    the compute service: the feed parses to the empty object, and the call
    returns what it returns without that URL. And at a feed whose [config]
    is a text: ["regions" in "none"] is false, and the feed is skipped. *)
Lemma C8_witness :
  AWSPrices.load_data Scenarios.ec2_ri_two EC2Prices.INSTANCES_RESERVED_SLES_URL =
    Ok (JObj []) /\
  AWSPrices.has_regions (JObj []) = Ok false /\
  Contributions.empty_contribution (EC2Prices.reserved_feed Scenarios.ec2_ri_two)
    EC2Prices.INSTANCES_RESERVED_SLES_URL /\
  Contributions.empty_contribution (EC2Prices.ondemand_feed Scenarios.ec2_ri_two)
    EC2Prices.INSTANCES_RESERVED_SLES_URL /\
  AWSPrices.load_data Scenarios.config_text_feed EC2Prices.INSTANCES_ON_DEMAND_LINUX_URL =
    Ok (JObj [("config", JStr "none")]) /\
  Contributions.empty_contribution (EC2Prices.ondemand_feed Scenarios.config_text_feed)
    EC2Prices.INSTANCES_ON_DEMAND_LINUX_URL.
Proof.
  assert (Hload : AWSPrices.load_data Scenarios.ec2_ri_two
                    EC2Prices.INSTANCES_RESERVED_SLES_URL = Ok (JObj []))
    by (vm_compute; reflexivity).
  assert (Hno : AWSPrices.has_regions (JObj []) = Ok false) by reflexivity.
  assert (Hload' : AWSPrices.load_data Scenarios.config_text_feed
                     EC2Prices.INSTANCES_ON_DEMAND_LINUX_URL =
                   Ok (JObj [("config", JStr "none")]))
    by (vm_compute; reflexivity).
  assert (Hno' : AWSPrices.has_regions (JObj [("config", JStr "none")]) = Ok false)
    by (vm_compute; reflexivity).
  destruct (C8_feed_without_regions Scenarios.ec2_ri_two
              EC2Prices.INSTANCES_RESERVED_SLES_URL (JObj []) Hload Hno)
    as (_ & Hri & Hod & _).
  destruct (C8_feed_without_regions Scenarios.config_text_feed
              EC2Prices.INSTANCES_ON_DEMAND_LINUX_URL _ Hload' Hno')
    as (_ & _ & Hod' & _).
  split; [exact Hload|]. split; [exact Hno|]. split; [|split; [exact Hod|]].
  - apply Hri. apply (bool_decide_unpack _). by vm_compute.
  - split; [exact Hload'|exact Hod'].
Defined.

(** C8, as stated, fails: a payload can parse, hold no [config.regions]
    list, and make the guard raise. The feed ["callback(5)"] parses to the
    number 5 and [["config" in 5]] raises [TypeError]; the feed
    ["callback({config:5})"] parses to an object whose [config] is 5 and
    [["regions" in 5]] raises [TypeError]. The call that reads the feed
    raises with it. *)
Lemma C8_counterexample :
  (AWSPrices.load_data Scenarios.number_feed EC2Prices.INSTANCES_ON_DEMAND_LINUX_URL =
     Ok (JNum (NInt 5)) /\
   ~ Contributions.has_region_list (JNum (NInt 5)) /\
   AWSPrices.has_regions (JNum (NInt 5)) = Raise TypeError /\
   EC2Prices.get_ondemand_instances_prices Scenarios.number_feed = Raise TypeError /\
   ~ Contributions.feed_without_list_is_empty EC2Prices.ondemand_feed
       Scenarios.number_feed EC2Prices.INSTANCES_ON_DEMAND_LINUX_URL) /\
  (AWSPrices.load_data Scenarios.config_number_feed
     ELCPrices.INSTANCES_RESERVED_LIGHT_UTILIZATION_URL =
     Ok (JObj [("config", JNum (NInt 5))]) /\
   ~ Contributions.has_region_list (JObj [("config", JNum (NInt 5))]) /\
   AWSPrices.has_regions (JObj [("config", JNum (NInt 5))]) = Raise TypeError /\
   ELCPrices.get_reserved_instances_prices Scenarios.config_number_feed =
     Raise TypeError /\
   ~ Contributions.feed_without_list_is_empty ELCPrices.reserved_feed
       Scenarios.config_number_feed
       ELCPrices.INSTANCES_RESERVED_LIGHT_UTILIZATION_URL).
Proof.
  assert (H5 : ~ Contributions.has_region_list (JNum (NInt 5))).
  { intros (kvs & ckvs & r & rs & Hd & _). discriminate Hd. }
  assert (Hc5 : ~ Contributions.has_region_list (JObj [("config", JNum (NInt 5))])).
  { intros (kvs & ckvs & r & rs & Hd & Hc & _). injection Hd as <-.
    vm_compute in Hc. discriminate Hc. }
  split.
  - split; [vm_compute; reflexivity|]. split; [exact H5|].
    split; [reflexivity|]. split; [vm_compute; reflexivity|].
    intros H. destruct (H (JNum (NInt 5))) as [Hbody _];
      [vm_compute; reflexivity|exact H5|].
    specialize (Hbody []). vm_compute in Hbody. discriminate Hbody.
  - split; [vm_compute; reflexivity|]. split; [exact Hc5|].
    split; [vm_compute; reflexivity|]. split; [vm_compute; reflexivity|].
    intros H. destruct (H (JObj [("config", JNum (NInt 5))])) as [Hbody _];
      [vm_compute; reflexivity|exact Hc5|].
    specialize (Hbody AWSPrices.empty_state). vm_compute in Hbody. discriminate Hbody.
Qed.

(** * Further properties of the normalizers *)

(** ** A feed that cannot be loaded *)

Section FeedBodies.
Import AWSPrices Contributions Behaviour.
Variable urlopen : string -> result string.

(** The per-URL tables cover the URL lists of their loops. *)
Lemma ec2_reserved_table u :
  u ∈ EC2Prices.reserved_urls ->
  exists v, table_getitem EC2Prices.INSTANCES_RESERVED_OS_TYPE_BY_URL (JStr u) = Ok v.
Proof.
  apply url_in_table. apply (bool_decide_unpack _). by vm_compute.
Qed.

Lemma elc_reserved_table u :
  u ∈ ELCPrices.reserved_urls ->
  exists v, table_getitem ELCPrices.INSTANCES_RESERVED_UTILIZATION_TYPE_BY_URL (JStr u)
            = Ok v.
Proof.
  apply url_in_table. apply (bool_decide_unpack _). by vm_compute.
Qed.

Lemma rds_old_table u :
  u ∈ RDSPrices.urls_old ->
  exists v, table_getitem RDSPrices.RDS_RESERVED_TYPE_BY_URL_OLD (JStr u) = Ok v.
Proof.
  apply url_in_table. apply (bool_decide_unpack _). by vm_compute.
Qed.

Lemma rds_new_table u :
  u ∈ RDSPrices.urls_new ->
  exists v,
    match RDSPrices.RDS_RESERVED_TYPE_BY_URL_NEW !! u with
    | Some licensedb => Ok (licensedb, "single")
    | None =>
        licensedb ← table_getitem RDSPrices.RDS_RESERVED_MULTIAZ_TYPE_BY_URL_NEW (JStr u);
        Ok (licensedb, "multi-az")
    end = Ok v.
Proof.
  intros Hu. destruct (RDSPrices.RDS_RESERVED_TYPE_BY_URL_NEW !! u) eqn:Hnew; [eauto|].
  destruct (url_in_table RDSPrices.RDS_RESERVED_MULTIAZ_TYPE_BY_URL_NEW
              (filter (fun u => RDSPrices.RDS_RESERVED_TYPE_BY_URL_NEW !! u = None)
                      RDSPrices.urls_new) u) as [v ->].
  - apply (bool_decide_unpack _). by vm_compute.
  - apply list_elem_of_filter. split; assumption.
  - cbn [mbind result_bind]. eauto.
Qed.

Lemma rds_ondemand_table u :
  u ∈ RDSPrices.ondemand_urls ->
  exists v,
    match RDSPrices.RDS_ONDEMAND_TYPE_BY_URL !! u with
    | Some licensedb => Ok (licensedb, "single")
    | None =>
        licensedb ← table_getitem RDSPrices.RDS_ONDEMAND_MULTIAZ_TYPE_BY_URL (JStr u);
        Ok (licensedb, "multi-az")
    end = Ok v.
Proof.
  intros Hu. destruct (RDSPrices.RDS_ONDEMAND_TYPE_BY_URL !! u) eqn:Hnew; [eauto|].
  destruct (url_in_table RDSPrices.RDS_ONDEMAND_MULTIAZ_TYPE_BY_URL
              (filter (fun u => RDSPrices.RDS_ONDEMAND_TYPE_BY_URL !! u = None)
                      RDSPrices.ondemand_urls) u) as [v ->].
  - apply (bool_decide_unpack _). by vm_compute.
  - apply list_elem_of_filter. split; assumption.
  - cbn [mbind result_bind]. eauto.
Qed.

(** The two loops of the reserved call of the database service. *)
Lemma rds_reserved_raises u :
  u ∈ (RDSPrices.urls_old ++ RDSPrices.urls_new) ->
  (forall st, raises (RDSPrices.reserved_feed_old urlopen st u)) ->
  (forall st, raises (RDSPrices.reserved_feed_new urlopen st u)) ->
  raises (RDSPrices.get_reserved_instances_prices urlopen).
Proof.
  intros Hu Hold Hnew. unfold RDSPrices.get_reserved_instances_prices.
  apply elem_of_app in Hu as [Hu|Hu].
  - apply raises_bind_l. by apply (foldM_raises _ _ u).
  - apply raises_bind. intros st _. by apply call_raises with (u := u).
Qed.

End FeedBodies.

(** A feed that cannot be loaded is fatal. If the fetch fails or the
    repaired text is no JSON for one URL of the list a call reads, the call
    raises: no call returns a document built from the other feeds. *)
Theorem failed_feed_is_fatal (urlopen : string -> result string) (u : string) :
  Contributions.raises (AWSPrices.load_data urlopen u) ->
  (u ∈ EC2Prices.reserved_urls ->
   Contributions.raises (EC2Prices.get_reserved_instances_prices urlopen)) /\
  (u ∈ EC2Prices.ondemand_urls ->
   Contributions.raises (EC2Prices.get_ondemand_instances_prices urlopen)) /\
  (u ∈ ELCPrices.reserved_urls ->
   Contributions.raises (ELCPrices.get_reserved_instances_prices urlopen)) /\
  (u ∈ ELCPrices.ondemand_urls ->
   Contributions.raises (ELCPrices.get_ondemand_instances_prices urlopen)) /\
  (u ∈ (RDSPrices.urls_old ++ RDSPrices.urls_new) ->
   Contributions.raises (RDSPrices.get_reserved_instances_prices urlopen)) /\
  (u ∈ RDSPrices.ondemand_urls ->
   Contributions.raises (RDSPrices.get_ondemand_instances_prices urlopen)) /\
  (u ∈ RSPrices.reserved_urls ->
   Contributions.raises (RSPrices.get_reserved_instances_prices urlopen)) /\
  (u ∈ RSPrices.ondemand_urls ->
   Contributions.raises (RSPrices.get_ondemand_instances_prices urlopen)).
Proof.
  intros Hload.
  repeat match goal with |- _ /\ _ => split end; intros Hu.
  - apply call_raises with (u := u); [done|]. intros st.
    unfold EC2Prices.reserved_feed. apply raises_bind; intros os_type _.
    by apply raises_bind_l.
  - apply call_raises with (u := u); [done|]. intros st.
    unfold EC2Prices.ondemand_feed. by apply raises_bind_l.
  - apply call_raises with (u := u); [done|]. intros st.
    unfold ELCPrices.reserved_feed. apply raises_bind; intros ut _.
    by apply raises_bind_l.
  - apply call_raises with (u := u); [done|]. intros st.
    unfold ELCPrices.ondemand_feed. by apply raises_bind_l.
  - apply (rds_reserved_raises urlopen u Hu); intros st.
    + unfold RDSPrices.reserved_feed_old. apply raises_bind; intros info _.
      by apply raises_bind_l.
    + unfold RDSPrices.reserved_feed_new. apply raises_bind; intros [l m] _.
      by apply raises_bind_l.
  - apply call_raises with (u := u); [done|]. intros st.
    unfold RDSPrices.ondemand_feed. apply raises_bind; intros [l m] _.
    by apply raises_bind_l.
  - apply call_raises with (u := u); [done|]. intros st.
    unfold RSPrices.reserved_feed. by apply raises_bind_l.
  - apply call_raises with (u := u); [done|]. intros st.
    unfold RSPrices.ondemand_feed. by apply raises_bind_l.
Qed.

(** The fetch fails at the last reserved URL of the compute service and
    every other feed is empty: the reserved call raises. *)
Lemma failed_feed_is_fatal_witness :
  Contributions.raises
    (EC2Prices.get_reserved_instances_prices
       (Scenarios.unreachable EC2Prices.PG_INSTANCES_RESERVED_WINSQLWEB_URL)).
Proof.
  refine (proj1 (failed_feed_is_fatal
                   (Scenarios.unreachable EC2Prices.PG_INSTANCES_RESERVED_WINSQLWEB_URL)
                   EC2Prices.PG_INSTANCES_RESERVED_WINSQLWEB_URL _) _).
  - exists URLError. vm_compute. reflexivity.
  - apply (bool_decide_unpack _). by vm_compute.
Defined.

(** ** When every feed is retired *)

Section Retired.
Import AWSPrices Contributions Behaviour.
Variable urlopen : string -> result string.

Lemma foldM_all_skip {S X : Type} (body : S -> X -> result S) (l : list X) st :
  (forall x, x ∈ l -> forall st, body st x = Ok st) -> foldM body l st = Ok st.
Proof.
  induction l as [|x l IH]; intros H; [done|].
  simpl. rewrite (H x) by left. cbn [mbind result_bind].
  apply IH. intros y Hy. apply H. by right.
Qed.

Lemma retired_regions u :
  (exists data, load_data urlopen u = Ok data /\ has_regions data = Ok false) ->
  exists data, load_data urlopen u = Ok data /\ config_regions data = Ok [].
Proof.
  intros (data & Hd & Hno). exists data. split; [done|]. by apply guard_false_config.
Qed.

End Retired.

(** When every feed of a call is retired (it loads, and the guard of the
    region loop is false on its payload, as on an object without
    [config]), the call returns the document with its [config] and no
    region: the currency is USD, the unit is [perhr] for the on-demand
    calls and absent for the reserved ones. *)
Theorem retired_feeds_give_empty_document (urlopen : string -> result string) :
  (Behaviour.all_retired urlopen EC2Prices.reserved_urls ->
   EC2Prices.get_reserved_instances_prices urlopen =
   Ok {| config_currency := "USD"; config_unit := None; regions := [] |}) /\
  (Behaviour.all_retired urlopen EC2Prices.ondemand_urls ->
   EC2Prices.get_ondemand_instances_prices urlopen =
   Ok {| config_currency := "USD"; config_unit := Some "perhr"; regions := [] |}) /\
  (Behaviour.all_retired urlopen ELCPrices.reserved_urls ->
   ELCPrices.get_reserved_instances_prices urlopen =
   Ok {| config_currency := "USD"; config_unit := None; regions := [] |}) /\
  (Behaviour.all_retired urlopen ELCPrices.ondemand_urls ->
   ELCPrices.get_ondemand_instances_prices urlopen =
   Ok {| config_currency := "USD"; config_unit := Some "perhr"; regions := [] |}) /\
  (Behaviour.all_retired urlopen (RDSPrices.urls_old ++ RDSPrices.urls_new) ->
   RDSPrices.get_reserved_instances_prices urlopen =
   Ok {| config_currency := "USD"; config_unit := None; regions := [] |}) /\
  (Behaviour.all_retired urlopen RDSPrices.ondemand_urls ->
   RDSPrices.get_ondemand_instances_prices urlopen =
   Ok {| config_currency := "USD"; config_unit := Some "perhr"; regions := [] |}) /\
  (Behaviour.all_retired urlopen RSPrices.reserved_urls ->
   RSPrices.get_reserved_instances_prices urlopen =
   Ok {| config_currency := "USD"; config_unit := None; regions := [] |}) /\
  (Behaviour.all_retired urlopen RSPrices.ondemand_urls ->
   RSPrices.get_ondemand_instances_prices urlopen =
   Ok {| config_currency := "USD"; config_unit := Some "perhr"; regions := [] |}).
Proof.
  repeat match goal with |- _ /\ _ => split end; intros Hall.
  - unfold EC2Prices.get_reserved_instances_prices.
    rewrite foldM_all_skip; [done|]. intros u Hu st.
    destruct (retired_regions urlopen u (Hall u Hu)) as (data & Hd & Hrs).
    unfold EC2Prices.reserved_feed.
    destruct (ec2_reserved_table u Hu) as [v ->]. cbn [mbind result_bind].
    rewrite Hd. cbn [mbind result_bind]. by rewrite Hrs.
  - unfold EC2Prices.get_ondemand_instances_prices.
    rewrite foldM_all_skip; [done|]. intros u Hu st.
    destruct (retired_regions urlopen u (Hall u Hu)) as (data & Hd & Hrs).
    unfold EC2Prices.ondemand_feed.
    rewrite Hd. cbn [mbind result_bind]. by rewrite Hrs.
  - unfold ELCPrices.get_reserved_instances_prices.
    rewrite foldM_all_skip; [done|]. intros u Hu st.
    destruct (retired_regions urlopen u (Hall u Hu)) as (data & Hd & Hrs).
    unfold ELCPrices.reserved_feed.
    destruct (elc_reserved_table u Hu) as [v ->]. cbn [mbind result_bind].
    rewrite Hd. cbn [mbind result_bind]. by rewrite Hrs.
  - unfold ELCPrices.get_ondemand_instances_prices.
    rewrite foldM_all_skip; [done|]. intros u Hu st.
    destruct (retired_regions urlopen u (Hall u Hu)) as (data & Hd & Hrs).
    unfold ELCPrices.ondemand_feed.
    rewrite Hd. cbn [mbind result_bind]. by rewrite Hrs.
  - unfold RDSPrices.get_reserved_instances_prices.
    rewrite foldM_all_skip.
    + cbn [mbind result_bind]. rewrite foldM_all_skip; [done|]. intros u Hu st.
      destruct (retired_regions urlopen u (Hall u ltac:(apply elem_of_app; by right)))
        as (data & Hd & Hrs).
      unfold RDSPrices.reserved_feed_new.
      destruct (rds_new_table u Hu) as [[l m] ->]. cbn [mbind result_bind].
      rewrite Hd. cbn [mbind result_bind]. by rewrite Hrs.
    + intros u Hu st.
      destruct (retired_regions urlopen u (Hall u ltac:(apply elem_of_app; by left)))
        as (data & Hd & Hrs).
      unfold RDSPrices.reserved_feed_old.
      destruct (rds_old_table u Hu) as [v ->]. cbn [mbind result_bind].
      rewrite Hd. cbn [mbind result_bind]. by rewrite Hrs.
  - unfold RDSPrices.get_ondemand_instances_prices.
    rewrite foldM_all_skip; [done|]. intros u Hu st.
    destruct (retired_regions urlopen u (Hall u Hu)) as (data & Hd & Hrs).
    unfold RDSPrices.ondemand_feed.
    destruct (rds_ondemand_table u Hu) as [[l m] ->]. cbn [mbind result_bind].
    rewrite Hd. cbn [mbind result_bind]. by rewrite Hrs.
  - unfold RSPrices.get_reserved_instances_prices.
    rewrite foldM_all_skip; [done|]. intros u Hu st.
    destruct (retired_regions urlopen u (Hall u Hu)) as (data & Hd & Hrs).
    unfold RSPrices.reserved_feed.
    rewrite Hd. cbn [mbind result_bind]. by rewrite Hrs.
  - unfold RSPrices.get_ondemand_instances_prices.
    rewrite foldM_all_skip; [done|]. intros u Hu st.
    destruct (retired_regions urlopen u (Hall u Hu)) as (data & Hd & Hrs).
    unfold RSPrices.ondemand_feed.
    rewrite Hd. cbn [mbind result_bind]. by rewrite Hrs.
Qed.

(** Every URL answers ["callback({})"]: the reserved call of the database
    service returns the empty document. *)
Lemma retired_feeds_give_empty_document_witness :
  RDSPrices.get_reserved_instances_prices (Scenarios.serve []) =
  Ok {| config_currency := "USD"; config_unit := None; regions := [] |}.
Proof.
  apply (retired_feeds_give_empty_document (Scenarios.serve [])).
  intros u _. exists (JObj []). split; [vm_compute; reflexivity|reflexivity].
Defined.

(** ** Where the offerings of a document come from *)

Section Provenance.
Import AWSPrices Contributions Behaviour.
Context {O : Type}.
Implicit Types (P : O -> Prop) (st : reserved_state O) (c : RegionPricing O)
  (cs rs : list (RegionPricing O)).

Lemma all_offerings_nil P : all_offerings P (@nil (RegionPricing O)).
Proof. intros e o He. by apply elem_of_nil in He. Qed.

Lemma all_offerings_app P rs cs :
  all_offerings P rs -> all_offerings P cs -> all_offerings P (rs ++ cs).
Proof.
  intros Hrs Hcs e o He Ho. apply elem_of_app in He as [He|He]; eauto.
Qed.

Lemma all_offerings_concat P (css : list (list (RegionPricing O))) :
  (forall cs, cs ∈ css -> all_offerings P cs) -> all_offerings P (concat css).
Proof.
  intros H e o He Ho. apply list_elem_of_In, in_concat in He as (cs & Hcs & He).
  apply list_elem_of_In in Hcs, He. by apply (H cs Hcs e o).
Qed.

Lemma append_offerings_all P i os st :
  all_offerings P (result_regions st) -> Forall P os ->
  all_offerings P (result_regions (append_offerings i os st)).
Proof.
  intros Hst Hos e o He Ho. simpl in He.
  apply list_elem_of_lookup in He as [j Hj].
  destruct (decide (i = j)) as [->|Hne].
  - rewrite list_lookup_alter_eq in Hj.
    destruct (result_regions st !! j) as [e0|] eqn:He0; [|done].
    injection Hj as <-. simpl in Ho. apply elem_of_app in Ho as [Ho|Ho].
    + apply (Hst e0 o); [|done]. by apply list_elem_of_lookup; exists j.
    + rewrite list.Forall_forall in Hos. by apply Hos.
  - rewrite list_lookup_alter_ne in Hj by done.
    apply (Hst e o); [|done]. by apply list_elem_of_lookup; exists j.
Qed.

Lemma add_contribution_all P st c :
  all_offerings P (result_regions st) -> Forall P (instanceTypes c) ->
  all_offerings P (result_regions (add_contribution st c)).
Proof.
  intros Hst Hc. unfold add_contribution.
  destruct (region_key (region c) ≫= _) as [i|].
  - by apply append_offerings_all.
  - apply append_offerings_all; [|done]. simpl.
    apply all_offerings_app; [done|].
    intros e o He Ho. apply list_elem_of_singleton in He as ->.
    by apply elem_of_nil in Ho.
Qed.

Lemma foldl_add_all P cs st :
  all_offerings P (result_regions st) -> all_offerings P cs ->
  all_offerings P (result_regions (foldl add_contribution st cs)).
Proof.
  revert st. induction cs as [|c cs IH]; intros st Hst Hcs; [done|].
  simpl. apply IH.
  - apply add_contribution_all; [done|].
    rewrite list.Forall_forall. intros o Ho. apply (Hcs c o); [by left|done].
  - intros e o He. apply Hcs. by right.
Qed.

Lemma mapM_Forall {X Y : Type} (Q : Y -> Prop) (f : X -> result Y) l ys :
  mapM f l = Ok ys ->
  (forall x y, x ∈ l -> f x = Ok y -> Q y) -> Forall Q ys.
Proof.
  revert ys. induction l as [|x l IH]; intros ys Hm HQ.
  - injection Hm as <-. constructor.
  - simpl in Hm. bind_inv Hm. bind_inv Hm. injection Hm as <-. constructor.
    + apply (HQ x); [by left|done].
    + apply IH; [done|]. intros x' y' Hx'. apply HQ. by right.
Qed.

Lemma Forall_concat' {Y : Type} (Q : Y -> Prop) (yss : list (list Y)) :
  Forall (Forall Q) yss -> Forall Q (concat yss).
Proof.
  induction 1 as [|ys yss Hys _ IH]; simpl; [constructor|].
  by apply Forall_app.
Qed.

(** Every offering of [if key in holder: for x in holder[key]] is an
    offering of a listed item. *)
Lemma if_in_for_Forall P holder key (f : json -> result (list O)) os :
  if_in_for holder key f = Ok os ->
  (forall x os', listed holder key x -> f x = Ok os' -> Forall P os') ->
  Forall P os.
Proof.
  intros Hos HP. unfold if_in_for in Hos. bind_inv Hos.
  destruct a; [|injection Hos as <-; constructor].
  unfold for_in in Hos. bind_inv Hos. bind_inv Hos. bind_inv Hos.
  injection Hos as <-. apply Forall_concat'.
  apply (mapM_Forall _ _ _ _ Ha2). intros x y Hx Hy.
  apply (HP x); [|done]. split; [done|]. eauto.
Qed.

Lemma for_in_Forall P holder key (f : json -> result (list O)) os :
  for_in holder key f = Ok os ->
  (forall x os', visited holder key x -> f x = Ok os' -> Forall P os') ->
  Forall P os.
Proof.
  intros Hos HP. unfold for_in in Hos. bind_inv Hos. bind_inv Hos. bind_inv Hos.
  injection Hos as <-. apply Forall_concat'.
  apply (mapM_Forall _ _ _ _ Ha1). intros x y Hx Hy.
  apply (HP x); [|done]. unfold visited. eauto.
Qed.

Lemma reserved_contribution_all P resolve (offerings : json -> result (list O)) r cs :
  reserved_contribution resolve offerings r = Ok cs ->
  (forall it os, offerings it = Ok os -> Forall P os) ->
  all_offerings P cs.
Proof.
  intros Hcs HP. unfold reserved_contribution in Hcs.
  apply bind_Ok_inv in Hcs as (g & _ & Hcs).
  destruct g; [|injection Hcs as <-; apply all_offerings_nil].
  apply bind_Ok_inv in Hcs as (raw & _ & Hcs).
  apply bind_Ok_inv in Hcs as (name & _ & Hcs).
  apply bind_Ok_inv in Hcs as (k & _ & Hcs).
  apply bind_Ok_inv in Hcs as (os & Hos & Hcs). injection Hcs as <-.
  intros e o He Ho. apply list_elem_of_singleton in He as ->. simpl in Ho.
  assert (HF : Forall P os).
  { apply (if_in_for_Forall P _ _ _ _ Hos). intros x os' _. apply HP. }
  rewrite list.Forall_forall in HF. by apply HF.
Qed.

Lemma ondemand_contribution_all P resolve key (offerings : json -> result (list O))
    r cs :
  ondemand_contribution resolve key offerings r = Ok cs ->
  (forall it os, offerings it = Ok os -> Forall P os) ->
  all_offerings P cs.
Proof.
  intros Hcs HP. unfold ondemand_contribution in Hcs.
  apply bind_Ok_inv in Hcs as (g & _ & Hcs).
  destruct g; [|injection Hcs as <-; apply all_offerings_nil].
  apply bind_Ok_inv in Hcs as (raw & _ & Hcs).
  apply bind_Ok_inv in Hcs as (name & _ & Hcs).
  apply bind_Ok_inv in Hcs as (b & _ & Hcs).
  destruct b; [|injection Hcs as <-; apply all_offerings_nil].
  apply bind_Ok_inv in Hcs as (os & Hos & Hcs). injection Hcs as <-.
  intros e o He Ho. apply list_elem_of_singleton in He as ->. simpl in Ho.
  assert (HF : Forall P os).
  { apply (for_in_Forall P _ _ _ _ Hos). intros x os' _. apply HP. }
  rewrite list.Forall_forall in HF. by apply HF.
Qed.

Lemma feed_contributions_all P (entry : json -> result (list (RegionPricing O)))
    data cs :
  feed_contributions entry data = Ok cs ->
  (forall r cs', entry r = Ok cs' -> all_offerings P cs') ->
  all_offerings P cs.
Proof.
  intros Hcs HP. unfold feed_contributions in Hcs. bind_inv Hcs. bind_inv Hcs.
  injection Hcs as <-. apply all_offerings_concat. intros cs' Hcs'.
  pose proof (mapM_Forall (all_offerings P) entry a a0 Ha0
                (fun x y _ Hy => HP x y Hy)) as HF.
  rewrite list.Forall_forall in HF. by apply HF.
Qed.

(** A reserved loop files nothing but the contributions of its feeds. *)
Lemma reserved_loop_all P
    (feed : reserved_state O -> string -> result (reserved_state O))
    (contribs : string -> result (list (RegionPricing O))) urls st st' :
  (forall st u, feed st u = (cs ← contribs u; Ok (foldl add_contribution st cs))) ->
  (forall u cs, contribs u = Ok cs -> all_offerings P cs) ->
  all_offerings P (result_regions st) ->
  foldM feed urls st = Ok st' ->
  all_offerings P (result_regions st').
Proof.
  intros Hfeed HP. revert st. induction urls as [|u urls IH]; intros st Hst Hrun.
  - by injection Hrun as <-.
  - simpl in Hrun. bind_inv Hrun. apply (IH a); [|done].
    rewrite Hfeed in Ha. bind_inv Ha. injection Ha as <-.
    apply foldl_add_all; [done|]. by apply (HP u).
Qed.

Lemma ondemand_loop_all P
    (feed : list (RegionPricing O) -> string -> result (list (RegionPricing O)))
    (contribs : string -> result (list (RegionPricing O))) urls rs rs' :
  (forall rs u, feed rs u = (cs ← contribs u; Ok (rs ++ cs))) ->
  (forall u cs, contribs u = Ok cs -> all_offerings P cs) ->
  all_offerings P rs ->
  foldM feed urls rs = Ok rs' ->
  all_offerings P rs'.
Proof.
  intros Hfeed HP. revert rs. induction urls as [|u urls IH]; intros rs Hrs Hrun.
  - by injection Hrun as <-.
  - simpl in Hrun. bind_inv Hrun. apply (IH a); [|done].
    rewrite Hfeed in Ha. bind_inv Ha. injection Ha as <-.
    apply all_offerings_app; [done|]. by apply (HP u).
Qed.

End Provenance.

(** ** The shape of the price tables *)

Section Shapes.
Import AWSPrices Contributions Behaviour.

Lemma foldM_invariant {S X : Type} (I : S -> Prop) (body : S -> X -> result S) l st st' :
  (forall st x st', I st -> body st x = Ok st' -> I st') ->
  I st -> foldM body l st = Ok st' -> I st'.
Proof.
  intros Hbody. revert st. induction l as [|x l IH]; intros st Hst Hrun.
  - by injection Hrun as <-.
  - simpl in Hrun. apply bind_Ok_inv in Hrun as (st1 & H1 & Hrun).
    apply (IH st1); [|done]. by apply (Hbody st x).
Qed.

Lemma set_cell_shape prices t po f prices' :
  set_cell prices t po f = Ok prices' -> options_of prices' = options_of prices.
Proof.
  unfold set_cell, options_of. intros H.
  destruct (prices !! t) as [by_option|] eqn:Ht; [|done].
  apply bind_Ok_inv in H as (c & Hc & H).
  destruct po as [| | |o| |]; try done. injection H as <-.
  simpl in Hc. destruct (by_option !! o) as [c'|] eqn:Ho; [|done].
  rewrite fmap_insert, dom_insert_lookup_L by eauto.
  apply insert_id. by rewrite lookup_fmap, Ht.
Qed.

Lemma route_column_shape prices t po price_data price prices' :
  route_column prices t po price_data price = Ok prices' ->
  options_of prices' = options_of prices.
Proof.
  unfold route_column. intros H. apply bind_Ok_inv in H as (name & _ & H).
  destruct (py_eq_str name "upfront"); [by apply set_cell_shape in H|].
  destruct (py_eq_str name "monthlyStar"); [|by injection H as <-].
  unfold set_hourly in H. destruct price; [|done]. by apply set_cell_shape in H.
Qed.

Lemma value_column_shape term po prices price_data prices' :
  value_column term po prices price_data = Ok prices' ->
  options_of prices' = options_of prices.
Proof.
  unfold value_column. intros H. apply bind_Ok_inv in H as (price & _ & H).
  destruct (py_eq_str term "yrTerm1"); [by apply route_column_shape in H|].
  destruct (py_eq_str term "yrTerm3"); [by apply route_column_shape in H|].
  by injection H as <-.
Qed.

Lemma purchase_option_shape term prices po_data prices' :
  purchase_option term prices po_data = Ok prices' ->
  options_of prices' = options_of prices.
Proof.
  unfold purchase_option. intros H.
  apply bind_Ok_inv in H as (po & _ & H). apply bind_Ok_inv in H as (v & _ & H).
  apply bind_Ok_inv in H as (cols & _ & H).
  apply (foldM_invariant (fun p => options_of p = options_of prices) _ _ _ _
           (fun st x st' Hst Hx => eq_trans (value_column_shape _ _ _ _ _ Hx) Hst)
           eq_refl H).
Qed.

Lemma term_entry_shape prices s prices' :
  term_entry prices s = Ok prices' -> options_of prices' = options_of prices.
Proof.
  unfold term_entry. intros H.
  apply bind_Ok_inv in H as (term & _ & H). apply bind_Ok_inv in H as (v & _ & H).
  apply bind_Ok_inv in H as (pos & _ & H).
  apply (foldM_invariant (fun p => options_of p = options_of prices) _ _ _ _
           (fun st x st' Hst Hx => eq_trans (purchase_option_shape _ _ _ _ Hx) Hst)
           eq_refl H).
Qed.

Lemma terms_prices_shape initial it prices :
  terms_prices initial it = Ok prices -> options_of prices = options_of initial.
Proof.
  unfold terms_prices. intros H. apply bind_Ok_inv in H as (b & _ & H).
  destruct b; [|by injection H as <-].
  apply bind_Ok_inv in H as (v & _ & H). apply bind_Ok_inv in H as (ts & _ & H).
  apply (foldM_invariant (fun p => options_of p = options_of initial) _ _ _ _
           (fun st x st' Hst Hx => eq_trans (term_entry_shape _ _ _ Hx) Hst)
           eq_refl H).
Qed.

Lemma set_term_dom prices t f prices' :
  set_term prices t f = Ok prices' -> dom prices' = dom prices.
Proof.
  unfold set_term. intros H. destruct (prices !! t) eqn:Ht; [|done].
  injection H as <-. apply dom_insert_lookup_L. eauto.
Qed.

Lemma elc_column_dom prices price_data prices' :
  ELCPrices.reserved_column prices price_data = Ok prices' -> dom prices' = dom prices.
Proof.
  unfold ELCPrices.reserved_column. intros H.
  apply bind_Ok_inv in H as (price & _ & H). apply bind_Ok_inv in H as (name & _ & H).
  repeat (destruct (py_eq_str name _); [by apply set_term_dom in H|]).
  by injection H as <-.
Qed.

Lemma rds_column_dom prices price_data prices' :
  RDSPrices.reserved_column prices price_data = Ok prices' -> dom prices' = dom prices.
Proof.
  unfold RDSPrices.reserved_column. intros H.
  apply bind_Ok_inv in H as (price & _ & H). apply bind_Ok_inv in H as (name & _ & H).
  repeat (destruct (py_eq_str name _); [by apply set_term_dom in H|]).
  by injection H as <-.
Qed.

Lemma initial_old_dom : dom initial_old_prices = both_terms.
Proof. reflexivity. Qed.

Lemma ec2_initial_options :
  options_of EC2Prices.initial_prices = {[ "1" := all_three; "3" := last_two ]}.
Proof. reflexivity. Qed.

Lemma rds_initial_options :
  options_of RDSPrices.initial_prices = {[ "1" := all_three; "3" := all_three ]}.
Proof. reflexivity. Qed.

Lemma rs_initial_options :
  options_of RSPrices.initial_prices = {[ "1" := all_three; "3" := all_three ]}.
Proof. reflexivity. Qed.

(** What each reserved normalizer builds for an item of a region entry. *)

Lemma ec2_reserved_instance_shape os_type it os :
  EC2Prices.reserved_instance os_type it = Ok os ->
  Forall (fun o => options_of (EC2Prices.ri_prices o) =
                   {[ "1" := all_three; "3" := last_two ]}) os.
Proof.
  unfold EC2Prices.reserved_instance. intros H.
  apply bind_Ok_inv in H as (ty & _ & H). apply bind_Ok_inv in H as (prices & Hp & H).
  injection H as <-. repeat constructor. simpl.
  rewrite (terms_prices_shape _ _ _ Hp). apply ec2_initial_options.
Qed.

Lemma rs_reserved_instance_shape it os :
  RSPrices.reserved_instance it = Ok os ->
  Forall (fun o => options_of (RSPrices.ri_prices o) =
                   {[ "1" := all_three; "3" := all_three ]}) os.
Proof.
  unfold RSPrices.reserved_instance. intros H.
  apply bind_Ok_inv in H as (ty & _ & H). apply bind_Ok_inv in H as (prices & Hp & H).
  injection H as <-. repeat constructor. simpl.
  rewrite (terms_prices_shape _ _ _ Hp). apply rs_initial_options.
Qed.

Lemma elc_reserved_instance_shape u ut it os :
  ELCPrices.reserved_instance u ut it = Ok os ->
  Forall (fun o => dom (ELCPrices.ri_prices o) = both_terms) os.
Proof.
  unfold ELCPrices.reserved_instance. intros H.
  apply (if_in_for_Forall _ _ _ _ _ H). intros s os' _ Hs.
  unfold ELCPrices.reserved_tier in Hs.
  apply bind_Ok_inv in Hs as (ty & _ & Hs). apply bind_Ok_inv in Hs as (v & _ & Hs).
  apply bind_Ok_inv in Hs as (cols & _ & Hs).
  apply bind_Ok_inv in Hs as (prices & Hp & Hs).
  injection Hs as <-. repeat constructor. simpl.
  apply (foldM_invariant (fun p => dom p = both_terms) _ _ _ _
           (fun st x st' Hst Hx => eq_trans (elc_column_dom _ _ _ Hx) Hst)
           initial_old_dom Hp).
Qed.

Lemma rds_old_instance_shape info it os :
  RDSPrices.reserved_instance_old info it = Ok os ->
  Forall (fun o => rds_table_shape (RDSPrices.ri_prices o)) os.
Proof.
  unfold RDSPrices.reserved_instance_old. intros H.
  apply bind_Ok_inv in H as (t & _ & H). apply bind_Ok_inv in H as (multiaz & _ & H).
  apply (if_in_for_Forall _ _ _ _ _ H). intros s os' _ Hs.
  unfold RDSPrices.reserved_tier in Hs. destruct info as [[dblicense db] ut].
  apply bind_Ok_inv in Hs as (ty & _ & Hs). apply bind_Ok_inv in Hs as (v & _ & Hs).
  apply bind_Ok_inv in Hs as (cols & _ & Hs).
  apply bind_Ok_inv in Hs as (prices & Hp & Hs).
  injection Hs as <-. repeat constructor. simpl.
  apply (foldM_invariant (fun p => dom p = both_terms) _ _ _ _
           (fun st x st' Hst Hx => eq_trans (rds_column_dom _ _ _ Hx) Hst)
           initial_old_dom Hp).
Qed.

Lemma rds_new_instance_shape licensedb multiaz it os :
  RDSPrices.reserved_instance_new licensedb multiaz it = Ok os ->
  Forall (fun o => rds_table_shape (RDSPrices.ri_prices o)) os.
Proof.
  unfold RDSPrices.reserved_instance_new. intros H.
  apply bind_Ok_inv in H as (ty & _ & H). apply bind_Ok_inv in H as (prices & Hp & H).
  injection H as <-. repeat constructor. simpl.
  rewrite (terms_prices_shape _ _ _ Hp). apply rds_initial_options.
Qed.

(** The contributions of one feed, per reserved normalizer. *)

Lemma ec2_reserved_all P urlopen u cs :
  ec2_reserved urlopen u = Ok cs ->
  (forall os_type it os, EC2Prices.reserved_instance os_type it = Ok os -> Forall P os) ->
  all_offerings P cs.
Proof.
  unfold ec2_reserved. intros H HP.
  apply bind_Ok_inv in H as (os_type & _ & H). apply bind_Ok_inv in H as (data & _ & H).
  apply (feed_contributions_all P _ _ _ H). intros r cs' Hr.
  apply (reserved_contribution_all P _ _ _ _ Hr). apply HP.
Qed.

Lemma elc_reserved_all P urlopen u cs :
  elc_reserved urlopen u = Ok cs ->
  (forall u ut it os, ELCPrices.reserved_instance u ut it = Ok os -> Forall P os) ->
  all_offerings P cs.
Proof.
  unfold elc_reserved. intros H HP.
  apply bind_Ok_inv in H as (ut & _ & H). apply bind_Ok_inv in H as (data & _ & H).
  apply (feed_contributions_all P _ _ _ H). intros r cs' Hr.
  apply (reserved_contribution_all P _ _ _ _ Hr). apply HP.
Qed.

Lemma rds_reserved_old_all P urlopen u cs :
  rds_reserved_old urlopen u = Ok cs ->
  (forall info it os, RDSPrices.reserved_instance_old info it = Ok os -> Forall P os) ->
  all_offerings P cs.
Proof.
  unfold rds_reserved_old. intros H HP.
  apply bind_Ok_inv in H as (info & _ & H). apply bind_Ok_inv in H as (data & _ & H).
  apply (feed_contributions_all P _ _ _ H). intros r cs' Hr.
  apply (reserved_contribution_all P _ _ _ _ Hr). apply HP.
Qed.

Lemma rds_reserved_new_all P urlopen u cs :
  rds_reserved_new urlopen u = Ok cs ->
  (forall licensedb multiaz it os,
     RDSPrices.reserved_instance_new licensedb multiaz it = Ok os -> Forall P os) ->
  all_offerings P cs.
Proof.
  unfold rds_reserved_new. intros H HP.
  apply bind_Ok_inv in H as ([licensedb multiaz] & _ & H).
  apply bind_Ok_inv in H as (data & _ & H).
  apply (feed_contributions_all P _ _ _ H). intros r cs' Hr.
  apply (reserved_contribution_all P _ _ _ _ Hr). apply HP.
Qed.

Lemma rs_reserved_all P urlopen u cs :
  rs_reserved urlopen u = Ok cs ->
  (forall it os, RSPrices.reserved_instance it = Ok os -> Forall P os) ->
  all_offerings P cs.
Proof.
  unfold rs_reserved. intros H HP. apply bind_Ok_inv in H as (data & _ & H).
  apply (feed_contributions_all P _ _ _ H). intros r cs' Hr.
  apply (reserved_contribution_all P _ _ _ _ Hr). apply HP.
Qed.

(** The documents of the four reserved calls. *)

Lemma ec2_reserved_doc_all P urlopen doc :
  EC2Prices.get_reserved_instances_prices urlopen = Ok doc ->
  (forall os_type it os, EC2Prices.reserved_instance os_type it = Ok os -> Forall P os) ->
  all_offerings P (regions doc).
Proof.
  unfold EC2Prices.get_reserved_instances_prices. intros H HP.
  apply bind_Ok_inv in H as (st & Hst & H). injection H as <-. simpl.
  apply (reserved_loop_all P _ _ _ empty_state _ (ec2_reserved_feed urlopen)
           (fun u cs Hcs => ec2_reserved_all P urlopen u cs Hcs HP)
           (all_offerings_nil P) Hst).
Qed.

Lemma elc_reserved_doc_all P urlopen doc :
  ELCPrices.get_reserved_instances_prices urlopen = Ok doc ->
  (forall u ut it os, ELCPrices.reserved_instance u ut it = Ok os -> Forall P os) ->
  all_offerings P (regions doc).
Proof.
  unfold ELCPrices.get_reserved_instances_prices. intros H HP.
  apply bind_Ok_inv in H as (st & Hst & H). injection H as <-. simpl.
  apply (reserved_loop_all P _ _ _ empty_state _ (elc_reserved_feed urlopen)
           (fun u cs Hcs => elc_reserved_all P urlopen u cs Hcs HP)
           (all_offerings_nil P) Hst).
Qed.

Lemma rds_reserved_doc_all P urlopen doc :
  RDSPrices.get_reserved_instances_prices urlopen = Ok doc ->
  (forall info it os, RDSPrices.reserved_instance_old info it = Ok os -> Forall P os) ->
  (forall licensedb multiaz it os,
     RDSPrices.reserved_instance_new licensedb multiaz it = Ok os -> Forall P os) ->
  all_offerings P (regions doc).
Proof.
  unfold RDSPrices.get_reserved_instances_prices. intros H Hold Hnew.
  apply bind_Ok_inv in H as (st1 & Hst1 & H).
  apply bind_Ok_inv in H as (st2 & Hst2 & H). injection H as <-. simpl.
  apply (reserved_loop_all P _ _ _ st1 _ (rds_reserved_feed_new urlopen)
           (fun u cs Hcs => rds_reserved_new_all P urlopen u cs Hcs Hnew)
           (reserved_loop_all P _ _ _ empty_state st1 (rds_reserved_feed_old urlopen)
              (fun u cs Hcs => rds_reserved_old_all P urlopen u cs Hcs Hold)
              (all_offerings_nil P) Hst1)
           Hst2).
Qed.

Lemma rs_reserved_doc_all P urlopen doc :
  RSPrices.get_reserved_instances_prices urlopen = Ok doc ->
  (forall it os, RSPrices.reserved_instance it = Ok os -> Forall P os) ->
  all_offerings P (regions doc).
Proof.
  unfold RSPrices.get_reserved_instances_prices. intros H HP.
  apply bind_Ok_inv in H as (st & Hst & H). injection H as <-. simpl.
  apply (reserved_loop_all P _ _ _ empty_state _ (rs_reserved_feed urlopen)
           (fun u cs Hcs => rs_reserved_all P urlopen u cs Hcs HP)
           (all_offerings_nil P) Hst).
Qed.

End Shapes.

(** The price tables of a reserved document have the shape they were
    created with. Whatever the feeds hold, every offering of a document a
    reserved call returns has: for the compute service, the three purchase
    options under term 1 and [partialUpfront], [allUpfront] under term 3;
    for the cache service, the terms 1 and 3; for the database service, the
    terms 1 and 3 (legacy feeds) or the three options under both terms (new
    feeds); for the data-warehouse service, the three options under both
    terms. A feed fills cells; it never adds or removes a term or an
    option. *)
Theorem reserved_price_tables_keep_their_shape (urlopen : string -> result string) :
  (forall doc,
     EC2Prices.get_reserved_instances_prices urlopen = Ok doc ->
     Behaviour.all_offerings
       (fun o => Behaviour.options_of (EC2Prices.ri_prices o) =
                 {[ "1" := Behaviour.all_three; "3" := Behaviour.last_two ]})
       (regions doc)) /\
  (forall doc,
     ELCPrices.get_reserved_instances_prices urlopen = Ok doc ->
     Behaviour.all_offerings
       (fun o => dom (ELCPrices.ri_prices o) = Behaviour.both_terms)
       (regions doc)) /\
  (forall doc,
     RDSPrices.get_reserved_instances_prices urlopen = Ok doc ->
     Behaviour.all_offerings
       (fun o => Behaviour.rds_table_shape (RDSPrices.ri_prices o))
       (regions doc)) /\
  (forall doc,
     RSPrices.get_reserved_instances_prices urlopen = Ok doc ->
     Behaviour.all_offerings
       (fun o => Behaviour.options_of (RSPrices.ri_prices o) =
                 {[ "1" := Behaviour.all_three; "3" := Behaviour.all_three ]})
       (regions doc)).
Proof.
  repeat match goal with |- _ /\ _ => split end; intros doc Hdoc.
  - apply (ec2_reserved_doc_all _ urlopen doc Hdoc). intros os_type it os Hos.
    apply (ec2_reserved_instance_shape os_type it os Hos).
  - apply (elc_reserved_doc_all _ urlopen doc Hdoc). intros u ut it os Hos.
    apply (elc_reserved_instance_shape u ut it os Hos).
  - apply (rds_reserved_doc_all _ urlopen doc Hdoc).
    + apply rds_old_instance_shape.
    + apply rds_new_instance_shape.
  - apply (rs_reserved_doc_all _ urlopen doc Hdoc). intros it os Hos.
    apply (rs_reserved_instance_shape it os Hos).
Qed.

(** The shape in the document of two reserved compute feeds that fill the
    cell of [partialUpfront] under term 1. *)
Lemma reserved_price_tables_keep_their_shape_witness :
  exists doc,
    EC2Prices.get_reserved_instances_prices Scenarios.ec2_ri_two = Ok doc /\
    length (regions doc) = 1 /\
    Behaviour.all_offerings
      (fun o => Behaviour.options_of (EC2Prices.ri_prices o) =
                {[ "1" := Behaviour.all_three; "3" := Behaviour.last_two ]})
      (regions doc).
Proof.
  assert (Hrun : exists doc,
             EC2Prices.get_reserved_instances_prices Scenarios.ec2_ri_two = Ok doc /\
             length (regions doc) = 1).
  { vm_compute. eexists. split; reflexivity. }
  destruct Hrun as (doc & Hdoc & Hlen). exists doc.
  split; [exact Hdoc|]. split; [exact Hlen|].
  exact (proj1 (reserved_price_tables_keep_their_shape Scenarios.ec2_ri_two) doc Hdoc).
Defined.

(** ** Columns of the new reserved scheme that make a call fail *)

Section ColumnFailures.
Import AWSPrices Contributions Behaviour.

Lemma foldM_raises_inv {S X : Type} (I : S -> Prop) (body : S -> X -> result S) l x :
  x ∈ l ->
  (forall st x' st', I st -> body st x' = Ok st' -> I st') ->
  (forall st, I st -> raises (body st x)) ->
  forall st, I st -> raises (foldM body l st).
Proof.
  intros Hx Hinv Hraise. induction l as [|y l IH]; intros st Hst.
  - by apply elem_of_nil in Hx.
  - simpl. apply elem_of_cons in Hx as [<-|Hx].
    + by apply raises_bind_l, Hraise.
    + apply raises_bind. intros st' Hst'. apply IH; [done|]. by apply (Hinv st y).
Qed.

Lemma purchase_option_raises shape term po po_data price_data :
  py_getitem po_data "purchaseOption" = Ok po ->
  visited po_data "valueColumns" price_data ->
  (forall prices, options_of prices = shape ->
                  raises (value_column term po prices price_data)) ->
  forall prices, options_of prices = shape ->
                 raises (purchase_option term prices po_data).
Proof.
  intros Hpo (v & cols & Hv & Hcols & Hin) Hcol prices Hshape.
  unfold purchase_option. rewrite Hpo. cbn [mbind result_bind].
  rewrite Hv. cbn [mbind result_bind]. rewrite Hcols. cbn [mbind result_bind].
  apply (foldM_raises_inv (fun p => options_of p = shape) _ _ price_data Hin);
    [|done|done].
  intros st x st' Hst Hx. by rewrite (value_column_shape _ _ _ _ _ Hx).
Qed.

Lemma term_entry_raises shape s term po_data :
  py_getitem s "term" = Ok term ->
  visited s "purchaseOptions" po_data ->
  (forall prices, options_of prices = shape ->
                  raises (purchase_option term prices po_data)) ->
  forall prices, options_of prices = shape -> raises (term_entry prices s).
Proof.
  intros Hterm (v & pos & Hv & Hpos & Hin) Hpo prices Hshape.
  unfold term_entry. rewrite Hterm. cbn [mbind result_bind].
  rewrite Hv. cbn [mbind result_bind]. rewrite Hpos. cbn [mbind result_bind].
  apply (foldM_raises_inv (fun p => options_of p = shape) _ _ po_data Hin);
    [|done|done].
  intros st x st' Hst Hx. by rewrite (purchase_option_shape _ _ _ _ Hx).
Qed.

(** A value column on which the loop body raises, whatever the cells
    hold, makes the price table of its item fail. *)
Lemma terms_prices_raises initial it term po price_data :
  item_has_column it term po price_data ->
  (forall prices, options_of prices = options_of initial ->
                  raises (value_column term po prices price_data)) ->
  raises (terms_prices initial it).
Proof.
  intros (s & po_data & (Hin & v & ts & Hv & Hts & Hs) & Hterm & Hpos & Hpo & Hcols) Hcol.
  unfold terms_prices. rewrite Hin. cbn [mbind result_bind].
  rewrite Hv. cbn [mbind result_bind]. rewrite Hts. cbn [mbind result_bind].
  apply (foldM_raises_inv (fun p => options_of p = options_of initial) _ _ s Hs);
    [| |done].
  - intros st x st' Hst Hx. by rewrite (term_entry_shape _ _ _ Hx).
  - apply (term_entry_raises _ s term po_data Hterm Hpos).
    by apply (purchase_option_raises _ term po po_data price_data Hpo Hcols).
Qed.

(** An item on which the offerings raise makes the body of a reserved
    feed loop raise. *)
Lemma reserved_regions_raise {O : Type} resolve (offerings : json -> result (list O))
    data it :
  feed_has_item data "instanceTypes" it -> raises (offerings it) ->
  forall st, raises (rs ← config_regions data;
                     foldM (reserved_region resolve offerings) rs st).
Proof.
  intros (rs & r & Hrs & Hr & Hg & Hit) Hraise st.
  rewrite Hrs. cbn [mbind result_bind].
  apply (foldM_raises _ _ r Hr). intros st'.
  apply reserved_region_raises; [done|]. by apply (if_in_for_raises r _ _ it).
Qed.

(** The same for the three new-scheme reserved calls. *)
Lemma new_scheme_item_raises urlopen u data it :
  load_data urlopen u = Ok data ->
  feed_has_item data "instanceTypes" it ->
  (u ∈ EC2Prices.reserved_urls ->
   raises (terms_prices EC2Prices.initial_prices it) ->
   raises (EC2Prices.get_reserved_instances_prices urlopen)) /\
  (u ∈ RDSPrices.urls_new ->
   raises (terms_prices RDSPrices.initial_prices it) ->
   raises (RDSPrices.get_reserved_instances_prices urlopen)) /\
  (u ∈ RSPrices.reserved_urls ->
   raises (terms_prices RSPrices.initial_prices it) ->
   raises (RSPrices.get_reserved_instances_prices urlopen)).
Proof.
  intros Hdata Hit. split; [|split]; intros Hu Hraise.
  - apply call_raises with (u := u); [done|]. intros st.
    unfold EC2Prices.reserved_feed. apply raises_bind; intros os_type _.
    rewrite Hdata. cbn [mbind result_bind].
    apply (reserved_regions_raise _ _ data it Hit).
    unfold EC2Prices.reserved_instance. apply raises_bind; intros ty _.
    by apply raises_bind_l.
  - unfold RDSPrices.get_reserved_instances_prices.
    apply raises_bind; intros st1 _. apply call_raises with (u := u); [done|].
    intros st. unfold RDSPrices.reserved_feed_new.
    apply raises_bind; intros [licensedb multiaz] _.
    rewrite Hdata. cbn [mbind result_bind].
    apply (reserved_regions_raise _ _ data it Hit).
    unfold RDSPrices.reserved_instance_new. apply raises_bind; intros ty _.
    by apply raises_bind_l.
  - apply call_raises with (u := u); [done|]. intros st.
    unfold RSPrices.reserved_feed. rewrite Hdata. cbn [mbind result_bind].
    apply (reserved_regions_raise _ _ data it Hit).
    unfold RSPrices.reserved_instance. apply raises_bind; intros ty _.
    by apply raises_bind_l.
Qed.

(** Under a shape, a term has its options and no other. *)
Lemma shape_lookup prices shape t opts o :
  options_of prices = shape -> shape !! t = Some opts -> o ∉ opts ->
  exists by_option, prices !! t = Some by_option /\ by_option !! o = None.
Proof.
  intros <- Ht Ho. unfold options_of in Ht. rewrite lookup_fmap in Ht.
  destruct (prices !! t) as [by_option|]; [|done]. injection Ht as <-.
  exists by_option. split; [done|]. by apply not_elem_of_dom.
Qed.

End ColumnFailures.

(** A monthly price that is no number is fatal. The new reserved scheme
    divides the parsed [monthlyStar] price by 730 without testing it: for a
    token that parses to null (["N/A"], an empty text) the column raises
    [TypeError], and with it the reserved call of the compute, database or
    data-warehouse service whose feed holds the column. *)
Theorem unparsable_monthly_price_is_fatal :
  (forall term po prices price_data ps tok,
     term = JStr "yrTerm1" \/ term = JStr "yrTerm3" ->
     py_getitem price_data "name" = Ok (JStr "monthlyStar") ->
     py_getitem price_data "prices" = Ok ps ->
     py_getitem ps AWSPrices.DEFAULT_CURRENCY = Ok (JStr tok) ->
     PriceSpec.price tok = None ->
     AWSPrices.value_column term po prices price_data = Raise TypeError) /\
  (forall urlopen u data it term po price_data ps tok,
     term = JStr "yrTerm1" \/ term = JStr "yrTerm3" ->
     py_getitem price_data "name" = Ok (JStr "monthlyStar") ->
     py_getitem price_data "prices" = Ok ps ->
     py_getitem ps AWSPrices.DEFAULT_CURRENCY = Ok (JStr tok) ->
     PriceSpec.price tok = None ->
     AWSPrices.load_data urlopen u = Ok data ->
     Behaviour.feed_has_item data "instanceTypes" it ->
     Behaviour.item_has_column it term po price_data ->
     (u ∈ EC2Prices.reserved_urls ->
      Contributions.raises (EC2Prices.get_reserved_instances_prices urlopen)) /\
     (u ∈ RDSPrices.urls_new ->
      Contributions.raises (RDSPrices.get_reserved_instances_prices urlopen)) /\
     (u ∈ RSPrices.reserved_urls ->
      Contributions.raises (RSPrices.get_reserved_instances_prices urlopen))).
Proof.
  assert (Hcol : forall term po prices price_data ps tok,
             term = JStr "yrTerm1" \/ term = JStr "yrTerm3" ->
             py_getitem price_data "name" = Ok (JStr "monthlyStar") ->
             py_getitem price_data "prices" = Ok ps ->
             py_getitem ps AWSPrices.DEFAULT_CURRENCY = Ok (JStr tok) ->
             PriceSpec.price tok = None ->
             AWSPrices.value_column term po prices price_data = Raise TypeError).
  { intros term po prices price_data ps tok Hterm Hname Hps Htok Hnone.
    destruct (parse_price_spec price_data ps tok Hps Htok) as [Hprice _].
    rewrite Hnone in Hprice.
    destruct Hterm as [-> | ->].
    - rewrite (value_column_route _ "1" _ _ _ None) by auto.
      unfold AWSPrices.route_column. by rewrite Hname.
    - rewrite (value_column_route _ "3" _ _ _ None) by auto.
      unfold AWSPrices.route_column. by rewrite Hname. }
  split; [exact Hcol|].
  intros urlopen u data it term po price_data ps tok Hterm Hname Hps Htok Hnone
         Hdata Hit Hcolumn.
  assert (Hraise : forall initial, Contributions.raises (AWSPrices.terms_prices initial it)).
  { intros initial. apply (terms_prices_raises initial it term po price_data Hcolumn).
    intros prices _. exists TypeError. by apply (Hcol _ _ _ _ ps tok). }
  destruct (new_scheme_item_raises urlopen u data it Hdata Hit) as (Hec2 & Hrds & Hrs).
  repeat split; intros Hu; auto.
Qed.

(** The reserved compute feed with the monthly price ["N/A"]: the column
    raises [TypeError] and the call raises. *)
Lemma unparsable_monthly_price_is_fatal_witness :
  AWSPrices.value_column (JStr "yrTerm1") (JStr "partialUpfront")
    EC2Prices.initial_prices (Scenarios.column "monthlyStar" "N/A") = Raise TypeError /\
  Contributions.raises
    (EC2Prices.get_reserved_instances_prices Scenarios.ec2_ri_no_monthly).
Proof.
  destruct unparsable_monthly_price_is_fatal as [Hcol Hcall].
  split.
  - apply (Hcol _ _ _ _ (JObj [("USD", JStr "N/A")]) "N/A");
      [by left|reflexivity|reflexivity|reflexivity|reflexivity].
  - assert (Hdata : exists data,
               AWSPrices.load_data Scenarios.ec2_ri_no_monthly
                 EC2Prices.INSTANCES_RESERVED_LINUX_URL = Ok data /\
               exists it,
                 Behaviour.feed_has_item data "instanceTypes" it /\
                 Behaviour.item_has_column it (JStr "yrTerm1") (JStr "partialUpfront")
                   (Scenarios.column "monthlyStar" "N/A")).
    { eexists. split; [vm_compute; reflexivity|].
      eexists. split.
      - do 2 eexists. split; [vm_compute; reflexivity|].
        split; [left|]. split; [vm_compute; reflexivity|].
        split; [vm_compute; reflexivity|].
        do 2 eexists. split; [vm_compute; reflexivity|].
        split; [vm_compute; reflexivity|]. left.
      - do 2 eexists. split.
        { split; [vm_compute; reflexivity|]. do 2 eexists.
          split; [vm_compute; reflexivity|]. split; [vm_compute; reflexivity|]. left. }
        split; [vm_compute; reflexivity|]. split.
        { do 2 eexists. split; [vm_compute; reflexivity|].
          split; [vm_compute; reflexivity|]. left. }
        split; [vm_compute; reflexivity|].
        do 2 eexists. split; [vm_compute; reflexivity|].
        split; [vm_compute; reflexivity|]. right. left. }
    destruct Hdata as (data & Hdata & it & Hit & Hcolumn).
    refine (proj1 (Hcall Scenarios.ec2_ri_no_monthly
                     EC2Prices.INSTANCES_RESERVED_LINUX_URL data it
                     (JStr "yrTerm1") (JStr "partialUpfront")
                     (Scenarios.column "monthlyStar" "N/A")
                     (JObj [("USD", JStr "N/A")]) "N/A"
                     (or_introl eq_refl) eq_refl eq_refl eq_refl eq_refl
                     Hdata Hit Hcolumn) _).
    apply (bool_decide_unpack _). by vm_compute.
Defined.

(** A purchase option the price table does not hold is fatal. The cells of
    a price table are fixed when the offering is created; a value column
    named [upfront], or named [monthlyStar] with a price that parses, under
    a purchase option that the table lacks for the term raises [KeyError],
    and with it the reserved call. For the compute service the term
    [yrTerm3] has no [noUpfront] cell. *)
Theorem unknown_purchase_option_is_fatal :
  (forall term t o prices by_option price_data ps tok,
     (term = JStr "yrTerm1" /\ t = "1") \/ (term = JStr "yrTerm3" /\ t = "3") ->
     prices !! t = Some by_option -> by_option !! o = None ->
     py_getitem price_data "prices" = Ok ps ->
     py_getitem ps AWSPrices.DEFAULT_CURRENCY = Ok (JStr tok) ->
     py_getitem price_data "name" = Ok (JStr "upfront") \/
     (py_getitem price_data "name" = Ok (JStr "monthlyStar") /\
      is_Some (PriceSpec.price tok)) ->
     AWSPrices.value_column term (JStr o) prices price_data = Raise KeyError) /\
  (forall urlopen u data it term t o price_data ps tok,
     (term = JStr "yrTerm1" /\ t = "1") \/ (term = JStr "yrTerm3" /\ t = "3") ->
     py_getitem price_data "prices" = Ok ps ->
     py_getitem ps AWSPrices.DEFAULT_CURRENCY = Ok (JStr tok) ->
     py_getitem price_data "name" = Ok (JStr "upfront") \/
     (py_getitem price_data "name" = Ok (JStr "monthlyStar") /\
      is_Some (PriceSpec.price tok)) ->
     AWSPrices.load_data urlopen u = Ok data ->
     Behaviour.feed_has_item data "instanceTypes" it ->
     Behaviour.item_has_column it term (JStr o) price_data ->
     (u ∈ EC2Prices.reserved_urls ->
      o ∉ (if String.eqb t "1" then Behaviour.all_three else Behaviour.last_two) ->
      Contributions.raises (EC2Prices.get_reserved_instances_prices urlopen)) /\
     (u ∈ RDSPrices.urls_new -> o ∉ Behaviour.all_three ->
      Contributions.raises (RDSPrices.get_reserved_instances_prices urlopen)) /\
     (u ∈ RSPrices.reserved_urls -> o ∉ Behaviour.all_three ->
      Contributions.raises (RSPrices.get_reserved_instances_prices urlopen))).
Proof.
  assert (Hcol : forall term t o prices by_option price_data ps tok,
     (term = JStr "yrTerm1" /\ t = "1") \/ (term = JStr "yrTerm3" /\ t = "3") ->
     prices !! t = Some by_option -> by_option !! o = None ->
     py_getitem price_data "prices" = Ok ps ->
     py_getitem ps AWSPrices.DEFAULT_CURRENCY = Ok (JStr tok) ->
     py_getitem price_data "name" = Ok (JStr "upfront") \/
     (py_getitem price_data "name" = Ok (JStr "monthlyStar") /\
      is_Some (PriceSpec.price tok)) ->
     AWSPrices.value_column term (JStr o) prices price_data = Raise KeyError).
  { intros term t o prices by_option price_data ps tok Hterm Ht Ho Hps Htok Hname.
    destruct (parse_price_spec price_data ps tok Hps Htok) as [Hprice _].
    rewrite (value_column_route term t _ _ _ _ Hterm Hprice).
    unfold AWSPrices.route_column.
    destruct Hname as [Hname|[Hname [p Hp]]]; rewrite Hname; cbn [mbind result_bind].
    - simpl py_eq_str. cbn match. unfold AWSPrices.set_upfront.
      by apply set_cell_unknown with (by_option := by_option).
    - simpl py_eq_str. cbn match. rewrite Hp. unfold AWSPrices.set_hourly.
      by apply set_cell_unknown with (by_option := by_option). }
  split; [exact Hcol|].
  intros urlopen u data it term t o price_data ps tok Hterm Hps Htok Hname
         Hdata Hit Hcolumn.
  assert (Hraise : forall initial opts,
             Behaviour.options_of initial !! t = Some opts -> o ∉ opts ->
             Contributions.raises (AWSPrices.terms_prices initial it)).
  { intros initial opts Hopts Ho.
    apply (terms_prices_raises initial it term (JStr o) price_data Hcolumn).
    intros prices Hshape.
    destruct (shape_lookup prices _ t opts o Hshape Hopts Ho) as (by_option & Ht & Hno).
    exists KeyError. by apply (Hcol term t o prices by_option price_data ps tok). }
  destruct (new_scheme_item_raises urlopen u data it Hdata Hit) as (Hec2 & Hrds & Hrs).
  split; [|split]; intros Hu Ho.
  - apply Hec2; [done|].
    destruct Hterm as [[_ ->]|[_ ->]].
    + by apply (Hraise _ Behaviour.all_three).
    + by apply (Hraise _ Behaviour.last_two).
  - apply Hrds; [done|]. destruct Hterm as [[_ ->]|[_ ->]];
      by apply (Hraise _ Behaviour.all_three).
  - apply Hrs; [done|]. destruct Hterm as [[_ ->]|[_ ->]];
      by apply (Hraise _ Behaviour.all_three).
Qed.

(** A feed with the option [noUpfront] under [yrTerm3]: the reserved call
    of the compute service raises; that of the data-warehouse service,
    whose tables hold the cell, returns a document. *)
Lemma unknown_purchase_option_is_fatal_witness :
  Contributions.raises
    (EC2Prices.get_reserved_instances_prices Scenarios.ri_three_year_no_upfront) /\
  exists doc,
    RSPrices.get_reserved_instances_prices Scenarios.ri_three_year_no_upfront = Ok doc.
Proof.
  split; [|vm_compute; eexists; reflexivity].
  destruct unknown_purchase_option_is_fatal as [_ Hcall].
  assert (Hdata : exists data,
             AWSPrices.load_data Scenarios.ri_three_year_no_upfront
               EC2Prices.INSTANCES_RESERVED_LINUX_URL = Ok data /\
             exists it,
               Behaviour.feed_has_item data "instanceTypes" it /\
               Behaviour.item_has_column it (JStr "yrTerm3") (JStr "noUpfront")
                 (Scenarios.column "upfront" "$100")).
  { eexists. split; [vm_compute; reflexivity|].
    eexists. split.
    - do 2 eexists. split; [vm_compute; reflexivity|].
      split; [left|]. split; [vm_compute; reflexivity|].
      split; [vm_compute; reflexivity|].
      do 2 eexists. split; [vm_compute; reflexivity|].
      split; [vm_compute; reflexivity|]. left.
    - do 2 eexists. split.
      { split; [vm_compute; reflexivity|]. do 2 eexists.
        split; [vm_compute; reflexivity|]. split; [vm_compute; reflexivity|]. left. }
      split; [vm_compute; reflexivity|]. split.
      { do 2 eexists. split; [vm_compute; reflexivity|].
        split; [vm_compute; reflexivity|]. left. }
      split; [vm_compute; reflexivity|].
      do 2 eexists. split; [vm_compute; reflexivity|].
      split; [vm_compute; reflexivity|]. left. }
  destruct Hdata as (data & Hdata & it & Hit & Hcolumn).
  refine (proj1 (Hcall Scenarios.ri_three_year_no_upfront
                   EC2Prices.INSTANCES_RESERVED_LINUX_URL data it
                   (JStr "yrTerm3") "3" "noUpfront"
                   (Scenarios.column "upfront" "$100")
                   (JObj [("USD", JStr "$100")]) "$100"
                   (or_intror (conj eq_refl eq_refl)) eq_refl eq_refl (or_introl eq_refl)
                   Hdata Hit Hcolumn) _ _).
  - apply (bool_decide_unpack _). by vm_compute.
  - apply (bool_decide_unpack _). by vm_compute.
Defined.

(** ** A price holder without a price *)

Section PriceErrors.
Import AWSPrices Contributions Behaviour.

(** An item on which the offerings raise makes the body of an on-demand
    feed loop raise. *)
Lemma ondemand_regions_raise {O : Type} resolve key
    (offerings : json -> result (list O)) data it :
  feed_has_item data key it -> raises (offerings it) ->
  forall rs0, raises (rs ← config_regions data;
                      foldM (ondemand_region resolve key offerings) rs rs0).
Proof.
  intros (rs & r & Hrs & Hr & Hg & Hin & v & xs & Hv & Hxs & Hit) Hraise rs0.
  rewrite Hrs. cbn [mbind result_bind].
  apply (foldM_raises _ _ r Hr). intros rs1.
  unfold ondemand_region. rewrite Hg. cbn [mbind result_bind].
  apply raises_bind; intros raw _. apply raises_bind; intros name _.
  rewrite Hin. cbn [mbind result_bind]. apply raises_bind_l.
  unfold for_in. rewrite Hv. cbn [mbind result_bind].
  rewrite Hxs. cbn [mbind result_bind].
  apply raises_bind_l. by apply (mapM_raises offerings xs it).
Qed.

Lemma except_ValueError_other {A : Type} (m : result A) e :
  m = Raise e -> e <> ValueError -> except_ValueError m = Raise e.
Proof. intros -> He. by destruct e. Qed.

Lemma except_all_raise {A : Type} (m : result A) :
  raises m -> except_all m = None.
Proof. by intros [e ->]. Qed.

End PriceErrors.

(** A price holder without a usable price. When the price expression
    raises anything but [ValueError] (the holder has no [prices], the
    prices have no [USD], the token is no string), the on-demand
    normalizers of the compute and data-warehouse services, whose handler
    is a bare [except], record the offering with a null price; those of the
    cache and database services, whose handler is [except ValueError],
    raise the exception, and the call raises. *)
Theorem missing_price_is_null_or_fatal :
  (forall instance_type price_data name,
     py_getitem price_data "name" = Ok name ->
     Contributions.raises (AWSPrices.price_expr price_data) ->
     EC2Prices.ondemand_column instance_type price_data =
     Ok [{| EC2Prices.od_type := instance_type; EC2Prices.od_os := name;
            EC2Prices.od_price := None |}]) /\
  (forall instance_type price_data,
     Contributions.raises (AWSPrices.price_expr price_data) ->
     RSPrices.ondemand_column instance_type price_data =
     Ok [{| RSPrices.od_type := instance_type; RSPrices.od_price := None |}]) /\
  (forall s name e,
     py_getitem s "name" = Ok name ->
     AWSPrices.price_expr s = Raise e -> e <> ValueError ->
     ELCPrices.ondemand_tier s = Raise e /\
     forall licensedb multiaz, RDSPrices.ondemand_tier licensedb multiaz s = Raise e) /\
  (forall urlopen u data it s name e,
     py_getitem s "name" = Ok name ->
     AWSPrices.price_expr s = Raise e -> e <> ValueError ->
     AWSPrices.load_data urlopen u = Ok data ->
     Behaviour.feed_has_item data "types" it ->
     Contributions.listed it "tiers" s ->
     (u ∈ ELCPrices.ondemand_urls ->
      Contributions.raises (ELCPrices.get_ondemand_instances_prices urlopen)) /\
     (u ∈ RDSPrices.ondemand_urls ->
      Contributions.raises (RDSPrices.get_ondemand_instances_prices urlopen))).
Proof.
  assert (Htier : forall s name e,
             py_getitem s "name" = Ok name ->
             AWSPrices.price_expr s = Raise e -> e <> ValueError ->
             ELCPrices.ondemand_tier s = Raise e /\
             forall licensedb multiaz,
               RDSPrices.ondemand_tier licensedb multiaz s = Raise e).
  { intros s name e Hname Hexpr He. split; [|intros licensedb multiaz].
    - unfold ELCPrices.ondemand_tier, AWSPrices.parse_price.
      rewrite Hname. cbn [mbind result_bind].
      by rewrite (except_ValueError_other _ e Hexpr He).
    - unfold RDSPrices.ondemand_tier, AWSPrices.parse_price.
      rewrite Hname. cbn [mbind result_bind].
      by rewrite (except_ValueError_other _ e Hexpr He). }
  split; [|split; [|split; [exact Htier|]]].
  - intros instance_type price_data name Hname Hraise.
    unfold EC2Prices.ondemand_column, AWSPrices.parse_price_lenient.
    rewrite Hname. cbn [mbind result_bind]. by rewrite except_all_raise.
  - intros instance_type price_data Hraise.
    unfold RSPrices.ondemand_column, AWSPrices.parse_price_lenient.
    by rewrite except_all_raise.
  - intros urlopen u data it s name e Hname Hexpr He Hdata Hit Hs.
    destruct (Htier s name e Hname Hexpr He) as [Helc Hrds].
    split; intros Hu.
    + apply call_raises with (u := u); [done|]. intros rs0.
      unfold ELCPrices.ondemand_feed. rewrite Hdata. cbn [mbind result_bind].
      apply (ondemand_regions_raise _ _ _ data it Hit).
      unfold ELCPrices.ondemand_type. apply (if_in_for_raises it _ _ s Hs).
      exists e. exact Helc.
    + apply call_raises with (u := u); [done|]. intros rs0.
      unfold RDSPrices.ondemand_feed. apply raises_bind; intros [licensedb multiaz] _.
      rewrite Hdata. cbn [mbind result_bind].
      apply (ondemand_regions_raise _ _ _ data it Hit).
      unfold RDSPrices.ondemand_type. apply (if_in_for_raises it _ _ s Hs).
      exists e. apply Hrds.
Qed.

(** The holder [{"name": "linux"}] of the compute service gives an offering
    without a price; the tier [{"name": "m1.small"}] of the cache service
    makes the on-demand call raise. *)
Lemma missing_price_is_null_or_fatal_witness :
  (exists doc,
     EC2Prices.get_ondemand_instances_prices Scenarios.ec2_od_no_price = Ok doc /\
     map (fun e => map EC2Prices.od_price (instanceTypes e)) (regions doc) = [[None]]) /\
  EC2Prices.ondemand_column (JStr "m3.medium") (JObj [("name", JStr "linux")]) =
  Ok [{| EC2Prices.od_type := JStr "m3.medium"; EC2Prices.od_os := JStr "linux";
         EC2Prices.od_price := None |}] /\
  Contributions.raises (ELCPrices.get_ondemand_instances_prices Scenarios.elc_od_no_price).
Proof.
  destruct missing_price_is_null_or_fatal as (Hec2 & _ & _ & Hcall).
  split; [vm_compute; eexists; split; reflexivity|].
  split.
  - apply Hec2; [reflexivity|]. exists KeyError. reflexivity.
  - assert (Hdata : exists data,
               AWSPrices.load_data Scenarios.elc_od_no_price
                 ELCPrices.INSTANCES_ON_DEMAND_URL = Ok data /\
               exists it,
                 Behaviour.feed_has_item data "types" it /\
                 Contributions.listed it "tiers" (JObj [("name", JStr "m1.small")])).
    { eexists. split; [vm_compute; reflexivity|].
      eexists. split.
      - do 2 eexists. split; [vm_compute; reflexivity|].
        split; [left|]. split; [vm_compute; reflexivity|].
        split; [vm_compute; reflexivity|].
        do 2 eexists. split; [vm_compute; reflexivity|].
        split; [vm_compute; reflexivity|]. left.
      - split; [vm_compute; reflexivity|]. do 2 eexists.
        split; [vm_compute; reflexivity|]. split; [vm_compute; reflexivity|]. left. }
    destruct Hdata as (data & Hdata & it & Hit & Hs).
    refine (proj1 (Hcall Scenarios.elc_od_no_price ELCPrices.INSTANCES_ON_DEMAND_URL
                     data it (JObj [("name", JStr "m1.small")]) (JStr "m1.small")
                     KeyError eq_refl eq_refl _ Hdata Hit Hs) _).
    + discriminate.
    + apply (bool_decide_unpack _). by vm_compute.
Defined.

(** * Further properties of the feed repair *)

(** ** One block comment *)

Section OneComment.
Import Re CommentSpec.

Lemma prefix_cons a p b s :
  String.prefix (String a p) (String b s) =
  if ascii_dec a b then String.prefix p s else false.
Proof. reflexivity. Qed.

Lemma append_cons c (x y : string) :
  (String c x ++ y)%string = String c (x ++ y)%string.
Proof. reflexivity. Qed.

Lemma append_nil (y : string) : (EmptyString ++ y)%string = y.
Proof. reflexivity. Qed.

Lemma is_infix_cons p c s :
  is_infix p (String c s) = String.prefix p (String c s) || is_infix p s.
Proof. reflexivity. Qed.

(** Without a closing behind it, an opening starts no comment. *)
Lemma comment_body_none t n :
  is_infix "*/" t = false -> comment_body t n = None.
Proof.
  revert n. induction t as [|c t IH]; intros n Ht; [done|].
  rewrite is_infix_cons in Ht. apply orb_false_iff in Ht as [Hp Ht].
  cbn [comment_body]. destruct (Ascii.eqb c NUL); [done|].
  rewrite (IH (S n) Ht), Hp. by rewrite andb_false_r.
Qed.

(** The greedy body ends at the last closing. *)
Lemma comment_body_last a rest n :
  nul_free a = true -> is_infix "*/" rest = false -> 0 < n + String.length a ->
  comment_body (a ++ "*/" ++ rest)%string n = Some (n + String.length a).
Proof.
  revert n. induction a as [|c a IH]; intros n Ha Hrest Hn.
  - simpl in Hn. rewrite append_nil.
    change ("*/" ++ rest)%string with (String "*" (String "/" rest)).
    cbn [comment_body].
    change (Ascii.eqb "*" NUL) with false. change (Ascii.eqb "/" NUL) with false.
    cbn match. rewrite (comment_body_none rest (S (S n)) Hrest).
    assert (Hno : String.prefix "*/" (String "/" rest) = false) by reflexivity.
    rewrite Hno, andb_false_r.
    assert (Hyes : String.prefix "*/" (String "*" (String "/" rest)) = true).
    { rewrite !prefix_cons.
      destruct (ascii_dec "*" "*"); [|done]. destruct (ascii_dec "/" "/"); [|done].
      by destruct rest. }
    rewrite Hyes. destruct n; [lia|]. simpl. by rewrite Nat.add_0_r.
  - simpl in Ha. apply andb_true_iff in Ha as [Hc Ha]. apply negb_true_iff in Hc.
    rewrite append_cons. cbn [comment_body]. rewrite Hc.
    rewrite (IH (S n) Ha Hrest) by lia. simpl. f_equal. lia.
Qed.

Lemma strip_comments_from_drop (x y : string) :
  strip_comments_from (x ++ y)%string (String.length x) = strip_comments_from y 0.
Proof. induction x as [|c x IH]; [done|]. rewrite append_cons. simpl. apply IH. Qed.

(** A text without a closing is left as it is. *)
Lemma strip_comments_no_close t :
  is_infix "*/" t = false -> strip_comments_from t 0 = t.
Proof.
  induction t as [|c t IH]; intros Ht; [done|].
  assert (Ht' : is_infix "*/" t = false).
  { rewrite is_infix_cons in Ht. by apply orb_false_iff in Ht as [_ Ht]. }
  cbn [strip_comments_from].
  destruct (String.prefix "/*" (String c t)) eqn:Hp; [|by rewrite (IH Ht')].
  assert (Hbody : comment_body (string_drop 2 (String c t)) 0 = None).
  { apply comment_body_none. destruct t as [|d t]; [done|]. simpl.
    rewrite is_infix_cons in Ht'. by apply orb_false_iff in Ht' as [_ Ht']. }
  by rewrite Hbody, (IH Ht').
Qed.

(** The text before the first opening is kept. *)
Lemma strip_comments_before pre t :
  is_infix "/*" pre = false ->
  strip_comments_from (pre ++ String "/" (String "*" t))%string 0 =
  (pre ++ strip_comments_from (String "/" (String "*" t)) 0)%string.
Proof.
  induction pre as [|c pre IH]; intros Hpre; [done|].
  rewrite is_infix_cons in Hpre. apply orb_false_iff in Hpre as [Hp Hpre].
  rewrite !append_cons. cbn [strip_comments_from].
  assert (Hno : String.prefix "/*" (String c (pre ++ String "/" (String "*" t))%string)
                = false).
  { rewrite prefix_cons in Hp |- *. destruct (ascii_dec "/" c); [|done].
    destruct pre as [|d pre]; [reflexivity|].
    rewrite append_cons, prefix_cons. rewrite prefix_cons in Hp.
    destruct (ascii_dec "*" d); [|done]. by destruct pre. }
  by rewrite Hno, (IH Hpre).
Qed.

End OneComment.

(** One block comment is removed exactly. In a text with one opening, a
    NUL-free non-empty comment body and no closing behind the comment, the
    comment-stripping rewrite of [load_data] removes the comment and keeps
    every character before and behind it. *)
Theorem single_comment_is_stripped (pre a rest : string) :
  is_infix "/*" pre = false ->
  CommentSpec.nul_free a = true -> a <> EmptyString ->
  is_infix "*/" rest = false ->
  Re.strip_comments (pre ++ "/*" ++ a ++ "*/" ++ rest)%string = (pre ++ rest)%string.
Proof.
  intros Hpre Ha Hne Hrest. unfold Re.strip_comments.
  change ("/*" ++ a ++ "*/" ++ rest)%string
    with (String "/" (String "*" (a ++ "*/" ++ rest)%string)).
  rewrite (strip_comments_before pre _ Hpre). f_equal.
  rewrite (strip_comments_open _ (String.length a)).
  - replace (a ++ "*/" ++ rest)%string with ((a ++ "*/") ++ rest)%string
      by apply string_append_assoc.
    replace (String.length a + 2) with (String.length (a ++ "*/")%string)
      by (rewrite length_append; reflexivity).
    rewrite strip_comments_from_drop. by apply strip_comments_no_close.
  - rewrite (comment_body_last a rest 0 Ha Hrest); [done|].
    destruct a; [done|]. simpl. lia.
Qed.

(** The feed ["/* reserved */callback({});"]: the comment goes, the rest
    stays. *)
Lemma single_comment_is_stripped_witness :
  Re.strip_comments "/* reserved */callback({});" = "callback({});".
Proof.
  apply (single_comment_is_stripped "" " reserved " "callback({});");
    [reflexivity|reflexivity|discriminate|reflexivity].
Defined.

(** ** Key quoting *)

Section KeyQuoting.
Import Re Behaviour.

Lemma prefix_colon c s :
  String.prefix ":" (String c s) = Ascii.eqb c ":".
Proof.
  rewrite prefix_cons. destruct (ascii_dec ":" c) as [<-|Hne].
  - by destruct s.
  - symmetry. apply Ascii.eqb_neq. congruence.
Qed.

Lemma alnum_not_colon c : is_alnum c = true -> Ascii.eqb c ":" = false.
Proof.
  intros Hc. destruct (Ascii.eqb c ":") eqn:He; [|done].
  apply Ascii.eqb_eq in He as ->. done.
Qed.

Lemma key_match_cons c s :
  key_match (String c s) =
  if is_alnum c then
    match key_match s with
    | Some n => Some (S n)
    | None => if String.prefix ":" s then Some 1 else None
    end
  else None.
Proof. reflexivity. Qed.

Lemma key_match_pos s n : key_match s = Some n -> 1 <= n.
Proof.
  destruct s as [|c s]; [done|]. rewrite key_match_cons.
  destruct (is_alnum c); [|done]. destruct (key_match s).
  - intros [= <-]. lia.
  - destruct (String.prefix ":" s); [|done]. intros [= <-]. lia.
Qed.

(** A match of [S k] characters goes on with [k] characters of the key
    and its colon. *)
Lemma key_match_step c s k :
  key_match (String c s) = Some (S k) ->
  is_alnum c = true /\
  match k with
  | O => String.prefix ":" s = true
  | S _ => key_match s = Some k
  end.
Proof.
  rewrite key_match_cons. destruct (is_alnum c); [|done]. split; [done|].
  destruct (key_match s) as [n|] eqn:Hs.
  - injection H as <-. pose proof (key_match_pos s n Hs). destruct n; [lia|done].
  - destruct (String.prefix ":" s); [|done]. by injection H as <-.
Qed.

Lemma key_match_none_cons c s :
  key_match (String c s) = None -> is_alnum c = true ->
  key_match s = None /\ String.prefix ":" s = false.
Proof.
  rewrite key_match_cons. intros H Hc. rewrite Hc in H.
  destruct (key_match s); [done|]. by destruct (String.prefix ":" s).
Qed.

(** In a text without a bare key nothing matches. *)
Lemma no_bare_key_match prev s : no_bare_key prev s = true -> key_match s = None.
Proof.
  revert prev. induction s as [|c s IH]; intros prev H; [done|].
  simpl in H. apply andb_true_iff in H as [_ H].
  rewrite key_match_cons. destruct (is_alnum c) eqn:Hc; [|done].
  rewrite (IH _ H). destruct s as [|d s]; [done|].
  rewrite prefix_colon. simpl in H. apply andb_true_iff in H as [H _].
  by destruct (Ascii.eqb d ":").
Qed.

Lemma quote_keys_fixed prev s :
  no_bare_key prev s = true -> quote_keys_from s 0 = s.
Proof.
  revert prev. induction s as [|c s IH]; intros prev H; [done|].
  cbn [quote_keys_from]. rewrite (no_bare_key_match prev _ H).
  simpl in H. apply andb_true_iff in H as [_ H]. by rewrite (IH _ H).
Qed.

(** The output has no bare key, from every state of the rewrite. *)
Lemma quote_keys_from_quoted s :
  (forall prev,
     (prev = true -> key_match s = None /\ String.prefix ":" s = false) ->
     no_bare_key prev (quote_keys_from s 0) = true) /\
  (forall k,
     match k with
     | O => String.prefix ":" s = true
     | S _ => key_match s = Some k
     end ->
     no_bare_key true (quote_keys_from s (S k)) = true).
Proof.
  induction s as [|c s [IH0 IHk]]; [split; [done|by intros [|k]]|].
  split.
  - intros prev Hprev. cbn [quote_keys_from].
    destruct (key_match (String c s)) as [n|] eqn:Hm.
    + destruct n as [|k]; [by apply key_match_pos in Hm; lia|].
      destruct (key_match_step c s k Hm) as [Hc Hk].
      cbn [no_bare_key]. change (Ascii.eqb DQUOTE ":") with false.
      change (is_alnum DQUOTE) with false. rewrite andb_false_r. cbn [negb andb].
      rewrite Hc. by apply IHk.
    + cbn [no_bare_key]. apply andb_true_iff. split.
      * destruct prev; [|done]. destruct (Hprev eq_refl) as [_ Hp].
        rewrite prefix_colon in Hp. by rewrite Hp.
      * apply IH0. intros Hc. by apply (key_match_none_cons c s Hm).
  - intros [|k] Hk.
    + rewrite prefix_colon in Hk. apply Ascii.eqb_eq in Hk as ->.
      cbn [quote_keys_from no_bare_key].
      change (Ascii.eqb DQUOTE ":") with false. change (is_alnum DQUOTE) with false.
      change (is_alnum ":") with false. cbn [negb andb].
      by apply IH0.
    + destruct (key_match_step c s k Hk) as [Hc Hk'].
      cbn [quote_keys_from no_bare_key]. rewrite (alnum_not_colon c Hc), Hc.
      cbn [negb andb]. by apply IHk.
Qed.

End KeyQuoting.

(** Key quoting quotes every bare key, once. After the rewrite
    [([a-zA-Z0-9]+):] to ["\1":] of [load_data] no colon directly follows
    a letter or a digit; the rewrite leaves a text as it is exactly when
    the text had no such colon; and applying it twice is applying it
    once. So keys that are already quoted are kept, and every letter or
    digit before a colon gets a quote, inside string values too. *)
Theorem key_quoting_is_idempotent :
  (forall f, Behaviour.no_bare_key false (Re.quote_keys f) = true) /\
  (forall f, Re.quote_keys f = f <-> Behaviour.no_bare_key false f = true) /\
  (forall f, Re.quote_keys (Re.quote_keys f) = Re.quote_keys f).
Proof.
  assert (Hq : forall f, Behaviour.no_bare_key false (Re.quote_keys f) = true).
  { intros f. by apply (proj1 (quote_keys_from_quoted f)). }
  split; [exact Hq|]. split.
  - intros f. split.
    + intros Hf. rewrite <- Hf. apply Hq.
    + apply quote_keys_fixed.
  - intros f. apply (quote_keys_fixed false), Hq.
Qed.

(** The text [{"a":1,b:"12:30"}]: the quoted key stays, the bare key and
    the time of day are quoted. *)
Lemma key_quoting_is_idempotent_witness :
  Re.quote_keys ("{" ++ Scenarios.q "a" ++ ":1,b:" ++ Scenarios.q "12:30" ++ "}")%string =
    ("{" ++ Scenarios.q "a" ++ ":1," ++ Scenarios.q "b" ++ ":" ++
     Scenarios.q (Scenarios.q "12" ++ ":30") ++ "}")%string /\
  Re.quote_keys ("{" ++ Scenarios.q "a" ++ ":1}")%string =
    ("{" ++ Scenarios.q "a" ++ ":1}")%string.
Proof.
  split; [vm_compute; reflexivity|].
  apply (proj1 (proj2 key_quoting_is_idempotent)). vm_compute. reflexivity.
Defined.

(** ** The [callback(...)] wrapper *)

Section Wrapper.
Import Re.

(** A text without an opening is left as it is. *)
Lemma strip_comments_no_open t :
  is_infix "/*" t = false -> strip_comments_from t 0 = t.
Proof.
  induction t as [|c t IH]; intros Ht; [done|].
  rewrite is_infix_cons in Ht. apply orb_false_iff in Ht as [Hp Ht].
  cbn [strip_comments_from]. by rewrite Hp, (IH Ht).
Qed.

Lemma is_infix_open_paren x t :
  is_infix "/*" x = false ->
  is_infix "/*" (x ++ String ")" t)%string = is_infix "/*" (String ")" t).
Proof.
  induction x as [|c x IH]; intros Hx; [done|].
  rewrite is_infix_cons in Hx. apply orb_false_iff in Hx as [Hp Hx].
  rewrite append_cons, is_infix_cons, (IH Hx).
  assert (Hno : String.prefix "/*" (String c (x ++ String ")" t)%string) = false).
  { rewrite prefix_cons in Hp |- *. destruct (ascii_dec "/" c); [|done].
    destruct x as [|d x]; [reflexivity|].
    rewrite append_cons, prefix_cons. rewrite prefix_cons in Hp.
    destruct (ascii_dec "*" d); [|done]. by destruct x. }
  by rewrite Hno.
Qed.

Lemma key_match_paren b t : key_match (b ++ String ")" t)%string = key_match b.
Proof.
  induction b as [|c b IH]; [done|].
  rewrite append_cons, !key_match_cons, IH.
  destruct (is_alnum c); [|done]. destruct (key_match b); [done|].
  destruct b as [|d b]; [done|]. by rewrite append_cons, !prefix_colon.
Qed.

Lemma key_match_length s n : key_match s = Some n -> n < String.length s.
Proof.
  revert n. induction s as [|c s IH]; intros n; [done|].
  rewrite key_match_cons. destruct (is_alnum c); [|done].
  destruct (key_match s) as [m|].
  - intros [= <-]. specialize (IH m eq_refl). simpl. lia.
  - destruct s as [|d s]; [done|]. destruct (String.prefix ":" (String d s)); [|done].
    intros [= <-]. simpl. lia.
Qed.

Lemma quote_keys_from_paren b t p :
  p <= String.length b ->
  quote_keys_from (b ++ String ")" t)%string p =
  (quote_keys_from b p ++ String ")" (quote_keys_from t 0))%string.
Proof.
  revert p. induction b as [|c b IH]; intros p Hp.
  - simpl in Hp. by replace p with 0 by lia.
  - rewrite append_cons. simpl in Hp. destruct p as [|[|k]].
    + cbn [quote_keys_from]. rewrite <- append_cons, key_match_paren.
      destruct (key_match (String c b)) as [n|] eqn:Hm.
      * apply key_match_length in Hm. simpl in Hm.
        rewrite append_cons. rewrite IH by lia. reflexivity.
      * rewrite append_cons. rewrite IH by lia. reflexivity.
    + cbn [quote_keys_from]. rewrite IH by lia. reflexivity.
    + cbn [quote_keys_from]. rewrite IH by lia. reflexivity.
Qed.

Lemma semicolons_app (a b : string) :
  semicolons_to_newlines (a ++ b)%string =
  (semicolons_to_newlines a ++ semicolons_to_newlines b)%string.
Proof.
  induction a as [|c a IH]; [done|].
  rewrite append_cons. cbn [semicolons_to_newlines]. by rewrite IH.
Qed.

Lemma prefix_nil s : String.prefix "" s = true.
Proof. by destruct s. Qed.

Lemma prefix_paren p x t :
  is_infix ")" p = false ->
  String.prefix p (x ++ String ")" t)%string = String.prefix p x.
Proof.
  revert x. induction p as [|a p IH]; intros x Hp; [by rewrite !prefix_nil|].
  rewrite is_infix_cons in Hp. apply orb_false_iff in Hp as [Ha Hp].
  destruct x as [|c x].
  - rewrite append_nil, prefix_cons. rewrite prefix_cons in Ha.
    destruct (ascii_dec a ")") as [->|Hne].
    + destruct (ascii_dec ")" ")"); [|done]. by rewrite prefix_nil in Ha.
    + by destruct p.
  - rewrite append_cons, !prefix_cons. destruct (ascii_dec a c); [|done].
    apply IH, Hp.
Qed.

Lemma prefix_length p s : String.prefix p s = true -> String.length p <= String.length s.
Proof.
  revert s. induction p as [|a p IH]; intros s H; [simpl; lia|].
  destruct s as [|c s]; [done|]. rewrite prefix_cons in H.
  destruct (ascii_dec a c); [|done]. specialize (IH s H). simpl. lia.
Qed.

Lemma strip_callback_from_paren x t k :
  k <= String.length x ->
  strip_callback_from (x ++ String ")" t)%string k =
  (strip_callback_from x k ++ String ")" (strip_callback_from t 0))%string.
Proof.
  revert k. induction x as [|c x IH]; intros k Hk.
  - simpl in Hk. replace k with 0 by lia. rewrite append_nil.
    cbn [strip_callback_from]. by rewrite prefix_cons.
  - rewrite append_cons. simpl in Hk. destruct k as [|k].
    + cbn [strip_callback_from]. rewrite <- append_cons.
      rewrite (prefix_paren "callback(") by reflexivity.
      destruct (String.prefix "callback(" (String c x)) eqn:Hp.
      * apply prefix_length in Hp. simpl in Hp.
        rewrite ?append_cons. by rewrite IH by lia.
      * rewrite ?append_cons. by rewrite IH by lia.
    + cbn [strip_callback_from]. apply IH. lia.
Qed.

Lemma strip_callback_wrapper x :
  strip_callback_from ("callback(" ++ x)%string 0 = strip_callback_from x 0.
Proof.
  change ("callback(" ++ x)%string
    with (String "c" (String "a" (String "l" (String "l" (String "b"
           (String "a" (String "c" (String "k" (String "(" x))))))))).
  cbn [strip_callback_from]. rewrite !prefix_cons.
  repeat match goal with
         | |- context [ascii_dec ?a ?a] => destruct (ascii_dec a a); [|done]
         end.
  by rewrite prefix_nil.
Qed.

Lemma strip_final_paren_newline y :
  strip_final_paren (y ++ String ")" (String LF EmptyString))%string =
  (y ++ String LF EmptyString)%string.
Proof.
  induction y as [|c y IH]; [reflexivity|].
  rewrite append_cons. cbn [strip_final_paren].
  assert (Hno : String.eqb (y ++ String ")" (String LF ""))%string "" ||
                String.eqb (y ++ String ")" (String LF ""))%string (String LF "")
                = false).
  { apply orb_false_iff. split; apply String.eqb_neq; intros H;
      apply (f_equal String.length) in H; rewrite length_append in H;
      simpl in H; lia. }
  rewrite Hno, andb_false_r. by rewrite IH.
Qed.

Lemma strip_final_paren_last y :
  strip_final_paren (y ++ ")")%string = y.
Proof.
  induction y as [|c y IH]; [reflexivity|].
  rewrite append_cons. cbn [strip_final_paren].
  assert (Hno : String.eqb (y ++ ")")%string "" ||
                String.eqb (y ++ ")")%string (String LF "") = false).
  { destruct y as [|d y]; [reflexivity|].
    apply orb_false_iff. split; apply String.eqb_neq; intros H;
      apply (f_equal String.length) in H; rewrite length_append in H;
      simpl in H; lia. }
  rewrite Hno, andb_false_r. by rewrite IH.
Qed.

End Wrapper.

(** The wrapper is removed exactly. For a payload [body] without a comment
    opening, [load_data] turns [callback(body);] into the text of [body]
    with its keys quoted, its semicolons turned into newlines and its own
    occurrences of [callback(] removed, followed by one newline; without
    the final semicolon there is no newline. The opening [callback(] and
    the closing parenthesis never reach the JSON decoder, and nothing else
    of the wrapper is left. *)
Theorem callback_wrapper_is_removed (body : string) :
  is_infix "/*" body = false ->
  AWSPrices.repair ("callback(" ++ body ++ ");")%string =
    (Re.strip_callback (Re.semicolons_to_newlines (Re.quote_keys body)) ++
     String Re.LF EmptyString)%string /\
  AWSPrices.repair ("callback(" ++ body ++ ")")%string =
    Re.strip_callback (Re.semicolons_to_newlines (Re.quote_keys body)).
Proof.
  intros Hbody.
  assert (Hopen : forall t, is_infix "/*" (String ")" t) = false ->
                            is_infix "/*" ("callback(" ++ body ++ String ")" t)%string
                            = false).
  { intros t Ht.
    change (is_infix "/*" ("callback(" ++ body ++ String ")" t)%string)
      with (is_infix "/*" (body ++ String ")" t)%string).
    by rewrite is_infix_open_paren. }
  assert (Hquote : forall t,
             Re.quote_keys_from ("callback(" ++ body ++ String ")" t)%string 0 =
             ("callback(" ++ Re.quote_keys body ++
              String ")" (Re.quote_keys_from t 0))%string).
  { intros t.
    change (Re.quote_keys_from ("callback(" ++ body ++ String ")" t)%string 0)
      with ("callback(" ++ Re.quote_keys_from (body ++ String ")" t)%string 0)%string.
    by rewrite quote_keys_from_paren by lia. }
  assert (Hcall : forall y t,
             Re.strip_callback_from ("callback(" ++ y ++ String ")" t)%string 0 =
             (Re.strip_callback y ++ String ")" (Re.strip_callback_from t 0))%string).
  { intros y t. rewrite strip_callback_wrapper.
    by rewrite strip_callback_from_paren by lia. }
  split.
  - unfold AWSPrices.repair, Re.strip_comments, Re.quote_keys at 1, Re.strip_callback at 1.
    rewrite strip_comments_no_open by (by apply Hopen).
    rewrite Hquote, !semicolons_app.
    change (Re.semicolons_to_newlines "callback(") with "callback(".
    change (Re.semicolons_to_newlines (String ")" (Re.quote_keys_from ";" 0)))
      with (String ")" (String Re.LF EmptyString)).
    rewrite Hcall. apply strip_final_paren_newline.
  - unfold AWSPrices.repair, Re.strip_comments, Re.quote_keys at 1, Re.strip_callback at 1.
    rewrite strip_comments_no_open by (by apply Hopen).
    rewrite Hquote, !semicolons_app.
    change (Re.semicolons_to_newlines "callback(") with "callback(".
    change (Re.semicolons_to_newlines (String ")" (Re.quote_keys_from "" 0)))
      with (String ")" EmptyString).
    rewrite Hcall. apply strip_final_paren_last.
Qed.

(** The feed of the end-to-end scenario: the wrapper goes, the keys are
    quoted, and the text is the JSON text the decoder reads. *)
Lemma callback_wrapper_is_removed_witness :
  AWSPrices.repair ("callback(" ++ "{config:{regions:[]}}" ++ ");")%string =
  ("{" ++ Scenarios.q "config" ++ ":{" ++ Scenarios.q "regions" ++ ":[]}}" ++
   String Re.LF EmptyString)%string.
Proof.
  rewrite (proj1 (callback_wrapper_is_removed "{config:{regions:[]}}" eq_refl)).
  vm_compute. reflexivity.
Defined.

(** * Properties of the output files *)

(** ** Rows under a change of layout *)

Section Rows.
Import AWSPrices.

Lemma map_flat_map {A B C : Type} (f : B -> C) (g : A -> list B) (l : list A) :
  map f (flat_map g l) = flat_map (fun x => map f (g x)) l.
Proof. induction l as [|x l IH]; [done|]. simpl. by rewrite map_app, IH. Qed.

Lemma flat_map_pointwise {A B : Type} (g h : A -> list B) (l : list A) :
  (forall x, g x = h x) -> flat_map g l = flat_map h l.
Proof. intros H. induction l as [|x l IH]; [done|]. simpl. by rewrite H, IH. Qed.

Lemma map_pointwise {A B : Type} (g h : A -> B) (l : list A) :
  (forall x, g x = h x) -> map g l = map h l.
Proof. intros H. induction l as [|x l IH]; [done|]. simpl. by rewrite H, IH. Qed.

Lemma map_offering_rows {O : Type} (f : list json -> list json)
    (row : json -> O -> list json) (data : document O) :
  map f (offering_rows row data) = offering_rows (fun r it => f (row r it)) data.
Proof.
  unfold offering_rows. rewrite map_flat_map. apply flat_map_pointwise.
  intros r. apply List.map_map.
Qed.

Lemma map_term_rows {O : Type} (f : list json -> list json) (prices : O -> old_prices)
    (row : json -> O -> string -> cell -> list json) (data : document O) :
  map f (term_rows prices row data) =
  term_rows prices (fun r it term c => f (row r it term c)) data.
Proof.
  unfold term_rows. rewrite map_flat_map. apply flat_map_pointwise.
  intros r. rewrite map_flat_map. apply flat_map_pointwise.
  intros it. rewrite List.map_map. apply map_pointwise. by intros [term c].
Qed.

Lemma map_option_rows {O : Type} (f : list json -> list json) (prices : O -> new_prices)
    (row : json -> O -> string -> string -> cell -> list json) (data : document O) :
  map f (option_rows prices row data) =
  option_rows prices (fun r it term po c => f (row r it term po c)) data.
Proof.
  unfold option_rows. rewrite map_flat_map. apply flat_map_pointwise.
  intros r. rewrite map_flat_map. apply flat_map_pointwise.
  intros it. rewrite map_flat_map. apply flat_map_pointwise.
  intros [term by_option]. rewrite List.map_map. apply map_pointwise. by intros [po c].
Qed.

Lemma mapM_pointwise {X Y : Type} (g h : X -> result Y) (l : list X) :
  (forall x, g x = h x) -> mapM g l = mapM h l.
Proof. intros H. induction l as [|x l IH]; [done|]. simpl. by rewrite H, IH. Qed.

Lemma mapM_map {X Y Z : Type} (g : X -> result Y) (f : Y -> Z) (l : list X) :
  mapM (fun x => y ← g x; Ok (f y)) l = (ys ← mapM g l; Ok (map f ys)).
Proof.
  induction l as [|x l IH]; [done|]. simpl. rewrite IH.
  destruct (g x) as [y|err]; [|done]. cbn [mbind result_bind].
  by destruct (mapM g l).
Qed.

Lemma map_concat {A B : Type} (f : A -> B) (ls : list (list A)) :
  map f (concat ls) = concat (map (map f) ls).
Proof. induction ls as [|l ls IH]; [done|]. simpl. by rewrite map_app, IH. Qed.

Lemma rds_mixed_rows_map (f : list json -> list json)
    (row : string -> string -> json -> json -> list json) it :
  RDSPrices.mixed_rows (fun term po h up => f (row term po h up)) it =
  (rows ← RDSPrices.mixed_rows row it; Ok (map f rows)).
Proof.
  unfold RDSPrices.mixed_rows. destruct (RDSPrices.ri_prices it) as [prices|prices].
  - cbn [mbind result_bind]. f_equal. rewrite List.map_map.
    apply map_pointwise. by intros [term c].
  - rewrite (mapM_pointwise _
      (fun tb => rows ← (let '(term, by_option) := tb in
                         if RDSPrices.has_options by_option
                         then Ok (map (fun '(po, c) =>
                                         row term po (hourly_cell c) (upfront_cell c))
                                      (dict_items by_option))
                         else h ← RDSPrices.dict_getitem by_option "hourly";
                              up ← RDSPrices.dict_getitem by_option "upfront";
                              Ok [row term "" (none_as_string (RDSPrices.cell_value h))
                                      (none_as_string (RDSPrices.cell_value up))]);
                 Ok (map f rows))).
    + rewrite mapM_map. destruct (mapM _ _) as [rows|err]; [|done].
      cbn [mbind result_bind]. by rewrite map_concat.
    + intros [term by_option]. destruct (RDSPrices.has_options by_option).
      * cbn [mbind result_bind]. f_equal. rewrite List.map_map.
        apply map_pointwise. by intros [po c].
      * destruct (RDSPrices.dict_getitem by_option "hourly"); [|done].
        cbn [mbind result_bind].
        by destruct (RDSPrices.dict_getitem by_option "upfront").
Qed.

Lemma rds_reserved_rows_map (f : list json -> list json)
    (row : json -> RDSPrices.reserved_offering -> string -> string -> json -> json ->
           list json) data :
  RDSPrices.reserved_rows (fun r it term po h up => f (row r it term po h up)) data =
  (rows ← RDSPrices.reserved_rows row data; Ok (map f rows)).
Proof.
  unfold RDSPrices.reserved_rows.
  rewrite (mapM_pointwise _
    (fun r => rows ← (rows ← mapM (fun it => RDSPrices.mixed_rows (row (region r) it) it)
                                  (instanceTypes r);
                      Ok (concat rows));
              Ok (map f rows))).
  - rewrite mapM_map. destruct (mapM _ _) as [rows|err]; [|done].
    cbn [mbind result_bind]. by rewrite map_concat.
  - intros r.
    rewrite (mapM_pointwise _
      (fun it => rows ← RDSPrices.mixed_rows (row (region r) it) it; Ok (map f rows))).
    + rewrite mapM_map. destruct (mapM _ _) as [rows|err]; [|done].
      cbn [mbind result_bind]. by rewrite map_concat.
    + intros it. apply rds_mixed_rows_map.
Qed.

End Rows.

(** ** The rows of the reserved files *)

Section RowCounts.
Import AWSPrices Behaviour Layout.

Lemma length_flat_map {A B : Type} (f : A -> list B) (l : list A) :
  length (flat_map f l) = sum_list (map (fun x => length (f x)) l).
Proof. induction l as [|x l IH]; [done|]. simpl. by rewrite length_app, IH. Qed.

Lemma length_concat {A : Type} (ls : list (list A)) :
  length (concat ls) = sum_list (map length ls).
Proof. induction ls as [|l ls IH]; [done|]. simpl. by rewrite length_app, IH. Qed.

Lemma sum_list_const {A : Type} (f : A -> nat) (k : nat) (l : list A) :
  (forall x, x ∈ l -> f x = k) -> sum_list (map f l) = k * length l.
Proof.
  induction l as [|x l IH]; intros H; [simpl; lia|].
  simpl. rewrite (H x) by left. rewrite IH; [lia|]. intros y Hy. apply H. by right.
Qed.

Lemma sum_list_pointwise {A : Type} (f g : A -> nat) (l : list A) :
  (forall x, x ∈ l -> f x = g x) -> sum_list (map f l) = sum_list (map g l).
Proof.
  induction l as [|x l IH]; intros H; [done|].
  simpl. rewrite (H x) by left. rewrite IH; [done|]. intros y Hy. apply H. by right.
Qed.

(** The rows of a document whose offerings give [k] rows each. *)
Lemma rows_per_offering {O : Type} (rows_of : json -> O -> list (list json))
    (k : nat) (data : document O) :
  all_offerings (fun it => forall r, length (rows_of r it) = k) (regions data) ->
  length (flat_map (fun r => flat_map (rows_of (region r)) (instanceTypes r))
                   (regions data)) = k * offerings data.
Proof.
  intros H. unfold offerings. rewrite length_flat_map.
  induction (regions data) as [|r rs IH]; [simpl; lia|].
  simpl. rewrite IH by (intros e o He; apply H; by right).
  rewrite length_flat_map, (sum_list_const _ k); [lia|].
  intros it Hit. apply (H r it); [by left|done].
Qed.

(** The cells of a new price table: as many as its shape tells. *)
Lemma option_cells_count {R : Type} (g : string -> string -> cell -> R)
    (prices : new_prices) :
  length (flat_map (fun '(term, by_option) =>
                      map (fun '(po, c) => g term po c) (dict_items by_option))
                   (dict_items prices)) =
  sum_list (map (fun ts => size ts.2) (map_to_list (options_of prices))).
Proof.
  unfold options_of, dict_items. rewrite map_to_list_fmap, length_flat_map.
  change (prod_map id dom <$> map_to_list prices)
    with (map (prod_map id (dom (D := gset string))) (map_to_list prices)).
  rewrite List.map_map. apply sum_list_pointwise. intros [term by_option] _.
  simpl. by rewrite length_map, length_map_to_list, size_dom.
Qed.

Lemma term_cells_count {R : Type} (g : string -> cell -> R) (prices : old_prices) :
  length (map (fun '(term, c) => g term c) (dict_items prices)) = size (dom prices).
Proof. unfold dict_items. by rewrite length_map, length_map_to_list, size_dom. Qed.

Lemma both_terms_size : size both_terms = 2.
Proof. reflexivity. Qed.

Lemma ec2_shape_cells :
  sum_list (map (fun ts : string * gset string => size ts.2)
                (map_to_list ({[ "1" := all_three; "3" := last_two ]}
                              : gmap string (gset string)))) = 5.
Proof. reflexivity. Qed.

Lemma rs_shape_cells :
  sum_list (map (fun ts : string * gset string => size ts.2)
                (map_to_list ({[ "1" := all_three; "3" := all_three ]}
                              : gmap string (gset string)))) = 6.
Proof. reflexivity. Qed.

Lemma mapM_total {X Y : Type} (f : X -> result Y) (g : X -> Y) (l : list X) :
  (forall x, x ∈ l -> f x = Ok (g x)) -> mapM f l = Ok (map g l).
Proof.
  induction l as [|x l IH]; intros H; [done|].
  simpl. rewrite (H x) by left. cbn [mbind result_bind].
  rewrite IH; [done|]. intros y Hy. apply H. by right.
Qed.

(** A term of a table of the new shape holds the three options. *)
Lemma new_shape_term prices term by_option :
  options_of prices = {[ "1" := all_three; "3" := all_three ]} ->
  (term, by_option) ∈ map_to_list prices ->
  dom by_option = all_three.
Proof.
  intros Hshape Hin. apply elem_of_map_to_list in Hin.
  assert (Hdom : options_of prices !! term = Some (dom by_option)).
  { unfold options_of. by rewrite lookup_fmap, Hin. }
  rewrite Hshape in Hdom.
  apply lookup_insert_Some in Hdom as [[_ Hd]|[_ Hdom]]; [done|].
  by apply lookup_singleton_Some in Hdom as [_ Hd].
Qed.

Lemma all_three_options {V : Type} (by_option : gmap string V) :
  dom by_option = all_three -> RDSPrices.has_options by_option = true.
Proof.
  intros Hdom. unfold RDSPrices.has_options.
  assert (Hin : "noUpfront" ∈ dom by_option) by (rewrite Hdom; by vm_compute).
  apply elem_of_dom in Hin. by rewrite bool_decide_eq_true_2.
Qed.

(** The rows of an offering of the database service. *)
Lemma rds_mixed_rows_total (row : string -> string -> json -> json -> list json) it :
  rds_table_shape (RDSPrices.ri_prices it) ->
  exists rows, RDSPrices.mixed_rows row it = Ok rows /\ length rows = rds_rows_of it.
Proof.
  unfold rds_table_shape, RDSPrices.mixed_rows, rds_rows_of.
  destruct (RDSPrices.ri_prices it) as [prices|prices]; intros Hshape.
  - eexists. split; [reflexivity|].
    by rewrite term_cells_count, Hshape.
  - rewrite (mapM_total _
      (fun '(term, by_option) =>
         map (fun '(po, c) => row term po (hourly_cell c) (upfront_cell c))
             (dict_items by_option))).
    + cbn [mbind result_bind]. eexists. split; [reflexivity|].
      rewrite <- flat_map_concat_map.
      rewrite (option_cells_count
                 (fun term po c => row term po (hourly_cell c) (upfront_cell c))).
      rewrite Hshape. apply rs_shape_cells.
    + intros [term by_option] Hin.
      by rewrite (all_three_options by_option (new_shape_term _ _ _ Hshape Hin)).
Qed.

Lemma rds_reserved_rows_total
    (row : json -> RDSPrices.reserved_offering -> string -> string -> json -> json ->
           list json) data :
  all_offerings (fun o => rds_table_shape (RDSPrices.ri_prices o)) (regions data) ->
  exists rows, RDSPrices.reserved_rows row data = Ok rows /\
               length rows = rds_rows data.
Proof.
  unfold RDSPrices.reserved_rows, rds_rows. intros Hshape.
  induction (regions data) as [|r rs IH].
  - exists []. by split.
  - destruct IH as (rows & Hrows & Hlen).
    { intros e o He. apply Hshape. by right. }
    apply bind_Ok_inv in Hrows as (rowss & Hrowss & Hrows). injection Hrows as <-.
    assert (Hr : exists rows_r,
               mapM (fun it => RDSPrices.mixed_rows (row (region r) it) it)
                    (instanceTypes r) = Ok rows_r /\
               length (concat rows_r) = sum_list (map rds_rows_of (instanceTypes r))).
    { assert (Hits : forall it, it ∈ instanceTypes r ->
                                rds_table_shape (RDSPrices.ri_prices it)).
      { intros it Hit. apply (Hshape r it); [by left|done]. }
      induction (instanceTypes r) as [|it its IHits].
      - exists []. by split.
      - destruct IHits as (rows_r & Hm & Hl).
        { intros it' Hit'. apply Hits. by right. }
        destruct (rds_mixed_rows_total (row (region r) it) it (Hits it ltac:(left)))
          as (rows_it & Hit & Hlen_it).
        exists (rows_it :: rows_r). split.
        + simpl. rewrite Hit. cbn [mbind result_bind]. by rewrite Hm.
        + simpl. by rewrite length_app, Hlen_it, Hl. }
    destruct Hr as (rows_r & Hm & Hl).
    exists (concat rows_r ++ concat rowss). split.
    + simpl. rewrite Hm. cbn [mbind result_bind]. by rewrite Hrowss.
    + simpl. by rewrite length_app, Hl, Hlen.
Qed.

End RowCounts.

(** The reserved files are complete. For the document a reserved call
    returns, [save_csv] writes the header and, for every offering, one row
    for each cell of its price table: five rows for the compute service,
    two for the cache service, six for the data-warehouse service, and for
    the database service two (legacy feeds) or six (new feeds); the
    database rows are written without an exception. *)
Theorem reserved_files_are_complete (urlopen : string -> result string) :
  (forall doc,
     EC2Prices.get_reserved_instances_prices urlopen = Ok doc ->
     length (EC2Prices.reserved_csv_rows doc) = 1 + 5 * Layout.offerings doc) /\
  (forall doc,
     ELCPrices.get_reserved_instances_prices urlopen = Ok doc ->
     length (ELCPrices.reserved_csv_rows doc) = 1 + 2 * Layout.offerings doc) /\
  (forall doc,
     RDSPrices.get_reserved_instances_prices urlopen = Ok doc ->
     exists rows,
       RDSPrices.reserved_csv_rows doc = Ok rows /\
       length rows = 1 + Layout.rds_rows doc) /\
  (forall doc,
     RSPrices.get_reserved_instances_prices urlopen = Ok doc ->
     length (RSPrices.reserved_csv_rows doc) = 1 + 6 * Layout.offerings doc).
Proof.
  repeat match goal with |- _ /\ _ => split end; intros doc Hdoc.
  - unfold EC2Prices.reserved_csv_rows, AWSPrices.option_rows. simpl length. f_equal.
    apply (rows_per_offering
             (fun r it =>
                flat_map (fun '(term, by_option) =>
                            map (fun '(po, c) =>
                                   [r; EC2Prices.ri_type it; JStr (EC2Prices.ri_os it);
                                    JStr term; JStr po; AWSPrices.hourly_cell c;
                                    AWSPrices.upfront_cell c])
                                (AWSPrices.dict_items by_option))
                         (AWSPrices.dict_items (EC2Prices.ri_prices it)))).
    apply (ec2_reserved_doc_all _ urlopen doc Hdoc). intros os_type it os Hos.
    eapply list.Forall_impl; [apply (ec2_reserved_instance_shape os_type it os Hos)|].
    intros o Ho r. simpl in Ho.
    rewrite (option_cells_count
               (fun term po c =>
                  [r; EC2Prices.ri_type o; JStr (EC2Prices.ri_os o); JStr term; JStr po;
                   AWSPrices.hourly_cell c; AWSPrices.upfront_cell c])).
    rewrite Ho. apply ec2_shape_cells.
  - unfold ELCPrices.reserved_csv_rows, AWSPrices.term_rows. simpl length. f_equal.
    apply (rows_per_offering
             (fun r it =>
                map (fun '(term, c) =>
                       [r; ELCPrices.ri_type it; JStr (ELCPrices.ri_utilization it);
                        JStr term; AWSPrices.hourly_cell c; AWSPrices.upfront_cell c])
                    (AWSPrices.dict_items (ELCPrices.ri_prices it)))).
    apply (elc_reserved_doc_all _ urlopen doc Hdoc). intros u ut it os Hos.
    eapply list.Forall_impl; [apply (elc_reserved_instance_shape u ut it os Hos)|].
    intros o Ho r. simpl in Ho.
    rewrite (term_cells_count
               (fun term c =>
                  [r; ELCPrices.ri_type o; JStr (ELCPrices.ri_utilization o);
                   JStr term; AWSPrices.hourly_cell c; AWSPrices.upfront_cell c])).
    by rewrite Ho.
  - assert (Hshape : Behaviour.all_offerings
                       (fun o => Behaviour.rds_table_shape (RDSPrices.ri_prices o))
                       (regions doc)).
    { apply (rds_reserved_doc_all _ urlopen doc Hdoc).
      - apply rds_old_instance_shape.
      - apply rds_new_instance_shape. }
    unfold RDSPrices.reserved_csv_rows.
    destruct (rds_reserved_rows_total
                (fun region_name it term po h up =>
                   [region_name; RDSPrices.ri_type it; JStr (RDSPrices.ri_multiaz it);
                    JStr (RDSPrices.ri_license it); JStr (RDSPrices.ri_db it);
                    JStr (RDSPrices.ri_utilization it); JStr term; JStr po; h; up])
                doc Hshape) as (rows & -> & Hlen).
    cbn [mbind result_bind]. eexists. split; [reflexivity|]. simpl. by rewrite Hlen.
  - unfold RSPrices.reserved_csv_rows, AWSPrices.option_rows. simpl length. f_equal.
    apply (rows_per_offering
             (fun r it =>
                flat_map (fun '(term, by_option) =>
                            map (fun '(po, c) =>
                                   [r; RSPrices.ri_type it; JStr term; JStr po;
                                    AWSPrices.hourly_cell c; AWSPrices.upfront_cell c])
                                (AWSPrices.dict_items by_option))
                         (AWSPrices.dict_items (RSPrices.ri_prices it)))).
    apply (rs_reserved_doc_all _ urlopen doc Hdoc). intros it os Hos.
    eapply list.Forall_impl; [apply (rs_reserved_instance_shape it os Hos)|].
    intros o Ho r. simpl in Ho.
    rewrite (option_cells_count
               (fun term po c =>
                  [r; RSPrices.ri_type o; JStr term; JStr po;
                   AWSPrices.hourly_cell c; AWSPrices.upfront_cell c])).
    rewrite Ho. apply rs_shape_cells.
Qed.

(** Two reserved compute feeds with one offering each: the header and ten
    rows. *)
Lemma reserved_files_are_complete_witness :
  exists doc,
    EC2Prices.get_reserved_instances_prices Scenarios.ec2_ri_two = Ok doc /\
    Layout.offerings doc = 2 /\
    length (EC2Prices.reserved_csv_rows doc) = 11.
Proof.
  assert (Hrun : exists doc,
             EC2Prices.get_reserved_instances_prices Scenarios.ec2_ri_two = Ok doc /\
             Layout.offerings doc = 2).
  { vm_compute. eexists. split; reflexivity. }
  destruct Hrun as (doc & Hdoc & Hn). exists doc.
  split; [exact Hdoc|]. split; [exact Hn|].
  rewrite (proj1 (reserved_files_are_complete Scenarios.ec2_ri_two) doc Hdoc), Hn.
  reflexivity.
Defined.

(** ** The combined files *)

Section Combined.
Import AWSPrices Behaviour Layout.

(** The data rows of the combined on-demand file are the data rows of the
    four per-service files, widened. *)
Lemma ondemand_rows_widen ec2 elc rds rs :
  AllAWSPrices.ondemand_rows ec2 elc rds rs =
  map widen_ec2_ondemand (tail (EC2Prices.ondemand_csv_rows ec2)) ++
  map widen_elc_ondemand (tail (ELCPrices.ondemand_csv_rows elc)) ++
  map widen_rds_ondemand (tail (RDSPrices.ondemand_csv_rows rds)) ++
  map widen_rs_ondemand (tail (RSPrices.ondemand_csv_rows rs)).
Proof.
  unfold AllAWSPrices.ondemand_rows.
  change (tail (EC2Prices.ondemand_csv_rows ec2))
    with (offering_rows
            (fun region_name it =>
               [region_name; EC2Prices.od_type it; EC2Prices.od_os it;
                none_as_string (price_value (EC2Prices.od_price it))]) ec2).
  unfold ELCPrices.ondemand_csv_rows, RDSPrices.ondemand_csv_rows,
    RSPrices.ondemand_csv_rows. cbn [tail].
  by rewrite !map_offering_rows.
Qed.

Lemma reserved_rows_widen ec2 elc rds rs :
  AllAWSPrices.reserved_rows ec2 elc rds rs =
  (rds_rows ← RDSPrices.reserved_csv_rows rds;
   Ok (map widen_ec2_reserved (tail (EC2Prices.reserved_csv_rows ec2)) ++
       map widen_elc_reserved (tail (ELCPrices.reserved_csv_rows elc)) ++
       map widen_rds_reserved (tail rds_rows) ++
       map widen_rs_reserved (tail (RSPrices.reserved_csv_rows rs)))).
Proof.
  unfold AllAWSPrices.reserved_rows, RDSPrices.reserved_csv_rows.
  change (RDSPrices.reserved_rows
            (fun region_name it term po h up =>
               [JStr "rds"; region_name; RDSPrices.ri_type it;
                JStr (RDSPrices.ri_multiaz it); JStr (RDSPrices.ri_license it);
                JStr (RDSPrices.ri_db it); AllAWSPrices.blank;
                JStr (RDSPrices.ri_utilization it); JStr term; JStr po; h; up]) rds)
    with (RDSPrices.reserved_rows
            (fun region_name it term po h up =>
               widen_rds_reserved
                 [region_name; RDSPrices.ri_type it; JStr (RDSPrices.ri_multiaz it);
                  JStr (RDSPrices.ri_license it); JStr (RDSPrices.ri_db it);
                  JStr (RDSPrices.ri_utilization it); JStr term; JStr po; h; up]) rds).
  rewrite rds_reserved_rows_map.
  destruct (RDSPrices.reserved_rows _ rds) as [rows|err]; [|done].
  cbn [mbind result_bind tail].
  unfold EC2Prices.reserved_csv_rows, ELCPrices.reserved_csv_rows,
    RSPrices.reserved_csv_rows. cbn [tail].
  by rewrite !map_option_rows, map_term_rows.
Qed.

(** The rows of the file with both kinds of prices are the data rows of
    the two combined files, lifted. *)
Lemma all_ondemand_rows_lift ec2 elc rds rs :
  AllAWSPrices.all_ondemand_rows ec2 elc rds rs =
  map lift_ondemand (AllAWSPrices.ondemand_rows ec2 elc rds rs).
Proof.
  unfold AllAWSPrices.all_ondemand_rows, AllAWSPrices.ondemand_rows.
  by rewrite !map_app, !map_offering_rows.
Qed.

Lemma all_reserved_rows_lift ec2 elc rds rs :
  AllAWSPrices.all_reserved_rows ec2 elc rds rs =
  (rows ← AllAWSPrices.reserved_rows ec2 elc rds rs; Ok (map lift_reserved rows)).
Proof.
  unfold AllAWSPrices.all_reserved_rows, AllAWSPrices.reserved_rows.
  change (RDSPrices.reserved_rows
            (fun region_name it term po h up =>
               [JStr "reserved"; JStr "rds"; region_name; RDSPrices.ri_type it;
                JStr (RDSPrices.ri_multiaz it); JStr (RDSPrices.ri_license it);
                JStr (RDSPrices.ri_db it); AllAWSPrices.blank;
                JStr (RDSPrices.ri_utilization it); JStr term; JStr po; h; up]) rds)
    with (RDSPrices.reserved_rows
            (fun region_name it term po h up =>
               lift_reserved
                 [JStr "rds"; region_name; RDSPrices.ri_type it;
                  JStr (RDSPrices.ri_multiaz it); JStr (RDSPrices.ri_license it);
                  JStr (RDSPrices.ri_db it); AllAWSPrices.blank;
                  JStr (RDSPrices.ri_utilization it); JStr term; JStr po; h; up]) rds).
  rewrite rds_reserved_rows_map.
  destruct (RDSPrices.reserved_rows _ rds) as [rows|err]; [|done].
  cbn [mbind result_bind].
  by rewrite !map_app, !map_option_rows, map_term_rows.
Qed.

(** The reserved document of the database service is written without an
    exception. *)
Lemma rds_reserved_csv_total urlopen doc :
  RDSPrices.get_reserved_instances_prices urlopen = Ok doc ->
  exists rows, RDSPrices.reserved_csv_rows doc = Ok rows.
Proof.
  intros Hdoc.
  assert (Hshape : all_offerings (fun o => rds_table_shape (RDSPrices.ri_prices o))
                                 (regions doc)).
  { apply (rds_reserved_doc_all _ urlopen doc Hdoc).
    - apply rds_old_instance_shape.
    - apply rds_new_instance_shape. }
  unfold RDSPrices.reserved_csv_rows.
  destruct (rds_reserved_rows_total
              (fun region_name it term po h up =>
                 [region_name; RDSPrices.ri_type it; JStr (RDSPrices.ri_multiaz it);
                  JStr (RDSPrices.ri_license it); JStr (RDSPrices.ri_db it);
                  JStr (RDSPrices.ri_utilization it); JStr term; JStr po; h; up])
              doc Hshape) as (rows & -> & _).
  cbn [mbind result_bind]. eauto.
Qed.

End Combined.

(** The combined files hold the per-service files. For every answer of
    the network, [AllAWSPrices.save_csv] with ["ondemand"] (with
    ["reserved"]) writes, in this order, the data rows that the [save_csv]
    of the compute, cache, database and data-warehouse services write,
    each with the name of its service in front and an empty cell in every
    column the service does not have; it raises when one of them raises.
    The compute and data-warehouse rows of the reserved file get the
    utilization ["heavy"]. *)
Theorem combined_file_holds_the_service_files
    (urlopen : string -> result string) (name : option string) :
  AllAWSPrices.save_csv urlopen "ondemand" name =
  (ec2 ← EC2Prices.save_csv urlopen "ondemand" None;
   elc ← ELCPrices.save_csv urlopen "ondemand" None;
   rds ← RDSPrices.save_csv urlopen "ondemand" None;
   rs ← RSPrices.save_csv urlopen "ondemand" None;
   match ec2, elc, rds, rs with
   | Some (_, ec2_rows), Some (_, elc_rows), Some (_, rds_rows), Some (_, rs_rows) =>
       Ok (Some (AWSPrices.file_name "FULL_ondemand_pricing.csv" name,
                 [JStr "service"; JStr "region"; JStr "type"; JStr "multiaz";
                  JStr "license"; JStr "db"; JStr "os"; JStr "price"] ::
                 map Layout.widen_ec2_ondemand (tail ec2_rows) ++
                 map Layout.widen_elc_ondemand (tail elc_rows) ++
                 map Layout.widen_rds_ondemand (tail rds_rows) ++
                 map Layout.widen_rs_ondemand (tail rs_rows)))
   | _, _, _, _ => Ok None
   end) /\
  AllAWSPrices.save_csv urlopen "reserved" name =
  (ec2 ← EC2Prices.save_csv urlopen "reserved" None;
   elc ← ELCPrices.save_csv urlopen "reserved" None;
   rds ← RDSPrices.save_csv urlopen "reserved" None;
   rs ← RSPrices.save_csv urlopen "reserved" None;
   match ec2, elc, rds, rs with
   | Some (_, ec2_rows), Some (_, elc_rows), Some (_, rds_rows), Some (_, rs_rows) =>
       Ok (Some (AWSPrices.file_name "FULL_reserved_pricing.csv" name,
                 [JStr "service"; JStr "region"; JStr "type"; JStr "multiaz";
                  JStr "license"; JStr "db"; JStr "os"; JStr "utilization";
                  JStr "term"; JStr "payment_type"; JStr "price"; JStr "upfront"] ::
                 map Layout.widen_ec2_reserved (tail ec2_rows) ++
                 map Layout.widen_elc_reserved (tail elc_rows) ++
                 map Layout.widen_rds_reserved (tail rds_rows) ++
                 map Layout.widen_rs_reserved (tail rs_rows)))
   | _, _, _, _ => Ok None
   end).
Proof.
  split.
  - change (AllAWSPrices.save_csv urlopen "ondemand" name)
      with (ec2_data ← EC2Prices.get_ondemand_instances_prices urlopen;
            elc_data ← ELCPrices.get_ondemand_instances_prices urlopen;
            rds_data ← RDSPrices.get_ondemand_instances_prices urlopen;
            rs_data ← RSPrices.get_ondemand_instances_prices urlopen;
            Ok (Some (AWSPrices.file_name "FULL_ondemand_pricing.csv" name,
                      AllAWSPrices.ondemand_csv_rows ec2_data elc_data rds_data rs_data))).
    change (EC2Prices.save_csv urlopen "ondemand" None)
      with (data ← EC2Prices.get_ondemand_instances_prices urlopen;
            Ok (Some ("EC2_ondemand_pricing.csv", EC2Prices.ondemand_csv_rows data))).
    change (ELCPrices.save_csv urlopen "ondemand" None)
      with (data ← ELCPrices.get_ondemand_instances_prices urlopen;
            Ok (Some ("ELC_ondemand_pricing.csv", ELCPrices.ondemand_csv_rows data))).
    change (RDSPrices.save_csv urlopen "ondemand" None)
      with (data ← RDSPrices.get_ondemand_instances_prices urlopen;
            Ok (Some ("RDS_ondemand_pricing.csv", RDSPrices.ondemand_csv_rows data))).
    change (RSPrices.save_csv urlopen "ondemand" None)
      with (data ← RSPrices.get_ondemand_instances_prices urlopen;
            Ok (Some ("RS_ondemand_pricing.csv", RSPrices.ondemand_csv_rows data))).
    destruct (EC2Prices.get_ondemand_instances_prices urlopen) as [ec2|?]; [|done].
    cbn [mbind result_bind].
    destruct (ELCPrices.get_ondemand_instances_prices urlopen) as [elc|?]; [|done].
    cbn [mbind result_bind].
    destruct (RDSPrices.get_ondemand_instances_prices urlopen) as [rds|?]; [|done].
    cbn [mbind result_bind].
    destruct (RSPrices.get_ondemand_instances_prices urlopen) as [rs|?]; [|done].
    cbn [mbind result_bind].
    unfold AllAWSPrices.ondemand_csv_rows. by rewrite ondemand_rows_widen.
  - change (AllAWSPrices.save_csv urlopen "reserved" name)
      with (ec2_data ← EC2Prices.get_reserved_instances_prices urlopen;
            elc_data ← ELCPrices.get_reserved_instances_prices urlopen;
            rds_data ← RDSPrices.get_reserved_instances_prices urlopen;
            rs_data ← RSPrices.get_reserved_instances_prices urlopen;
            rows ← AllAWSPrices.reserved_csv_rows ec2_data elc_data rds_data rs_data;
            Ok (Some (AWSPrices.file_name "FULL_reserved_pricing.csv" name, rows))).
    change (EC2Prices.save_csv urlopen "reserved" None)
      with (data ← EC2Prices.get_reserved_instances_prices urlopen;
            Ok (Some ("EC2_reserved_pricing.csv", EC2Prices.reserved_csv_rows data))).
    change (ELCPrices.save_csv urlopen "reserved" None)
      with (data ← ELCPrices.get_reserved_instances_prices urlopen;
            Ok (Some ("ELC_reserved_pricing.csv", ELCPrices.reserved_csv_rows data))).
    change (RDSPrices.save_csv urlopen "reserved" None)
      with (data ← RDSPrices.get_reserved_instances_prices urlopen;
            rows ← RDSPrices.reserved_csv_rows data;
            Ok (Some ("RDS_reserved_pricing.csv", rows))).
    change (RSPrices.save_csv urlopen "reserved" None)
      with (data ← RSPrices.get_reserved_instances_prices urlopen;
            Ok (Some ("RS_reserved_pricing.csv", RSPrices.reserved_csv_rows data))).
    destruct (EC2Prices.get_reserved_instances_prices urlopen) as [ec2|?]; [|done].
    cbn [mbind result_bind].
    destruct (ELCPrices.get_reserved_instances_prices urlopen) as [elc|?]; [|done].
    cbn [mbind result_bind].
    destruct (RDSPrices.get_reserved_instances_prices urlopen) as [rds|?] eqn:Hrds;
      [|done].
    cbn [mbind result_bind].
    destruct (rds_reserved_csv_total urlopen rds Hrds) as [rds_rows Hrows].
    rewrite Hrows. cbn [mbind result_bind].
    destruct (RSPrices.get_reserved_instances_prices urlopen) as [rs|?]; [|done].
    cbn [mbind result_bind].
    unfold AllAWSPrices.reserved_csv_rows. rewrite reserved_rows_widen, Hrows.
    reflexivity.
Qed.

(** The file with both kinds of prices holds the two combined files. For
    every answer of the network, [AllAWSPrices.save_csv("all")] writes the
    data rows of the combined on-demand file, each with ["ondemand"] in
    front and empty cells for the utilization, the term, the payment type
    and the upfront price, and then the data rows of the combined reserved
    file, each with ["reserved"] in front; it raises when one of the two
    raises. *)
Theorem full_file_holds_both_files
    (urlopen : string -> result string) (name : option string) :
  AllAWSPrices.save_csv urlopen "all" name =
  (od ← AllAWSPrices.save_csv urlopen "ondemand" None;
   r ← AllAWSPrices.save_csv urlopen "reserved" None;
   match od, r with
   | Some (_, od_rows), Some (_, r_rows) =>
       Ok (Some (AWSPrices.file_name "FULL_all_pricing.csv" name,
                 [JStr "reserved_od"; JStr "service"; JStr "region"; JStr "type";
                  JStr "multiaz"; JStr "license"; JStr "db"; JStr "os";
                  JStr "utilization"; JStr "term"; JStr "payment_type"; JStr "price";
                  JStr "upfront"] ::
                 map Layout.lift_ondemand (tail od_rows) ++
                 map Layout.lift_reserved (tail r_rows)))
   | _, _ => Ok None
   end).
Proof.
  change (AllAWSPrices.save_csv urlopen "all" name)
    with (ec2_data_od ← EC2Prices.get_ondemand_instances_prices urlopen;
          elc_data_od ← ELCPrices.get_ondemand_instances_prices urlopen;
          rds_data_od ← RDSPrices.get_ondemand_instances_prices urlopen;
          rs_data_od ← RSPrices.get_ondemand_instances_prices urlopen;
          ec2_data_r ← EC2Prices.get_reserved_instances_prices urlopen;
          elc_data_r ← ELCPrices.get_reserved_instances_prices urlopen;
          rds_data_r ← RDSPrices.get_reserved_instances_prices urlopen;
          rs_data_r ← RSPrices.get_reserved_instances_prices urlopen;
          rows ← AllAWSPrices.all_csv_rows ec2_data_od elc_data_od rds_data_od rs_data_od
                                           ec2_data_r elc_data_r rds_data_r rs_data_r;
          Ok (Some (AWSPrices.file_name "FULL_all_pricing.csv" name, rows))).
  change (AllAWSPrices.save_csv urlopen "ondemand" None)
    with (ec2_data ← EC2Prices.get_ondemand_instances_prices urlopen;
          elc_data ← ELCPrices.get_ondemand_instances_prices urlopen;
          rds_data ← RDSPrices.get_ondemand_instances_prices urlopen;
          rs_data ← RSPrices.get_ondemand_instances_prices urlopen;
          Ok (Some ("FULL_ondemand_pricing.csv",
                    AllAWSPrices.ondemand_csv_rows ec2_data elc_data rds_data rs_data))).
  change (AllAWSPrices.save_csv urlopen "reserved" None)
    with (ec2_data ← EC2Prices.get_reserved_instances_prices urlopen;
          elc_data ← ELCPrices.get_reserved_instances_prices urlopen;
          rds_data ← RDSPrices.get_reserved_instances_prices urlopen;
          rs_data ← RSPrices.get_reserved_instances_prices urlopen;
          rows ← AllAWSPrices.reserved_csv_rows ec2_data elc_data rds_data rs_data;
          Ok (Some ("FULL_reserved_pricing.csv", rows))).
  destruct (EC2Prices.get_ondemand_instances_prices urlopen) as [ec2_od|?]; [|done].
  cbn [mbind result_bind].
  destruct (ELCPrices.get_ondemand_instances_prices urlopen) as [elc_od|?]; [|done].
  cbn [mbind result_bind].
  destruct (RDSPrices.get_ondemand_instances_prices urlopen) as [rds_od|?]; [|done].
  cbn [mbind result_bind].
  destruct (RSPrices.get_ondemand_instances_prices urlopen) as [rs_od|?]; [|done].
  cbn [mbind result_bind].
  destruct (EC2Prices.get_reserved_instances_prices urlopen) as [ec2_r|?]; [|done].
  cbn [mbind result_bind].
  destruct (ELCPrices.get_reserved_instances_prices urlopen) as [elc_r|?]; [|done].
  cbn [mbind result_bind].
  destruct (RDSPrices.get_reserved_instances_prices urlopen) as [rds_r|?]; [|done].
  cbn [mbind result_bind].
  destruct (RSPrices.get_reserved_instances_prices urlopen) as [rs_r|?]; [|done].
  cbn [mbind result_bind].
  unfold AllAWSPrices.all_csv_rows, AllAWSPrices.reserved_csv_rows,
    AllAWSPrices.ondemand_csv_rows.
  rewrite all_reserved_rows_lift, all_ondemand_rows_lift.
  destruct (AllAWSPrices.reserved_rows ec2_r elc_r rds_r rs_r) as [rows|?]; [|done].
  reflexivity.
Qed.

(** * Properties of the region names *)

(** ** The order of the regions of a reserved document *)

Section RegionOrder.
Import AWSPrices Contributions Behaviour.
Context {O : Type}.
Implicit Types (st : reserved_state O) (c : RegionPricing O)
  (cs : list (RegionPricing O)).

(** A reserved call lists the regions of its contributions in the order
    of their first occurrence. *)
Lemma reserved_call_names
    (feed : reserved_state O -> string -> result (reserved_state O))
    (contribs : string -> result (list (RegionPricing O))) urls
    (call : result (document O)) doc :
  (forall st u, feed st u = (cs ← contribs u; Ok (foldl add_contribution st cs))) ->
  (forall u cs, contribs u = Ok cs -> Forall keyed cs) ->
  call = (st ← foldM feed urls empty_state;
          Ok {| config_currency := DEFAULT_CURRENCY; config_unit := None;
                regions := result_regions st |}) ->
  call = Ok doc ->
  exists cs, all_contributions contribs urls = Ok cs /\
             Forall keyed cs /\
             map region (regions doc) = first_names ∅ cs.
Proof.
  intros Hfeed Hkeyed -> Hdoc.
  rewrite (reserved_loop_factor feed contribs urls _ Hfeed) in Hdoc.
  apply bind_Ok_inv in Hdoc as (st & Hst & Hdoc). injection Hdoc as <-.
  apply bind_Ok_inv in Hst as (cs & Hcs & Hst). injection Hst as <-.
  exists cs. split; [done|].
  split; [by apply (all_contributions_keyed _ _ _ Hkeyed Hcs)|].
  simpl. by rewrite foldl_add_names.
Qed.

End RegionOrder.

(** The regions of a reserved document stand in the order in which the
    feeds first name them. For each reserved call, the region names of the
    document, in order, are the region names of the contributions of its
    feeds (in the order of the URL list, then of the feed) with every
    name left out that an earlier contribution carries; names are compared
    as dictionary keys, and every name of a contribution is one. *)
Theorem reserved_regions_keep_first_seen_order (urlopen : string -> result string) :
  (forall doc,
     EC2Prices.get_reserved_instances_prices urlopen = Ok doc ->
     exists cs,
       Contributions.all_contributions (Contributions.ec2_reserved urlopen)
         EC2Prices.reserved_urls = Ok cs /\
       Forall Contributions.keyed cs /\
       map region (regions doc) = Behaviour.first_names ∅ cs) /\
  (forall doc,
     ELCPrices.get_reserved_instances_prices urlopen = Ok doc ->
     exists cs,
       Contributions.all_contributions (Contributions.elc_reserved urlopen)
         ELCPrices.reserved_urls = Ok cs /\
       Forall Contributions.keyed cs /\
       map region (regions doc) = Behaviour.first_names ∅ cs) /\
  (forall doc,
     RDSPrices.get_reserved_instances_prices urlopen = Ok doc ->
     exists cs,
       Contributions.rds_reserved urlopen = Ok cs /\
       Forall Contributions.keyed cs /\
       map region (regions doc) = Behaviour.first_names ∅ cs) /\
  (forall doc,
     RSPrices.get_reserved_instances_prices urlopen = Ok doc ->
     exists cs,
       Contributions.all_contributions (Contributions.rs_reserved urlopen)
         RSPrices.reserved_urls = Ok cs /\
       Forall Contributions.keyed cs /\
       map region (regions doc) = Behaviour.first_names ∅ cs).
Proof.
  repeat match goal with |- _ /\ _ => split end; intros doc Hdoc.
  - apply (reserved_call_names _ _ _ _ doc (ec2_reserved_feed urlopen)
             (ec2_reserved_keyed urlopen) eq_refl Hdoc).
  - apply (reserved_call_names _ _ _ _ doc (elc_reserved_feed urlopen)
             (elc_reserved_keyed urlopen) eq_refl Hdoc).
  - unfold RDSPrices.get_reserved_instances_prices in Hdoc.
    rewrite (reserved_loop_factor _ _ _ _ (rds_reserved_feed_old urlopen)) in Hdoc.
    apply bind_Ok_inv in Hdoc as (st1 & Hst1 & Hdoc).
    apply bind_Ok_inv in Hst1 as (cs_old & Hold & Hst1). injection Hst1 as <-.
    rewrite (reserved_loop_factor _ _ _ _ (rds_reserved_feed_new urlopen)) in Hdoc.
    apply bind_Ok_inv in Hdoc as (st2 & Hst2 & Hdoc). injection Hdoc as <-.
    apply bind_Ok_inv in Hst2 as (cs_new & Hnew & Hst2). injection Hst2 as <-.
    exists (cs_old ++ cs_new). split; [|split].
    + unfold Contributions.rds_reserved. rewrite Hold. cbn [mbind result_bind].
      by rewrite Hnew.
    + apply Forall_app. split.
      * apply (all_contributions_keyed _ _ _ (rds_reserved_old_keyed urlopen) Hold).
      * apply (all_contributions_keyed _ _ _ (rds_reserved_new_keyed urlopen) Hnew).
    + simpl. rewrite <- foldl_app. by rewrite foldl_add_names.
  - apply (reserved_call_names _ _ _ _ doc (rs_reserved_feed urlopen)
             (rs_reserved_keyed urlopen) eq_refl Hdoc).
Qed.

(** Two reserved cache feeds: the first names us-west and us-east, the
    second us-east-1 and eu-ireland; the document lists us-west-1,
    us-east-1 and eu-west-1. Two reserved compute feeds whose regions are
    named by the number [NaN] and by the text r: the document lists [NaN]
    once, then r. *)
Lemma reserved_regions_keep_first_seen_order_witness :
  (exists doc cs,
     ELCPrices.get_reserved_instances_prices Scenarios.elc_ri_aliases = Ok doc /\
     Contributions.all_contributions (Contributions.elc_reserved Scenarios.elc_ri_aliases)
       ELCPrices.reserved_urls = Ok cs /\
     map region cs =
       [JStr "us-west-1"; JStr "us-east-1"; JStr "us-east-1"; JStr "eu-west-1"] /\
     map region (regions doc) = Behaviour.first_names ∅ cs /\
     map region (regions doc) = [JStr "us-west-1"; JStr "us-east-1"; JStr "eu-west-1"]) /\
  (exists doc cs,
     EC2Prices.get_reserved_instances_prices Scenarios.ec2_ri_nan = Ok doc /\
     Contributions.all_contributions (Contributions.ec2_reserved Scenarios.ec2_ri_nan)
       EC2Prices.reserved_urls = Ok cs /\
     map region cs =
       [JNum (NFloat S754_nan); JStr "r"; JNum (NFloat S754_nan)] /\
     map region (regions doc) = Behaviour.first_names ∅ cs /\
     map (fun e => (region e, length (instanceTypes e))) (regions doc) =
       [(JNum (NFloat S754_nan), 2); (JStr "r", 1)]).
Proof.
  split.
  - assert (Hrun : exists doc,
               ELCPrices.get_reserved_instances_prices Scenarios.elc_ri_aliases = Ok doc /\
               map region (regions doc) =
                 [JStr "us-west-1"; JStr "us-east-1"; JStr "eu-west-1"]).
    { vm_compute. eexists. split; reflexivity. }
    assert (Hcs : exists cs,
               Contributions.all_contributions
                 (Contributions.elc_reserved Scenarios.elc_ri_aliases)
                 ELCPrices.reserved_urls = Ok cs /\
               map region cs =
                 [JStr "us-west-1"; JStr "us-east-1"; JStr "us-east-1"; JStr "eu-west-1"]).
    { vm_compute. eexists. split; reflexivity. }
    destruct Hrun as (doc & Hdoc & Hnames). destruct Hcs as (cs & Hcs & Hcsn).
    destruct (proj1 (proj2 (reserved_regions_keep_first_seen_order
                              Scenarios.elc_ri_aliases)) doc Hdoc)
      as (cs' & Hcs' & _ & Hfirst).
    rewrite Hcs in Hcs'. injection Hcs' as <-.
    exists doc, cs. auto.
  - assert (Hrun : exists doc,
               EC2Prices.get_reserved_instances_prices Scenarios.ec2_ri_nan = Ok doc /\
               map (fun e => (region e, length (instanceTypes e))) (regions doc) =
                 [(JNum (NFloat S754_nan), 2); (JStr "r", 1)]).
    { vm_compute. eexists. split; reflexivity. }
    assert (Hcs : exists cs,
               Contributions.all_contributions
                 (Contributions.ec2_reserved Scenarios.ec2_ri_nan)
                 EC2Prices.reserved_urls = Ok cs /\
               map region cs =
                 [JNum (NFloat S754_nan); JStr "r"; JNum (NFloat S754_nan)]).
    { vm_compute. eexists. split; reflexivity. }
    destruct Hrun as (doc & Hdoc & Hnames). destruct Hcs as (cs & Hcs & Hcsn).
    destruct (proj1 (reserved_regions_keep_first_seen_order Scenarios.ec2_ri_nan)
                doc Hdoc) as (cs' & Hcs' & _ & Hfirst).
    rewrite Hcs in Hcs'. injection Hcs' as <-.
    exists doc, cs. auto.
Defined.

(** ** Canonical region names *)

Section CanonicalNames.
Import AWSPrices Contributions Behaviour.

Lemma resolve_region_canonical raw name :
  resolve_region raw = Ok name -> canonical name.
Proof.
  unfold resolve_region. intros H. apply bind_Ok_inv in H as (v & Hv & H).
  injection H as <-. exists v. split; [done|].
  destruct raw as [| | |k| |]; try done. simpl in Hv.
  destruct (JSON_NAME_TO_REGIONS_API !! k) as [v'|] eqn:Hk; [|done].
  injection Hv as ->. unfold JSON_NAME_TO_REGIONS_API in Hk.
  apply (py_dict_lookup _ k v (fun v => v ∈ REGIONS)) in Hk; [done|].
  apply (bool_decide_unpack _). by vm_compute.
Qed.

Context {O : Type}.
Implicit Types (Q : json -> Prop) (cs : list (RegionPricing O)).

Lemma reserved_contribution_names Q resolve (offerings : json -> result (list O)) r cs :
  reserved_contribution resolve offerings r = Ok cs ->
  (forall raw name, resolve raw = Ok name -> Q name) ->
  Forall (fun c => Q (region c)) cs.
Proof.
  intros Hcs HQ. unfold reserved_contribution in Hcs.
  apply bind_Ok_inv in Hcs as (g & _ & Hcs).
  destruct g; [|injection Hcs as <-; constructor].
  apply bind_Ok_inv in Hcs as (raw & _ & Hcs).
  apply bind_Ok_inv in Hcs as (name & Hname & Hcs).
  apply bind_Ok_inv in Hcs as (k & _ & Hcs).
  apply bind_Ok_inv in Hcs as (os & _ & Hcs). injection Hcs as <-.
  repeat constructor. simpl. by apply (HQ raw).
Qed.

Lemma ondemand_contribution_names Q resolve key (offerings : json -> result (list O))
    r cs :
  ondemand_contribution resolve key offerings r = Ok cs ->
  (forall raw name, resolve raw = Ok name -> Q name) ->
  Forall (fun c => Q (region c)) cs.
Proof.
  intros Hcs HQ. unfold ondemand_contribution in Hcs.
  apply bind_Ok_inv in Hcs as (g & _ & Hcs).
  destruct g; [|injection Hcs as <-; constructor].
  apply bind_Ok_inv in Hcs as (raw & _ & Hcs).
  apply bind_Ok_inv in Hcs as (name & Hname & Hcs).
  apply bind_Ok_inv in Hcs as (b & _ & Hcs).
  destruct b; [|injection Hcs as <-; constructor].
  apply bind_Ok_inv in Hcs as (os & _ & Hcs). injection Hcs as <-.
  repeat constructor. simpl. by apply (HQ raw).
Qed.

Lemma feed_contributions_names Q (entry : json -> result (list (RegionPricing O)))
    data cs :
  feed_contributions entry data = Ok cs ->
  (forall r cs', entry r = Ok cs' -> Forall (fun c => Q (region c)) cs') ->
  Forall (fun c => Q (region c)) cs.
Proof.
  intros Hcs HQ. unfold feed_contributions in Hcs.
  apply bind_Ok_inv in Hcs as (rs & _ & Hcs).
  apply bind_Ok_inv in Hcs as (css & Hcss & Hcs). injection Hcs as <-.
  apply Forall_concat'. apply (mapM_Forall _ _ _ _ Hcss). intros r cs' _. apply HQ.
Qed.

Lemma all_contributions_names Q (contribs : string -> result (list (RegionPricing O)))
    urls cs :
  all_contributions contribs urls = Ok cs ->
  (forall u cs', contribs u = Ok cs' -> Forall (fun c => Q (region c)) cs') ->
  Forall (fun c => Q (region c)) cs.
Proof.
  intros Hcs HQ. unfold all_contributions in Hcs.
  apply bind_Ok_inv in Hcs as (css & Hcss & Hcs). injection Hcs as <-.
  apply Forall_concat'. apply (mapM_Forall _ _ _ _ Hcss). intros u cs' _. apply HQ.
Qed.

(** The names a reserved document lists are names of its contributions. *)
Lemma first_names_Forall Q cs (regions : list (RegionPricing O)) :
  map region regions = first_names ∅ cs ->
  Forall (fun c => Q (region c)) cs ->
  Forall (fun e => Q (region e)) regions.
Proof.
  intros Hnames Hcs. rewrite list.Forall_forall in Hcs |- *. intros e He.
  assert (Hin : region e ∈ first_names ∅ cs).
  { rewrite <- Hnames. apply list_elem_of_fmap. by exists e. }
  destruct (first_names_subseteq _ _ _ Hin) as (c & Hc & <-). by apply Hcs.
Qed.

End CanonicalNames.

(** The cache service and the on-demand call of the database service name
    every region by a canonical id. In every document they return, each
    region name is one of the ten ids of [REGIONS], whatever alias the
    feeds use. *)
Theorem cache_and_database_regions_are_canonical (urlopen : string -> result string) :
  (forall doc,
     ELCPrices.get_reserved_instances_prices urlopen = Ok doc ->
     Forall (fun e => Behaviour.canonical (region e)) (regions doc)) /\
  (forall doc,
     ELCPrices.get_ondemand_instances_prices urlopen = Ok doc ->
     Forall (fun e => Behaviour.canonical (region e)) (regions doc)) /\
  (forall doc,
     RDSPrices.get_ondemand_instances_prices urlopen = Ok doc ->
     Forall (fun e => Behaviour.canonical (region e)) (regions doc)).
Proof.
  repeat match goal with |- _ /\ _ => split end; intros doc Hdoc.
  - destruct (reserved_call_names _ _ _ _ doc (elc_reserved_feed urlopen)
                (elc_reserved_keyed urlopen) eq_refl Hdoc)
      as (cs & Hcs & _ & Hnames).
    apply (first_names_Forall _ cs _ Hnames).
    apply (all_contributions_names _ _ _ _ Hcs). intros u cs' Hu.
    unfold Contributions.elc_reserved in Hu.
    apply bind_Ok_inv in Hu as (ut & _ & Hu). apply bind_Ok_inv in Hu as (data & _ & Hu).
    apply (feed_contributions_names _ _ _ _ Hu). intros r cs'' Hr.
    apply (reserved_contribution_names _ _ _ _ _ Hr). apply resolve_region_canonical.
  - destruct (ondemand_call_appends _ _ _ _ (elc_ondemand_feed urlopen) eq_refl
                doc Hdoc) as (cs & Hcs & ->).
    apply (all_contributions_names _ _ _ _ Hcs). intros u cs' Hu.
    unfold Contributions.elc_ondemand in Hu.
    apply bind_Ok_inv in Hu as (data & _ & Hu).
    apply (feed_contributions_names _ _ _ _ Hu). intros r cs'' Hr.
    apply (ondemand_contribution_names _ _ _ _ _ _ Hr). apply resolve_region_canonical.
  - destruct (ondemand_call_appends _ _ _ _ (rds_ondemand_feed urlopen) eq_refl
                doc Hdoc) as (cs & Hcs & ->).
    apply (all_contributions_names _ _ _ _ Hcs). intros u cs' Hu.
    unfold Contributions.rds_ondemand in Hu.
    apply bind_Ok_inv in Hu as ([licensedb multiaz] & _ & Hu).
    apply bind_Ok_inv in Hu as (data & _ & Hu).
    apply (feed_contributions_names _ _ _ _ Hu). intros r cs'' Hr.
    apply (ondemand_contribution_names _ _ _ _ _ _ Hr). apply resolve_region_canonical.
Qed.

(** The on-demand cache feed of the end-to-end scenario names us-east; the
    document names us-east-1. *)
Lemma cache_and_database_regions_are_canonical_witness :
  exists doc,
    ELCPrices.get_ondemand_instances_prices Scenarios.elc_od_one = Ok doc /\
    map region (regions doc) = [JStr "us-east-1"] /\
    Forall (fun e => Behaviour.canonical (region e)) (regions doc).
Proof.
  assert (Hrun : exists doc,
             ELCPrices.get_ondemand_instances_prices Scenarios.elc_od_one = Ok doc /\
             map region (regions doc) = [JStr "us-east-1"]).
  { vm_compute. eexists. split; reflexivity. }
  destruct Hrun as (doc & Hdoc & Hnames). exists doc.
  split; [exact Hdoc|]. split; [exact Hnames|].
  exact (proj1 (proj2 (cache_and_database_regions_are_canonical Scenarios.elc_od_one))
           doc Hdoc).
Defined.

(** * C10: a price of zero is rendered like a missing price *)

Section ZeroFacts.
Import AWSPrices ZeroPrices.




Lemma flat_map_map {A B C : Type} (g : B -> list C) (h : A -> B) (l : list A) :
  flat_map g (map h l) = flat_map (fun x => g (h x)) l.
Proof. induction l as [|x l IH]; [done|]. simpl. by rewrite IH. Qed.

Lemma flat_map_pointwise_in {A B : Type} (g h : A -> list B) (l : list A) :
  (forall x, x ∈ l -> g x = h x) -> flat_map g l = flat_map h l.
Proof.
  induction l as [|x l IH]; intros H; [done|]. simpl.
  rewrite (H x) by left. rewrite IH; [done|]. intros y Hy. apply H. by right.
Qed.


Lemma dict_items_zero (prices : old_prices) :
  dict_items (old_zero prices) = map (prod_map id cell_zero) (dict_items prices).
Proof. apply map_to_list_fmap. Qed.

Lemma dict_items_new_zero (prices : new_prices) :
  dict_items (new_zero prices) = map (prod_map id old_zero) (dict_items prices).
Proof. apply map_to_list_fmap. Qed.

(** The rows of one price table. *)
Lemma cells_zero (row : string -> cell -> list json) (prices : old_prices) :
  (forall term c, row term (cell_zero c) = row term c) ->
  map (fun '(term, c) => row term c) (dict_items (old_zero prices)) =
  map (fun '(term, c) => row term c) (dict_items prices).
Proof.
  intros Hrow. rewrite dict_items_zero, List.map_map.
  apply map_pointwise. intros [term c]. apply Hrow.
Qed.

Lemma option_cells_zero (row : string -> string -> cell -> list json)
    (prices : new_prices) :
  (forall term po c, row term po (cell_zero c) = row term po c) ->
  flat_map (fun '(term, by_option) =>
              map (fun '(po, c) => row term po c) (dict_items by_option))
           (dict_items (new_zero prices)) =
  flat_map (fun '(term, by_option) =>
              map (fun '(po, c) => row term po c) (dict_items by_option))
           (dict_items prices).
Proof.
  intros Hrow. rewrite dict_items_new_zero, flat_map_map.
  apply flat_map_pointwise. intros [term by_option]. simpl.
  apply (cells_zero (row term)). apply Hrow.
Qed.

Section Rows.
Context {O : Type} (f : O -> O).




End Rows.

(** The reserved loop of the database service. *)





End ZeroFacts.



